(** * BitDT: a shallow embedding of [bitdt.py] and its verified properties

    Python values are modelled as follows.
    - [int] is [Z] (unbounded); [//] and [%] by a divisor other than zero
      are [Z.div] and [Z.modulo], which round and take their sign as Python
      does; [<<], [>>], [|] and [&] are [Z.shiftl], [Z.shiftr], [Z.lor] and
      [Z.land], which agree with Python on negative numbers as well.
    - [str] is [list ascii]: strings over the code points below 256.
      Indices and lengths that the code only ever counts upwards from zero
      are [nat]; indices computed from values are [Z].
    - An exception is a value of [exn]; a function that can raise returns a
      [result].  A function body with early [return]s is written in the
      [flow] monad, whose [Return] leaves the function at once. *)

From Stdlib Require Import ZArith List Ascii String DecimalString Bool Lia Arith.
From Stdlib Require Import Permutation Sorted.
Import ListNotations.
Open Scope Z_scope.

(** ** Python strings *)

Definition str := list ascii.

Definition lit (s : string) : str := list_ascii_of_string s.

Definition len (s : str) : Z := Z.of_nat (List.length s).

Inductive exn : Type :=
  ValueError | IndexError | ZeroDivisionError | OtherError.

Inductive result (A : Type) : Type :=
| Ok (a : A)
| Raise (e : exn).
Arguments Ok {A} a.
Arguments Raise {A} e.

Definition rbind {A B} (m : result A) (f : A -> result B) : result B :=
  match m with
  | Ok a => f a
  | Raise e => Raise e
  end.

Declare Scope result_scope.
Delimit Scope result_scope with result.
Notation "x <- m ;; k" := (rbind m (fun x => k))
  (at level 61, m at next level, right associativity) : result_scope.
Notation "' p <- m ;; k" := (rbind m (fun x => let p := x in k))
  (at level 61, p pattern, m at next level, right associativity) : result_scope.

(** [s[i]] for an index that is never negative. *)
Definition str_at (s : str) (i : nat) : result ascii :=
  match nth_error s i with
  | Some c => Ok c
  | None => Raise IndexError
  end.

(** [s[i]] for any integer index: a negative index counts from the end. *)
Definition str_index (s : str) (i : Z) : result ascii :=
  if i <? 0
  then if - i <=? len s then str_at s (Z.to_nat (len s + i)) else Raise IndexError
  else str_at s (Z.to_nat i).

(** [s.find(c)] for a needle [c] of one character: the first index or -1. *)
Fixpoint str_find_from (s : str) (c : ascii) (i : Z) : Z :=
  match s with
  | [] => -1
  | d :: s' => if Ascii.eqb d c then i else str_find_from s' c (i + 1)
  end.

Definition str_find (s : str) (c : ascii) : Z := str_find_from s c 0.

(** [c in s] for a needle [c] of one character. *)
Definition str_contains (s : str) (c : ascii) : bool :=
  existsb (Ascii.eqb c) s.

(** [s[a:b]] and [s[a:]] for [0 <= a <= b]. *)
Definition str_slice (s : str) (a b : nat) : str := firstn (b - a) (skipn a s).
Definition str_from (s : str) (a : nat) : str := skipn a s.

(** Truth value of a string: the empty string is false. *)
Definition truthy (s : str) : bool :=
  match s with [] => false | _ => true end.

Definition str_eqb (a b : str) : bool :=
  if list_eq_dec ascii_dec a b then true else false.

(** ** Early return

    [flow R A] is the outcome of a block of statements in a function whose
    result type is [R]: the block falls through with a value ([Next]), leaves
    the function with [return r] ([Return]), or raises ([Throw]). *)

Inductive flow (R A : Type) : Type :=
| Next (a : A)
| Return (r : R)
| Throw (e : exn).
Arguments Next {R A} a.
Arguments Return {R A} r.
Arguments Throw {R A} e.

Definition fbind {R A B} (m : flow R A) (f : A -> flow R B) : flow R B :=
  match m with
  | Next a => f a
  | Return r => Return r
  | Throw e => Throw e
  end.

(** A fallible expression used inside such a block. *)
Definition lift {R A} (m : result A) : flow R A :=
  match m with
  | Ok a => Next a
  | Raise e => Throw e
  end.

(** The function's result: falling off the end returns the last value. *)
Definition run {R} (m : flow R R) : result R :=
  match m with
  | Next r => Ok r
  | Return r => Ok r
  | Throw e => Raise e
  end.

Declare Scope flow_scope.
Delimit Scope flow_scope with flow.
Notation "x <- m ;; k" := (fbind m (fun x => k))
  (at level 61, m at next level, right associativity) : flow_scope.
Notation "' p <- m ;; k" := (fbind m (fun x => let p := x in k))
  (at level 61, p pattern, m at next level, right associativity) : flow_scope.

(** ** Built-in functions *)

(** [ord(c)] *)
Definition ord (c : ascii) : Z := Z.of_nat (nat_of_ascii c).

(** The characters [int] skips at both ends of its argument: the ASCII
    white space, and the two further white-space characters below 256,
    U+0085 and U+00A0. *)
Definition is_space (c : ascii) : bool :=
  let n := ord c in
  ((9 <=? n) && (n <=? 13)) || (n =? 32) || (n =? 133) || (n =? 160).

(** Value of a digit in [int]: [0-9], then letters of either case from 10;
    37 for every other character. *)
Definition digit_value (c : ascii) : Z :=
  let n := ord c in
  if (48 <=? n) && (n <=? 57) then n - 48
  else if (97 <=? n) && (n <=? 122) then n - 87
  else if (65 <=? n) && (n <=? 90) then n - 55
  else 37.

Fixpoint lstrip (s : str) : str :=
  match s with
  | c :: rest => if is_space c then lstrip rest else s
  | [] => []
  end.

(** The prefix [0x], [0o] or [0b] is skipped when it names the base asked
    for, and one underscore may follow it. *)
Definition strip_base_prefix (base : Z) (s : str) : str :=
  match s with
  | z :: p :: rest =>
      if Ascii.eqb z "0"
         && (((base =? 16) && (Ascii.eqb p "x" || Ascii.eqb p "X"))
             || ((base =? 8) && (Ascii.eqb p "o" || Ascii.eqb p "O"))
             || ((base =? 2) && (Ascii.eqb p "b" || Ascii.eqb p "B")))
      then match rest with
           | u :: rest' => if Ascii.eqb u "_" then rest' else rest
           | [] => rest
           end
      else s
  | _ => s
  end.

(** Digits and single underscores between them; the result is the value,
    the number of digits and what follows them, or [None] on a doubled or
    trailing underscore. *)
Fixpoint scan_digits (base : Z) (s : str) (prev_underscore : bool)
         (digits acc : Z) : option (Z * Z * str) :=
  match s with
  | c :: rest =>
      if Ascii.eqb c "_"
      then if prev_underscore then None
           else scan_digits base rest true digits acc
      else if digit_value c <? base
      then scan_digits base rest false (digits + 1) (acc * base + digit_value c)
      else if prev_underscore then None else Some (acc, digits, s)
  | [] => if prev_underscore then None else Some (acc, digits, [])
  end.

(** The longest numeral, counted in digits, that [int] converts in a base
    that is not a power of two: the limit the interpreter starts with
    ([sys.get_int_max_str_digits()]), which this program never changes. *)
Definition max_str_digits : Z := 4300.

(** [(base & (base - 1)) == 0]: the bases 2, 4, 8, 16 and 32, which have
    no limit. *)
Definition is_power_of_two (base : Z) : bool := Z.land base (base - 1) =? 0.

(** [int(s, base)] for [2 <= base <= 36], the only bases this program
    passes.  A numeral of more than [max_str_digits] digits, leading zeros
    counted and underscores not, is a [ValueError] unless the base is a
    power of two. *)
Definition py_int (s : str) (base : Z) : result Z :=
  if (base <? 2) || (base >? 36) then Raise ValueError
  else
    let s1 := lstrip s in
    let '(negative, s2) :=
      match s1 with
      | c :: rest =>
          if Ascii.eqb c "+" then (false, rest)
          else if Ascii.eqb c "-" then (true, rest)
          else (false, s1)
      | [] => (false, s1)
      end in
    let s3 := strip_base_prefix base s2 in
    match s3 with
    | c :: _ =>
        if Ascii.eqb c "_" then Raise ValueError
        else
          match scan_digits base s3 false 0 0 with
          | None => Raise ValueError
          | Some (value, digits, rest) =>
              if digits =? 0 then Raise ValueError
              else if negb (is_power_of_two base) && (digits >? max_str_digits)
              then Raise ValueError
              else if forallb is_space rest
              then Ok (if negative then - value else value)
              else Raise ValueError
          end
    | [] => Raise ValueError
    end.

(** [c.upper()] on the code points below 256.  The capital of U+00DF is the
    two letters [SS].  The capitals of U+00B5 and U+00FF lie above 255; these
    two letters are kept as they are: like their capitals they are above
    ['Z'] and outside every alphabet of this program. *)
Definition upper_char (c : ascii) : str :=
  let n := ord c in
  if (97 <=? n) && (n <=? 122) then [ascii_of_nat (Z.to_nat (n - 32))]
  else if n =? 223 then ["S"; "S"]%char
  else if (224 <=? n) && (n <=? 254) && negb (n =? 247)
  then [ascii_of_nat (Z.to_nat (n - 32))]
  else [c].

Definition upper (s : str) : str := flat_map upper_char s.

(** Decimal numeral of an integer, and the format [{:02d}]: padded with
    zeros to two characters. *)
Definition str_of_int (n : Z) : str :=
  lit (DecimalString.NilZero.string_of_int (Z.to_int n)).

Definition format_02d (n : Z) : str :=
  let s := str_of_int n in
  if len s <? 2 then "0"%char :: s else s.

(** ** Lists

    [sorted(l, key=...)] and [list.sort(key=...)] sort in ascending order of
    the key and keep elements of equal key in their order.  There is one
    such arrangement of a list, so the insertion sort below is the same
    function. *)

Fixpoint insert_by {A} (key : A -> Z) (x : A) (l : list A) : list A :=
  match l with
  | [] => [x]
  | y :: l' => if key x <=? key y then x :: l else y :: insert_by key x l'
  end.

Definition sorted_by {A} (key : A -> Z) (l : list A) : list A :=
  fold_right (insert_by key) [] l.

(** [l[i]] for a list and any integer index. *)
Definition list_at {A} (l : list A) (i : Z) : result A :=
  let n := Z.of_nat (List.length l) in
  let j := if i <? 0 then n + i else i in
  if (j <? 0) || (j >=? n) then Raise IndexError
  else match nth_error l (Z.to_nat j) with
       | Some x => Ok x
       | None => Raise IndexError
       end.

Fixpoint replace_nth {A} (l : list A) (i : nat) (v : A) : list A :=
  match l, i with
  | [], _ => []
  | _ :: l', O => v :: l'
  | x :: l', S i' => x :: replace_nth l' i' v
  end.

(** [l[i] = v], giving the list after the assignment. *)
Definition list_assign {A} (l : list A) (i : Z) (v : A) : result (list A) :=
  let n := Z.of_nat (List.length l) in
  let j := if i <? 0 then n + i else i in
  if (j <? 0) || (j >=? n) then Raise IndexError
  else Ok (replace_nth l (Z.to_nat j) v).

(** [l[a:b]] for [0 <= a <= b]. *)
Definition list_slice {A} (l : list A) (a b : Z) : list A :=
  firstn (Z.to_nat b - Z.to_nat a) (skipn (Z.to_nat a) l).

(** [[f(x) for x in l]] when [f] can raise: the first exception ends it. *)
Fixpoint map_result {A B} (f : A -> result B) (l : list A) : result (list B) :=
  match l with
  | [] => Ok []
  | x :: l' =>
      (y <- f x ;;
       ys <- map_result f l' ;;
       Ok (y :: ys))%result
  end.

(** [range(n)] *)
Definition range (n : Z) : list Z := map Z.of_nat (seq 0 (Z.to_nat n)).

(** ** ThousandCounter *)

Module ThousandCounter.

Definition FIRST_CHAR : str := lit "BCDFGHJKLNPQRSTVWXYZbcdfghjklnpqrstvwxyz".
Definition SECOND_CHAR : str := lit "ABCDEFGHIJKLMNOPQRTUVWXYZ".

Definition encode_milliseconds (millis : Z) : result str :=
  if (millis <? 0) || (millis >? 999) then Raise ValueError
  else
    let first_index := millis / 25 in
    let second_index := millis mod 25 in
    if (first_index <? 0) || (first_index >=? len FIRST_CHAR)
       || (second_index <? 0) || (second_index >=? len SECOND_CHAR)
    then Raise ValueError
    else (c1 <- str_index FIRST_CHAR first_index ;;
          c2 <- str_index SECOND_CHAR second_index ;;
          Ok [c1; c2])%result.

Definition decode_milliseconds (code : str) : result Z :=
  if negb (truthy code) || negb (len code =? 2) then Ok (-1)
  else (c0 <- str_at code 0 ;;
        c1 <- str_at code 1 ;;
        let first_index := str_find FIRST_CHAR c0 in
        let second_index := str_find SECOND_CHAR c1 in
        if (first_index =? -1) || (second_index =? -1) then Ok (-1)
        else Ok (first_index * 25 + second_index))%result.

End ThousandCounter.

(** ** BitDT *)

Module BitDT.

Definition MONTHS : str := lit "ABCDEFGHIJKL".
Definition DAYS : str := lit "ABCDEFGHIJKLMNOPQRSTUVWXYZ12345".
Definition HOURS : str := lit "BCDEFGHJKLMNOPQRSTUVWXYZ".
Definition MINUTES : str :=
  lit "ABCDEFGHIJKLMNOPQRSTUVWXYZabcdefghijklmnopqrstuvwxyz12345678".
Definition YEAR_CHARS : str :=
  lit "ABCDEFGHIJKLMNOPQRSTUVWXYZabcdefghijklmnopqrstuvwxyz123456789".

Definition UTC_PLUS : ascii := "+".
Definition UTC_MINUS : ascii := "-".
Definition TIMEZONE_DIGITS : str := lit "0123456789".

Definition YEAR_MASK : Z := 0xFFFFF00000000000.
Definition MONTH_MASK : Z := 0x00000F0000000000.
Definition DAY_MASK : Z := 0x000000F800000000.
Definition HOUR_MASK : Z := 0x00000007C0000000.
Definition MINUTE_MASK : Z := 0x000000003F000000.
Definition SECOND_MASK : Z := 0x0000000000FC0000.
Definition MILLIS_MASK : Z := 0x000000000003FF00.

Definition TYPE_EMPTY : Z := 0.
Definition TYPE_FULL : Z := 1.
Definition TYPE_DATE_ONLY : Z := 2.
Definition TYPE_TIME_ONLY : Z := 3.
Definition TYPE_DATE_HOUR : Z := 4.

Definition EMPTY_VALUE : Z := TYPE_EMPTY.

(** The three attributes of an instance. *)
Record t : Type := mk {
  _packed_value : Z;
  _timezone_offset : Z;
  _date_type : Z
}.

Definition _determine_date_type (year month day hour minute second millis : Z) : Z :=
  if (year =? 0) && (month =? 0) && (day =? 0) && (hour =? 0)
     && (minute =? 0) && (second =? 0) && (millis =? 0)
  then TYPE_EMPTY
  else if (hour =? 0) && (minute =? 0) && (second =? 0) && (millis =? 0)
  then TYPE_DATE_ONLY
  else if (year =? 0) && (month =? 0) && (day =? 0)
  then TYPE_TIME_ONLY
  else if (minute =? 0) && (second =? 0) && (millis =? 0) && negb (hour =? 0)
  then TYPE_DATE_HOUR
  else TYPE_FULL.

(** [int(total_minutes / 15)] divides in floating point and truncates.  The
    hours and minutes are read from two characters each, so the dividend is
    below 6040 in absolute value, where the truncated floating-point quotient
    is the integer quotient rounded towards zero, [Z.quot].  In the [try]
    block only [int] can raise, and it raises the [ValueError] that the
    [except] clause catches; [timezone[3]] is read when the length is 6. *)
Definition _parse_timezone_offset (timezone : option str) : Z :=
  match timezone with
  | None => 0
  | Some timezone =>
      if negb (truthy timezone) then 0
      else if str_eqb timezone (lit "+") || str_eqb timezone (lit "-") then 0
      else
        let body : result Z :=
          ('(hours, minutes) <-
             (if len timezone =? 3
              then (hours <- py_int (str_slice timezone 1 3) 10 ;; Ok (hours, 0))
              else if len timezone =? 5
              then (hours <- py_int (str_slice timezone 1 3) 10 ;;
                    minutes <- py_int (str_slice timezone 3 5) 10 ;;
                    Ok (hours, minutes))
              else if (len timezone =? 6)
                      && match nth_error timezone 3 with
                         | Some c => Ascii.eqb c ":"
                         | None => false
                         end
              then (hours <- py_int (str_slice timezone 1 3) 10 ;;
                    minutes <- py_int (str_slice timezone 4 6) 10 ;;
                    Ok (hours, minutes))
              else Ok (0, 0)) ;;
           let total_minutes := hours * 60 + minutes in
           let total_minutes :=
             match timezone with
             | c :: _ => if Ascii.eqb c "-" then - total_minutes else total_minutes
             | [] => total_minutes
             end in
           Ok (Z.quot total_minutes 15))%result in
        match body with
        | Ok v => v
        | Raise _ => 0
        end
  end.

Definition from_primitives (year month day hour minute second millis : Z)
           (timezone : option str) : t :=
  let date_type := _determine_date_type year month day hour minute second millis in
  let packed :=
    Z.lor (Z.lor (Z.lor (Z.lor (Z.lor (Z.lor (Z.lor
      (Z.shiftl year 44)
      (Z.shiftl month 40))
      (Z.shiftl day 35))
      (Z.shiftl hour 30))
      (Z.shiftl minute 24))
      (Z.shiftl second 18))
      (Z.shiftl millis 8))
      date_type in
  let tz_offset := _parse_timezone_offset timezone in
  mk packed tz_offset date_type.

Definition from_packed_value (packed_value timezone_offset date_type : Z) : t :=
  mk packed_value timezone_offset date_type.

Definition create_empty : t := mk EMPTY_VALUE 0 TYPE_EMPTY.

Definition get_year (self : t) : Z :=
  if (_date_type self =? TYPE_EMPTY) || (_date_type self =? TYPE_TIME_ONLY) then -1
  else Z.shiftr (Z.land (_packed_value self) YEAR_MASK) 44.

Definition get_month (self : t) : Z :=
  if (_date_type self =? TYPE_EMPTY) || (_date_type self =? TYPE_TIME_ONLY) then -1
  else Z.shiftr (Z.land (_packed_value self) MONTH_MASK) 40.

Definition get_day (self : t) : Z :=
  if (_date_type self =? TYPE_EMPTY) || (_date_type self =? TYPE_TIME_ONLY) then -1
  else Z.shiftr (Z.land (_packed_value self) DAY_MASK) 35.

Definition get_hour (self : t) : Z :=
  if (_date_type self =? TYPE_EMPTY) || (_date_type self =? TYPE_DATE_ONLY) then -1
  else Z.shiftr (Z.land (_packed_value self) HOUR_MASK) 30.

Definition get_minute (self : t) : Z :=
  if (_date_type self =? TYPE_EMPTY) || (_date_type self =? TYPE_DATE_ONLY) then -1
  else if _date_type self =? TYPE_DATE_HOUR then 0
  else Z.shiftr (Z.land (_packed_value self) MINUTE_MASK) 24.

Definition get_second (self : t) : Z :=
  if (_date_type self =? TYPE_EMPTY) || (_date_type self =? TYPE_DATE_ONLY) then -1
  else if _date_type self =? TYPE_DATE_HOUR then 0
  else Z.shiftr (Z.land (_packed_value self) SECOND_MASK) 18.

Definition get_millis (self : t) : Z :=
  if (_date_type self =? TYPE_EMPTY) || (_date_type self =? TYPE_DATE_ONLY) then -1
  else if _date_type self =? TYPE_DATE_HOUR then 0
  else Z.shiftr (Z.land (_packed_value self) MILLIS_MASK) 8.

Definition _format_timezone_offset (offset : Z) : option str :=
  if offset =? 0 then None
  else
    let total_minutes := offset * 15 in
    let hours := Z.abs total_minutes / 60 in
    let minutes := Z.abs total_minutes mod 60 in
    let sign := if total_minutes >=? 0 then "+"%char else "-"%char in
    if minutes =? 0 then Some (sign :: format_02d hours)
    else Some (sign :: format_02d hours ++ format_02d minutes).

Definition get_timezone (self : t) : option str :=
  _format_timezone_offset (_timezone_offset self).

Definition get_packed_value (self : t) : Z := _packed_value self.
Definition get_timezone_offset (self : t) : Z := _timezone_offset self.
Definition get_date_type (self : t) : Z := _date_type self.
Definition is_empty (self : t) : bool := _date_type self =? TYPE_EMPTY.

Definition encode_year (year : Z) : result str :=
  if (year <? 0) || (year >=? 226981) then Raise ValueError
  else (c1 <- str_index YEAR_CHARS (year / (61 * 61)) ;;
        c2 <- str_index YEAR_CHARS ((year / 61) mod 61) ;;
        c3 <- str_index YEAR_CHARS (year mod 61) ;;
        Ok [c1; c2; c3])%result.

Definition decode_year (year_code : str) : result Z :=
  if negb (truthy year_code) || negb (len year_code =? 3) then Ok (-1)
  else (c0 <- str_at year_code 0 ;;
        c1 <- str_at year_code 1 ;;
        c2 <- str_at year_code 2 ;;
        let idx1 := str_find YEAR_CHARS c0 in
        let idx2 := str_find YEAR_CHARS c1 in
        let idx3 := str_find YEAR_CHARS c2 in
        if (idx1 =? -1) || (idx2 =? -1) || (idx3 =? -1) then Ok (-1)
        else Ok (idx1 * 61 * 61 + idx2 * 61 + idx3))%result.

Definition to_absolute_year (relative_year : Z) : Z := relative_year - 50000.
Definition from_absolute_year (absolute_year : Z) : Z := absolute_year + 50000.

Definition _encode_zero_run (zero_count : Z) : str :=
  if zero_count =? 1 then lit "0"
  else if zero_count =? 2 then lit "."
  else if zero_count =? 3 then lit ":"
  else if zero_count =? 4 then lit ";"
  else if zero_count =? 5 then lit "?"
  else if zero_count =? 6 then lit "!"
  else if zero_count =? 7 then lit "&"
  else lit "&" ++ repeat "0"%char (Z.to_nat (zero_count - 7)).

(** The loop of [_compress_zeros]: [compressed] is the text of the pieces
    appended so far. *)
Fixpoint _compress_zeros_loop (fields compressed : str) (zero_count : Z) : str * Z :=
  match fields with
  | [] => (compressed, zero_count)
  | c :: rest =>
      if Ascii.eqb c "0"
      then _compress_zeros_loop rest compressed (zero_count + 1)
      else
        let '(compressed, zero_count) :=
          if zero_count >? 0
          then (compressed ++ _encode_zero_run zero_count, 0)
          else (compressed, zero_count) in
        _compress_zeros_loop rest (compressed ++ [c]) zero_count
  end.

Definition _compress_zeros (fields : str) : str :=
  let '(compressed, zero_count) := _compress_zeros_loop fields [] 0 in
  if zero_count >? 0 then compressed ++ _encode_zero_run zero_count
  else compressed.

Definition _expand_char (c : ascii) : str :=
  if Ascii.eqb c "0" then lit "0"
  else if Ascii.eqb c "." then lit "00"
  else if Ascii.eqb c ":" then lit "000"
  else if Ascii.eqb c ";" then lit "0000"
  else if Ascii.eqb c "?" then lit "00000"
  else if Ascii.eqb c "!" then lit "000000"
  else if Ascii.eqb c "&" then lit "0000000"
  else [c].

Definition _expand_zeros (compressed : str) : str :=
  flat_map _expand_char compressed.

(** [c in [cls.UTC_PLUS, cls.UTC_MINUS]] *)
Definition is_sign (c : ascii) : bool :=
  Ascii.eqb c UTC_PLUS || Ascii.eqb c UTC_MINUS.

Definition _is_valid_timezone (timezone : str) : result bool :=
  if negb (truthy timezone) || (len timezone <? 2) then Ok false
  else (sign <- str_at timezone 0 ;;
        if negb (is_sign sign) then Ok false
        else
          let digits := str_from timezone 1 in
          if negb (truthy digits) then Ok true
          else if negb (forallb (str_contains TIMEZONE_DIGITS) digits) then Ok false
          else Ok ((len digits =? 2) || (len digits =? 4)))%result.

(** The loop of [_parse_timezone] with [i] still to take the values
    [n - 1], ..., [0]. *)
Fixpoint _parse_timezone_loop (bit_dt : str) (n : nat) : result (option str) :=
  match n with
  | O => Ok None
  | S i =>
      (c <- str_at bit_dt i ;;
       if is_sign c
       then
         let timezone_part := str_from bit_dt i in
         valid <- _is_valid_timezone timezone_part ;;
         if valid then Ok (Some timezone_part)
         else _parse_timezone_loop bit_dt i
       else _parse_timezone_loop bit_dt i)%result
  end.

Definition _parse_timezone (bit_dt : str) : result (option str) :=
  if negb (truthy bit_dt) || (len bit_dt <? 2) then Ok None
  else (last_char <- str_index bit_dt (-1) ;;
        if is_sign last_char then Ok (Some [last_char])
        else _parse_timezone_loop bit_dt (List.length bit_dt))%result.

Definition _extract_datetime_part (bit_dt : option str) : result (option str) :=
  match bit_dt with
  | None => Ok None
  | Some bit_dt =>
      (timezone <- _parse_timezone bit_dt ;;
       match timezone with
       | Some timezone =>
           if truthy timezone
           then Ok (Some (firstn (List.length bit_dt - List.length timezone) bit_dt))
           else Ok (Some bit_dt)
       | None => Ok (Some bit_dt)
       end)%result
  end.

(** The body of the [try] block of [encode_date_time]. *)
Definition encode_date_time_try (year month day hour minute second millis : option Z)
           (timezone : option str) : result str :=
  (year_code <-
     match year with
     | Some year => if year >=? 0 then encode_year year else Ok (lit "0")
     | None => Ok (lit "0")
     end ;;
   month_char <-
     match month with
     | Some month =>
         if month >=? 0
         then if (month <? 0) || (month >=? len MONTHS) then Raise ValueError
              else str_index MONTHS month
         else Ok "0"%char
     | None => Ok "0"%char
     end ;;
   day_char <-
     match day with
     | Some day =>
         if day >=? 1
         then if (day <? 1) || (day >? len DAYS) then Raise ValueError
              else str_index DAYS (day - 1)
         else Ok "0"%char
     | None => Ok "0"%char
     end ;;
   hour_char <-
     match hour with
     | Some hour =>
         if hour >=? 0
         then if (hour <? 0) || (hour >=? len HOURS) then Raise ValueError
              else str_index HOURS hour
         else Ok "0"%char
     | None => Ok "0"%char
     end ;;
   minute_char <-
     match minute with
     | Some minute =>
         if minute >=? 0
         then if (minute <? 0) || (minute >=? len MINUTES) then Raise ValueError
              else str_index MINUTES minute
         else Ok "0"%char
     | None => Ok "0"%char
     end ;;
   second_char <-
     match second with
     | Some second =>
         if second >=? 0
         then if (second <? 0) || (second >=? len MINUTES) then Raise ValueError
              else str_index MINUTES second
         else Ok "0"%char
     | None => Ok "0"%char
     end ;;
   millis_code <-
     match millis with
     | Some millis =>
         if millis >=? 0
         then if millis =? 0 then Ok (lit "0")
              else ThousandCounter.encode_milliseconds millis
         else Ok (lit "0")
     | None => Ok (lit "0")
     end ;;
   let uncompressed :=
     year_code ++ [month_char] ++ [day_char] ++ [hour_char]
               ++ [minute_char] ++ [second_char] ++ millis_code in
   let date_time_part := _compress_zeros uncompressed in
   match timezone with
   | Some timezone =>
       if truthy timezone then Ok (date_time_part ++ timezone)
       else Ok date_time_part
   | None => Ok date_time_part
   end)%result.

Definition encode_date_time (year month day hour minute second millis : option Z)
           (timezone : option str) : str :=
  match encode_date_time_try year month day hour minute second millis timezone with
  | Ok text => text
  | Raise _ => lit "&"
  end.

(** [None if v == -1 else v] *)
Definition none_if_absent (v : Z) : option Z :=
  if v =? -1 then None else Some v.

Definition encode (self : t) : str :=
  if is_empty self then lit "&"
  else
    let year := get_year self in
    let month := get_month self in
    let day := get_day self in
    let hour := get_hour self in
    let minute := get_minute self in
    let second := get_second self in
    let millis := get_millis self in
    let timezone := get_timezone self in
    let '(year, month, day, hour, minute, second, millis) :=
      if _date_type self =? TYPE_DATE_ONLY
      then (year, month, day, -1, -1, -1, -1)
      else if _date_type self =? TYPE_TIME_ONLY
      then (-1, -1, -1, hour, minute, second, millis)
      else if _date_type self =? TYPE_DATE_HOUR
      then (year, month, day, hour, -1, -1, -1)
      else (year, month, day, hour, minute, second, millis) in
    encode_date_time
      (none_if_absent year) (none_if_absent month) (none_if_absent day)
      (none_if_absent hour) (none_if_absent minute) (none_if_absent second)
      (none_if_absent millis) timezone.

Definition _is_valid_encoded_char (c : ascii) : bool :=
  str_contains YEAR_CHARS c || str_contains MONTHS c || str_contains DAYS c
  || str_contains HOURS c || str_contains MINUTES c
  || str_contains (lit "0.:;?!&") c.

(** The two length rules of [decode]. *)
Definition too_short_body (date_time_part : str) : result bool :=
  if truthy date_time_part
  then (c <- str_at date_time_part 0 ;;
        Ok (negb (Ascii.eqb c "0") && (len date_time_part <? 3)))%result
  else Ok false.

Definition too_short_expanded (expanded : str) : bool := len expanded <? 7.

(** The seven field blocks of [decode]: each takes the position and gives
    the field and the new position, or returns the empty value. *)
Definition decode_year_block (expanded : str) (pos : nat) : flow t (Z * nat) :=
  (if (pos <? List.length expanded)%nat
   then
     c <- lift (str_at expanded pos) ;;
     if Ascii.eqb c "0" then Next (-1, (pos + 1)%nat)
     else if (pos + 2 <? List.length expanded)%nat
     then
       let year_code := str_slice expanded pos (pos + 3) in
       year <- lift (decode_year year_code) ;;
       if year =? -1 then Return create_empty
       else Next (year, (pos + 3)%nat)
     else Return create_empty
   else Next (-1, pos))%flow.

Definition decode_month_block (expanded : str) (pos : nat) : flow t (Z * nat) :=
  (if (pos <? List.length expanded)%nat
   then
     c <- lift (str_at expanded pos) ;;
     month <- (if Ascii.eqb c "0" then Next (-1)
               else let month := str_find MONTHS c in
                    if month =? -1 then Return create_empty else Next month) ;;
     Next (month, (pos + 1)%nat)
   else Next (-1, pos))%flow.

Definition decode_day_block (expanded : str) (pos : nat) : flow t (Z * nat) :=
  (if (pos <? List.length expanded)%nat
   then
     c <- lift (str_at expanded pos) ;;
     day <- (if Ascii.eqb c "0" then Next (-1)
             else let day_idx := str_find DAYS c in
                  let day := day_idx + 1 in
                  if day =? 0 then Return create_empty else Next day) ;;
     Next (day, (pos + 1)%nat)
   else Next (-1, pos))%flow.

Definition decode_hour_block (expanded : str) (pos : nat) : flow t (Z * nat) :=
  (if (pos <? List.length expanded)%nat
   then
     c <- lift (str_at expanded pos) ;;
     hour <- (if Ascii.eqb c "0" then Next (-1)
              else let hour := str_find HOURS c in
                   if hour =? -1 then Return create_empty else Next hour) ;;
     Next (hour, (pos + 1)%nat)
   else Next (-1, pos))%flow.

(** The minute block and the second block are the same statements. *)
Definition decode_minute_block (expanded : str) (pos : nat) : flow t (Z * nat) :=
  (if (pos <? List.length expanded)%nat
   then
     c <- lift (str_at expanded pos) ;;
     minute <- (if Ascii.eqb c "0" then Next (-1)
                else let minute := str_find MINUTES c in
                     if minute =? -1 then Return create_empty else Next minute) ;;
     Next (minute, (pos + 1)%nat)
   else Next (-1, pos))%flow.

Definition decode_millis_block (expanded : str) (pos : nat) : flow t (Z * nat) :=
  (if (pos <? List.length expanded)%nat
   then
     c <- lift (str_at expanded pos) ;;
     if Ascii.eqb c "0" then Next (0, (pos + 1)%nat)
     else if (pos + 1 <? List.length expanded)%nat
     then
       let millis_code := str_slice expanded pos (pos + 2) in
       millis <- lift (ThousandCounter.decode_milliseconds millis_code) ;;
       if millis =? -1 then Return create_empty
       else Next (millis, (pos + 2)%nat)
     else Return create_empty
   else Next (-1, pos))%flow.

(** [x if x != -1 else 0] *)
Definition zero_if_absent (x : Z) : Z := if negb (x =? -1) then x else 0.

(** [decode] from the expansion of the body on. *)
Definition decode_fields (expanded : str) (timezone_str : option str) : flow t t :=
  ('(year, pos) <- decode_year_block expanded 0%nat ;;
   '(month, pos) <- decode_month_block expanded pos ;;
   '(day, pos) <- decode_day_block expanded pos ;;
   '(hour, pos) <- decode_hour_block expanded pos ;;
   '(minute, pos) <- decode_minute_block expanded pos ;;
   '(second, pos) <- decode_minute_block expanded pos ;;
   '(millis, pos) <- decode_millis_block expanded pos ;;
   if forallb (fun x => x =? -1) [year; month; day; hour; minute; second; millis]
   then Return create_empty
   else
     Return (from_primitives
               (zero_if_absent year) (zero_if_absent month) (zero_if_absent day)
               (zero_if_absent hour) (zero_if_absent minute)
               (zero_if_absent second) (zero_if_absent millis) timezone_str))%flow.

Definition decode (bit_dt : option str) : result t :=
  run
    (match bit_dt with
     | None => Return create_empty
     | Some bit_dt =>
         timezone_str <- lift (_parse_timezone bit_dt) ;;
         date_time_part <- lift (_extract_datetime_part (Some bit_dt)) ;;
         match date_time_part with
         | None => Return create_empty
         | Some date_time_part =>
             if negb (truthy date_time_part) then Return create_empty
             else
               short <- lift (too_short_body date_time_part) ;;
               if short then Return create_empty
               else
                 let expanded := _expand_zeros date_time_part in
                 if too_short_expanded expanded then Return create_empty
                 else if negb (forallb _is_valid_encoded_char expanded)
                 then Return create_empty
                 else decode_fields expanded timezone_str
         end
     end)%flow.

Definition get_numerical_value (self : t) : Z := _packed_value self.

Definition compare_to (self other : t) : Z :=
  if _packed_value self <? _packed_value other then -1
  else if _packed_value self >? _packed_value other then 1
  else 0.

Definition before (self other : t) : bool :=
  _packed_value self <? _packed_value other.

Definition after (self other : t) : bool :=
  _packed_value self >? _packed_value other.

Definition __eq__ (self other : t) : bool :=
  (_packed_value self =? _packed_value other)
  && (_timezone_offset self =? _timezone_offset other).

Definition sort_by_numerical_value (dates : list t) : list t :=
  sorted_by get_numerical_value dates.

Definition from_numerical_array (numerical_values : list Z) : list t :=
  map (fun val => from_packed_value val 0 TYPE_FULL) numerical_values.

Definition to_numerical_array (dates : list t) : list Z :=
  map get_numerical_value dates.

Definition from_numerical_value (numerical_value : Z) : t :=
  from_packed_value numerical_value 0 TYPE_FULL.

End BitDT.

(** ** The calendar collaborator

    The [datetime] and [calendar] modules of the standard library and the
    system clock are outside this program.  A time zone is the number of
    seconds of its offset. *)

Class Calendar : Type := {
  (** [datetime.now(timezone.utc).year] *)
  current_year : Z;
  (** [int(datetime(year, month, day, hour, minute, second, microsecond,
      tzinfo).timestamp() * 1000)] *)
  epoch_of_datetime : Z -> Z -> Z -> Z -> Z -> Z -> Z -> Z -> result Z;
  (** the second component of [calendar.monthrange(year, month)] *)
  monthrange_last_day : Z -> Z -> result Z;
  (** the fields (year, month, day, hour, minute, second, microsecond) of
      [datetime.fromtimestamp(epoch_millis / 1000.0, tz=utc)] moved to the
      zone of the given offset *)
  datetime_of_epoch : Z -> Z -> result (Z * Z * Z * Z * Z * Z * Z)
}.

(** [timezone(timedelta(seconds=total_seconds))]: the offset has to be
    strictly between minus and plus 24 hours. *)
Definition py_timezone (total_seconds : Z) : result Z :=
  if (-86400 <? total_seconds) && (total_seconds <? 86400)
  then Ok total_seconds
  else Raise ValueError.

(** ** BitDTEpoch *)

Module BitDTEpoch.

Definition MODE_AUTO : Z := 0.
Definition MODE_BASE36 : Z := 36.
Definition MODE_FULL_BITDT : Z := -1.

Definition BASE36_CHARS : str := lit "0123456789ABCDEFGHIJKLMNOPQRSTUVWXYZ".

Definition utc : Z := 0.

Definition _parse_zone_offset_to_tz (tz_str : str) : Z :=
  if negb (truthy tz_str) || str_eqb tz_str (lit "UTC") then utc
  else
    let body : result Z :=
      (if str_eqb tz_str (lit "+") || str_eqb tz_str (lit "-") then Ok utc
       else
         sign_char <- str_at tz_str 0 ;;
         if negb (Ascii.eqb sign_char "+" || Ascii.eqb sign_char "-") then Ok utc
         else
           let sign := if Ascii.eqb sign_char "+" then 1 else -1 in
           let content := str_from tz_str 1 in
           if len content =? 2
           then (hours <- py_int content 10 ;;
                 py_timezone (sign * (hours * 3600 + 0 * 60)))
           else if len content =? 4
           then (hours <- py_int (str_slice content 0 2) 10 ;;
                 minutes <- py_int (str_slice content 2 4) 10 ;;
                 py_timezone (sign * (hours * 3600 + minutes * 60)))
           else if len content =? 5
           then (c <- str_at content 2 ;;
                 if Ascii.eqb c ":"
                 then (hours <- py_int (str_slice content 0 2) 10 ;;
                       minutes <- py_int (str_slice content 3 5) 10 ;;
                       py_timezone (sign * (hours * 3600 + minutes * 60)))
                 else Ok utc)
           else Ok utc)%result in
    match body with
    | Ok tz => tz
    | Raise _ => utc
    end.

Section WithCalendar.
Context {calendar : Calendar}.

Definition _to_full_bit_dt (epoch_millis : Z) (timezone : option str) : result str :=
  let offset :=
    match timezone with
    | Some tz =>
        if truthy tz && negb (str_eqb tz (lit "UTC"))
        then _parse_zone_offset_to_tz tz else utc
    | None => utc
    end in
  ('(year, month, day, hour, minute, second, microsecond) <-
     datetime_of_epoch epoch_millis offset ;;
   Ok (BitDT.encode
         (BitDT.from_primitives
            (BitDT.from_absolute_year year) (month - 1) day hour minute second
            (Z.quot microsecond 1000) timezone)))%result.

(** [x if x != -1 else d] *)
Definition default_if_absent (x d : Z) : Z := if negb (x =? -1) then x else d.

Definition _from_full_bit_dt (bitdt : str) : Z :=
  let body : result Z :=
    (dt <- BitDT.decode (Some bitdt) ;;
     if BitDT.is_empty dt then Ok (-1)
     else
       let year := BitDT.get_year dt in
       let year :=
         if year =? -1 then BitDT.from_absolute_year current_year else year in
       let abs_year := BitDT.to_absolute_year year in
       let tz_offset :=
         match BitDT.get_timezone dt with
         | Some tz_str =>
             if truthy tz_str then _parse_zone_offset_to_tz tz_str else utc
         | None => utc
         end in
       let month :=
         if negb (BitDT.get_month dt =? -1) then BitDT.get_month dt + 1 else 1 in
       let day := default_if_absent (BitDT.get_day dt) 1 in
       let hour := default_if_absent (BitDT.get_hour dt) 0 in
       let minute := default_if_absent (BitDT.get_minute dt) 0 in
       let second := default_if_absent (BitDT.get_second dt) 0 in
       let millisecond := default_if_absent (BitDT.get_millis dt) 0 in
       match epoch_of_datetime abs_year month day hour minute second
                               (millisecond * 1000) tz_offset with
       | Ok epoch_ms => Ok epoch_ms
       | Raise ValueError =>
           match (last_day <- monthrange_last_day abs_year month ;;
                  let adjusted_day := Z.min day last_day in
                  epoch_of_datetime abs_year month adjusted_day hour minute second
                                    (millisecond * 1000) tz_offset) with
           | Ok epoch_ms => Ok epoch_ms
           | Raise _ =>
               epoch_of_datetime abs_year 1 1 hour minute second
                                 (millisecond * 1000) tz_offset
           end
       | Raise e => Raise e
       end)%result in
  match body with
  | Ok v => v
  | Raise _ => -1
  end.

(** The body of the loop of [_guess_most_likely_base] on the three flags
    [has_base36_only], [has_base32_only] and [has_hex_only]. *)
Definition _guess_most_likely_base_step (flags : bool * bool * bool) (c : ascii)
  : bool * bool * bool :=
  let '(has_base36_only, has_base32_only, has_hex_only) := flags in
  if (ord "G" <=? ord c) && (ord c <=? ord "Z")
  then if (ord "W" <=? ord c) && (ord c <=? ord "Z")
       then (true, has_base32_only, false)
       else (has_base36_only, true, false)
  else if (ord "A" <=? ord c) && (ord c <=? ord "F")
  then (has_base36_only, has_base32_only, has_hex_only)
  else if (ord "0" <=? ord c) && (ord c <=? ord "9")
  then (has_base36_only, has_base32_only, has_hex_only)
  else (has_base36_only, has_base32_only, false).

Definition _guess_most_likely_base (encoded : str) : Z :=
  let encoded := upper encoded in
  let '(has_base36_only, has_base32_only, has_hex_only) :=
    fold_left _guess_most_likely_base_step encoded (false, false, true) in
  if has_hex_only then 16
  else if has_base36_only then 36
  else if has_base32_only then 32
  else 36.

Definition _is_base_encoded (s : str) : bool :=
  if (len s <? 6) || (len s >? 12) then false
  else forallb (str_contains BASE36_CHARS) (upper s).

(** The [for] loop of [_decode_base_auto]: [Some] is its [return]. *)
Fixpoint _decode_base_auto_loop (encoded : str) (likely_base : Z) (bases : list Z)
  : result (option Z) :=
  match bases with
  | [] => Ok None
  | base :: bases' =>
      if base =? likely_base then _decode_base_auto_loop encoded likely_base bases'
      else
        match py_int encoded base with
        | Ok v => Ok (Some v)
        | Raise ValueError => _decode_base_auto_loop encoded likely_base bases'
        | Raise e => Raise e
        end
  end.

Definition _decode_base_auto (encoded : str) : result Z :=
  let likely_base := _guess_most_likely_base encoded in
  match py_int encoded likely_base with
  | Ok v => Ok v
  | Raise ValueError =>
      (found <- _decode_base_auto_loop encoded likely_base [36; 32; 16; 10] ;;
       match found with
       | Some v => Ok v
       | None => Ok (_from_full_bit_dt encoded)
       end)%result
  | Raise e => Raise e
  end.

(** The loop of [_encode_base]; [None] when the fuel runs out before the
    loop ends.  [acc] is the list [result] joined. *)
Fixpoint _encode_base_loop (fuel : nat) (num base : Z) (acc : str)
  : option (result str) :=
  match fuel with
  | O => None
  | S fuel' =>
      if num >? 0
      then if base =? 0 then Some (Raise ZeroDivisionError)
           else match str_index BASE36_CHARS (num mod base) with
                | Ok c => _encode_base_loop fuel' (num / base) base (acc ++ [c])
                | Raise e => Some (Raise e)
                end
      else Some (Ok acc)
  end.

Definition _encode_base (fuel : nat) (num base : Z) : option (result str) :=
  if num =? 0 then Some (Ok (lit "0"))
  else
    let sign := if num <? 0 then lit "-" else lit "" in
    let num := if num <? 0 then - num else num in
    match _encode_base_loop fuel num base [] with
    | Some (Ok acc) => Some (Ok (sign ++ rev acc))
    | other => other
    end.

Definition _to_smart_bit_dt (fuel : nat) (epoch_millis : Z) (timezone : option str)
  : option (result str) :=
  match timezone with
  | None => _encode_base fuel epoch_millis MODE_BASE36
  | Some tz =>
      if str_eqb tz (lit "UTC") || str_eqb tz (lit "+00") || str_eqb tz (lit "Z")
         || str_eqb tz (lit "+0000")
      then _encode_base fuel epoch_millis MODE_BASE36
      else Some (_to_full_bit_dt epoch_millis timezone)
  end.

Definition to_bit_dt (fuel : nat) (epoch_millis : Z) (timezone : option str) (base : Z)
  : option str :=
  let body : option (result str) :=
    if base =? MODE_FULL_BITDT then Some (_to_full_bit_dt epoch_millis timezone)
    else if base =? MODE_AUTO then _to_smart_bit_dt fuel epoch_millis timezone
    else if (2 <=? base) && (base <=? 36) then _encode_base fuel epoch_millis base
    else _to_smart_bit_dt fuel epoch_millis timezone in
  match body with
  | Some (Ok text) => Some text
  | Some (Raise _) => Some (BitDT.encode BitDT.create_empty)
  | None => None
  end.

(** The condition [base is not None and 2 <= base <= 36]. *)
Definition explicit_base (base : option Z) : option Z :=
  match base with
  | Some base => if (2 <=? base) && (base <=? 36) then Some base else None
  | None => None
  end.

Definition from_bit_dt (bitdt : str) (base : option Z) : Z :=
  if negb (truthy bitdt) then -1
  else
    let body : result Z :=
      match explicit_base base with
      | Some base => py_int bitdt base
      | None =>
          let full_result := _from_full_bit_dt bitdt in
          if negb (full_result =? -1) then Ok full_result
          else if _is_base_encoded bitdt then _decode_base_auto bitdt
          else Ok (-1)
      end in
    match body with
    | Ok v => v
    | Raise _ => -1
    end.

End WithCalendar.

End BitDTEpoch.

(** ** Decoding without a base, in the words of the specification

    Full-text decoding is [_from_full_bit_dt]; the rest follows the
    sentence of the specification: the shape of a bare numeral, the guess
    of the base from the classes of characters present, read in the order
    in which the sentence lists them, and the order of the attempts. *)

Module AutoSpec.

Definition between (lo hi c : ascii) : bool :=
  (ord lo <=? ord c) && (ord c <=? ord hi).

(** A symbol of the 36-symbol alphabet, in either case. *)
Definition is_symbol (c : ascii) : bool :=
  between "0" "9" c || between "A" "Z" c || between "a" "z" c.

Definition is_hex (c : ascii) : bool :=
  between "0" "9" c || between "A" "F" c || between "a" "f" c.

Definition is_G_to_V (c : ascii) : bool :=
  between "G" "V" c || between "g" "v" c.

Definition is_W_to_Z (c : ascii) : bool :=
  between "W" "Z" c || between "w" "z" c.

Definition numeral_shape (text : str) : bool :=
  (6 <=? len text) && (len text <=? 12) && forallb is_symbol text.

Definition guess_base (text : str) : Z :=
  if forallb is_hex text then 16
  else if existsb is_G_to_V text then 32
  else if existsb is_W_to_Z text then 36
  else 36.

(** The first base of the list in which the text is a numeral. *)
Fixpoint first_success (text : str) (bases : list Z) : option Z :=
  match bases with
  | [] => None
  | base :: bases' =>
      match py_int text base with
      | Ok v => Some v
      | Raise _ => first_success text bases'
      end
  end.

Definition decode_auto {calendar : Calendar} (text : str) : Z :=
  let full := BitDTEpoch._from_full_bit_dt text in
  if negb (full =? -1) then full
  else if numeral_shape text
  then match first_success text (guess_base text :: [36; 32; 16; 10]) with
       | Some v => v
       | None => BitDTEpoch._from_full_bit_dt text
       end
  else -1.

End AutoSpec.

(** ** BitDTArray *)

Module BitDTArray.

(** The three parallel lists of an instance. *)
Record t : Type := mk {
  packed_values : list Z;
  timezone_offsets : list Z;
  date_types : list Z
}.

(** [BitDTArray(size)]: [[0] * size] is empty for a negative size. *)
Definition new_sized (size : Z) : t :=
  mk (repeat 0 (Z.to_nat size)) (repeat 0 (Z.to_nat size))
     (repeat 0 (Z.to_nat size)).

(** [BitDTArray(packed, timezone_offsets, date_types)] *)
Definition new_columns (packed : list Z) (timezone_offsets date_types : option (list Z))
  : result t :=
  match timezone_offsets, date_types with
  | Some timezone_offsets, Some date_types =>
      if negb (List.length packed =? List.length timezone_offsets)%nat
         || negb (List.length packed =? List.length date_types)%nat
      then Raise ValueError
      else Ok (mk packed timezone_offsets date_types)
  | _, _ => Raise ValueError
  end.

Definition size (self : t) : Z := Z.of_nat (List.length (packed_values self)).


Definition get (self : t) (index : Z) : result BitDT.t :=
  if (index <? 0) || (index >=? Z.of_nat (List.length (packed_values self)))
  then Raise IndexError
  else
    (packed <- list_at (packed_values self) index ;;
     tz <- list_at (timezone_offsets self) index ;;
     type <- list_at (date_types self) index ;;
     Ok (BitDT.from_packed_value packed tz type))%result.

(** The key of [sorted] reads [packed_values[i]] for [i] below the length. *)
Definition sorted (self : t) : result t :=
  let indices := range (Z.of_nat (List.length (packed_values self))) in
  let indices :=
    sorted_by (fun i => nth (Z.to_nat i) (packed_values self) 0) indices in
  (new_packed <- map_result (list_at (packed_values self)) indices ;;
   new_tz <- map_result (list_at (timezone_offsets self)) indices ;;
   new_types <- map_result (list_at (date_types self)) indices ;;
   new_columns new_packed (Some new_tz) (Some new_types))%result.

Definition sorted_copy (self : t) : result t := sorted self.

(** The loop of [from_list] from index [i] on. *)
Fixpoint from_list_loop (arr : t) (i : Z) (dates : list BitDT.t) : result t :=
  match dates with
  | [] => Ok arr
  | dt :: dates' =>
      (packed <- list_assign (packed_values arr) i (BitDT.get_packed_value dt) ;;
       tz <- list_assign (timezone_offsets arr) i (BitDT.get_timezone_offset dt) ;;
       types <- list_assign (date_types arr) i (BitDT.get_date_type dt) ;;
       from_list_loop (mk packed tz types) (i + 1) dates')%result
  end.

Definition from_list (dates : list BitDT.t) : result t :=
  from_list_loop (new_sized (Z.of_nat (List.length dates))) 0 dates.

Definition to_list (self : t) : result (list BitDT.t) :=
  map_result (get self) (range (size self)).

(** The loop of [filter_by_type] over the indices, with the three lists
    filled so far. *)
Fixpoint filter_by_type_loop (self : t) (date_type : Z) (indices : list Z)
         (filtered_packed filtered_tz filtered_types : list Z)
  : result (list Z * list Z * list Z) :=
  match indices with
  | [] => Ok (filtered_packed, filtered_tz, filtered_types)
  | i :: indices' =>
      (type <- list_at (date_types self) i ;;
       if type =? date_type
       then
         packed <- list_at (packed_values self) i ;;
         tz <- list_at (timezone_offsets self) i ;;
         type' <- list_at (date_types self) i ;;
         filter_by_type_loop self date_type indices'
           (filtered_packed ++ [packed]) (filtered_tz ++ [tz])
           (filtered_types ++ [type'])
       else
         filter_by_type_loop self date_type indices'
           filtered_packed filtered_tz filtered_types)%result
  end.

Definition filter_by_type (self : t) (date_type : Z) : result t :=
  ('(filtered_packed, filtered_tz, filtered_types) <-
     filter_by_type_loop self date_type (range (size self)) [] [] [] ;;
   new_columns filtered_packed (Some filtered_tz) (Some filtered_types))%result.

(** [self.date_types.count(date_type)] *)
Definition count_by_type (self : t) (date_type : Z) : Z :=
  Z.of_nat (count_occ Z.eq_dec (date_types self) date_type).

Definition get_full_dates (self : t) : result t := filter_by_type self BitDT.TYPE_FULL.
Definition get_date_only (self : t) : result t := filter_by_type self BitDT.TYPE_DATE_ONLY.
Definition get_time_only (self : t) : result t := filter_by_type self BitDT.TYPE_TIME_ONLY.
Definition get_empty (self : t) : result t := filter_by_type self BitDT.TYPE_EMPTY.

Definition slice (self : t) (start stop : Z) : result t :=
  if (start <? 0) || (stop >? size self) || (start >? stop)
  then Raise ValueError
  else new_columns (list_slice (packed_values self) start stop)
                   (Some (list_slice (timezone_offsets self) start stop))
                   (Some (list_slice (date_types self) start stop)).

Definition concat (self other : t) : result t :=
  new_columns (packed_values self ++ packed_values other)
              (Some (timezone_offsets self ++ timezone_offsets other))
              (Some (date_types self ++ date_types other)).

End BitDTArray.

(** * Vocabulary of the statements *)

Module Checks.

Definition range_forallb (n : nat) (p : Z -> bool) : bool :=
  forallb p (map Z.of_nat (seq 0 n)).

Definition all_ascii (p : ascii -> bool) : bool :=
  forallb (fun n => p (ascii_of_nat n)) (seq 0 256).

End Checks.

Module ThousandCounterDefs.
Import ThousandCounter.
Import Checks.

Definition roundtrip_at (millis : Z) : bool :=
  match encode_milliseconds millis with
  | Ok code =>
      match decode_milliseconds code with
      | Ok v => v =? millis
      | Raise _ => false
      end
  | Raise _ => false
  end.

End ThousandCounterDefs.

Module CompressDefs.
Import BitDT.
Import Checks.

(** The characters the compression invariant is stated for: the digit
    ['0'] and the symbols of every field alphabet. *)
Definition in_charset (c : ascii) : bool :=
  Ascii.eqb c "0"
  || str_contains YEAR_CHARS c || str_contains MONTHS c
  || str_contains DAYS c || str_contains HOURS c || str_contains MINUTES c
  || str_contains ThousandCounter.FIRST_CHAR c
  || str_contains ThousandCounter.SECOND_CHAR c.

Definition is_run_symbol (c : ascii) : bool :=
  str_contains (lit ".:;?!&") c.

(** What the loop has consumed, expanded: the pieces so far followed by the
    pending run. *)
Definition pending (compressed : str) (zero_count : Z) : str :=
  if zero_count >? 0 then compressed ++ _encode_zero_run zero_count else compressed.

(** Whether the text before a run ends in ['0'], and whether the text after
    it starts with ['0']. *)
Definition ends_in_zero (a : str) : bool := Ascii.eqb (last a "1"%char) "0".

Definition starts_with_zero (b : str) : bool :=
  match b with
  | c :: _ => Ascii.eqb c "0"
  | [] => false
  end.

End CompressDefs.

Module DecodeDefs.
Import BitDT.

Definition no_throw {R A} (m : flow R A) : Prop :=
  match m with
  | Throw _ => False
  | _ => True
  end.

End DecodeDefs.

Module PackedDefs.
Import BitDT.

(** The seven components, in the order of the arguments of
    [from_primitives]. *)
Definition components : Type := (Z * Z * Z * Z * Z * Z * Z)%type.

Definition of_components (x : components) (timezone : option str) : t :=
  let '(year, month, day, hour, minute, second, millis) := x in
  from_primitives year month day hour minute second millis timezone.

Definition tag_of (x : components) : Z :=
  let '(year, month, day, hour, minute, second, millis) := x in
  _determine_date_type year month day hour minute second millis.

Definition in_range (x : components) : Prop :=
  let '(year, month, day, hour, minute, second, millis) := x in
  0 <= year <= 226980 /\ 0 <= month <= 11 /\ 1 <= day <= 31
  /\ 0 <= hour <= 23 /\ 0 <= minute <= 59 /\ 0 <= second <= 59
  /\ 0 <= millis <= 999.

(** Comparison of two sequences of integers from the left: -1, 0 or 1. *)
Fixpoint lex_compare (a b : list Z) : Z :=
  match a, b with
  | x :: a', y :: b' =>
      if x <? y then -1 else if x >? y then 1 else lex_compare a' b'
  | [], [] => 0
  | [], _ :: _ => -1
  | _ :: _, [] => 1
  end.

Definition to_list (x : components) : list Z :=
  let '(year, month, day, hour, minute, second, millis) := x in
  [year; month; day; hour; minute; second; millis].

(** The weighted sum that the shifts and ors compute. *)
Definition weighted (x : components) (tag : Z) : Z :=
  let '(year, month, day, hour, minute, second, millis) := x in
  year * 2 ^ 44 + month * 2 ^ 40 + day * 2 ^ 35 + hour * 2 ^ 30
  + minute * 2 ^ 24 + second * 2 ^ 18 + millis * 2 ^ 8 + tag.

End PackedDefs.

Module NumeralDefs.
Import BitDTEpoch.
Import Checks.

(** The value [int] accumulates over a run of digits, from the left. *)
Definition eval (base : Z) (s : str) (acc : Z) : Z :=
  fold_left (fun a c => a * base + digit_value c) s acc.

(** A character that [int] reads as a digit of the base. *)
Definition is_digit_of (base : Z) (c : ascii) : bool :=
  (digit_value c <? base) && negb (Ascii.eqb c "_").

Definition digit_char_ok (d : Z) : bool :=
  match str_index BASE36_CHARS d with
  | Ok c =>
      (digit_value c =? d) && negb (Ascii.eqb c "_") && negb (is_space c)
      && negb (Ascii.eqb c "+") && negb (Ascii.eqb c "-")
  | Raise _ => false
  end.

(** A numeral as the loop of [_encode_base] leaves it, most significant
    digit first after the reversal. *)
Definition numeral_of (base num : Z) (ds : str) : Prop :=
  forallb (is_digit_of base) (rev ds) = true
  /\ forallb (fun c => negb (is_space c) && negb (Ascii.eqb c "+")
                       && negb (Ascii.eqb c "-")) (rev ds) = true
  /\ eval base (rev ds) 0 = num
  /\ (num = 0 -> ds = [])
  /\ (0 < num -> exists c tl, rev ds = c :: tl /\ Ascii.eqb c "0" = false).

(** An integer whose numeral [int] converts in the base: any integer when
    the base is a power of two, else one of at most [max_str_digits]
    digits. *)
Definition within_digit_limit (base n : Z) : Prop :=
  is_power_of_two base = true \/ Z.abs n < base ^ max_str_digits.

(** A calendar that knows no date, for statements that need none. *)
Definition no_calendar : Calendar := {|
  current_year := 1970;
  epoch_of_datetime := fun _ _ _ _ _ _ _ _ => Raise ValueError;
  monthrange_last_day := fun _ _ => Raise ValueError;
  datetime_of_epoch := fun _ _ => Raise ValueError
|}.

End NumeralDefs.

Module AutoDefs.
Import BitDTEpoch AutoSpec.
Import Checks.

Definition in_G_Z (c : ascii) : bool := (ord "G" <=? ord c) && (ord c <=? ord "Z").
Definition in_W_Z (c : ascii) : bool := (ord "W" <=? ord c) && (ord c <=? ord "Z").
Definition in_A_F (c : ascii) : bool := (ord "A" <=? ord c) && (ord c <=? ord "F").
Definition in_0_9 (c : ascii) : bool := (ord "0" <=? ord c) && (ord c <=? ord "9").

Definition sets_36 (c : ascii) : bool := in_G_Z c && in_W_Z c.
Definition sets_32 (c : ascii) : bool := in_G_Z c && negb (in_W_Z c).
Definition keeps_hex (c : ascii) : bool := negb (in_G_Z c) && (in_A_F c || in_0_9 c).

(** Not white space, not a sign, not an underscore. *)
Definition wordish (c : ascii) : bool :=
  negb (is_space c) && negb (Ascii.eqb c "+") && negb (Ascii.eqb c "-")
  && negb (Ascii.eqb c "_").

Definition upper_in_alphabet (c : ascii) : bool :=
  forallb (str_contains BASE36_CHARS) (upper_char c).

Definition symbol_check (c : ascii) : bool :=
  implb (is_symbol c)
        (Bool.eqb (existsb sets_36 (upper_char c)) (is_W_to_Z c)
         && Bool.eqb (existsb sets_32 (upper_char c)) (is_G_to_V c)
         && Bool.eqb (forallb keeps_hex (upper_char c)) (is_hex c)
         && upper_in_alphabet c
         && (digit_value c <? 36)
         && wordish c)
  && implb (upper_in_alphabet c)
           (wordish c && (is_symbol c || (digit_value c =? 37)))
  && implb (is_W_to_Z c) (32 <=? digit_value c).

End AutoDefs.

Module RoundTripDefs.
Import BitDT.
Import Checks CompressDefs PackedDefs.

Definition char_at (alphabet : str) (i : Z) : ascii :=
  nth (Z.to_nat i) alphabet "0"%char.

(** A symbol that stands for itself in a body: not the absent marker, not a
    sign, accepted by [decode], and left alone by the compression. *)
Definition plain (c : ascii) : bool :=
  negb (Ascii.eqb c "0") && negb (is_sign c) && _is_valid_encoded_char c
  && negb (CompressDefs.is_run_symbol c).

Definition alphabet_ok (alphabet : str) : bool :=
  range_forallb (List.length alphabet)
    (fun i =>
       match str_index alphabet i with
       | Ok c => Ascii.eqb c (char_at alphabet i)
                 && (str_find alphabet c =? i) && plain c
       | Raise _ => false
       end).

Definition year_text (y : Z) : str :=
  [char_at YEAR_CHARS (y / (61 * 61)); char_at YEAR_CHARS ((y / 61) mod 61);
   char_at YEAR_CHARS (y mod 61)].

Definition millis_text (ms : Z) : str :=
  [char_at ThousandCounter.FIRST_CHAR (ms / 25);
   char_at ThousandCounter.SECOND_CHAR (ms mod 25)].

Definition optional_char (alphabet : str) (o : option Z) : ascii :=
  match o with
  | Some i => char_at alphabet i
  | None => "0"%char
  end.

Definition optional_millis (o : option Z) : str :=
  match o with
  | Some ms => if ms =? 0 then lit "0" else millis_text ms
  | None => lit "0"
  end.

Definition optional_below (n : Z) (o : option Z) : Prop :=
  match o with
  | Some i => 0 <= i < n
  | None => True
  end.

Definition uncompressed (y mo d : Z) (oh omi os oms : option Z) : str :=
  year_text y
  ++ [char_at MONTHS mo; char_at DAYS (d - 1); optional_char HOURS oh;
      optional_char MINUTES omi; optional_char MINUTES os]
  ++ optional_millis oms.

Definition affix (timezone : option str) : str :=
  match timezone with
  | Some tz => tz
  | None => []
  end.

(** The value [decode] gives a field: -1 when it is absent. *)
Definition absent_or (o : option Z) : Z :=
  match o with
  | Some v => v
  | None => -1
  end.

(** The millisecond block gives 0, not -1, for an absent field. *)
Definition millis_or_zero (o : option Z) : Z :=
  match o with
  | Some v => v
  | None => 0
  end.

Definition no_sign (c : ascii) : bool := negb (is_sign c).

(** An affix as [encode] writes it: a sign, then digits that
    [_is_valid_timezone] accepts. *)
Definition affix_ok (timezone : option str) : Prop :=
  match timezone with
  | None => True
  | Some tz =>
      exists sign digits,
        tz = sign :: digits /\ is_sign sign = true /\ digits <> []
        /\ forallb no_sign digits = true /\ _is_valid_timezone tz = Ok true
  end.

(** The time fields that [encode] writes for a tag. *)
Definition time_fields (x : components) : option Z * option Z * option Z * option Z :=
  let '(y, mo, d, h, mi, s, ms) := x in
  if tag_of x =? TYPE_DATE_ONLY then (None, None, None, None)
  else if tag_of x =? TYPE_DATE_HOUR then (Some h, None, None, None)
  else (Some h, Some mi, Some s, Some ms).

Definition text_of (x : components) : str :=
  let '(y, mo, d, h, mi, s, ms) := x in
  let '(oh, omi, os, oms) := time_fields x in
  uncompressed y mo d oh omi os oms.

Definition plain_or_zero (c : ascii) : bool := plain c || Ascii.eqb c "0".

Definition timezones : list (option str) :=
  [None; Some (lit "+00"); Some (lit "-08"); Some (lit "+0530"); Some (lit "+12")].

End RoundTripDefs.

Module ComponentDefs.
Import BitDT.
Import PackedDefs.

(** Components that fit their fields: as [in_range], with 0 allowed for the
    day, the value [decode] puts for an absent day. *)
Definition fits (x : components) : Prop :=
  let '(year, month, day, hour, minute, second, millis) := x in
  0 <= year <= 226980 /\ 0 <= month <= 11 /\ 0 <= day <= 31
  /\ 0 <= hour <= 23 /\ 0 <= minute <= 59 /\ 0 <= second <= 59
  /\ 0 <= millis <= 999.

(** The tags whose values have no date, and no time. *)
Definition no_date (tag : Z) : bool := (tag =? TYPE_EMPTY) || (tag =? TYPE_TIME_ONLY).
Definition no_time (tag : Z) : bool := (tag =? TYPE_EMPTY) || (tag =? TYPE_DATE_ONLY).

End ComponentDefs.

Module TimezoneDefs.
Import BitDT.
Import Checks RoundTripDefs.

(** What is required of the text written for an offset: it is absent
    exactly for offset 0, and otherwise a sign followed by digits that
    [_is_valid_timezone] accepts and [_parse_timezone_offset] reads back as
    the offset. *)
Definition written_ok (offset : Z) : bool :=
  match _format_timezone_offset offset with
  | None => offset =? 0
  | Some tz =>
      negb (offset =? 0)
      && (_parse_timezone_offset (Some tz) =? offset)
      && match _is_valid_timezone tz with
         | Ok valid => valid
         | Raise _ => false
         end
      && match tz with
         | sign :: digit :: digits =>
             is_sign sign && forallb no_sign (digit :: digits)
         | _ => false
         end
  end.

(** The offsets from -399 to 399, counted from 0. *)
Definition written_ok_at (i : Z) : bool := written_ok (i - 399).

(** The zone [BitDTEpoch] reads from the text written for an offset: the
    offset in seconds when it is less than a day, and UTC otherwise. *)
Definition zone_ok_at (i : Z) : bool :=
  let offset := i - 399 in
  match _format_timezone_offset offset with
  | None => true
  | Some tz =>
      BitDTEpoch._parse_zone_offset_to_tz tz
      =? (if (-96 <? offset) && (offset <? 96) then offset * 900 else 0)
  end.

(** [int] of two characters in base 10 lies between -9 and 99. *)
Definition two_char_int_ok (a b : ascii) : bool :=
  match py_int [a; b] 10 with
  | Ok v => (-9 <=? v) && (v <=? 99)
  | Raise _ => true
  end.

Definition two_char_int_row (a : ascii) : bool := all_ascii (two_char_int_ok a).

End TimezoneDefs.

Module TextDefs.
Import BitDT.
Import PackedDefs RoundTripDefs.

(** The text of a field that may be absent, for the year and for the day;
    a day below 1 is written as an absent day. *)
Definition optional_year (o : option Z) : str :=
  match o with
  | Some y => year_text y
  | None => lit "0"
  end.

Definition optional_day (o : option Z) : ascii :=
  match o with
  | Some d => if d >=? 1 then char_at DAYS (d - 1) else "0"%char
  | None => "0"%char
  end.

(** The value [decode] gives the day. *)
Definition day_or_absent (o : option Z) : Z :=
  match o with
  | Some d => if d >=? 1 then d else -1
  | None => -1
  end.

Definition fields_text (oy omo od oh omi os oms : option Z) : str :=
  optional_year oy
  ++ [optional_char MONTHS omo; optional_day od; optional_char HOURS oh;
      optional_char MINUTES omi; optional_char MINUTES os]
  ++ optional_millis oms.

(** The fields that [encode] passes on for each tag. *)
Definition written_fields (x : components)
  : option Z * option Z * option Z * option Z * option Z * option Z * option Z :=
  let '(y, mo, d, h, mi, s, ms) := x in
  if tag_of x =? TYPE_DATE_ONLY
  then (Some y, Some mo, Some d, None, None, None, None)
  else if tag_of x =? TYPE_TIME_ONLY
  then (None, None, None, Some h, Some mi, Some s, Some ms)
  else if tag_of x =? TYPE_DATE_HOUR
  then (Some y, Some mo, Some d, Some h, None, None, None)
  else (Some y, Some mo, Some d, Some h, Some mi, Some s, Some ms).

Definition written_text (x : components) : str :=
  let '(oy, omo, od, oh, omi, os, oms) := written_fields x in
  fields_text oy omo od oh omi os oms.

End TextDefs.

Module DecodeShapeDefs.
Import BitDT.
Import Checks RoundTripDefs.

(** What a field block of [decode] can give: the field absent or between 0
    and a bound, or the empty value returned. *)
Definition block_in_range (hi : Z) (m : flow t (Z * nat)) : Prop :=
  match m with
  | Next (v, _) => v = -1 \/ 0 <= v <= hi
  | Return r => r = create_empty
  | Throw _ => False
  end.

(** The text written for an offset of 400 quarters of an hour or more is not
    an affix: its digits are not two or four. *)
Definition unwritable (offset : Z) : bool :=
  match _format_timezone_offset offset with
  | Some (sign :: digit :: digits) =>
      is_sign sign && forallb no_sign (digit :: digits)
      && match _is_valid_timezone (sign :: digit :: digits) with
         | Ok valid => negb valid
         | Raise _ => false
         end
  | _ => false
  end.

Definition unwritable_offsets : bool :=
  forallb unwritable [-402; -401; -400; 400; 401; 402].

End DecodeShapeDefs.

Module SortDefs.
Import BitDT.

(** The elements of a list with a given key, in their order. *)
Definition with_key {A} (key : A -> Z) (k : Z) (l : list A) : list A :=
  filter (fun x => key x =? k) l.

(** In ascending order of the key. *)
Definition ascending {A} (key : A -> Z) (l : list A) : Prop :=
  StronglySorted (fun x y => key x <= key y) l.

(** What [sorted] promises of its result: ascending order, with the elements
    of each key as they follow each other in the argument. *)
Definition stable_sort_of {A} (key : A -> Z) (l l' : list A) : Prop :=
  ascending key l' /\ forall k, with_key key k l' = with_key key k l.

End SortDefs.

Module ArrayDefs.
Import BitDTArray.

(** The three lists of an instance have one length: what the constructor
    checks. *)
Definition well_formed (a : t) : Prop :=
  List.length (packed_values a) = List.length (timezone_offsets a)
  /\ List.length (packed_values a) = List.length (date_types a).

(** The instance whose rows are the given dates. *)
Definition of_rows (dates : list BitDT.t) : t :=
  mk (map BitDT.get_packed_value dates) (map BitDT.get_timezone_offset dates)
     (map BitDT.get_date_type dates).

Fixpoint rows_of (packed timezone_offsets date_types : list Z) : list BitDT.t :=
  match packed, timezone_offsets, date_types with
  | p :: packed', z :: timezone_offsets', ty :: date_types' =>
      BitDT.from_packed_value p z ty :: rows_of packed' timezone_offsets' date_types'
  | _, _, _ => []
  end.

Definition rows (a : t) : list BitDT.t :=
  rows_of (packed_values a) (timezone_offsets a) (date_types a).

Definition has_type (date_type : Z) (dt : BitDT.t) : bool :=
  BitDT.get_date_type dt =? date_type.

(** The dates of the test of the array. *)
Definition sample : list BitDT.t :=
  [BitDT.from_primitives 50001 0 1 0 0 0 0 None;
   BitDT.from_primitives 50000 5 15 14 30 0 0 None;
   BitDT.from_primitives 50000 3 10 9 0 0 0 None].

End ArrayDefs.

Module EpochDefs.
Import BitDTEpoch AutoSpec.
Import Checks.

(** What is used of a single character of a numeral: a digit below 36 is a
    symbol of the alphabet; a symbol outside W-Z is a digit below 32, a
    hexadecimal symbol a digit below 16; no symbol of W-Z is hexadecimal; no
    digit is negative; a symbol is hexadecimal or of G-V or of W-Z; the one
    digit 0 is ['0']. *)
Definition numeral_char_check (c : ascii) : bool :=
  implb (digit_value c <? 36) (is_symbol c || Ascii.eqb c "_")
  && implb (is_symbol c && negb (is_W_to_Z c)) (digit_value c <? 32)
  && implb (is_symbol c && is_hex c) (digit_value c <? 16)
  && implb (is_W_to_Z c) (negb (is_hex c))
  && (0 <=? digit_value c)
  && implb (is_symbol c) (is_hex c || is_G_to_V c || is_W_to_Z c)
  && implb (digit_value c =? 0) (Ascii.eqb c "0").

(** The base in which a numeral without a symbol of W-Z is read when no
    base is given. *)
Definition base_read (text : str) : Z := if forallb is_hex text then 16 else 32.

End EpochDefs.

Module ValidationDefs.
Import BitDT.

(** A component that is given and above the range of its field. *)
Definition above (hi : Z) (o : option Z) : Prop :=
  match o with
  | Some v => hi < v
  | None => False
  end.

(** A component as [encode_date_time] takes it: one below the first value
    it writes counts as absent. *)
Definition taken_from (lo : Z) (o : option Z) : option Z :=
  match o with
  | Some v => if v >=? lo then Some v else None
  | None => None
  end.

End ValidationDefs.

Module MalformedDefs.
Import BitDT.

(** The position of the month in the expansion: after the ['0'] of an
    absent year, or after the three symbols of a year. *)
Definition month_position (expanded : str) : nat :=
  match expanded with
  | c :: _ => if Ascii.eqb c "0" then 1 else 3
  | [] => 0
  end.

(** The expansion starts with a year, and one of its three symbols is
    outside the alphabet of the year. *)
Definition year_outside (expanded : str) : bool :=
  match expanded with
  | c :: _ =>
      negb (Ascii.eqb c "0")
      && negb (forallb (str_contains YEAR_CHARS) (firstn 3 expanded))
  | [] => false
  end.

(** There is a character at the position; it is not ['0'] and it is outside
    the alphabet. *)
Definition outside (alphabet expanded : str) (pos : nat) : bool :=
  match nth_error expanded pos with
  | Some c => negb (Ascii.eqb c "0") && negb (str_contains alphabet c)
  | None => false
  end.

(** There is a character at the position; it is not ['0'], and it is the
    last one or the two characters from it are no code of milliseconds. *)
Definition millis_outside (expanded : str) (pos : nat) : bool :=
  match nth_error expanded pos with
  | Some c =>
      negb (Ascii.eqb c "0")
      && match nth_error expanded (pos + 1) with
         | Some c' =>
             negb (str_contains ThousandCounter.FIRST_CHAR c
                   && str_contains ThousandCounter.SECOND_CHAR c')
         | None => true
         end
  | None => false
  end.

(** A field of the expansion holds a symbol outside its alphabet. *)
Definition field_outside (expanded : str) : bool :=
  let pos := month_position expanded in
  year_outside expanded
  || outside MONTHS expanded pos
  || outside DAYS expanded (pos + 1)
  || outside HOURS expanded (pos + 2)
  || outside MINUTES expanded (pos + 3)
  || outside MINUTES expanded (pos + 4)
  || millis_outside expanded (pos + 5).

End MalformedDefs.

(** * Properties *)

Import Checks.

(** ** Checking a property on a range of integers by evaluation *)

Lemma range_forallb_spec (n : nat) (p : Z -> bool) :
  range_forallb n p = true ->
  forall z, 0 <= z < Z.of_nat n -> p z = true.
Proof.
  unfold range_forallb. intros Hall z Hz.
  rewrite forallb_forall in Hall. apply Hall.
  apply in_map_iff. exists (Z.to_nat z). split; [lia|].
  apply in_seq. lia.
Qed.

(** ** Strings *)

Lemma str_find_from_range (s : str) (c : ascii) (i : Z) :
  str_find_from s c i = -1 \/ i <= str_find_from s c i < i + len s.
Proof.
  revert i. induction s as [|d s IH]; intros i; simpl.
  - now left.
  - destruct (Ascii.eqb d c).
    + right. unfold len. simpl List.length. lia.
    + destruct (IH (i + 1)) as [H|H]; [now left|right].
      unfold len in *. simpl List.length. lia.
Qed.

Lemma str_find_range (s : str) (c : ascii) :
  str_find s c = -1 \/ 0 <= str_find s c < len s.
Proof. apply (str_find_from_range s c 0). Qed.

Lemma str_at_lt (s : str) (i : nat) :
  (i < List.length s)%nat -> exists c, str_at s i = Ok c.
Proof.
  intros H. unfold str_at.
  destruct (nth_error s i) eqn:E; [eauto|].
  apply nth_error_None in E. lia.
Qed.

(** ** ThousandCounter *)

Module ThousandCounterFacts.
Import Checks ThousandCounterDefs.
Import ThousandCounter.

Lemma roundtrip_all : range_forallb 1000 roundtrip_at = true.
Proof. vm_compute. reflexivity. Qed.

(** C5: [decode_milliseconds (encode_milliseconds millis)] is [millis] for
    every [millis] from 0 to 999, and [encode_milliseconds] raises
    [ValueError] outside this range. *)
Theorem encode_decode_milliseconds (millis : Z) :
  (0 <= millis <= 999 ->
   exists code, encode_milliseconds millis = Ok code
                /\ decode_milliseconds code = Ok millis)
  /\ (millis < 0 \/ 999 < millis ->
      encode_milliseconds millis = Raise ValueError).
Proof.
  split.
  - intros H.
    assert (R : roundtrip_at millis = true)
      by (apply (range_forallb_spec 1000 _ roundtrip_all); simpl; lia).
    unfold roundtrip_at in R.
    destruct (encode_milliseconds millis) as [code|]; [|discriminate].
    exists code. split; [reflexivity|].
    destruct (decode_milliseconds code) as [v|]; [|discriminate].
    apply Z.eqb_eq in R. now subst.
  - intros H. unfold encode_milliseconds.
    destruct H as [H|H].
    + apply Z.ltb_lt in H. now rewrite H.
    + apply Z.gtb_lt in H. rewrite H. now rewrite orb_true_r.
Qed.

Lemma encode_decode_milliseconds_witness :
  (exists code, encode_milliseconds 500 = Ok code
                /\ decode_milliseconds code = Ok 500)
  /\ encode_milliseconds (-1) = Raise ValueError
  /\ encode_milliseconds 1000 = Raise ValueError.
Proof.
  split; [|split].
  - apply (encode_decode_milliseconds 500). lia.
  - apply (encode_decode_milliseconds (-1)). lia.
  - apply (encode_decode_milliseconds 1000). lia.
Defined.

Lemma decode_milliseconds_range (code : str) :
  exists v, decode_milliseconds code = Ok v /\ (v = -1 \/ 0 <= v <= 999).
Proof.
  destruct code as [|c0 [|c1 [|c2 rest]]].
  - exists (-1). split; [reflexivity|now left].
  - exists (-1). split; [reflexivity|now left].
  - unfold decode_milliseconds. cbn [truthy negb orb len List.length Z.of_nat].
    change (Z.pos (Pos.of_succ_nat 1) =? 2) with true.
    cbn [negb str_at nth_error rbind].
    pose proof (str_find_range FIRST_CHAR c0) as H1.
    pose proof (str_find_range SECOND_CHAR c1) as H2.
    change (len FIRST_CHAR) with 40 in H1.
    change (len SECOND_CHAR) with 25 in H2.
    destruct (Z.eqb_spec (str_find FIRST_CHAR c0) (-1)) as [E1|E1].
    { exists (-1). split; [reflexivity|now left]. }
    destruct (Z.eqb_spec (str_find SECOND_CHAR c1) (-1)) as [E2|E2].
    { exists (-1). split; [reflexivity|now left]. }
    eexists. split; [reflexivity|]. right. lia.
  - exists (-1). split; [|now left].
    unfold decode_milliseconds. cbn [truthy negb orb].
    replace (len (c0 :: c1 :: c2 :: rest) =? 2) with false; [reflexivity|].
    symmetry. apply Z.eqb_neq. unfold len. simpl List.length. lia.
Qed.

(** C10: [decode_milliseconds] never raises; its value is -1 or lies
    between 0 and 999.  The first alphabet has 40 symbols and the second 25,
    and the largest value, 39 * 25 + 24 = 999, is reached. *)
Theorem decode_milliseconds_total (code : str) :
  (exists v, decode_milliseconds code = Ok v /\ (v = -1 \/ 0 <= v <= 999))
  /\ len FIRST_CHAR = 40 /\ len SECOND_CHAR = 25
  /\ decode_milliseconds (lit "zZ") = Ok (39 * 25 + 24)
  /\ 39 * 25 + 24 = 999.
Proof.
  split; [apply decode_milliseconds_range|].
  repeat split.
Qed.

End ThousandCounterFacts.

(** ** Zero-run compression *)

Module CompressFacts.
Import Checks CompressDefs.
Import BitDT.

Lemma all_ascii_spec (p : ascii -> bool) :
  all_ascii p = true -> forall c, p c = true.
Proof.
  unfold all_ascii. intros H c. rewrite forallb_forall in H.
  rewrite <- (ascii_nat_embedding c). apply H.
  apply in_seq. pose proof (nat_ascii_bounded c). lia.
Qed.

Lemma charset_no_run_symbol (c : ascii) :
  in_charset c = true -> is_run_symbol c = false.
Proof.
  intros H.
  assert (A : all_ascii (fun c => implb (in_charset c) (negb (is_run_symbol c))) = true)
    by (vm_compute; reflexivity).
  apply all_ascii_spec with (c := c) in A.
  rewrite H in A. simpl in A. now destruct (is_run_symbol c).
Qed.

Lemma expand_plain (c : ascii) :
  Ascii.eqb c "0" = false -> is_run_symbol c = false -> _expand_char c = [c].
Proof.
  intros H0 Hs. unfold _expand_char. rewrite H0.
  unfold is_run_symbol, str_contains in Hs. simpl in Hs.
  repeat (apply orb_false_iff in Hs; destruct Hs as [?E Hs]).
  repeat match goal with E : Ascii.eqb c _ = false |- _ => rewrite E; clear E end.
  reflexivity.
Qed.

Lemma expand_app (a b : str) :
  _expand_zeros (a ++ b) = _expand_zeros a ++ _expand_zeros b.
Proof. apply flat_map_app. Qed.

Lemma expand_zeros_repeat (n : nat) :
  _expand_zeros (repeat "0"%char n) = repeat "0"%char n.
Proof. induction n; simpl; [reflexivity|]. now f_equal. Qed.

Lemma repeat_snoc {A} (a : A) (n : nat) : repeat a n ++ [a] = repeat a (S n).
Proof. symmetry. apply (repeat_cons n a). Qed.

Lemma expand_zero_run (z : Z) :
  0 < z -> _expand_zeros (_encode_zero_run z) = repeat "0"%char (Z.to_nat z).
Proof.
  intros Hz. unfold _encode_zero_run.
  repeat match goal with
         | |- context [?a =? ?b] =>
             destruct (Z.eqb_spec a b) as [->|?]; [reflexivity|]
         end.
  rewrite expand_app, expand_zeros_repeat.
  replace (Z.to_nat z) with (7 + Z.to_nat (z - 7))%nat by lia.
  reflexivity.
Qed.

Lemma expand_pending (compressed : str) (zero_count : Z) :
  0 <= zero_count ->
  _expand_zeros (pending compressed zero_count)
  = _expand_zeros compressed ++ repeat "0"%char (Z.to_nat zero_count).
Proof.
  intros H. unfold pending. destruct (Z.gtb_spec zero_count 0).
  - rewrite expand_app, expand_zero_run by lia. reflexivity.
  - replace zero_count with 0 by lia. simpl. now rewrite app_nil_r.
Qed.

Lemma compress_loop_expand (fields : str) :
  forallb (fun c => negb (is_run_symbol c)) fields = true ->
  forall compressed zero_count, 0 <= zero_count ->
  let '(compressed', zero_count') := _compress_zeros_loop fields compressed zero_count in
  _expand_zeros (pending compressed' zero_count')
  = _expand_zeros compressed ++ repeat "0"%char (Z.to_nat zero_count) ++ fields.
Proof.
  induction fields as [|c rest IH]; intros Hall compressed zero_count Hz.
  - simpl. rewrite expand_pending by lia. now rewrite app_nil_r.
  - simpl in Hall. apply andb_true_iff in Hall. destruct Hall as [Hc Hrest].
    apply negb_true_iff in Hc.
    cbn [_compress_zeros_loop]. destruct (Ascii.eqb c "0") eqn:E0.
    + apply Ascii.eqb_eq in E0. subst c.
      specialize (IH Hrest compressed (zero_count + 1) ltac:(lia)).
      destruct (_compress_zeros_loop rest compressed (zero_count + 1)).
      rewrite IH. f_equal.
      replace (Z.to_nat (zero_count + 1)) with (S (Z.to_nat zero_count)) by lia.
      rewrite <- repeat_snoc, <- app_assoc. reflexivity.
    + fold (pending compressed zero_count).
      assert (P : (if zero_count >? 0
                   then (compressed ++ _encode_zero_run zero_count, 0)
                   else (compressed, zero_count))
                  = (pending compressed zero_count, 0)).
      { unfold pending. destruct (Z.gtb_spec zero_count 0); [reflexivity|].
        f_equal. lia. }
      rewrite P.
      specialize (IH Hrest (pending compressed zero_count ++ [c]) 0 ltac:(lia)).
      destruct (_compress_zeros_loop rest (pending compressed zero_count ++ [c]) 0).
      rewrite IH, expand_app, expand_pending by lia.
      simpl. rewrite expand_plain by assumption.
      rewrite app_nil_r, <- !app_assoc. reflexivity.
Qed.

Lemma expand_compress (fields : str) :
  forallb (fun c => negb (is_run_symbol c)) fields = true ->
  _expand_zeros (_compress_zeros fields) = fields.
Proof.
  intros H. pose proof (compress_loop_expand fields H [] 0 ltac:(lia)) as L.
  unfold _compress_zeros.
  destruct (_compress_zeros_loop fields [] 0) as [compressed zero_count].
  exact L.
Qed.

Lemma compress_loop_zeros (n : nat) (compressed : str) (zero_count : Z) :
  _compress_zeros_loop (repeat "0"%char n) compressed zero_count
  = (compressed, zero_count + Z.of_nat n).
Proof.
  revert zero_count. induction n as [|n IH]; intros zero_count.
  - simpl. f_equal. lia.
  - cbn [repeat _compress_zeros_loop]. rewrite Ascii.eqb_refl, IH. f_equal. lia.
Qed.

Lemma compress_loop_acc (fields : str) :
  forall acc zero_count,
    _compress_zeros_loop fields acc zero_count
    = (acc ++ fst (_compress_zeros_loop fields [] zero_count),
       snd (_compress_zeros_loop fields [] zero_count)).
Proof.
  induction fields as [|c rest IH]; intros acc zero_count.
  - simpl. now rewrite app_nil_r.
  - cbn [_compress_zeros_loop]. destruct (Ascii.eqb c "0"); [apply IH|].
    destruct (zero_count >? 0).
    + rewrite (IH ((acc ++ _encode_zero_run zero_count) ++ [c])).
      rewrite (IH (([] ++ _encode_zero_run zero_count) ++ [c])).
      cbn [fst snd app]. now rewrite <- !app_assoc.
    + rewrite (IH (acc ++ [c])), (IH ([] ++ [c])).
      cbn [fst snd app]. now rewrite <- !app_assoc.
Qed.

Lemma compress_cons_plain (c : ascii) (rest : str) :
  Ascii.eqb c "0" = false -> _compress_zeros (c :: rest) = c :: _compress_zeros rest.
Proof.
  intros H0. unfold _compress_zeros. cbn [_compress_zeros_loop]. rewrite H0.
  change (0 >? 0) with false. cbv iota. rewrite (compress_loop_acc rest ([] ++ [c])).
  destruct (_compress_zeros_loop rest [] 0) as [compressed zero_count].
  cbn [fst snd app]. now destruct (zero_count >? 0).
Qed.

Lemma compress_loop_app (a rest : str) :
  forall acc zero_count,
    _compress_zeros_loop (a ++ rest) acc zero_count
    = _compress_zeros_loop rest (fst (_compress_zeros_loop a acc zero_count))
                           (snd (_compress_zeros_loop a acc zero_count)).
Proof.
  induction a as [|c a IH]; intros acc zero_count; [reflexivity|].
  cbn [app _compress_zeros_loop]. destruct (Ascii.eqb c "0"); [apply IH|].
  destruct (zero_count >? 0); apply IH.
Qed.

Lemma compress_loop_count (a : str) :
  forall acc zero_count,
    0 <= zero_count -> 0 <= snd (_compress_zeros_loop a acc zero_count).
Proof.
  induction a as [|c a IH]; intros acc zero_count Hz; [exact Hz|].
  cbn [_compress_zeros_loop]. destruct (Ascii.eqb c "0"); [apply IH; lia|].
  destruct (zero_count >? 0); apply IH; lia.
Qed.

Lemma compress_loop_no_pending (a : str) :
  ends_in_zero a = false -> snd (_compress_zeros_loop a [] 0) = 0.
Proof.
  intros He. destruct a as [|x a'] eqn:Ea; [reflexivity|].
  rewrite <- Ea in *. assert (Hne : a <> []) by (rewrite Ea; discriminate).
  destruct (exists_last Hne) as (front & c & ->).
  unfold ends_in_zero in He. rewrite last_last in He.
  rewrite compress_loop_app.
  pose proof (compress_loop_count front [] 0 ltac:(lia)) as Hz.
  destruct (_compress_zeros_loop front [] 0) as [acc z]. cbn [fst snd] in *.
  cbn [_compress_zeros_loop]. rewrite He.
  destruct (Z.gtb_spec z 0); cbn [snd]; lia.
Qed.

Lemma compress_run (a b : str) (L : nat) :
  (1 <= L)%nat -> ends_in_zero a = false -> starts_with_zero b = false ->
  _compress_zeros (a ++ repeat "0"%char L ++ b)
  = _compress_zeros a ++ _encode_zero_run (Z.of_nat L) ++ _compress_zeros b.
Proof.
  intros HL Ha Hb. unfold _compress_zeros at 1 2.
  rewrite compress_loop_app.
  pose proof (compress_loop_no_pending a Ha) as Hz.
  destruct (_compress_zeros_loop a [] 0) as [acc z]. cbn [fst snd] in *.
  subst z. change (0 >? 0) with false. cbv iota.
  rewrite compress_loop_app, compress_loop_zeros. cbn [fst snd].
  rewrite Z.add_0_l.
  assert (Hpos : (Z.of_nat L >? 0) = true) by (apply Z.gtb_lt; lia).
  destruct b as [|c b'].
  - cbn [_compress_zeros_loop]. rewrite Hpos. now rewrite app_nil_r.
  - cbn [starts_with_zero] in Hb. rewrite (compress_cons_plain c b' Hb).
    cbn [_compress_zeros_loop]. rewrite Hb, Hpos.
    rewrite compress_loop_acc. unfold _compress_zeros.
    destruct (_compress_zeros_loop b' [] 0) as [tail z']. cbn [fst snd].
    destruct (z' >? 0); cbn [app]; rewrite <- ?app_assoc; reflexivity.
Qed.

(** C6: expanding the compression of a string over ['0'] and the field
    alphabets gives the string back; a run of more than seven zeros, between
    a text that does not end in ['0'] and a text that does not start with
    ['0'], compresses to ['&'] followed by the remaining zeros; ['&'] expands
    to seven zeros wherever it stands. *)
Theorem expand_compress_zeros (s : str) :
  (forallb in_charset s = true -> _expand_zeros (_compress_zeros s) = s)
  /\ (forall (a b : str) (L : nat),
        (7 < L)%nat -> ends_in_zero a = false -> starts_with_zero b = false ->
        _compress_zeros (a ++ repeat "0"%char L ++ b)
        = _compress_zeros a ++ "&"%char :: repeat "0"%char (L - 7)
          ++ _compress_zeros b)
  /\ (forall a b : str,
        _expand_zeros (a ++ lit "&" ++ b)
        = _expand_zeros a ++ lit "0000000" ++ _expand_zeros b).
Proof.
  split; [|split].
  - intros H. apply expand_compress.
    rewrite forallb_forall in *. intros c Hc.
    now rewrite (charset_no_run_symbol c (H c Hc)).
  - intros a b L HL Ha Hb. rewrite (compress_run a b L) by (lia || assumption).
    unfold _encode_zero_run.
    repeat match goal with
           | |- context [?x =? ?y] => destruct (Z.eqb_spec x y); [lia|]
           end.
    replace (Z.to_nat (Z.of_nat L - 7)) with (L - 7)%nat by lia.
    reflexivity.
  - intros a b. rewrite !expand_app. reflexivity.
Qed.

Lemma expand_compress_zeros_witness :
  _expand_zeros (_compress_zeros (lit "Nap00B0000")) = lit "Nap00B0000"
  /\ _compress_zeros (lit "Nap" ++ repeat "0"%char 9 ++ lit "zZ")
     = _compress_zeros (lit "Nap") ++ "&"%char :: repeat "0"%char (9 - 7)
       ++ _compress_zeros (lit "zZ").
Proof.
  split.
  - apply (expand_compress_zeros (lit "Nap00B0000")). reflexivity.
  - apply (expand_compress_zeros []); [lia|reflexivity|reflexivity].
Defined.

End CompressFacts.

(** ** Decoding never raises *)

Module DecodeFacts.
Import Checks DecodeDefs.
Import BitDT.

Lemma fbind_no_throw {R A B} (m : flow R A) (f : A -> flow R B) :
  no_throw m -> (forall a, no_throw (f a)) -> no_throw (fbind m f).
Proof. destruct m; simpl; auto. Qed.

Lemma lift_ok_no_throw {R A} (m : result A) :
  (exists a, m = Ok a) -> no_throw (@lift R A m).
Proof. intros [a ->]. exact I. Qed.

Lemma decode_year_ok (year_code : str) : exists v, decode_year year_code = Ok v.
Proof.
  unfold decode_year.
  destruct year_code as [|c0 [|c1 [|c2 [|c3 rest]]]];
    try (eexists; reflexivity).
  - cbn [truthy negb orb len List.length Z.of_nat].
    change (Z.pos (Pos.of_succ_nat 2) =? 3) with true.
    cbn [negb str_at nth_error rbind].
    destruct ((str_find YEAR_CHARS c0 =? -1) || (str_find YEAR_CHARS c1 =? -1)
              || (str_find YEAR_CHARS c2 =? -1)); eexists; reflexivity.
  - cbn [truthy negb orb].
    replace (len (c0 :: c1 :: c2 :: c3 :: rest) =? 3) with false;
      [eexists; reflexivity|].
    symmetry. apply Z.eqb_neq. unfold len. simpl List.length. lia.
Qed.

Ltac at_position :=
  match goal with
  | H : (?pos <? List.length ?s)%nat = true |- context [str_at ?s ?pos] =>
      let c := fresh "c" in
      let E := fresh "E" in
      destruct (str_at_lt s pos (proj1 (Nat.ltb_lt _ _) H)) as [c E];
      rewrite E; cbn [lift fbind]
  end.

Ltac by_cases :=
  repeat match goal with
         | |- no_throw (if ?b then _ else _) => destruct b eqn:?
         | |- no_throw (fbind (if ?b then _ else _) _) => destruct b eqn:?
         | |- no_throw (fbind (let _ := _ in _) _) => cbv zeta
         | |- no_throw (let _ := _ in _) => cbv zeta
         | |- no_throw (Next _) => exact I
         | |- no_throw (Return _) => exact I
         | |- no_throw (fbind (Next _) _) => cbn [fbind]
         | |- no_throw (fbind (Return _) _) => exact I
         end.

Lemma decode_year_block_no_throw (expanded : str) (pos : nat) :
  no_throw (decode_year_block expanded pos).
Proof.
  unfold decode_year_block.
  destruct (pos <? List.length expanded)%nat eqn:Hpos; [|exact I].
  at_position. by_cases.
  destruct (decode_year_ok (str_slice expanded pos (pos + 3))) as [v ->].
  cbn [lift fbind]. by_cases.
Qed.

Lemma decode_month_block_no_throw (expanded : str) (pos : nat) :
  no_throw (decode_month_block expanded pos).
Proof.
  unfold decode_month_block.
  destruct (pos <? List.length expanded)%nat eqn:Hpos; [|exact I].
  at_position. by_cases.
Qed.

Lemma decode_day_block_no_throw (expanded : str) (pos : nat) :
  no_throw (decode_day_block expanded pos).
Proof.
  unfold decode_day_block.
  destruct (pos <? List.length expanded)%nat eqn:Hpos; [|exact I].
  at_position. by_cases.
Qed.

Lemma decode_hour_block_no_throw (expanded : str) (pos : nat) :
  no_throw (decode_hour_block expanded pos).
Proof.
  unfold decode_hour_block.
  destruct (pos <? List.length expanded)%nat eqn:Hpos; [|exact I].
  at_position. by_cases.
Qed.

Lemma decode_minute_block_no_throw (expanded : str) (pos : nat) :
  no_throw (decode_minute_block expanded pos).
Proof.
  unfold decode_minute_block.
  destruct (pos <? List.length expanded)%nat eqn:Hpos; [|exact I].
  at_position. by_cases.
Qed.

Lemma decode_millis_block_no_throw (expanded : str) (pos : nat) :
  no_throw (decode_millis_block expanded pos).
Proof.
  unfold decode_millis_block.
  destruct (pos <? List.length expanded)%nat eqn:Hpos; [|exact I].
  at_position. by_cases.
  destruct (ThousandCounterFacts.decode_milliseconds_range
              (str_slice expanded pos (pos + 2))) as [v [-> _]].
  cbn [lift fbind]. by_cases.
Qed.

Lemma decode_fields_no_throw (expanded : str) (timezone_str : option str) :
  no_throw (decode_fields expanded timezone_str).
Proof.
  unfold decode_fields.
  apply fbind_no_throw; [apply decode_year_block_no_throw|intros [year pos0]].
  apply fbind_no_throw; [apply decode_month_block_no_throw|intros [month pos1]].
  apply fbind_no_throw; [apply decode_day_block_no_throw|intros [day pos2]].
  apply fbind_no_throw; [apply decode_hour_block_no_throw|intros [hour pos3]].
  apply fbind_no_throw; [apply decode_minute_block_no_throw|intros [minute pos4]].
  apply fbind_no_throw; [apply decode_minute_block_no_throw|intros [second pos5]].
  apply fbind_no_throw; [apply decode_millis_block_no_throw|intros [millis pos6]].
  cbv zeta. by_cases.
Qed.

Lemma is_valid_timezone_ok (timezone : str) :
  exists b, _is_valid_timezone timezone = Ok b.
Proof.
  unfold _is_valid_timezone.
  destruct timezone as [|c rest]; [eexists; reflexivity|].
  cbn [truthy negb orb]. destruct (len (c :: rest) <? 2); [eexists; reflexivity|].
  cbn [str_at nth_error rbind].
  destruct (negb (is_sign c)); [eexists; reflexivity|].
  destruct (negb (truthy (str_from (c :: rest) 1))); [eexists; reflexivity|].
  destruct (negb (forallb (str_contains TIMEZONE_DIGITS) (str_from (c :: rest) 1)));
    eexists; reflexivity.
Qed.

Lemma parse_timezone_loop_ok (bit_dt : str) (n : nat) :
  (n <= List.length bit_dt)%nat ->
  exists r, _parse_timezone_loop bit_dt n = Ok r.
Proof.
  induction n as [|i IH]; intros Hn; [eexists; reflexivity|].
  cbn [_parse_timezone_loop].
  destruct (str_at_lt bit_dt i ltac:(lia)) as [c ->]. cbn [rbind].
  destruct (is_sign c); [|apply IH; lia].
  destruct (is_valid_timezone_ok (str_from bit_dt i)) as [b ->]. cbn [rbind].
  destruct b; [eexists; reflexivity|apply IH; lia].
Qed.

Lemma str_index_last (s : str) :
  s <> [] -> str_index s (-1) = Ok (last s "000"%char).
Proof.
  intros Hs. unfold str_index. cbn [Z.ltb Z.compare Z.opp].
  assert (L : (0 < List.length s)%nat) by (destruct s; [congruence|simpl; lia]).
  replace (1 <=? len s) with true by (symmetry; apply Z.leb_le; unfold len; lia).
  unfold str_at, len.
  replace (Z.to_nat (Z.of_nat (List.length s) + -1)) with (List.length s - 1)%nat by lia.
  destruct (exists_last Hs) as [front [c ->]].
  rewrite last_last, length_app, nth_error_app2 by (simpl; lia).
  replace (List.length front + List.length [c] - 1 - List.length front)%nat with 0%nat
    by (simpl; lia).
  reflexivity.
Qed.

Lemma parse_timezone_ok (bit_dt : str) : exists r, _parse_timezone bit_dt = Ok r.
Proof.
  unfold _parse_timezone.
  destruct (negb (truthy bit_dt) || (len bit_dt <? 2)) eqn:E; [eexists; reflexivity|].
  assert (Hs : bit_dt <> []) by (intros ->; discriminate).
  rewrite (str_index_last bit_dt Hs). cbn [rbind].
  destruct (is_sign (last bit_dt "000"%char)); [eexists; reflexivity|].
  apply parse_timezone_loop_ok. lia.
Qed.

Lemma decode_ok (bit_dt : option str) : exists d, decode bit_dt = Ok d.
Proof.
  assert (N : forall m : flow t t, no_throw m -> exists d, run m = Ok d).
  { intros [a|r|e]; simpl; [eauto|eauto|tauto]. }
  apply N. destruct bit_dt as [bit_dt|]; [|exact I].
  unfold _extract_datetime_part.
  destruct (parse_timezone_ok bit_dt) as [tz ->]. cbn [lift fbind rbind].
  assert (X : exists part,
             match tz with
             | Some timezone =>
                 if truthy timezone
                 then Ok (Some (firstn (List.length bit_dt - List.length timezone) bit_dt))
                 else Ok (Some bit_dt)
             | None => Ok (Some bit_dt)
             end = Ok (Some part)).
  { destruct tz as [timezone|]; [destruct (truthy timezone)|]; eexists; reflexivity. }
  destruct X as [part ->]. cbn [lift fbind].
  destruct part as [|c rest]; [exact I|].
  cbn [truthy negb too_short_body str_at nth_error rbind lift fbind].
  destruct (negb (Ascii.eqb c "0") && (len (c :: rest) <? 3)); [exact I|].
  destruct (too_short_expanded _); [exact I|].
  destruct (negb (forallb _ _)); [exact I|].
  apply decode_fields_no_throw.
Qed.

(** C8: [decode] of [None], of the empty string, of ["INVALID"] and of
    ["123"] is empty.  The body ["123"] has three characters, so the rule on
    bodies shorter than three characters lets it pass, and the rule on
    expansions shorter than seven characters rejects it. *)
Theorem decode_invalid_is_empty :
  (exists d, decode None = Ok d /\ is_empty d = true)
  /\ (exists d, decode (Some (lit "")) = Ok d /\ is_empty d = true)
  /\ (exists d, decode (Some (lit "INVALID")) = Ok d /\ is_empty d = true)
  /\ (exists d, decode (Some (lit "123")) = Ok d /\ is_empty d = true)
  /\ _extract_datetime_part (Some (lit "123")) = Ok (Some (lit "123"))
  /\ too_short_body (lit "123") = Ok false
  /\ too_short_body (lit "12") = Ok true
  /\ len (_expand_zeros (lit "123")) = 3
  /\ too_short_expanded (_expand_zeros (lit "123")) = true.
Proof.
  repeat split; try (exists create_empty; split; reflexivity).
Qed.

(** C4, evaluated: a body whose seven fields are all ['0'] followed by the
    affix ["+05"] decodes to a value of empty type that keeps the offset of
    the affix; it differs from the empty value and shows a time zone.  The
    two inputs ["&"] and ["&+05"] give the empty value, through the rule on
    short bodies. *)
Theorem decode_absent_fields_keeps_affix :
  decode (Some (lit "0000000+05")) = Ok (mk 0 20 TYPE_EMPTY)
  /\ decode (Some (lit "0!+05")) = Ok (mk 0 20 TYPE_EMPTY)
  /\ is_empty (mk 0 20 TYPE_EMPTY) = true
  /\ __eq__ (mk 0 20 TYPE_EMPTY) create_empty = false
  /\ get_timezone_offset (mk 0 20 TYPE_EMPTY) = 20
  /\ get_timezone (mk 0 20 TYPE_EMPTY) = Some (lit "+05")
  /\ decode (Some (lit "&")) = Ok create_empty
  /\ decode (Some (lit "&+05")) = Ok create_empty.
Proof. repeat split. Qed.

End DecodeFacts.

(** ** The packed value and its order *)

Module PackedFacts.
Import Checks PackedDefs.
Import BitDT.

Lemma lor_disjoint (a b n : Z) :
  0 <= n -> a mod 2 ^ n = 0 -> 0 <= b < 2 ^ n -> Z.lor a b = a + b.
Proof.
  intros Hn Ha Hb.
  assert (L : Z.land a b = 0).
  { rewrite <- (Z.mod_small b (2 ^ n)) by lia.
    rewrite <- (Z.land_ones b n) by lia.
    rewrite (Z.land_comm b), Z.land_assoc, (Z.land_ones a n) by lia.
    rewrite Ha. apply Z.land_0_l. }
  pose proof (Z.add_lor_land a b). lia.
Qed.

Lemma determine_date_type_range (y mo d h mi s ms : Z) :
  0 <= _determine_date_type y mo d h mi s ms <= 4.
Proof.
  unfold _determine_date_type, TYPE_EMPTY, TYPE_DATE_ONLY, TYPE_TIME_ONLY,
    TYPE_DATE_HOUR, TYPE_FULL.
  repeat match goal with |- context [if ?b then _ else _] => destruct b end; lia.
Qed.

Lemma packed_weighted (x : components) (timezone : option str) :
  in_range x ->
  _packed_value (of_components x timezone) = weighted x (tag_of x).
Proof.
  destruct x as [[[[[[y mo] d] h] mi] s] ms].
  unfold in_range, of_components, tag_of, weighted, from_primitives.
  intros (Hy & Hmo & Hd & Hh & Hmi & Hs & Hms).
  pose proof (determine_date_type_range y mo d h mi s ms) as Ht.
  cbn [_packed_value].
  generalize dependent (_determine_date_type y mo d h mi s ms). intros tag Ht.
  rewrite !Z.shiftl_mul_pow2 by lia.
  rewrite (lor_disjoint _ (mo * 2 ^ 40) 44) by (try apply Z_mod_mult; lia).
  rewrite (lor_disjoint _ (d * 2 ^ 35) 40);
    [|lia|rewrite <- Z.add_mod_idemp_l by lia;
          change (2 ^ 44) with (2 ^ 4 * 2 ^ 40);
          rewrite Z.mul_assoc, Z_mod_mult, Z.add_0_l; apply Z_mod_mult|lia].
  rewrite (lor_disjoint _ (h * 2 ^ 30) 35);
    [|lia|apply Z.mod_divide; [lia|];
          exists (y * 2 ^ 9 + mo * 2 ^ 5 + d); lia|lia].
  rewrite (lor_disjoint _ (mi * 2 ^ 24) 30);
    [|lia|apply Z.mod_divide; [lia|];
          exists (y * 2 ^ 14 + mo * 2 ^ 10 + d * 2 ^ 5 + h); lia|lia].
  rewrite (lor_disjoint _ (s * 2 ^ 18) 24);
    [|lia|apply Z.mod_divide; [lia|];
          exists (y * 2 ^ 20 + mo * 2 ^ 16 + d * 2 ^ 11 + h * 2 ^ 6 + mi); lia|lia].
  rewrite (lor_disjoint _ (ms * 2 ^ 8) 18);
    [|lia|apply Z.mod_divide; [lia|];
          exists (y * 2 ^ 26 + mo * 2 ^ 22 + d * 2 ^ 17 + h * 2 ^ 12 + mi * 2 ^ 6 + s);
          lia|lia].
  rewrite (lor_disjoint _ tag 8);
    [|lia|apply Z.mod_divide; [lia|];
          exists (y * 2 ^ 36 + mo * 2 ^ 32 + d * 2 ^ 27 + h * 2 ^ 22 + mi * 2 ^ 16
                  + s * 2 ^ 10 + ms); lia|lia].
  reflexivity.
Qed.

Lemma compare_weighted (x1 x2 : components) (tag : Z) :
  in_range x1 -> in_range x2 ->
  (if weighted x1 tag <? weighted x2 tag then -1
   else if weighted x1 tag >? weighted x2 tag then 1 else 0)
  = lex_compare (to_list x1) (to_list x2).
Proof.
  destruct x1 as [[[[[[y1 mo1] d1] h1] mi1] s1] ms1].
  destruct x2 as [[[[[[y2 mo2] d2] h2] mi2] s2] ms2].
  unfold in_range, weighted, to_list, lex_compare.
  intros (Hy1 & Hmo1 & Hd1 & Hh1 & Hmi1 & Hs1 & Hms1)
         (Hy2 & Hmo2 & Hd2 & Hh2 & Hmi2 & Hs2 & Hms2).
  repeat match goal with
         | |- context [?a <? ?b] => destruct (Z.ltb_spec a b)
         | |- context [?a >? ?b] => destruct (Z.gtb_spec a b)
         end; try reflexivity; exfalso; lia.
Qed.

Lemma lex_compare_eq (a b : list Z) :
  List.length a = List.length b -> lex_compare a b = 0 -> a = b.
Proof.
  revert b. induction a as [|x a IH]; intros [|y b] Hlen H; try discriminate.
  - reflexivity.
  - simpl in H. destruct (Z.ltb_spec x y); [discriminate|].
    destruct (Z.gtb_spec x y); [discriminate|].
    f_equal; [lia|]. apply IH; [now injection Hlen|assumption].
Qed.

Lemma compare_same_tag (x1 x2 : components) (tz1 tz2 : option str) :
  in_range x1 -> in_range x2 -> tag_of x1 = tag_of x2 ->
  compare_to (of_components x1 tz1) (of_components x2 tz2)
  = lex_compare (to_list x1) (to_list x2).
Proof.
  intros H1 H2 Htag. unfold compare_to.
  rewrite !packed_weighted, Htag by assumption.
  now apply compare_weighted.
Qed.

(** C2: for two values built by [from_primitives] from components in range,
    both of full precision and with distinct components, [compare_to] is the
    comparison of the two 7-tuples from the left, and it is not 0; for two
    values of one and the same tag, whichever it is, [compare_to] is that
    comparison as well. *)
Theorem compare_to_lexicographic (x1 x2 : components) (tz1 tz2 : option str) :
  in_range x1 -> in_range x2 ->
  (get_date_type (of_components x1 tz1) = TYPE_FULL ->
   get_date_type (of_components x2 tz2) = TYPE_FULL ->
   x1 <> x2 ->
   compare_to (of_components x1 tz1) (of_components x2 tz2)
   = lex_compare (to_list x1) (to_list x2)
   /\ compare_to (of_components x1 tz1) (of_components x2 tz2) <> 0)
  /\ (get_date_type (of_components x1 tz1) = get_date_type (of_components x2 tz2) ->
      compare_to (of_components x1 tz1) (of_components x2 tz2)
      = lex_compare (to_list x1) (to_list x2)).
Proof.
  intros H1 H2.
  assert (T : forall x tz, get_date_type (of_components x tz) = tag_of x).
  { intros [[[[[[y mo] d] h] mi] s] ms] tz. reflexivity. }
  rewrite !T. split.
  - intros F1 F2 Hne.
    assert (E : compare_to (of_components x1 tz1) (of_components x2 tz2)
                = lex_compare (to_list x1) (to_list x2))
      by (apply compare_same_tag; congruence).
    split; [exact E|]. rewrite E. intros Z0. apply Hne.
    apply lex_compare_eq in Z0.
    + destruct x1 as [[[[[[y1 mo1] d1] h1] mi1] s1] ms1].
      destruct x2 as [[[[[[y2 mo2] d2] h2] mi2] s2] ms2].
      simpl in Z0. congruence.
    + destruct x1 as [[[[[[y1 mo1] d1] h1] mi1] s1] ms1].
      destruct x2 as [[[[[[y2 mo2] d2] h2] mi2] s2] ms2]. reflexivity.
  - intros Htag. now apply compare_same_tag.
Qed.

Lemma compare_to_lexicographic_witness :
  compare_to (of_components (50000, 0, 1, 12, 30, 45, 123) None)
             (of_components (50000, 5, 15, 12, 30, 0, 1) (Some (lit "-08")))
  = lex_compare [50000; 0; 1; 12; 30; 45; 123] [50000; 5; 15; 12; 30; 0; 1]
  /\ compare_to (of_components (50000, 0, 1, 12, 30, 45, 123) None)
                (of_components (50000, 5, 15, 12, 30, 0, 1) (Some (lit "-08")))
     <> 0.
Proof.
  assert (R1 : in_range (50000, 0, 1, 12, 30, 45, 123)) by (unfold in_range; lia).
  assert (R2 : in_range (50000, 5, 15, 12, 30, 0, 1)) by (unfold in_range; lia).
  destruct (compare_to_lexicographic
              (50000, 0, 1, 12, 30, 45, 123) (50000, 5, 15, 12, 30, 0, 1)
              None (Some (lit "-08")) R1 R2) as [Full _].
  apply Full; [reflexivity|reflexivity|discriminate].
Defined.

End PackedFacts.

(** ** Positional numerals *)

Module NumeralFacts.
Import Checks NumeralDefs.
Import BitDTEpoch.

Lemma scan_digits_app (base : Z) (s1 s2 : str) :
  forallb (is_digit_of base) s1 = true ->
  forall (prev : bool) (digits acc : Z),
    s1 <> [] \/ prev = false ->
    scan_digits base (s1 ++ s2) prev digits acc
    = scan_digits base s2 false (digits + len s1) (eval base s1 acc).
Proof.
  induction s1 as [|c s1 IH]; intros Hall prev digits acc Hprev.
  - destruct Hprev as [H| ->]; [congruence|].
    simpl. f_equal. unfold len. simpl. lia.
  - simpl in Hall. apply andb_true_iff in Hall. destruct Hall as [Hc Hs1].
    unfold is_digit_of in Hc. apply andb_true_iff in Hc. destruct Hc as [Hd Hu].
    apply negb_true_iff in Hu.
    cbn [app scan_digits]. rewrite Hu, Hd.
    rewrite IH by (assumption || now right).
    unfold len. cbn [List.length eval fold_left]. f_equal. lia.
Qed.

Lemma digit_chars_ok : range_forallb 36 digit_char_ok = true.
Proof. vm_compute. reflexivity. Qed.

Lemma digit_char (d : Z) :
  0 <= d < 36 ->
  exists c, str_index BASE36_CHARS d = Ok c
            /\ digit_value c = d /\ Ascii.eqb c "_" = false
            /\ is_space c = false /\ Ascii.eqb c "+" = false
            /\ Ascii.eqb c "-" = false
            /\ (d <> 0 -> Ascii.eqb c "0" = false).
Proof.
  intros Hd.
  pose proof (range_forallb_spec 36 _ digit_chars_ok d ltac:(simpl; lia)) as H.
  unfold digit_char_ok in H.
  destruct (str_index BASE36_CHARS d) as [c|]; [|discriminate].
  exists c. split; [reflexivity|].
  repeat (apply andb_true_iff in H; destruct H as [H ?H]).
  repeat match goal with
         | X : negb _ = true |- _ => apply negb_true_iff in X
         end.
  apply Z.eqb_eq in H. repeat split; try assumption.
  intros Hne. destruct (Ascii.eqb c "0") eqn:E; [|reflexivity].
  apply Ascii.eqb_eq in E. subst c.
  change (digit_value "0") with 0 in H. congruence.
Qed.

Lemma eval_snoc (base : Z) (s : str) (c : ascii) (acc : Z) :
  eval base (s ++ [c]) acc = eval base s acc * base + digit_value c.
Proof. unfold eval. now rewrite fold_left_app. Qed.

Lemma encode_base_loop_spec (base : Z) :
  2 <= base <= 36 ->
  forall (fuel : nat) (num : Z) (acc : str),
    0 <= num < 2 ^ (Z.of_nat fuel - 1) ->
    exists ds, _encode_base_loop fuel num base acc = Some (Ok (acc ++ ds))
               /\ numeral_of base num ds.
Proof.
  intros Hb. induction fuel as [|fuel IH]; intros num acc Hnum.
  - exfalso. change (Z.of_nat 0 - 1) with (-1) in Hnum.
    rewrite Z.pow_neg_r in Hnum; lia.
  - cbn [_encode_base_loop]. destruct (Z.gtb_spec num 0) as [Hpos|Hzero].
    + replace (base =? 0) with false by (symmetry; apply Z.eqb_neq; lia).
      assert (Hm : 0 <= num mod base < base) by (apply Z.mod_pos_bound; lia).
      destruct (digit_char (num mod base) ltac:(lia))
        as (c & -> & Hv & Hu & Hsp & Hplus & Hminus & Hnz).
      assert (Hfuel : (1 <= fuel)%nat).
      { destruct fuel; [|lia]. simpl in Hnum. lia. }
      assert (Hq : 0 <= num / base < 2 ^ (Z.of_nat fuel - 1)).
      { split; [apply Z.div_pos; lia|].
        apply Z.div_lt_upper_bound; [lia|].
        replace (Z.of_nat (S fuel) - 1) with (Z.succ (Z.of_nat fuel - 1)) in Hnum by lia.
        rewrite Z.pow_succ_r in Hnum by lia.
        assert (0 < 2 ^ (Z.of_nat fuel - 1)) by (apply Z.pow_pos_nonneg; lia).
        nia. }
      destruct (IH (num / base) (acc ++ [c]) Hq) as (ds & -> & Hall & Hok & Hval & Hnil & Hhd).
      exists (c :: ds). rewrite <- app_assoc. split; [reflexivity|].
      unfold numeral_of. cbn [rev].
      rewrite !forallb_app, Hall, Hok, eval_snoc, Hval, Hv.
      cbn [forallb]. unfold is_digit_of. rewrite Hv, Hu, Hsp, Hplus, Hminus.
      replace (num mod base <? base) with true by (symmetry; apply Z.ltb_lt; lia).
      repeat split; try reflexivity.
      * pose proof (Z.div_mod num base ltac:(lia)). lia.
      * lia.
      * intros _. destruct (Z.eq_dec (num / base) 0) as [E0|E0].
        -- rewrite (Hnil E0). exists c, []. split; [reflexivity|].
           apply Hnz. rewrite Z.mod_small; [lia|].
           apply Z.div_small_iff in E0; lia.
        -- destruct (Hhd ltac:(lia)) as (c' & tl & -> & Hc').
           exists c', (tl ++ [c]). split; [reflexivity|assumption].
    + exists []. rewrite app_nil_r. split; [reflexivity|].
      unfold numeral_of. simpl. repeat split; try reflexivity; lia.
Qed.

Lemma strip_base_prefix_nonzero (base : Z) (c : ascii) (tl : str) :
  Ascii.eqb c "0" = false -> strip_base_prefix base (c :: tl) = c :: tl.
Proof.
  intros H. unfold strip_base_prefix. destruct tl; [reflexivity|].
  now rewrite H.
Qed.

Lemma digit_value_facts (c : ascii) :
  0 <= digit_value c /\ (Ascii.eqb c "0" = false -> digit_value c <> 0).
Proof.
  assert (A : all_ascii (fun c => (0 <=? digit_value c)
                                  && implb (digit_value c =? 0) (Ascii.eqb c "0"))
              = true) by (vm_compute; reflexivity).
  pose proof (CompressFacts.all_ascii_spec _ A c) as H. cbv beta in H.
  apply andb_true_iff in H. destruct H as [H0 H1]. split.
  - now apply Z.leb_le.
  - intros E Z0. apply Z.eqb_eq in Z0. rewrite Z0, E in H1. discriminate.
Qed.

Lemma len_cons (c : ascii) (s : str) : len (c :: s) = Z.succ (len s).
Proof. unfold len. cbn [List.length]. lia. Qed.

Lemma len_nonneg (s : str) : 0 <= len s.
Proof. unfold len. lia. Qed.

(** The value of a run of digits lies between the two multiples of the
    power of the base that its length gives. *)
Lemma eval_bounds (base : Z) (s : str) :
  2 <= base -> forallb (is_digit_of base) s = true ->
  forall acc, 0 <= acc ->
    acc * base ^ len s <= eval base s acc < (acc + 1) * base ^ len s.
Proof.
  intros Hb. induction s as [|c s IH]; intros Hall acc Hacc.
  - change (len []) with 0. rewrite Z.pow_0_r. cbn [eval fold_left]. lia.
  - cbn [forallb] in Hall. apply andb_true_iff in Hall. destruct Hall as [Hc Hs].
    unfold is_digit_of in Hc. apply andb_true_iff in Hc. destruct Hc as [Hd _].
    apply Z.ltb_lt in Hd.
    destruct (digit_value_facts c) as [Hc0 _].
    change (eval base (c :: s) acc) with (eval base s (acc * base + digit_value c)).
    rewrite len_cons, Z.pow_succ_r by apply len_nonneg.
    specialize (IH Hs (acc * base + digit_value c) ltac:(nia)).
    assert (Hp : 0 < base ^ len s) by (apply Z.pow_pos_nonneg; [lia|apply len_nonneg]).
    set (P := base ^ len s) in *. set (E := eval base s _) in *.
    set (d := digit_value c) in *. split; nia.
Qed.

(** A numeral of [k] digits is a number from [base ^ (k - 1)] up to, and
    not including, [base ^ k]. *)
Lemma numeral_length (base num : Z) (ds : str) :
  2 <= base -> 0 < num -> numeral_of base num ds ->
  base ^ (len ds - 1) <= num < base ^ len ds.
Proof.
  intros Hb Hpos (Hall & _ & Hval & _ & Hhd).
  destruct (Hhd Hpos) as (c & tl & E & Hc0).
  assert (L : len ds = Z.succ (len tl)).
  { rewrite <- (len_cons c tl), <- E. unfold len. now rewrite length_rev. }
  rewrite E in Hall, Hval. cbn [forallb] in Hall.
  apply andb_true_iff in Hall. destruct Hall as [Hc Htl].
  unfold is_digit_of in Hc. apply andb_true_iff in Hc. destruct Hc as [Hd _].
  apply Z.ltb_lt in Hd.
  destruct (digit_value_facts c) as [Hge Hnz]. specialize (Hnz Hc0).
  change (eval base (c :: tl) 0) with (eval base tl (0 * base + digit_value c)) in Hval.
  rewrite Z.mul_0_l, Z.add_0_l in Hval.
  pose proof (eval_bounds base tl Hb Htl (digit_value c) Hge) as B.
  rewrite Hval in B. rewrite L.
  replace (Z.succ (len tl) - 1) with (len tl) by lia.
  rewrite Z.pow_succ_r by apply len_nonneg.
  assert (Hp : 0 < base ^ len tl) by (apply Z.pow_pos_nonneg; [lia|apply len_nonneg]).
  set (P := base ^ len tl) in *. set (d := digit_value c) in *. split; nia.
Qed.

(** The numeral is longer than the limit when the number is at least the
    power of the base that the limit gives. *)
Lemma numeral_over_limit (base num : Z) (ds : str) :
  2 <= base -> 0 < num -> numeral_of base num ds ->
  (len ds >? max_str_digits) = (base ^ max_str_digits <=? num).
Proof.
  intros Hb Hpos Hnum.
  pose proof (numeral_length base num ds Hb Hpos Hnum) as [Lo Hi].
  assert (M : 0 <= max_str_digits) by (unfold max_str_digits; lia).
  destruct (Z.gtb_spec (len ds) max_str_digits) as [G|G];
    destruct (Z.leb_spec (base ^ max_str_digits) num) as [C|C];
    try reflexivity; exfalso.
  - assert (base ^ max_str_digits <= base ^ (len ds - 1))
      by (apply Z.pow_le_mono_r; lia).
    lia.
  - assert (base ^ len ds <= base ^ max_str_digits)
      by (apply Z.pow_le_mono_r; lia).
    lia.
Qed.

(** [int] on the numeral of a positive number, with or without a minus
    sign: the number, unless the numeral is longer than the limit in a base
    that is not a power of two. *)
Lemma py_int_numeral (base num : Z) (ds : str) (negative : bool) :
  2 <= base <= 36 -> 0 < num -> numeral_of base num ds ->
  py_int ((if negative then lit "-" else lit "") ++ rev ds) base
  = if negb (is_power_of_two base) && (len ds >? max_str_digits)
    then Raise ValueError
    else Ok (if negative then - num else num).
Proof.
  intros Hb Hpos (Hall & Hok & Hval & _ & Hhd).
  destruct (Hhd Hpos) as (c & tl & E & Hc0).
  assert (Len : len ds = len (c :: tl))
    by (rewrite <- E; unfold len; now rewrite length_rev).
  rewrite Len.
  rewrite E in *. cbn [forallb] in Hall, Hok.
  apply andb_true_iff in Hok. destruct Hok as [Hc _].
  repeat (apply andb_true_iff in Hc; destruct Hc as [Hc ?Hc]).
  repeat match goal with
         | X : negb _ = true |- _ => apply negb_true_iff in X
         end.
  assert (Hu : Ascii.eqb c "_" = false).
  { apply andb_true_iff in Hall. destruct Hall as [Hd _].
    unfold is_digit_of in Hd. apply andb_true_iff in Hd.
    destruct Hd as [_ Hd]. now apply negb_true_iff in Hd. }
  assert (S : scan_digits base (c :: tl) false 0 0
              = Some (num, len (c :: tl), [])).
  { rewrite <- (app_nil_r (c :: tl)) at 1.
    rewrite scan_digits_app by (assumption || now right).
    rewrite Hval. reflexivity. }
  assert (L : (len (c :: tl) =? 0) = false).
  { apply Z.eqb_neq. unfold len. simpl. lia. }
  unfold py_int.
  replace ((base <? 2) || (base >? 36)) with false
    by (symmetry; apply orb_false_iff; split;
        [apply Z.ltb_ge|rewrite Z.gtb_ltb; apply Z.ltb_ge]; lia).
  destruct negative.
  - cbn [lit list_ascii_of_string app lstrip is_space].
    change (is_space "-") with false. cbv iota.
    change (Ascii.eqb "-" "+") with false. change (Ascii.eqb "-" "-") with true.
    cbv iota. rewrite strip_base_prefix_nonzero by assumption.
    rewrite Hu, S, L.
    now destruct (negb (is_power_of_two base) && (len (c :: tl) >? max_str_digits)).
  - cbn [lit list_ascii_of_string app lstrip]. rewrite Hc. cbv iota.
    rewrite Hc2, Hc1. cbv iota.
    rewrite strip_base_prefix_nonzero by assumption.
    rewrite Hu, S, L.
    now destruct (negb (is_power_of_two base) && (len (c :: tl) >? max_str_digits)).
Qed.

Lemma py_int_zero (base : Z) : 2 <= base <= 36 -> py_int (lit "0") base = Ok 0.
Proof.
  intros Hb.
  assert (A : range_forallb 37
                (fun b => implb ((2 <=? b) && (b <=? 36))
                                match py_int (lit "0") b with
                                | Ok v => v =? 0
                                | Raise _ => false
                                end) = true)
    by (vm_compute; reflexivity).
  pose proof (range_forallb_spec 37 _ A base ltac:(simpl; lia)) as H.
  cbv beta in H.
  replace ((2 <=? base) && (base <=? 36)) with true in H
    by (symmetry; apply andb_true_iff; split; apply Z.leb_le; lia).
  cbn [implb] in H. destruct (py_int (lit "0") base); [|discriminate].
  apply Z.eqb_eq in H. now subst.
Qed.

Lemma encode_base_loop_more_fuel (base : Z) (fuel : nat) :
  forall (num : Z) (acc : str) (r : result str),
    _encode_base_loop fuel num base acc = Some r ->
    forall fuel', (fuel <= fuel')%nat ->
                  _encode_base_loop fuel' num base acc = Some r.
Proof.
  induction fuel as [|fuel IH]; intros num acc r H fuel' Hle; [discriminate|].
  destruct fuel' as [|fuel']; [lia|].
  cbn [_encode_base_loop] in *.
  destruct (num >? 0); [|assumption].
  destruct (base =? 0); [assumption|].
  destruct (str_index BASE36_CHARS (num mod base)); [|assumption].
  apply (IH _ _ _ H). lia.
Qed.

Lemma encode_base_spec (num base : Z) :
  2 <= base <= 36 ->
  exists text,
    (forall fuel, (Z.to_nat (Z.log2 (Z.abs num)) + 2 <= fuel)%nat ->
                  _encode_base fuel num base = Some (Ok text))
    /\ py_int text base
       = (if negb (is_power_of_two base) && (base ^ max_str_digits <=? Z.abs num)
          then Raise ValueError
          else Ok num)
    /\ text <> []
    /\ (num = 0 -> text = lit "0")
    /\ (num < 0 -> exists digits, text = "-"%char :: digits)
    /\ (0 < num -> base ^ (len text - 1) <= num < base ^ len text).
Proof.
  intros Hb. destruct (Z.eq_dec num 0) as [->|Hne].
  - exists (lit "0"). rewrite py_int_zero by assumption.
    replace (base ^ max_str_digits <=? Z.abs 0) with false.
    + rewrite andb_false_r.
      repeat split; try reflexivity; try discriminate; lia.
    + symmetry. apply Z.leb_gt. change (Z.abs 0) with 0.
      apply Z.pow_pos_nonneg; [lia|unfold max_str_digits; lia].
  - set (m := Z.abs num).
    assert (Hm : 0 < m) by (unfold m; lia).
    set (f0 := (Z.to_nat (Z.log2 m) + 2)%nat).
    assert (Bound : 0 <= m < 2 ^ (Z.of_nat f0 - 1)).
    { split; [lia|].
      apply Z.lt_le_trans with (2 ^ Z.succ (Z.log2 m)).
      - apply Z.log2_spec. lia.
      - apply Z.pow_le_mono_r; [lia|].
        pose proof (Z.log2_nonneg m). unfold f0. lia. }
    destruct (encode_base_loop_spec base Hb f0 m [] Bound) as (ds & Hloop & Hnum).
    exists ((if num <? 0 then lit "-" else lit "") ++ rev ds).
    assert (Hrev : exists c tl, rev ds = c :: tl)
      by (destruct Hnum as (_ & _ & _ & _ & Hhd);
          destruct (Hhd Hm) as (c & tl & E & _); eauto).
    destruct Hrev as (c & tl & Hrev).
    split; [|split; [|split; [|split; [|split]]]].
    + intros fuel Hf. unfold _encode_base.
      replace (num =? 0) with false by (symmetry; now apply Z.eqb_neq).
      replace (if num <? 0 then - num else num) with m
        by (unfold m; destruct (Z.ltb_spec num 0); lia).
      rewrite (encode_base_loop_more_fuel base f0 m [] _ Hloop fuel Hf).
      reflexivity.
    + rewrite (py_int_numeral base m ds (num <? 0) Hb Hm Hnum).
      rewrite (numeral_over_limit base m ds ltac:(lia) Hm Hnum).
      destruct (negb (is_power_of_two base) && (base ^ max_str_digits <=? m));
        [reflexivity|].
      f_equal. unfold m. destruct (Z.ltb_spec num 0); lia.
    + rewrite Hrev. destruct (num <? 0); discriminate.
    + intros E. contradiction.
    + intros Hneg. apply Z.ltb_lt in Hneg. rewrite Hneg. eexists. reflexivity.
    + intros Hpos.
      replace (num <? 0) with false by (symmetry; apply Z.ltb_ge; lia).
      change (lit "" ++ rev ds) with (rev ds).
      replace (len (rev ds)) with (len ds) by (unfold len; now rewrite length_rev).
      replace num with m by (unfold m; lia).
      apply (numeral_length base m ds ltac:(lia) Hm Hnum).
Qed.

Section WithCalendar.
Context {calendar : Calendar}.

(** What [from_bit_dt] with a base from 2 to 36 makes of the numeral that
    [_encode_base] writes in that base. *)
Lemma from_bit_dt_encode_base (n base : Z) (text : str) :
  2 <= base <= 36 -> text <> [] ->
  py_int text base
  = (if negb (is_power_of_two base) && (base ^ max_str_digits <=? Z.abs n)
     then Raise ValueError
     else Ok n) ->
  (within_digit_limit base n -> from_bit_dt text (Some base) = n)
  /\ (is_power_of_two base = false -> base ^ max_str_digits <= Z.abs n ->
      from_bit_dt text (Some base) = -1).
Proof.
  intros Hb Hne Hint.
  assert (F : from_bit_dt text (Some base)
              = match py_int text base with Ok v => v | Raise _ => -1 end).
  { unfold from_bit_dt, explicit_base.
    destruct text as [|c tl]; [congruence|]. cbn [truthy negb].
    now replace ((2 <=? base) && (base <=? 36)) with true
      by (symmetry; apply andb_true_iff; split; apply Z.leb_le; lia). }
  rewrite F, Hint. split.
  - intros [P|B].
    + now rewrite P.
    + replace (base ^ max_str_digits <=? Z.abs n) with false
        by (symmetry; now apply Z.leb_gt).
      now rewrite andb_false_r.
  - intros P B. rewrite P.
    now replace (base ^ max_str_digits <=? Z.abs n) with true
      by (symmetry; now apply Z.leb_le).
Qed.

(** C7: for every integer and every base from 2 to 36, [to_bit_dt] with
    enough fuel for its loop gives a numeral; zero gives ["0"], a negative
    integer a numeral that starts with ['-'].  [from_bit_dt] with the same
    base reads the numeral back as the integer when the base is a power of
    two or the integer is below the 4300th power of the base in absolute
    value, that is, when its numeral has at most 4300 digits; in another
    base a longer numeral is refused by [int], and [from_bit_dt] gives -1.
    For 1718323456789 the round trip holds at the bases 2, 10, 16, 32 and
    36. *)
Theorem to_bit_dt_from_bit_dt (n base : Z) (timezone : option str) :
  2 <= base <= 36 ->
  (exists text,
     (forall fuel, (Z.to_nat (Z.log2 (Z.abs n)) + 2 <= fuel)%nat ->
                   to_bit_dt fuel n timezone base = Some text)
     /\ (within_digit_limit base n -> from_bit_dt text (Some base) = n)
     /\ (is_power_of_two base = false -> base ^ max_str_digits <= Z.abs n ->
         from_bit_dt text (Some base) = -1)
     /\ (n = 0 -> text = lit "0")
     /\ (n < 0 -> exists digits, text = "-"%char :: digits))
  /\ Forall (fun b =>
               exists text,
                 to_bit_dt 64 1718323456789 timezone b = Some text
                 /\ from_bit_dt text (Some b) = 1718323456789)
            [2; 10; 16; 32; 36].
Proof.
  intros Hb. split.
  - destruct (encode_base_spec n base Hb)
      as (text & Henc & Hint & Hne & H0 & Hneg & _).
    destruct (from_bit_dt_encode_base n base text Hb Hne Hint) as [Hin Hout].
    exists text. split; [|split; [|split; [|split]]]; try assumption.
    intros fuel Hf. unfold to_bit_dt, MODE_FULL_BITDT, MODE_AUTO.
    replace (base =? -1) with false by (symmetry; apply Z.eqb_neq; lia).
    replace (base =? 0) with false by (symmetry; apply Z.eqb_neq; lia).
    replace ((2 <=? base) && (base <=? 36)) with true
      by (symmetry; apply andb_true_iff; split; apply Z.leb_le; lia).
    now rewrite (Henc fuel Hf).
  - repeat constructor; eexists; (split; [reflexivity|vm_compute; reflexivity]).
Qed.

End WithCalendar.

Lemma to_bit_dt_from_bit_dt_witness :
  exists text,
    @to_bit_dt no_calendar 64 (-255) None 36 = Some text
    /\ @from_bit_dt no_calendar text (Some 36) = -255
    /\ exists digits, text = "-"%char :: digits.
Proof.
  destruct (@to_bit_dt_from_bit_dt no_calendar (-255) 36 None ltac:(lia))
    as [(text & Henc & Hdec & _ & _ & Hneg) _].
  exists text. split; [|split].
  - apply Henc. vm_compute. lia.
  - apply Hdec. right. apply Z.lt_le_trans with (36 ^ 2); [reflexivity|].
    apply Z.pow_le_mono_r; [lia|unfold max_str_digits; lia].
  - apply Hneg. lia.
Defined.

(** C7, a numeral beyond the limit: in base 10 the numeral of the 4300th
    power of 10 has 4301 digits, and [from_bit_dt] with the base 10 gives
    -1 for it, not the integer. *)
Lemma to_bit_dt_from_bit_dt_beyond_limit :
  exists text,
    (forall fuel, (Z.to_nat (Z.log2 (Z.abs (10 ^ 4300))) + 2 <= fuel)%nat ->
                  @to_bit_dt no_calendar fuel (10 ^ 4300) None 10 = Some text)
    /\ len text = 4301
    /\ @from_bit_dt no_calendar text (Some 10) = -1
    /\ 0 < 10 ^ 4300.
Proof.
  set (n := 10 ^ 4300).
  assert (Hn : 0 < n) by (apply Z.pow_pos_nonneg; lia).
  destruct (encode_base_spec n 10 ltac:(lia))
    as (text & Henc & Hint & Hne & _ & _ & Hlen).
  destruct (@from_bit_dt_encode_base no_calendar n 10 text ltac:(lia) Hne Hint)
    as [_ Hout].
  exists text. split; [|split; [|split]].
  - intros fuel Hf. unfold to_bit_dt, MODE_FULL_BITDT, MODE_AUTO.
    change (10 =? -1) with false. change (10 =? 0) with false.
    change ((2 <=? 10) && (10 <=? 36)) with true. cbv iota.
    now rewrite (Henc fuel Hf).
  - destruct (Hlen Hn) as [Lo Hi]. unfold n in Lo, Hi.
    apply Z.pow_le_mono_r_iff in Lo; [|lia|lia].
    apply Z.pow_lt_mono_r_iff in Hi; [lia|lia|apply len_nonneg].
  - apply Hout; [reflexivity|].
    rewrite Z.abs_eq by lia. apply Z.le_refl.
  - exact Hn.
Qed.

End NumeralFacts.

(** ** Decoding without a base *)

Module AutoFacts.
Import Checks AutoDefs NumeralDefs.
Import BitDTEpoch AutoSpec.

(** *** The three flags of the guess *)

Lemma guess_step_flags (flags : bool * bool * bool) (c : ascii) :
  _guess_most_likely_base_step flags c
  = let '(a, b, h) := flags in (a || sets_36 c, b || sets_32 c, h && keeps_hex c).
Proof.
  destruct flags as [[a b] h].
  unfold _guess_most_likely_base_step, sets_36, sets_32, keeps_hex.
  fold (in_G_Z c) (in_W_Z c) (in_A_F c) (in_0_9 c).
  destruct (in_G_Z c), (in_W_Z c), (in_A_F c), (in_0_9 c), a, b, h; reflexivity.
Qed.

Lemma guess_fold (l : str) (a b h : bool) :
  fold_left _guess_most_likely_base_step l (a, b, h)
  = (a || existsb sets_36 l, b || existsb sets_32 l, h && forallb keeps_hex l).
Proof.
  revert a b h. induction l as [|c l IH]; intros a b h.
  - simpl. now rewrite !orb_false_r, andb_true_r.
  - cbn [fold_left existsb forallb]. rewrite guess_step_flags, IH.
    now rewrite !orb_assoc, andb_assoc.
Qed.

Lemma existsb_flat_map {A B} (p : B -> bool) (f : A -> list B) (l : list A) :
  existsb p (flat_map f l) = existsb (fun x => existsb p (f x)) l.
Proof.
  induction l as [|x l IH]; [reflexivity|].
  simpl. now rewrite existsb_app, IH.
Qed.

Lemma forallb_flat_map {A B} (p : B -> bool) (f : A -> list B) (l : list A) :
  forallb p (flat_map f l) = forallb (fun x => forallb p (f x)) l.
Proof.
  induction l as [|x l IH]; [reflexivity|].
  simpl. now rewrite forallb_app, IH.
Qed.

Lemma existsb_ext_on {A} (p q r : A -> bool) (l : list A) :
  forallb p l = true -> (forall x, p x = true -> q x = r x) ->
  existsb q l = existsb r l.
Proof.
  intros Hall Hext. induction l as [|x l IH]; [reflexivity|].
  simpl in *. apply andb_true_iff in Hall. destruct Hall as [Hx Hl].
  now rewrite (Hext x Hx), IH.
Qed.

Lemma forallb_ext_on {A} (p q r : A -> bool) (l : list A) :
  forallb p l = true -> (forall x, p x = true -> q x = r x) ->
  forallb q l = forallb r l.
Proof.
  intros Hall Hext. induction l as [|x l IH]; [reflexivity|].
  simpl in *. apply andb_true_iff in Hall. destruct Hall as [Hx Hl].
  now rewrite (Hext x Hx), IH.
Qed.

(** *** Facts on single characters, checked on all 256 of them *)

Lemma symbol_checks : all_ascii symbol_check = true.
Proof. vm_compute. reflexivity. Qed.

Lemma symbol_facts (c : ascii) :
  is_symbol c = true ->
  existsb sets_36 (upper_char c) = is_W_to_Z c
  /\ existsb sets_32 (upper_char c) = is_G_to_V c
  /\ forallb keeps_hex (upper_char c) = is_hex c
  /\ upper_in_alphabet c = true
  /\ digit_value c < 36
  /\ wordish c = true.
Proof.
  intros Hs. pose proof (CompressFacts.all_ascii_spec _ symbol_checks c) as H.
  unfold symbol_check in H. rewrite Hs in H. cbn [implb] in H.
  repeat (apply andb_true_iff in H; destruct H as [H ?H]).
  repeat match goal with
         | X : Bool.eqb _ _ = true |- _ => apply Bool.eqb_prop in X
         end.
  apply Z.ltb_lt in H3. tauto.
Qed.

Lemma upper_in_alphabet_facts (c : ascii) :
  upper_in_alphabet c = true ->
  wordish c = true /\ (is_symbol c = false -> digit_value c = 37).
Proof.
  intros Hu. pose proof (CompressFacts.all_ascii_spec _ symbol_checks c) as H.
  unfold symbol_check in H. rewrite Hu in H.
  repeat (apply andb_true_iff in H; destruct H as [H ?H]).
  cbn [implb] in H1. apply andb_true_iff in H1. destruct H1 as [Hw Hd].
  split; [assumption|]. intros Hn. rewrite Hn in Hd. now apply Z.eqb_eq in Hd.
Qed.

Lemma W_to_Z_value (c : ascii) : is_W_to_Z c = true -> 32 <= digit_value c.
Proof.
  intros Hw. pose proof (CompressFacts.all_ascii_spec _ symbol_checks c) as H.
  unfold symbol_check in H. rewrite Hw in H.
  repeat (apply andb_true_iff in H; destruct H as [H ?H]).
  now apply Z.leb_le in H0.
Qed.

(** *** [int] on strings without white space, signs and underscores *)

Lemma py_int_raises_value_error (s : str) (base : Z) (e : exn) :
  py_int s base = Raise e -> e = ValueError.
Proof.
  unfold py_int.
  repeat match goal with
         | |- context [if ?b then _ else _] => destruct b
         | |- context [match ?x with _ => _ end] => destruct x
         end; congruence.
Qed.

Lemma scan_digits_stuck (base : Z) (s : str) :
  forallb wordish s = true ->
  (exists c, In c s /\ base <= digit_value c) ->
  forall digits acc,
    match scan_digits base s false digits acc with
    | Some (_, _, rest) => forallb is_space rest = false
    | None => True
    end.
Proof.
  induction s as [|x s IH]; intros Hall [c [Hin Hc]] digits acc.
  - destruct Hin.
  - cbn [forallb] in Hall. apply andb_true_iff in Hall. destruct Hall as [Hx Hs].
    unfold wordish in Hx.
    repeat (apply andb_true_iff in Hx; destruct Hx as [Hx ?Hx]).
    repeat match goal with
           | X : negb _ = true |- _ => apply negb_true_iff in X
           end.
    cbn [scan_digits]. rewrite Hx0.
    destruct (Z.ltb_spec (digit_value x) base) as [Hd|Hd].
    + apply IH; [assumption|]. exists c. split; [|assumption].
      destruct Hin as [->|Hin]; [lia|assumption].
    + cbn [forallb]. now rewrite Hx.
Qed.

Lemma wordish_head (c : ascii) (s : str) :
  wordish c = true ->
  lstrip (c :: s) = c :: s
  /\ Ascii.eqb c "+" = false /\ Ascii.eqb c "-" = false
  /\ Ascii.eqb c "_" = false.
Proof.
  unfold wordish. intros H.
  repeat (apply andb_true_iff in H; destruct H as [H ?H]).
  repeat match goal with
         | X : negb _ = true |- _ => apply negb_true_iff in X
         end.
  cbn [lstrip]. rewrite H. auto.
Qed.

Lemma py_int_after_prefix (base : Z) (s s3 : str) :
  forallb wordish s = true -> s <> [] ->
  strip_base_prefix base s = s3 ->
  forallb wordish s3 = true ->
  (exists c, In c s3 /\ base <= digit_value c) ->
  py_int s base = Raise ValueError.
Proof.
  intros Hall Hne Hs3 Hall3 Hbad. unfold py_int.
  destruct ((base <? 2) || (base >? 36)); [reflexivity|].
  destruct s as [|x s]; [congruence|].
  cbn [forallb] in Hall. apply andb_true_iff in Hall. destruct Hall as [Hx _].
  destruct (wordish_head x s Hx) as (-> & -> & -> & _).
  rewrite Hs3. destruct s3 as [|y s3]; [reflexivity|].
  pose proof Hall3 as Hy. cbn [forallb] in Hy. apply andb_true_iff in Hy.
  destruct Hy as [Hy _]. destruct (wordish_head y s3 Hy) as (_ & _ & _ & ->).
  pose proof (scan_digits_stuck base (y :: s3) Hall3 Hbad 0 0) as Hscan.
  destruct (scan_digits base (y :: s3) false 0 0) as [[[v d] rest]|]; [|reflexivity].
  destruct (d =? 0); [reflexivity|].
  destruct (negb (is_power_of_two base) && (d >? max_str_digits)); [reflexivity|].
  now rewrite Hscan.
Qed.

Lemma strip_base_prefix_cases (base : Z) (s : str) :
  strip_base_prefix base s = s
  \/ exists z p rest, s = z :: p :: rest /\ digit_value z = 0
                      /\ digit_value p < 37
                      /\ (strip_base_prefix base s = rest
                          \/ exists u, rest = u :: strip_base_prefix base s).
Proof.
  unfold strip_base_prefix.
  destruct s as [|z [|p rest]]; [now left|now left|].
  destruct (Ascii.eqb z "0") eqn:Ez; [|now left].
  apply Ascii.eqb_eq in Ez. subst z. cbn [andb].
  match goal with |- context [if ?b then _ else _] => destruct b eqn:Ep end;
    [|now left].
  right. exists "0"%char, p, rest. split; [reflexivity|]. split; [reflexivity|].
  split.
  - repeat (apply orb_true_iff in Ep; destruct Ep as [Ep|Ep]);
      apply andb_true_iff in Ep; destruct Ep as [_ Ep];
      apply orb_true_iff in Ep; destruct Ep as [Ep|Ep];
      apply Ascii.eqb_eq in Ep; subst p; vm_compute; reflexivity.
  - destruct rest as [|u rest']; [now left|].
    destruct (Ascii.eqb u "_"); [right; now exists u|now left].
Qed.

Lemma forallb_tail {A} (p : A -> bool) (x : A) (l : list A) :
  forallb p (x :: l) = true -> forallb p l = true.
Proof. simpl. intros H. now apply andb_true_iff in H. Qed.

(** A character that is a digit in no base makes [int] fail in every base. *)
Lemma py_int_no_digit (base : Z) (s : str) (c : ascii) :
  forallb wordish s = true -> In c s -> digit_value c = 37 ->
  py_int s base = Raise ValueError.
Proof.
  intros Hall Hin Hc.
  destruct (Z.ltb_spec 36 base) as [Hbig|Hb].
  { unfold py_int. replace (base >? 36) with true by (symmetry; apply Z.gtb_lt; lia).
    now rewrite orb_true_r. }
  assert (Hne : s <> []) by (intros ->; destruct Hin).
  destruct (strip_base_prefix_cases base s)
    as [E | (z & p & rest & -> & Hz & Hp & Hcase)].
  - apply (py_int_after_prefix base s s); try assumption.
    exists c. split; [assumption|lia].
  - assert (Hrest : In c rest).
    { destruct Hin as [->|[->|Hin]]; [lia|lia|assumption]. }
    assert (Wrest : forallb wordish rest = true)
      by (apply forallb_tail in Hall; now apply forallb_tail in Hall).
    destruct Hcase as [E | [u Eu]].
    + apply (py_int_after_prefix base _ rest); try assumption.
      exists c. split; [assumption|lia].
    + exfalso. rewrite Eu in Wrest. cbn [forallb] in Wrest.
      apply andb_true_iff in Wrest. destruct Wrest as [Wu _].
      clear - Eu Wu. unfold strip_base_prefix in Eu.
      destruct (Ascii.eqb z "0" && _) in Eu.
      * cbn in Eu. destruct rest as [|u' rest']; [discriminate|].
        destruct (Ascii.eqb u' "_") eqn:Eu'.
        -- assert (u' = u) by congruence. subst u'.
           unfold wordish in Wu. rewrite Eu' in Wu.
           now rewrite andb_false_r in Wu.
        -- apply (f_equal (@List.length ascii)) in Eu.
           simpl in Eu. lia.
      * apply (f_equal (@List.length ascii)) in Eu. simpl in Eu. lia.
Qed.

Lemma strip_base_prefix_other (base : Z) (s : str) :
  base <> 16 -> base <> 8 -> base <> 2 -> strip_base_prefix base s = s.
Proof.
  intros H16 H8 H2. unfold strip_base_prefix.
  destruct s as [|z [|p rest]]; try reflexivity.
  apply Z.eqb_neq in H16, H8, H2. rewrite H16, H8, H2.
  cbn [andb orb]. now rewrite andb_false_r.
Qed.

(** In base 32 there is no prefix, and a symbol from W to Z is no digit. *)
Lemma py_int_32_W_to_Z (s : str) :
  forallb wordish s = true -> existsb is_W_to_Z s = true ->
  py_int s 32 = Raise ValueError.
Proof.
  intros Hall Hex. apply existsb_exists in Hex. destruct Hex as (c & Hin & Hc).
  apply (py_int_after_prefix 32 s s); try assumption.
  - intros ->. destruct Hin.
  - apply strip_base_prefix_other; lia.
  - exists c. split; [assumption|now apply W_to_Z_value].
Qed.

(** In base 36 every non-empty string of symbols within the limit is a
    numeral. *)
Lemma py_int_36_symbols (s : str) :
  forallb is_symbol s = true -> s <> [] -> len s <= max_str_digits ->
  exists v, py_int s 36 = Ok v.
Proof.
  intros Hall Hne Hlen.
  assert (D : forallb (NumeralDefs.is_digit_of 36) s = true).
  { rewrite forallb_forall in *. intros c Hc.
    destruct (symbol_facts c (Hall c Hc)) as (_ & _ & _ & _ & Hd & Hw).
    unfold NumeralDefs.is_digit_of. apply andb_true_iff. split.
    - now apply Z.ltb_lt.
    - unfold wordish in Hw. apply andb_true_iff in Hw. tauto. }
  destruct s as [|c s]; [congruence|].
  assert (Hw : wordish c = true).
  { cbn [forallb] in Hall. apply andb_true_iff in Hall.
    now apply symbol_facts. }
  destruct (wordish_head c s Hw) as (L & P & M & U).
  assert (S : scan_digits 36 (c :: s) false 0 0
              = Some (NumeralDefs.eval 36 (c :: s) 0, 0 + len (c :: s), [])).
  { rewrite <- (app_nil_r (c :: s)) at 1.
    now rewrite NumeralFacts.scan_digits_app by (assumption || now right). }
  unfold py_int. change ((36 <? 2) || (36 >? 36)) with false. cbv iota.
  rewrite L, P, M.
  rewrite strip_base_prefix_other by lia.
  rewrite U, S.
  replace (0 + len (c :: s) =? 0) with false
    by (symmetry; apply Z.eqb_neq; unfold len; simpl; lia).
  replace (0 + len (c :: s) >? max_str_digits) with false
    by (symmetry; rewrite Z.gtb_ltb; apply Z.ltb_ge; lia).
  rewrite andb_false_r.
  cbn [forallb]. eexists. reflexivity.
Qed.

(** *** The guess and the shape, code against specification *)

Lemma guess_code (text : str) :
  _guess_most_likely_base text
  = if forallb keeps_hex (upper text) then 16
    else if existsb sets_36 (upper text) then 36
    else if existsb sets_32 (upper text) then 32
    else 36.
Proof.
  unfold _guess_most_likely_base. rewrite guess_fold. reflexivity.
Qed.

Lemma guess_agrees (text : str) :
  forallb is_symbol text = true ->
  _guess_most_likely_base text = guess_base text
  \/ (_guess_most_likely_base text = 36 /\ guess_base text = 32
      /\ existsb is_W_to_Z text = true).
Proof.
  intros Hall. rewrite guess_code. unfold guess_base, upper.
  rewrite forallb_flat_map, !existsb_flat_map.
  rewrite (forallb_ext_on is_symbol
             (fun c => forallb keeps_hex (upper_char c)) is_hex text Hall)
    by (intros c Hc; apply (symbol_facts c Hc)).
  rewrite (existsb_ext_on is_symbol
             (fun c => existsb sets_36 (upper_char c)) is_W_to_Z text Hall)
    by (intros c Hc; apply (symbol_facts c Hc)).
  rewrite (existsb_ext_on is_symbol
             (fun c => existsb sets_32 (upper_char c)) is_G_to_V text Hall)
    by (intros c Hc; apply (symbol_facts c Hc)).
  destruct (forallb is_hex text), (existsb is_W_to_Z text),
    (existsb is_G_to_V text); auto.
Qed.

Lemma is_base_encoded_code (text : str) :
  _is_base_encoded text
  = (6 <=? len text) && (len text <=? 12) && forallb upper_in_alphabet text.
Proof.
  unfold _is_base_encoded, upper. rewrite forallb_flat_map.
  fold upper_in_alphabet.
  destruct (Z.ltb_spec (len text) 6), (Z.gtb_spec (len text) 12),
    (Z.leb_spec 6 (len text)), (Z.leb_spec (len text) 12);
    try lia; reflexivity.
Qed.

Lemma shape_is_base_encoded (text : str) :
  numeral_shape text = true -> _is_base_encoded text = true.
Proof.
  rewrite is_base_encoded_code. unfold numeral_shape. intros H.
  apply andb_true_iff in H. destruct H as [-> H].
  cbn [andb]. rewrite forallb_forall in *. intros c Hc.
  apply (symbol_facts c (H c Hc)).
Qed.

Lemma base_encoded_not_shape (text : str) (base : Z) :
  _is_base_encoded text = true -> numeral_shape text = false ->
  py_int text base = Raise ValueError.
Proof.
  rewrite is_base_encoded_code. unfold numeral_shape. intros H Hn.
  apply andb_true_iff in H. destruct H as [Hlen Hup]. rewrite Hlen in Hn.
  cbn [andb] in Hn.
  assert (W : forallb wordish text = true).
  { rewrite forallb_forall in *. intros c Hc.
    apply (upper_in_alphabet_facts c (Hup c Hc)). }
  assert (X : exists c, In c text /\ is_symbol c = false).
  { clear - Hn. induction text as [|x text IH]; [discriminate|].
    cbn [forallb] in Hn. destruct (is_symbol x) eqn:Ex.
    - destruct (IH Hn) as (c & Hin & Hc). exists c. split; [now right|assumption].
    - exists x. split; [now left|assumption]. }
  destruct X as (c & Hin & Hc).
  apply (py_int_no_digit base text c W Hin).
  rewrite forallb_forall in Hup.
  now apply (upper_in_alphabet_facts c (Hup c Hin)).
Qed.

(** *** The attempts, code against specification *)

Section WithCalendar.
Context {calendar : Calendar}.

Lemma loop_first_success (text : str) (likely : Z) (bases : list Z) :
  _decode_base_auto_loop text likely bases
  = Ok (first_success text (filter (fun b => negb (b =? likely)) bases)).
Proof.
  induction bases as [|b bases IH]; [reflexivity|].
  cbn [_decode_base_auto_loop filter]. destruct (b =? likely); cbn [negb].
  - exact IH.
  - cbn [first_success]. destruct (py_int text b) as [v|e] eqn:E; [reflexivity|].
    apply py_int_raises_value_error in E. subst e. exact IH.
Qed.

Lemma first_success_again (text : str) (likely : Z) (e : exn) (bases : list Z) :
  py_int text likely = Raise e ->
  first_success text (filter (fun b => negb (b =? likely)) bases)
  = first_success text bases.
Proof.
  intros Hfail. induction bases as [|b bases IH]; [reflexivity|].
  cbn [filter first_success]. destruct (Z.eqb_spec b likely) as [->|Hne]; cbn [negb].
  - now rewrite Hfail.
  - cbn [first_success]. now rewrite IH.
Qed.

Lemma first_success_ok (text : str) (base v : Z) (bases : list Z) :
  py_int text base = Ok v -> first_success text (base :: bases) = Some v.
Proof. intros H. cbn [first_success]. now rewrite H. Qed.

Lemma first_success_fail (text : str) (base : Z) (e : exn) (bases : list Z) :
  py_int text base = Raise e ->
  first_success text (base :: bases) = first_success text bases.
Proof. intros H. cbn [first_success]. now rewrite H. Qed.

Lemma decode_base_auto_first_success (text : str) :
  _decode_base_auto text
  = Ok match first_success text (_guess_most_likely_base text :: [36; 32; 16; 10]) with
       | Some v => v
       | None => _from_full_bit_dt text
       end.
Proof.
  unfold _decode_base_auto.
  destruct (py_int text (_guess_most_likely_base text)) as [v|e] eqn:E.
  - now rewrite (first_success_ok _ _ _ _ E).
  - pose proof (py_int_raises_value_error _ _ _ E). subst e.
    rewrite loop_first_success, (first_success_again _ _ _ _ E).
    rewrite (first_success_fail _ _ _ _ E). cbn [rbind].
    destruct (first_success text [36; 32; 16; 10]); reflexivity.
Qed.

Lemma from_bit_dt_none (text : str) :
  from_bit_dt text None = decode_auto text.
Proof.
  unfold from_bit_dt, decode_auto. cbn [explicit_base].
  destruct text as [|c0 text0].
  { cbn [truthy negb]. reflexivity. }
  cbn [truthy negb]. set (text := c0 :: text0).
  destruct (negb (_from_full_bit_dt text =? -1)) eqn:Efull; [reflexivity|].
  assert (Hfull : _from_full_bit_dt text = -1)
    by (apply negb_false_iff, Z.eqb_eq in Efull; exact Efull).
  destruct (numeral_shape text) eqn:Eshape.
  - rewrite (shape_is_base_encoded text Eshape), decode_base_auto_first_success.
    assert (Hsym : forallb is_symbol text = true)
      by (unfold numeral_shape in Eshape; apply andb_true_iff in Eshape; tauto).
    destruct (guess_agrees text Hsym) as [-> | (-> & -> & Hw)]; [reflexivity|].
    assert (W : forallb wordish text = true).
    { rewrite forallb_forall in *. intros c Hc. apply (symbol_facts c (Hsym c Hc)). }
    assert (Hlen : len text <= max_str_digits).
    { unfold numeral_shape in Eshape. apply andb_true_iff in Eshape.
      destruct Eshape as [Eshape _]. apply andb_true_iff in Eshape.
      destruct Eshape as [_ Eshape]. apply Z.leb_le in Eshape.
      unfold max_str_digits. lia. }
    destruct (py_int_36_symbols text Hsym ltac:(discriminate) Hlen) as [v Hv].
    rewrite (first_success_ok _ _ _ _ Hv).
    rewrite (first_success_fail _ _ _ _ (py_int_32_W_to_Z text W Hw)).
    now rewrite (first_success_ok _ _ _ _ Hv).
  - destruct (_is_base_encoded text) eqn:Ecode; [|reflexivity].
    rewrite decode_base_auto_first_success.
    rewrite !(first_success_fail _ _ _ _ (base_encoded_not_shape text _ Ecode Eshape)).
    exact Hfull.
Qed.

Lemma guess_on_shape (text : str) :
  numeral_shape text = true ->
  _guess_most_likely_base text
  = if forallb is_hex text then 16
    else if existsb is_W_to_Z text then 36
    else if existsb is_G_to_V text then 32
    else 36.
Proof.
  intros Eshape.
  assert (Hall : forallb is_symbol text = true)
    by (unfold numeral_shape in Eshape; apply andb_true_iff in Eshape; tauto).
  rewrite guess_code. unfold upper.
  rewrite forallb_flat_map, !existsb_flat_map.
  rewrite (forallb_ext_on is_symbol
             (fun c => forallb keeps_hex (upper_char c)) is_hex text Hall)
    by (intros c Hc; apply (symbol_facts c Hc)).
  rewrite (existsb_ext_on is_symbol
             (fun c => existsb sets_36 (upper_char c)) is_W_to_Z text Hall)
    by (intros c Hc; apply (symbol_facts c Hc)).
  rewrite (existsb_ext_on is_symbol
             (fun c => existsb sets_32 (upper_char c)) is_G_to_V text Hall)
    by (intros c Hc; apply (symbol_facts c Hc)).
  reflexivity.
Qed.

(** C9: without a base, or with the base [MODE_AUTO], [from_bit_dt] is what
    the specification describes: the full-text decoding first; when that
    gives -1 and the text has from 6 to 12 characters, all symbols of the
    alphabet in either case, the first success among the guessed base and
    then 36, 32, 16, 10, and after them the full-text decoding again; in
    every other case -1.  On such a text the guess of the code is 16 for
    pure hexadecimal symbols, else 36 with a symbol from W to Z, else 32
    with a symbol from G to V, else 36. *)
Theorem from_bit_dt_auto (text : str) :
  from_bit_dt text None = decode_auto text
  /\ from_bit_dt text (Some MODE_AUTO) = decode_auto text
  /\ (numeral_shape text = true ->
      _is_base_encoded text = true
      /\ _guess_most_likely_base text
         = if forallb is_hex text then 16
           else if existsb is_W_to_Z text then 36
           else if existsb is_G_to_V text then 32
           else 36).
Proof.
  split; [apply from_bit_dt_none|]. split.
  - change (from_bit_dt text (Some MODE_AUTO)) with (from_bit_dt text None).
    apply from_bit_dt_none.
  - intros Eshape. split.
    + now apply shape_is_base_encoded.
    + now apply guess_on_shape.
Qed.

End WithCalendar.

Lemma from_bit_dt_auto_witness :
  _is_base_encoded (lit "1ag2bZ") = true
  /\ _guess_most_likely_base (lit "1ag2bZ") = 36
  /\ @from_bit_dt no_calendar (lit "1ag2bZ") None = 78011855.
Proof.
  destruct (@from_bit_dt_auto no_calendar (lit "1ag2bZ")) as (Hnone & _ & Hshape).
  destruct (Hshape eq_refl) as [Hcode Hguess].
  split; [exact Hcode|]. split; [exact Hguess|].
  rewrite Hnone. reflexivity.
Defined.

End AutoFacts.

(** ** Round trip of [encode] and [decode] *)

Module RoundTripFacts.
Import Checks RoundTripDefs.
Import BitDT PackedDefs PackedFacts.

(** *** The fields of a packed value *)

Lemma field_extract (p w s : Z) :
  0 <= w -> 0 <= s ->
  Z.shiftr (Z.land p (Z.shiftl (Z.ones w) s)) s = (p / 2 ^ s) mod 2 ^ w.
Proof.
  intros Hw Hs.
  rewrite Z.shiftr_land, Z.shiftr_shiftl_l, Z.sub_diag, Z.shiftl_0_r by lia.
  rewrite Z.land_ones, Z.shiftr_div_pow2 by lia. reflexivity.
Qed.

Lemma getters_weighted (x : components) (tag : Z) :
  in_range x -> 0 <= tag < 256 ->
  let '(y, mo, d, h, mi, s, ms) := x in
  let p := weighted x tag in
  Z.shiftr (Z.land p YEAR_MASK) 44 = y
  /\ Z.shiftr (Z.land p MONTH_MASK) 40 = mo
  /\ Z.shiftr (Z.land p DAY_MASK) 35 = d
  /\ Z.shiftr (Z.land p HOUR_MASK) 30 = h
  /\ Z.shiftr (Z.land p MINUTE_MASK) 24 = mi
  /\ Z.shiftr (Z.land p SECOND_MASK) 18 = s
  /\ Z.shiftr (Z.land p MILLIS_MASK) 8 = ms.
Proof.
  destruct x as [[[[[[y mo] d] h] mi] s] ms].
  unfold in_range, weighted.
  intros (Hy & Hmo & Hd & Hh & Hmi & Hs & Hms) Htag.
  change YEAR_MASK with (Z.shiftl (Z.ones 20) 44).
  change MONTH_MASK with (Z.shiftl (Z.ones 4) 40).
  change DAY_MASK with (Z.shiftl (Z.ones 5) 35).
  change HOUR_MASK with (Z.shiftl (Z.ones 5) 30).
  change MINUTE_MASK with (Z.shiftl (Z.ones 6) 24).
  change SECOND_MASK with (Z.shiftl (Z.ones 6) 18).
  change MILLIS_MASK with (Z.shiftl (Z.ones 10) 8).
  rewrite !field_extract by lia.
  repeat split.
  all: Z.div_mod_to_equations; lia.
Qed.

(** The tag of components in range: the day is not 0, so the value is a
    date, a date with an hour, or full. *)
Lemma tag_in_range (x : components) :
  in_range x ->
  let '(y, mo, d, h, mi, s, ms) := x in
  (tag_of x = TYPE_DATE_ONLY /\ h = 0 /\ mi = 0 /\ s = 0 /\ ms = 0)
  \/ (tag_of x = TYPE_DATE_HOUR /\ h <> 0 /\ mi = 0 /\ s = 0 /\ ms = 0)
  \/ (tag_of x = TYPE_FULL /\ (mi <> 0 \/ s <> 0 \/ ms <> 0)).
Proof.
  destruct x as [[[[[[y mo] d] h] mi] s] ms].
  unfold in_range, tag_of, _determine_date_type.
  intros (Hy & Hmo & Hd & Hh & Hmi & Hs & Hms).
  replace (d =? 0) with false by (symmetry; apply Z.eqb_neq; lia).
  rewrite !andb_false_r. cbn [andb].
  destruct (Z.eqb_spec h 0), (Z.eqb_spec mi 0), (Z.eqb_spec s 0), (Z.eqb_spec ms 0);
    cbn [andb negb]; intuition lia.
Qed.

(** What [encode] reads from a value built from components in range. *)
Lemma getters_of_components (x : components) (tz : option str) :
  in_range x ->
  let '(y, mo, d, h, mi, s, ms) := x in
  let v := of_components x tz in
  _date_type v = tag_of x
  /\ get_year v = y /\ get_month v = mo /\ get_day v = d
  /\ get_hour v = (if tag_of x =? TYPE_DATE_ONLY then -1 else h)
  /\ get_minute v = (if tag_of x =? TYPE_DATE_ONLY then -1 else mi)
  /\ get_second v = (if tag_of x =? TYPE_DATE_ONLY then -1 else s)
  /\ get_millis v = (if tag_of x =? TYPE_DATE_ONLY then -1 else ms).
Proof.
  intros Hx. pose proof (packed_weighted x tz Hx) as Hp.
  pose proof (tag_in_range x Hx) as Ht.
  assert (Hd : _date_type (of_components x tz) = tag_of x)
    by (destruct x as [[[[[[y mo] d] h] mi] s] ms]; reflexivity).
  assert (Hb : 0 <= tag_of x < 256).
  { destruct x as [[[[[[y mo] d] h] mi] s] ms].
    pose proof (determine_date_type_range y mo d h mi s ms). unfold tag_of. lia. }
  pose proof (getters_weighted x (tag_of x) Hx Hb) as Hg.
  destruct x as [[[[[[y mo] d] h] mi] s] ms].
  cbv zeta in Hg. destruct Hg as (G1 & G2 & G3 & G4 & G5 & G6 & G7).
  unfold get_year, get_month, get_day, get_hour, get_minute, get_second, get_millis.
  rewrite Hd, Hp, G1, G2, G3, G4, G5, G6, G7.
  split; [reflexivity|].
  destruct Ht as [(-> & -> & -> & -> & ->) | [(-> & ? & -> & -> & ->) | (-> & ?)]];
    repeat split; reflexivity.
Qed.

(** *** The alphabets *)

Lemma alphabets_ok :
  alphabet_ok YEAR_CHARS = true /\ alphabet_ok MONTHS = true
  /\ alphabet_ok DAYS = true /\ alphabet_ok HOURS = true
  /\ alphabet_ok MINUTES = true
  /\ alphabet_ok ThousandCounter.FIRST_CHAR = true
  /\ alphabet_ok ThousandCounter.SECOND_CHAR = true.
Proof. repeat split; vm_compute; reflexivity. Qed.

Lemma alphabet_char (alphabet : str) (i : Z) :
  alphabet_ok alphabet = true -> 0 <= i < len alphabet ->
  str_index alphabet i = Ok (char_at alphabet i)
  /\ str_find alphabet (char_at alphabet i) = i
  /\ plain (char_at alphabet i) = true.
Proof.
  intros Hok Hi.
  pose proof (range_forallb_spec _ _ Hok i Hi) as H. cbv beta in H.
  destruct (str_index alphabet i) as [c|]; [|discriminate].
  repeat (apply andb_true_iff in H; destruct H as [H ?H]).
  apply Ascii.eqb_eq in H. apply Z.eqb_eq in H1. subst c. auto.
Qed.

Lemma plain_facts (c : ascii) :
  plain c = true ->
  Ascii.eqb c "0" = false /\ is_sign c = false
  /\ _is_valid_encoded_char c = true /\ CompressDefs.is_run_symbol c = false.
Proof.
  unfold plain. intros H.
  repeat (apply andb_true_iff in H; destruct H as [H ?H]).
  repeat match goal with
         | X : negb _ = true |- _ => apply negb_true_iff in X
         end.
  auto.
Qed.

Lemma encode_year_text (y : Z) :
  0 <= y <= 226980 -> encode_year y = Ok (year_text y).
Proof.
  intros Hy. unfold encode_year.
  replace ((y <? 0) || (y >=? 226981)) with false
    by (symmetry; apply orb_false_iff; split;
        [apply Z.ltb_ge|rewrite Z.geb_leb; apply Z.leb_gt]; lia).
  destruct alphabets_ok as (Hok & _).
  assert (L : len YEAR_CHARS = 61) by reflexivity.
  destruct (alphabet_char YEAR_CHARS (y / (61 * 61)) Hok) as (-> & _).
  { rewrite L. split; [apply Z.div_pos; lia|apply Z.div_lt_upper_bound; lia]. }
  destruct (alphabet_char YEAR_CHARS ((y / 61) mod 61) Hok) as (-> & _).
  { rewrite L. apply Z.mod_pos_bound. lia. }
  destruct (alphabet_char YEAR_CHARS (y mod 61) Hok) as (-> & _).
  { rewrite L. apply Z.mod_pos_bound. lia. }
  reflexivity.
Qed.

Lemma encode_milliseconds_text (ms : Z) :
  0 <= ms <= 999 -> ThousandCounter.encode_milliseconds ms = Ok (millis_text ms).
Proof.
  intros Hms. unfold ThousandCounter.encode_milliseconds.
  replace ((ms <? 0) || (ms >? 999)) with false
    by (symmetry; apply orb_false_iff; split;
        [apply Z.ltb_ge|rewrite Z.gtb_ltb; apply Z.ltb_ge]; lia).
  cbv zeta.
  change (len ThousandCounter.FIRST_CHAR) with 40.
  change (len ThousandCounter.SECOND_CHAR) with 25.
  assert (H1 : 0 <= ms / 25 < 40)
    by (split; [apply Z.div_pos; lia|apply Z.div_lt_upper_bound; lia]).
  assert (H2 : 0 <= ms mod 25 < 25) by (apply Z.mod_pos_bound; lia).
  replace ((ms / 25 <? 0) || (ms / 25 >=? 40) || (ms mod 25 <? 0) || (ms mod 25 >=? 25))
    with false.
  2:{ symmetry. repeat (apply orb_false_iff; split);
        try (apply Z.ltb_ge; lia); rewrite Z.geb_leb; apply Z.leb_gt; lia. }
  destruct alphabets_ok as (_ & _ & _ & _ & _ & Hf & Hs).
  destruct (alphabet_char _ (ms / 25) Hf H1) as (-> & _).
  destruct (alphabet_char _ (ms mod 25) Hs H2) as (-> & _).
  reflexivity.
Qed.

(** *** The text that [encode_date_time] compresses *)

Lemma index_guard (i n : Z) :
  0 <= i < n -> (i >=? 0) = true /\ ((i <? 0) || (i >=? n)) = false.
Proof.
  intros H. split; [rewrite Z.geb_leb; apply Z.leb_le; lia|].
  apply orb_false_iff. split; [apply Z.ltb_ge; lia|].
  rewrite Z.geb_leb. apply Z.leb_gt. lia.
Qed.

Lemma encode_date_time_try_text (y mo d : Z) (oh omi os oms : option Z)
      (timezone : option str) :
  0 <= y <= 226980 -> 0 <= mo <= 11 -> 1 <= d <= 31 ->
  optional_below 24 oh -> optional_below 60 omi -> optional_below 60 os ->
  optional_below 1000 oms ->
  encode_date_time_try (Some y) (Some mo) (Some d) oh omi os oms timezone
  = Ok (_compress_zeros (uncompressed y mo d oh omi os oms) ++ affix timezone).
Proof.
  intros Hy Hmo Hd Hh Hmi Hs Hms.
  destruct alphabets_ok as (_ & Hmonths & Hdays & Hhours & Hminutes & _).
  unfold encode_date_time_try.
  replace (y >=? 0) with true by (symmetry; rewrite Z.geb_leb; apply Z.leb_le; lia).
  rewrite (encode_year_text y Hy). cbn [rbind].
  change (len MONTHS) with 12. change (len DAYS) with 31.
  change (len HOURS) with 24. change (len MINUTES) with 60.
  destruct (index_guard mo 12 ltac:(lia)) as [-> ->].
  destruct (alphabet_char MONTHS mo Hmonths ltac:(change (len MONTHS) with 12; lia))
    as (-> & _).
  cbn [rbind].
  replace (d >=? 1) with true by (symmetry; rewrite Z.geb_leb; apply Z.leb_le; lia).
  replace ((d <? 1) || (d >? 31)) with false
    by (symmetry; apply orb_false_iff; split;
        [apply Z.ltb_ge|rewrite Z.gtb_ltb; apply Z.ltb_ge]; lia).
  destruct (alphabet_char DAYS (d - 1) Hdays ltac:(change (len DAYS) with 31; lia))
    as (-> & _).
  cbn [rbind].
  assert (Eh : match oh with
               | Some hour =>
                   if hour >=? 0
                   then if (hour <? 0) || (hour >=? 24) then Raise ValueError
                        else str_index HOURS hour
                   else Ok "0"%char
               | None => Ok "0"%char
               end = Ok (optional_char HOURS oh)).
  { destruct oh as [h|]; [|reflexivity]. cbn [optional_below] in Hh.
    destruct (index_guard h 24 Hh) as [-> ->].
    now destruct (alphabet_char HOURS h Hhours Hh) as (-> & _). }
  rewrite Eh. cbn [rbind].
  assert (Em : forall o, optional_below 60 o ->
               match o with
               | Some minute =>
                   if minute >=? 0
                   then if (minute <? 0) || (minute >=? 60) then Raise ValueError
                        else str_index MINUTES minute
                   else Ok "0"%char
               | None => Ok "0"%char
               end = Ok (optional_char MINUTES o)).
  { intros [m|] Hm; [|reflexivity]. cbn [optional_below] in Hm.
    destruct (index_guard m 60 Hm) as [-> ->].
    now destruct (alphabet_char MINUTES m Hminutes Hm) as (-> & _). }
  rewrite (Em omi Hmi). cbn [rbind]. rewrite (Em os Hs). cbn [rbind].
  assert (Ems : match oms with
                | Some millis =>
                    if millis >=? 0
                    then if millis =? 0 then Ok (lit "0")
                         else ThousandCounter.encode_milliseconds millis
                    else Ok (lit "0")
                | None => Ok (lit "0")
                end = Ok (optional_millis oms)).
  { destruct oms as [ms|]; [|reflexivity]. cbn [optional_below optional_millis] in *.
    replace (ms >=? 0) with true by (symmetry; rewrite Z.geb_leb; apply Z.leb_le; lia).
    destruct (ms =? 0); [reflexivity|].
    apply encode_milliseconds_text. lia. }
  rewrite Ems. cbn [rbind].
  unfold uncompressed, year_text, affix.
  destruct timezone as [[|c tz]|]; cbn [truthy app];
    rewrite ?app_nil_r; reflexivity.
Qed.

(** *** The blocks of [decode] on such a text *)

Lemma str_at_nth (e : str) (pos : nat) (c : ascii) :
  nth_error e pos = Some c ->
  (pos <? List.length e)%nat = true /\ str_at e pos = Ok c.
Proof.
  intros H. split.
  - apply Nat.ltb_lt. apply nth_error_Some. congruence.
  - unfold str_at. now rewrite H.
Qed.

Lemma optional_char_cases (alphabet : str) (o : option Z) :
  alphabet_ok alphabet = true -> optional_below (len alphabet) o ->
  (o = None /\ optional_char alphabet o = "0"%char)
  \/ (exists i, o = Some i /\ 0 <= i
                /\ Ascii.eqb (optional_char alphabet o) "0" = false
                /\ str_find alphabet (optional_char alphabet o) = i).
Proof.
  intros Hok Ho. destruct o as [i|]; [right|left; now split].
  cbn [optional_below optional_char] in *.
  destruct (alphabet_char alphabet i Hok Ho) as (_ & Hfind & Hplain).
  apply plain_facts in Hplain. exists i. intuition lia.
Qed.

Lemma decode_month_block_at (e : str) (pos : nat) (mo : Z) :
  nth_error e pos = Some (char_at MONTHS mo) -> 0 <= mo <= 11 ->
  decode_month_block e pos = Next (mo, (pos + 1)%nat).
Proof.
  intros Hn Hmo. destruct (str_at_nth e pos _ Hn) as [Hlt Hat].
  destruct alphabets_ok as (_ & Hok & _).
  destruct (alphabet_char MONTHS mo Hok ltac:(change (len MONTHS) with 12; lia))
    as (_ & Hfind & Hplain).
  apply plain_facts in Hplain. destruct Hplain as (H0 & _).
  unfold decode_month_block. rewrite Hlt, Hat. cbn [lift fbind].
  rewrite H0, Hfind.
  replace (mo =? -1) with false by (symmetry; apply Z.eqb_neq; lia).
  reflexivity.
Qed.

Lemma decode_day_block_at (e : str) (pos : nat) (d : Z) :
  nth_error e pos = Some (char_at DAYS (d - 1)) -> 1 <= d <= 31 ->
  decode_day_block e pos = Next (d, (pos + 1)%nat).
Proof.
  intros Hn Hd. destruct (str_at_nth e pos _ Hn) as [Hlt Hat].
  destruct alphabets_ok as (_ & _ & Hok & _).
  destruct (alphabet_char DAYS (d - 1) Hok ltac:(change (len DAYS) with 31; lia))
    as (_ & Hfind & Hplain).
  apply plain_facts in Hplain. destruct Hplain as (H0 & _).
  unfold decode_day_block. rewrite Hlt, Hat. cbn [lift fbind].
  rewrite H0, Hfind.
  replace (d - 1 + 1 =? 0) with false by (symmetry; apply Z.eqb_neq; lia).
  cbn [fbind]. f_equal. f_equal. lia.
Qed.

Lemma decode_hour_block_at (e : str) (pos : nat) (oh : option Z) :
  nth_error e pos = Some (optional_char HOURS oh) -> optional_below 24 oh ->
  decode_hour_block e pos = Next (absent_or oh, (pos + 1)%nat).
Proof.
  intros Hn Hh. destruct (str_at_nth e pos _ Hn) as [Hlt Hat].
  destruct alphabets_ok as (_ & _ & _ & Hok & _).
  unfold decode_hour_block. rewrite Hlt, Hat. cbn [lift fbind].
  destruct (optional_char_cases HOURS oh Hok Hh)
    as [(-> & E) | (h & -> & Hpos & H0 & Hfind)].
  - rewrite E. reflexivity.
  - rewrite H0, Hfind.
    replace (h =? -1) with false by (symmetry; apply Z.eqb_neq; lia).
    reflexivity.
Qed.

Lemma decode_minute_block_at (e : str) (pos : nat) (om : option Z) :
  nth_error e pos = Some (optional_char MINUTES om) -> optional_below 60 om ->
  decode_minute_block e pos = Next (absent_or om, (pos + 1)%nat).
Proof.
  intros Hn Hm. destruct (str_at_nth e pos _ Hn) as [Hlt Hat].
  destruct alphabets_ok as (_ & _ & _ & _ & Hok & _).
  unfold decode_minute_block. rewrite Hlt, Hat. cbn [lift fbind].
  destruct (optional_char_cases MINUTES om Hok Hm)
    as [(-> & E) | (m & -> & Hpos & H0 & Hfind)].
  - rewrite E. reflexivity.
  - rewrite H0, Hfind.
    replace (m =? -1) with false by (symmetry; apply Z.eqb_neq; lia).
    reflexivity.
Qed.

Lemma year_digits (y : Z) :
  0 <= y <= 226980 ->
  0 <= y / (61 * 61) < 61 /\ 0 <= (y / 61) mod 61 < 61 /\ 0 <= y mod 61 < 61
  /\ y / (61 * 61) * 61 * 61 + (y / 61) mod 61 * 61 + y mod 61 = y.
Proof. intros Hy. Z.div_mod_to_equations. lia. Qed.

Lemma decode_year_text (y : Z) :
  0 <= y <= 226980 -> decode_year (year_text y) = Ok y.
Proof.
  intros Hy. destruct (year_digits y Hy) as (H1 & H2 & H3 & Hsum).
  destruct alphabets_ok as (Hok & _).
  destruct (alphabet_char YEAR_CHARS _ Hok H1) as (_ & F1 & _).
  destruct (alphabet_char YEAR_CHARS _ Hok H2) as (_ & F2 & _).
  destruct (alphabet_char YEAR_CHARS _ Hok H3) as (_ & F3 & _).
  unfold decode_year, year_text.
  cbn [truthy negb orb len List.length Z.of_nat].
  change (Z.pos (Pos.of_succ_nat 2) =? 3) with true.
  cbn [negb str_at nth_error rbind]. rewrite F1, F2, F3.
  replace (y / (61 * 61) =? -1) with false by (symmetry; apply Z.eqb_neq; lia).
  replace ((y / 61) mod 61 =? -1) with false by (symmetry; apply Z.eqb_neq; lia).
  replace (y mod 61 =? -1) with false by (symmetry; apply Z.eqb_neq; lia).
  cbn [orb]. now rewrite Hsum.
Qed.

Lemma decode_year_block_text (y : Z) (rest : str) :
  0 <= y <= 226980 ->
  decode_year_block (year_text y ++ rest) 0 = Next (y, 3%nat).
Proof.
  intros Hy. destruct (year_digits y Hy) as (H1 & _).
  destruct alphabets_ok as (Hok & _).
  destruct (alphabet_char YEAR_CHARS _ Hok H1) as (_ & _ & Hplain).
  apply plain_facts in Hplain. destruct Hplain as (H0 & _).
  pose proof (decode_year_text y Hy) as Hdec.
  unfold decode_year_block, str_slice.
  unfold year_text in *. cbn [app List.length Nat.ltb Nat.leb str_at nth_error
                              lift fbind Nat.add Nat.sub skipn firstn].
  rewrite H0, Hdec. cbn [lift fbind].
  replace (y =? -1) with false by (symmetry; apply Z.eqb_neq; lia).
  reflexivity.
Qed.

Lemma millis_digits (ms : Z) :
  0 <= ms <= 999 ->
  0 <= ms / 25 < 40 /\ 0 <= ms mod 25 < 25 /\ ms / 25 * 25 + ms mod 25 = ms.
Proof. intros H. Z.div_mod_to_equations. lia. Qed.

Lemma decode_milliseconds_text (ms : Z) :
  0 <= ms <= 999 -> ThousandCounter.decode_milliseconds (millis_text ms) = Ok ms.
Proof.
  intros Hms. destruct (millis_digits ms Hms) as (H1 & H2 & Hsum).
  destruct alphabets_ok as (_ & _ & _ & _ & _ & Hf & Hs).
  destruct (alphabet_char _ _ Hf H1) as (_ & F1 & _).
  destruct (alphabet_char _ _ Hs H2) as (_ & F2 & _).
  unfold ThousandCounter.decode_milliseconds, millis_text.
  cbn [truthy negb orb len List.length Z.of_nat].
  change (Z.pos (Pos.of_succ_nat 1) =? 2) with true.
  cbn [negb str_at nth_error rbind]. rewrite F1, F2.
  replace (ms / 25 =? -1) with false by (symmetry; apply Z.eqb_neq; lia).
  replace (ms mod 25 =? -1) with false by (symmetry; apply Z.eqb_neq; lia).
  cbn [orb]. now rewrite Hsum.
Qed.

Lemma decode_millis_block_at (a0 a1 a2 a3 a4 a5 a6 a7 : ascii) (oms : option Z) :
  optional_below 1000 oms ->
  exists pos,
    decode_millis_block
      ([a0; a1; a2; a3; a4; a5; a6; a7] ++ optional_millis oms) 8
    = Next (millis_or_zero oms, pos).
Proof.
  intros Hms. unfold optional_millis.
  assert (Z0 : decode_millis_block ([a0; a1; a2; a3; a4; a5; a6; a7] ++ lit "0") 8
               = Next (0, 9%nat)) by reflexivity.
  destruct oms as [ms|]; [|eexists; exact Z0].
  cbn [optional_below millis_or_zero] in *.
  destruct (Z.eqb_spec ms 0) as [->|Hne]; [eexists; exact Z0|].
  destruct (millis_digits ms ltac:(lia)) as (H1 & _).
  destruct alphabets_ok as (_ & _ & _ & _ & _ & Hf & _).
  destruct (alphabet_char _ _ Hf H1) as (_ & _ & Hplain).
  apply plain_facts in Hplain. destruct Hplain as (H0 & _).
  pose proof (decode_milliseconds_text ms ltac:(lia)) as Hdec.
  exists 10%nat. unfold decode_millis_block, str_slice.
  unfold millis_text in *.
  cbn [app List.length Nat.ltb Nat.leb str_at nth_error
       lift fbind Nat.add Nat.sub skipn firstn].
  rewrite H0, Hdec. cbn [lift fbind].
  replace (ms =? -1) with false by (symmetry; apply Z.eqb_neq; lia).
  reflexivity.
Qed.

Lemma zero_if_absent_or (o : option Z) (n : Z) :
  optional_below n o -> zero_if_absent (absent_or o) = millis_or_zero o.
Proof.
  destruct o as [v|]; [|reflexivity]. cbn. intros H. unfold zero_if_absent.
  now replace (v =? -1) with false by (symmetry; apply Z.eqb_neq; lia).
Qed.

Lemma zero_if_absent_nonneg (v : Z) : 0 <= v -> zero_if_absent v = v.
Proof.
  intros H. unfold zero_if_absent.
  now replace (v =? -1) with false by (symmetry; apply Z.eqb_neq; lia).
Qed.

Lemma decode_fields_uncompressed (y mo d : Z) (oh omi os oms : option Z)
      (timezone_str : option str) :
  0 <= y <= 226980 -> 0 <= mo <= 11 -> 1 <= d <= 31 ->
  optional_below 24 oh -> optional_below 60 omi -> optional_below 60 os ->
  optional_below 1000 oms ->
  decode_fields (uncompressed y mo d oh omi os oms) timezone_str
  = Return (from_primitives y mo d (millis_or_zero oh) (millis_or_zero omi)
                            (millis_or_zero os) (millis_or_zero oms) timezone_str).
Proof.
  intros Hy Hmo Hd Hh Hmi Hs Hms.
  unfold decode_fields, uncompressed.
  rewrite (decode_year_block_text y _ Hy). cbn [fbind].
  unfold year_text. cbn [app].
  rewrite (decode_month_block_at _ 3 mo) by (reflexivity || assumption).
  cbn [fbind Nat.add].
  rewrite (decode_day_block_at _ 4 d) by (reflexivity || assumption).
  cbn [fbind Nat.add].
  rewrite (decode_hour_block_at _ 5 oh) by (reflexivity || assumption).
  cbn [fbind Nat.add].
  rewrite (decode_minute_block_at _ 6 omi) by (reflexivity || assumption).
  cbn [fbind Nat.add].
  rewrite (decode_minute_block_at _ 7 os) by (reflexivity || assumption).
  cbn [fbind Nat.add].
  destruct (decode_millis_block_at
              (char_at YEAR_CHARS (y / (61 * 61)))
              (char_at YEAR_CHARS ((y / 61) mod 61))
              (char_at YEAR_CHARS (y mod 61))
              (char_at MONTHS mo) (char_at DAYS (d - 1))
              (optional_char HOURS oh) (optional_char MINUTES omi)
              (optional_char MINUTES os) oms Hms) as [pos Hblock].
  cbn [app] in Hblock. rewrite Hblock. cbn [fbind forallb].
  replace (y =? -1) with false by (symmetry; apply Z.eqb_neq; lia).
  cbn [andb].
  rewrite (zero_if_absent_or oh 24 Hh), (zero_if_absent_or omi 60 Hmi),
    (zero_if_absent_or os 60 Hs).
  rewrite !zero_if_absent_nonneg by (try lia; destruct oms; cbn in *; lia).
  reflexivity.
Qed.

(** *** The body and the affix *)

Lemma no_sign_expand (s : str) :
  forallb no_sign (_expand_zeros s) = true -> forallb no_sign s = true.
Proof.
  induction s as [|c s IH]; [reflexivity|].
  unfold _expand_zeros. cbn [flat_map]. rewrite forallb_app.
  intros H. apply andb_true_iff in H. destruct H as [Hc Hs].
  cbn [forallb]. rewrite (IH Hs), andb_true_r.
  unfold no_sign at 1. destruct (is_sign c) eqn:E; [|reflexivity].
  unfold is_sign in E. apply orb_true_iff in E.
  destruct E as [E|E]; apply Ascii.eqb_eq in E; subst c; discriminate.
Qed.

Lemma last_app_nonempty {A} (l l' : list A) (d : A) :
  l' <> [] -> last (l ++ l') d = last l' d.
Proof.
  intros H. induction l as [|x l IH]; [reflexivity|].
  cbn [app last]. destruct (l ++ l') eqn:E.
  - apply app_eq_nil in E. tauto.
  - exact IH.
Qed.

Lemma last_forallb {A} (p : A -> bool) (l : list A) (d : A) :
  l <> [] -> forallb p l = true -> p (last l d) = true.
Proof.
  intros Hne Hall. destruct (exists_last Hne) as (front & x & ->).
  rewrite last_last. rewrite forallb_app in Hall.
  apply andb_true_iff in Hall. destruct Hall as [_ Hx].
  cbn in Hx. now rewrite andb_true_r in Hx.
Qed.

Lemma parse_timezone_loop_no_sign (s : str) (n : nat) :
  forallb no_sign s = true -> (n <= List.length s)%nat ->
  _parse_timezone_loop s n = Ok None.
Proof.
  intros Hall. induction n as [|i IH]; intros Hn; [reflexivity|].
  cbn [_parse_timezone_loop].
  destruct (str_at_lt s i ltac:(lia)) as [c Hc]. rewrite Hc. cbn [rbind].
  assert (Hin : In c s).
  { unfold str_at in Hc. destruct (nth_error s i) eqn:E; [|discriminate].
    injection Hc as <-. eapply nth_error_In; eauto. }
  rewrite forallb_forall in Hall. specialize (Hall c Hin).
  unfold no_sign in Hall. apply negb_true_iff in Hall. rewrite Hall.
  apply IH. lia.
Qed.

Lemma parse_timezone_no_sign (s : str) :
  forallb no_sign s = true -> _parse_timezone s = Ok None.
Proof.
  intros Hall. unfold _parse_timezone.
  destruct (negb (truthy s) || (len s <? 2)) eqn:E; [reflexivity|].
  assert (Hne : s <> []) by (intros ->; discriminate).
  rewrite (DecodeFacts.str_index_last s Hne). cbn [rbind].
  pose proof (last_forallb no_sign s "000"%char Hne Hall) as Hl.
  unfold no_sign in Hl. apply negb_true_iff in Hl. rewrite Hl.
  now apply parse_timezone_loop_no_sign.
Qed.

Lemma parse_timezone_loop_affix (body : str) (sign : ascii) (digits : str) (k : nat) :
  is_sign sign = true -> forallb no_sign digits = true ->
  _is_valid_timezone (sign :: digits) = Ok true ->
  (k <= List.length digits)%nat ->
  _parse_timezone_loop (body ++ sign :: digits) (S (List.length body + k))
  = Ok (Some (sign :: digits)).
Proof.
  intros Hsign Hdigits Hvalid. induction k as [|k IH]; intros Hk.
  - rewrite Nat.add_0_r. cbn [_parse_timezone_loop]. unfold str_at, str_from.
    rewrite nth_error_app2, Nat.sub_diag by lia. cbn [nth_error rbind].
    rewrite Hsign.
    rewrite skipn_app, skipn_all, Nat.sub_diag. cbn [skipn app].
    now rewrite Hvalid.
  - rewrite Nat.add_succ_r. cbn [_parse_timezone_loop]. unfold str_at.
    rewrite nth_error_app2 by lia.
    replace (S (List.length body + k) - List.length body)%nat with (S k) by lia.
    cbn [nth_error].
    destruct (nth_error digits k) as [c|] eqn:E.
    2:{ apply nth_error_None in E. lia. }
    cbn [rbind].
    assert (Hc : is_sign c = false).
    { rewrite forallb_forall in Hdigits.
      specialize (Hdigits c (nth_error_In _ _ E)).
      unfold no_sign in Hdigits. now apply negb_true_iff in Hdigits. }
    rewrite Hc. apply IH. lia.
Qed.

Lemma parse_timezone_affix (body : str) (timezone : option str) :
  forallb no_sign body = true -> (2 <= List.length body)%nat ->
  affix_ok timezone ->
  _parse_timezone (body ++ affix timezone) = Ok timezone
  /\ _extract_datetime_part (@Some str (body ++ affix timezone)) = Ok (Some body).
Proof.
  intros Hbody Hlen Hok. unfold _extract_datetime_part.
  destruct timezone as [tz|]; cbn [affix].
  - destruct Hok as (sign & digits & -> & Hsign & Hne & Hdigits & Hvalid).
    assert (P : _parse_timezone (body ++ sign :: digits) = Ok (Some (sign :: digits))).
    { unfold _parse_timezone.
      assert (Hnil : body ++ sign :: digits <> [])
        by (intros E; apply app_eq_nil in E; destruct E; discriminate).
      replace (negb (truthy (body ++ sign :: digits))
               || (len (body ++ sign :: digits) <? 2)) with false.
      2:{ symmetry. apply orb_false_iff. split.
          - destruct (body ++ sign :: digits); [congruence|reflexivity].
          - apply Z.ltb_ge. unfold len. rewrite length_app. lia. }
      rewrite (DecodeFacts.str_index_last _ Hnil). cbn [rbind].
      rewrite last_app_nonempty by discriminate.
      replace (last (sign :: digits) "000"%char) with (last digits "000"%char)
        by (destruct digits; [congruence|reflexivity]).
      pose proof (last_forallb no_sign digits "000"%char Hne Hdigits) as Hl.
      unfold no_sign in Hl. apply negb_true_iff in Hl. rewrite Hl.
      rewrite length_app. cbn [List.length]. rewrite Nat.add_succ_r.
      apply parse_timezone_loop_affix; auto. }
    rewrite P. split; [reflexivity|]. cbn [rbind truthy].
    rewrite length_app, Nat.add_sub, firstn_app, Nat.sub_diag, firstn_all.
    cbn [firstn]. now rewrite app_nil_r.
  - rewrite app_nil_r, (parse_timezone_no_sign body Hbody). now split.
Qed.

Lemma decode_composed (c1 c2 c3 : ascii) (tail u : str) (timezone : option str) :
  Ascii.eqb c1 "0" = false ->
  forallb no_sign (c1 :: c2 :: c3 :: tail) = true ->
  _expand_zeros (c1 :: c2 :: c3 :: tail) = u ->
  too_short_expanded u = false ->
  forallb _is_valid_encoded_char u = true ->
  affix_ok timezone ->
  decode (Some ((c1 :: c2 :: c3 :: tail) ++ affix timezone))
  = run (decode_fields u timezone).
Proof.
  intros H0 Hsign Hexp Hlong Hvalid Hok.
  destruct (parse_timezone_affix (c1 :: c2 :: c3 :: tail) timezone Hsign
              ltac:(simpl; lia) Hok) as [P E].
  unfold decode. rewrite P. cbn [lift fbind]. rewrite E.
  cbn [lift fbind truthy negb].
  unfold too_short_body. cbn [truthy str_at nth_error rbind]. rewrite H0.
  replace (len (c1 :: c2 :: c3 :: tail) <? 3) with false
    by (symmetry; apply Z.ltb_ge; unfold len; simpl; lia).
  cbn [negb andb lift fbind]. rewrite Hexp, Hlong, Hvalid. reflexivity.
Qed.

(** *** The round trip *)

Lemma none_if_absent_nonneg (v : Z) : 0 <= v -> none_if_absent v = Some v.
Proof.
  intros H. unfold none_if_absent.
  now replace (v =? -1) with false by (symmetry; apply Z.eqb_neq; lia).
Qed.

Lemma encode_text (x : components) (tz : option str) :
  in_range x ->
  encode (of_components x tz)
  = _compress_zeros (text_of x) ++ affix (get_timezone (of_components x tz)).
Proof.
  intros Hx. pose proof (getters_of_components x tz Hx) as G.
  pose proof (tag_in_range x Hx) as T.
  destruct x as [[[[[[y mo] d] h] mi] s] ms].
  cbv zeta in G. destruct G as (Gt & Gy & Gmo & Gd & Gh & Gmi & Gs & Gms).
  pose proof Hx as (Hy & Hmo & Hd & Hh & Hmi & Hs & Hms).
  unfold encode, is_empty, text_of, time_fields.
  rewrite Gt, Gy, Gmo, Gd, Gh, Gmi, Gs, Gms.
  unfold encode_date_time.
  destruct T as [(-> & _) | [(-> & ? & -> & -> & ->) | (-> & _)]].
  - change (TYPE_DATE_ONLY =? TYPE_EMPTY) with false.
    change (TYPE_DATE_ONLY =? TYPE_DATE_ONLY) with true. cbv iota beta.
    change (none_if_absent (-1)) with (@None Z).
    rewrite (none_if_absent_nonneg y), (none_if_absent_nonneg mo),
      (none_if_absent_nonneg d) by lia.
    now rewrite encode_date_time_try_text by (cbn; lia).
  - change (TYPE_DATE_HOUR =? TYPE_EMPTY) with false.
    change (TYPE_DATE_HOUR =? TYPE_DATE_ONLY) with false.
    change (TYPE_DATE_HOUR =? TYPE_TIME_ONLY) with false.
    change (TYPE_DATE_HOUR =? TYPE_DATE_HOUR) with true. cbv iota beta.
    change (none_if_absent (-1)) with (@None Z).
    rewrite (none_if_absent_nonneg y), (none_if_absent_nonneg mo),
      (none_if_absent_nonneg d), (none_if_absent_nonneg h) by lia.
    now rewrite encode_date_time_try_text by (cbn; lia).
  - change (TYPE_FULL =? TYPE_EMPTY) with false.
    change (TYPE_FULL =? TYPE_DATE_ONLY) with false.
    change (TYPE_FULL =? TYPE_TIME_ONLY) with false.
    change (TYPE_FULL =? TYPE_DATE_HOUR) with false. cbv iota beta.
    rewrite (none_if_absent_nonneg y), (none_if_absent_nonneg mo),
      (none_if_absent_nonneg d), (none_if_absent_nonneg h),
      (none_if_absent_nonneg mi), (none_if_absent_nonneg s),
      (none_if_absent_nonneg ms) by lia.
    now rewrite encode_date_time_try_text by (cbn; lia).
Qed.

Lemma plain_or_zero_facts (c : ascii) :
  plain_or_zero c = true ->
  no_sign c = true /\ _is_valid_encoded_char c = true
  /\ negb (CompressDefs.is_run_symbol c) = true.
Proof.
  unfold plain_or_zero. intros H. apply orb_true_iff in H. destruct H as [H|H].
  - apply plain_facts in H. destruct H as (_ & Hs & Hv & Hr).
    unfold no_sign. now rewrite Hs, Hv, Hr.
  - apply Ascii.eqb_eq in H. subst c. repeat split.
Qed.

Lemma optional_char_plain (alphabet : str) (o : option Z) :
  alphabet_ok alphabet = true -> optional_below (len alphabet) o ->
  plain_or_zero (optional_char alphabet o) = true.
Proof.
  intros Hok Ho. destruct o as [i|]; [|reflexivity].
  cbn [optional_below optional_char] in *.
  destruct (alphabet_char alphabet i Hok Ho) as (_ & _ & Hp).
  unfold plain_or_zero. now rewrite Hp.
Qed.

Lemma uncompressed_chars (y mo d : Z) (oh omi os oms : option Z) :
  0 <= y <= 226980 -> 0 <= mo <= 11 -> 1 <= d <= 31 ->
  optional_below 24 oh -> optional_below 60 omi -> optional_below 60 os ->
  optional_below 1000 oms ->
  forallb plain_or_zero (uncompressed y mo d oh omi os oms) = true
  /\ (9 <= List.length (uncompressed y mo d oh omi os oms))%nat.
Proof.
  intros Hy Hmo Hd Hh Hmi Hs Hms.
  destruct alphabets_ok as (Hyears & Hmonths & Hdays & Hhours & Hminutes & Hf & Hsnd).
  destruct (year_digits y Hy) as (H1 & H2 & H3 & _).
  assert (P : forall a i, alphabet_ok a = true -> 0 <= i < len a ->
                          plain_or_zero (char_at a i) = true).
  { intros a i Hok Hi. apply (optional_char_plain a (Some i) Hok Hi). }
  assert (M : forallb plain_or_zero (optional_millis oms) = true
              /\ (1 <= List.length (optional_millis oms))%nat).
  { unfold optional_millis. destruct oms as [ms|]; [|split; [reflexivity|simpl; lia]].
    destruct (ms =? 0); [split; [reflexivity|simpl; lia]|].
    cbn [optional_below] in Hms.
    destruct (millis_digits ms ltac:(lia)) as (M1 & M2 & _).
    unfold millis_text. cbn [forallb List.length].
    rewrite (P _ _ Hf M1), (P _ _ Hsnd M2). split; [reflexivity|lia]. }
  destruct M as [M L].
  unfold uncompressed, year_text. rewrite !forallb_app, !length_app.
  cbn [forallb List.length]. rewrite M.
  rewrite (P _ _ Hyears H1), (P _ _ Hyears H2), (P _ _ Hyears H3).
  rewrite (P MONTHS mo Hmonths) by (change (len MONTHS) with 12; lia).
  rewrite (P DAYS (d - 1) Hdays) by (change (len DAYS) with 31; lia).
  rewrite (optional_char_plain HOURS oh Hhours Hh).
  rewrite (optional_char_plain MINUTES omi Hminutes Hmi).
  rewrite (optional_char_plain MINUTES os Hminutes Hs).
  split; [reflexivity|lia].
Qed.

(** The offset survives the trip through the affix. *)
Lemma timezone_round_trip (tz : option str) :
  In tz timezones ->
  let written := _format_timezone_offset (_parse_timezone_offset tz) in
  affix_ok written
  /\ _parse_timezone_offset written = _parse_timezone_offset tz
  /\ (tz = Some (lit "+00") -> written = None)
  /\ (tz <> Some (lit "+00") -> written = tz).
Proof.
  intros Hin. cbv zeta.
  assert (A : forall sign digits,
             is_sign sign = true -> digits <> [] ->
             forallb no_sign digits = true ->
             _is_valid_timezone (sign :: digits) = Ok true ->
             affix_ok (Some (sign :: digits))).
  { intros sign digits H1 H2 H3 H4. exists sign, digits. auto. }
  destruct Hin as [<-|[<-|[<-|[<-|[<-|[]]]]]].
  - repeat split; congruence.
  - repeat split; congruence.
  - split; [apply A; (reflexivity || discriminate)|].
    repeat split; (reflexivity || discriminate).
  - split; [apply A; (reflexivity || discriminate)|].
    repeat split; (reflexivity || discriminate).
  - split; [apply A; (reflexivity || discriminate)|].
    repeat split; (reflexivity || discriminate).
Qed.

Lemma from_primitives_timezone (y mo d h mi s ms : Z) (tz1 tz2 : option str) :
  _parse_timezone_offset tz1 = _parse_timezone_offset tz2 ->
  from_primitives y mo d h mi s ms tz1 = from_primitives y mo d h mi s ms tz2.
Proof. intros H. unfold from_primitives. now rewrite H. Qed.

Lemma decode_encode (x : components) (tz : option str) :
  in_range x -> In tz timezones ->
  decode (Some (encode (of_components x tz))) = Ok (of_components x tz).
Proof.
  intros Hx Htz. rewrite (encode_text x tz Hx).
  pose proof (tag_in_range x Hx) as T.
  assert (Gtz : get_timezone (of_components x tz)
                = _format_timezone_offset (_parse_timezone_offset tz))
    by (destruct x as [[[[[[y mo] d] h] mi] s] ms]; reflexivity).
  destruct (timezone_round_trip tz Htz) as (Hok & Hoff & _).
  rewrite Gtz. set (written := _format_timezone_offset (_parse_timezone_offset tz)) in *.
  destruct x as [[[[[[y mo] d] h] mi] s] ms].
  pose proof Hx as (Hy & Hmo & Hd & Hh & Hmi & Hs & Hms).
  assert (F : exists oh omi os oms,
             text_of (y, mo, d, h, mi, s, ms) = uncompressed y mo d oh omi os oms
             /\ optional_below 24 oh /\ optional_below 60 omi
             /\ optional_below 60 os /\ optional_below 1000 oms
             /\ millis_or_zero oh = h /\ millis_or_zero omi = mi
             /\ millis_or_zero os = s /\ millis_or_zero oms = ms).
  { unfold text_of, time_fields.
    destruct T as [(-> & -> & -> & -> & ->) | [(-> & ? & -> & -> & ->) | (-> & _)]].
    - exists None, None, None, None. cbn. repeat split.
    - exists (Some h), None, None, None. cbn. repeat split; lia.
    - exists (Some h), (Some mi), (Some s), (Some ms). cbn. repeat split; lia. }
  destruct F as (oh & omi & os & oms & -> & Bh & Bmi & Bs & Bms & Eh & Emi & Es & Ems).
  destruct (uncompressed_chars y mo d oh omi os oms Hy Hmo Hd Bh Bmi Bs Bms)
    as [Hchars Hlen].
  set (u := uncompressed y mo d oh omi os oms) in *.
  assert (Hrun : forallb (fun c => negb (CompressDefs.is_run_symbol c)) u = true).
  { rewrite forallb_forall in *. intros c Hc.
    apply (plain_or_zero_facts c (Hchars c Hc)). }
  assert (Hvalid : forallb _is_valid_encoded_char u = true).
  { rewrite forallb_forall in *. intros c Hc.
    apply (plain_or_zero_facts c (Hchars c Hc)). }
  assert (Hsign : forallb no_sign u = true).
  { rewrite forallb_forall in *. intros c Hc.
    apply (plain_or_zero_facts c (Hchars c Hc)). }
  pose proof (CompressFacts.expand_compress u Hrun) as Hexp.
  destruct (year_digits y Hy) as (H1 & H2 & H3 & _).
  destruct alphabets_ok as (Hyears & _).
  assert (P0 : forall i, 0 <= i < 61 -> Ascii.eqb (char_at YEAR_CHARS i) "0" = false).
  { intros i Hi. destruct (alphabet_char YEAR_CHARS i Hyears Hi) as (_ & _ & Hp).
    now apply plain_facts in Hp. }
  assert (Hhead : exists tail,
             _compress_zeros u
             = char_at YEAR_CHARS (y / (61 * 61))
               :: char_at YEAR_CHARS ((y / 61) mod 61)
               :: char_at YEAR_CHARS (y mod 61) :: tail).
  { unfold u, uncompressed, year_text. cbn [app].
    rewrite !CompressFacts.compress_cons_plain by (apply P0; assumption).
    eexists. reflexivity. }
  destruct Hhead as [tail Hhead]. rewrite Hhead in *.
  rewrite (decode_composed _ _ _ tail u written).
  - unfold u. rewrite decode_fields_uncompressed by assumption.
    cbn [run]. rewrite Eh, Emi, Es, Ems. f_equal.
    now apply from_primitives_timezone.
  - now apply P0.
  - apply no_sign_expand. now rewrite Hexp.
  - exact Hexp.
  - unfold too_short_expanded. apply Z.ltb_ge. unfold len. lia.
  - exact Hvalid.
  - exact Hok.
Qed.

(** C1: for components in range and a time zone among absent, ["+00"],
    ["-08"], ["+0530"] and ["+12"], decoding the encoding of the value built
    by [from_primitives] gives a value with the same year, month, day, hour,
    minute, second, millisecond, time zone and date type (indeed the same
    value); for ["+00"] the time zone of both is absent, and for the other
    zones it is the zone given. *)
Theorem decode_encode_accessors (x : components) (tz : option str) :
  in_range x -> In tz timezones ->
  exists d,
    decode (Some (encode (of_components x tz))) = Ok d
    /\ get_year d = get_year (of_components x tz)
    /\ get_month d = get_month (of_components x tz)
    /\ get_day d = get_day (of_components x tz)
    /\ get_hour d = get_hour (of_components x tz)
    /\ get_minute d = get_minute (of_components x tz)
    /\ get_second d = get_second (of_components x tz)
    /\ get_millis d = get_millis (of_components x tz)
    /\ get_timezone d = get_timezone (of_components x tz)
    /\ get_date_type d = get_date_type (of_components x tz)
    /\ d = of_components x tz
    /\ (tz = Some (lit "+00") -> get_timezone d = None)
    /\ (tz <> Some (lit "+00") -> get_timezone d = tz).
Proof.
  intros Hx Htz. exists (of_components x tz).
  split; [now apply decode_encode|].
  repeat (split; [reflexivity|]).
  assert (Gtz : get_timezone (of_components x tz)
                = _format_timezone_offset (_parse_timezone_offset tz))
    by (destruct x as [[[[[[y mo] d] h] mi] s] ms]; reflexivity).
  rewrite Gtz. apply (timezone_round_trip tz Htz).
Qed.

Lemma decode_encode_accessors_witness :
  exists d,
    decode (Some (encode (of_components (50000, 5, 15, 12, 30, 45, 123)
                                        (Some (lit "+0530")))))
    = Ok d
    /\ get_year d = 50000 /\ get_month d = 5 /\ get_day d = 15
    /\ get_hour d = 12 /\ get_minute d = 30 /\ get_second d = 45
    /\ get_millis d = 123 /\ get_timezone d = Some (lit "+0530")
    /\ get_date_type d = TYPE_FULL.
Proof.
  assert (R : in_range (50000, 5, 15, 12, 30, 45, 123)) by (unfold in_range; lia).
  assert (T : In (Some (lit "+0530")) timezones) by (simpl; tauto).
  destruct (decode_encode_accessors (50000, 5, 15, 12, 30, 45, 123)
              (Some (lit "+0530")) R T)
    as (d & Hd & Hy & Hmo & Hday & Hh & Hmi & Hs & Hms & Htz & Hty & _).
  exists d. split; [exact Hd|].
  rewrite Hy, Hmo, Hday, Hh, Hmi, Hs, Hms, Htz, Hty. repeat split.
Defined.

End RoundTripFacts.

(** ** The year and millisecond codes, in both directions *)

Module CodecFacts.
Import Checks RoundTripDefs.
Import BitDT.

Lemma str_find_from_nth (s : str) (c : ascii) :
  forall k i, 0 <= k -> str_find_from s c k = i -> i <> -1 ->
              k <= i /\ nth_error s (Z.to_nat (i - k)) = Some c.
Proof.
  induction s as [|d s IH]; intros k i Hk Hfind Hi; cbn [str_find_from] in Hfind.
  - congruence.
  - destruct (Ascii.eqb d c) eqn:E.
    + apply Ascii.eqb_eq in E. subst. rewrite Z.sub_diag. split; [lia|reflexivity].
    + destruct (IH (k + 1) i ltac:(lia) Hfind Hi) as [Hle Hnth].
      split; [lia|].
      replace (Z.to_nat (i - k)) with (S (Z.to_nat (i - (k + 1)))) by lia.
      exact Hnth.
Qed.

Lemma str_find_index (s : str) (c : ascii) :
  str_find s c <> -1 -> str_index s (str_find s c) = Ok c.
Proof.
  intros H. destruct (str_find_from_nth s c 0 _ ltac:(lia) eq_refl H) as [Hle Hnth].
  fold (str_find s c) in *. rewrite Z.sub_0_r in Hnth.
  unfold str_index, str_at.
  replace (str_find s c <? 0) with false by (symmetry; apply Z.ltb_ge; lia).
  now rewrite Hnth.
Qed.

(** X1: [decode_year (encode_year year)] is [year] for every year from 0 to
    226980, the code has three characters, and [encode_year] raises
    [ValueError] for every other year. *)
Theorem encode_decode_year (year : Z) :
  (0 <= year <= 226980 ->
   exists code, encode_year year = Ok code /\ List.length code = 3%nat
                /\ decode_year code = Ok year)
  /\ (year < 0 \/ 226980 < year -> encode_year year = Raise ValueError).
Proof.
  split.
  - intros H. exists (year_text year).
    split; [now apply RoundTripFacts.encode_year_text|].
    split; [reflexivity|now apply RoundTripFacts.decode_year_text].
  - intros H. unfold encode_year. destruct H as [H|H].
    + apply Z.ltb_lt in H. now rewrite H.
    + replace (year >=? 226981) with true
        by (symmetry; rewrite Z.geb_leb; apply Z.leb_le; lia).
      now rewrite orb_true_r.
Qed.

Lemma encode_decode_year_witness :
  (exists code, encode_year 50000 = Ok code /\ List.length code = 3%nat
                /\ decode_year code = Ok 50000)
  /\ encode_year 226981 = Raise ValueError
  /\ encode_year (-1) = Raise ValueError.
Proof.
  split; [|split].
  - apply (encode_decode_year 50000). lia.
  - apply (encode_decode_year 226981). lia.
  - apply (encode_decode_year (-1)). lia.
Defined.

(** X2: [decode_year] never raises; it gives -1 for a text that is not three
    characters of the year alphabet, and otherwise a year from 0 to 226980
    (60 * 61 * 61 + 60 * 61 + 60) whose code, by [encode_year], is the text
    itself: the codes and the years correspond one to one. *)
Theorem decode_year_canonical (year_code : str) :
  exists v, decode_year year_code = Ok v
            /\ (v = -1 \/ (0 <= v <= 226980 /\ List.length year_code = 3%nat
                           /\ encode_year v = Ok year_code))
            /\ (List.length year_code <> 3%nat -> v = -1).
Proof.
  destruct year_code as [|c0 [|c1 [|c2 [|c3 rest]]]];
    try (exists (-1); split; [reflexivity|split; [now left|reflexivity]]).
  - unfold decode_year. cbn [truthy negb orb len List.length Z.of_nat].
    change (Z.pos (Pos.of_succ_nat 2) =? 3) with true.
    cbn [negb str_at nth_error rbind].
    pose proof (str_find_range YEAR_CHARS c0) as R0.
    pose proof (str_find_range YEAR_CHARS c1) as R1.
    pose proof (str_find_range YEAR_CHARS c2) as R2.
    change (len YEAR_CHARS) with 61 in *.
    destruct (Z.eqb_spec (str_find YEAR_CHARS c0) (-1)) as [E0|E0];
      [exists (-1); split; [reflexivity|split; [now left|congruence]]|].
    destruct (Z.eqb_spec (str_find YEAR_CHARS c1) (-1)) as [E1|E1];
      [exists (-1); split; [reflexivity|split; [now left|congruence]]|].
    destruct (Z.eqb_spec (str_find YEAR_CHARS c2) (-1)) as [E2|E2];
      [exists (-1); split; [reflexivity|split; [now left|congruence]]|].
    cbn [orb]. eexists. split; [reflexivity|]. split; [|congruence].
    right.
    pose proof (str_find_index YEAR_CHARS c0 E0) as I0.
    pose proof (str_find_index YEAR_CHARS c1 E1) as I1.
    pose proof (str_find_index YEAR_CHARS c2 E2) as I2.
    set (i0 := str_find YEAR_CHARS c0) in *.
    set (i1 := str_find YEAR_CHARS c1) in *.
    set (i2 := str_find YEAR_CHARS c2) in *.
    split; [lia|]. split; [reflexivity|].
    unfold encode_year.
    replace ((i0 * 61 * 61 + i1 * 61 + i2 <? 0)
             || (i0 * 61 * 61 + i1 * 61 + i2 >=? 226981)) with false
      by (symmetry; apply orb_false_iff; split;
          [apply Z.ltb_ge|rewrite Z.geb_leb; apply Z.leb_gt]; lia).
    replace ((i0 * 61 * 61 + i1 * 61 + i2) / (61 * 61)) with i0
      by (Z.div_mod_to_equations; lia).
    replace (((i0 * 61 * 61 + i1 * 61 + i2) / 61) mod 61) with i1
      by (Z.div_mod_to_equations; lia).
    replace ((i0 * 61 * 61 + i1 * 61 + i2) mod 61) with i2
      by (Z.div_mod_to_equations; lia).
    now rewrite I0, I1, I2.
  - exists (-1). split; [|split; [now left|reflexivity]].
    unfold decode_year. cbn [truthy negb orb].
    replace (len (c0 :: c1 :: c2 :: c3 :: rest) =? 3) with false; [reflexivity|].
    symmetry. apply Z.eqb_neq. unfold len. simpl List.length. lia.
Qed.

(** X3: a text that [decode_milliseconds] reads as a value other than -1 is
    the code that [encode_milliseconds] gives this value: the 1000 codes and
    the values from 0 to 999 correspond one to one. *)
Theorem decode_milliseconds_canonical (code : str) (v : Z) :
  ThousandCounter.decode_milliseconds code = Ok v -> v <> -1 ->
  0 <= v <= 999 /\ List.length code = 2%nat
  /\ ThousandCounter.encode_milliseconds v = Ok code.
Proof.
  unfold ThousandCounter.decode_milliseconds.
  destruct code as [|c0 [|c1 [|c2 rest]]]; try (cbn; congruence).
  - cbn [truthy negb orb len List.length Z.of_nat].
    change (Z.pos (Pos.of_succ_nat 1) =? 2) with true.
    cbn [negb str_at nth_error rbind].
    pose proof (str_find_range ThousandCounter.FIRST_CHAR c0) as R0.
    pose proof (str_find_range ThousandCounter.SECOND_CHAR c1) as R1.
    change (len ThousandCounter.FIRST_CHAR) with 40 in *.
    change (len ThousandCounter.SECOND_CHAR) with 25 in *.
    destruct (Z.eqb_spec (str_find ThousandCounter.FIRST_CHAR c0) (-1)) as [E0|E0];
      [cbn; congruence|].
    destruct (Z.eqb_spec (str_find ThousandCounter.SECOND_CHAR c1) (-1)) as [E1|E1];
      [cbn; congruence|].
    cbn [orb]. intros Hv _. injection Hv as <-.
    pose proof (str_find_index _ c0 E0) as I0.
    pose proof (str_find_index _ c1 E1) as I1.
    set (i0 := str_find ThousandCounter.FIRST_CHAR c0) in *.
    set (i1 := str_find ThousandCounter.SECOND_CHAR c1) in *.
    split; [lia|]. split; [reflexivity|].
    unfold ThousandCounter.encode_milliseconds.
    replace ((i0 * 25 + i1 <? 0) || (i0 * 25 + i1 >? 999)) with false
      by (symmetry; apply orb_false_iff; split;
          [apply Z.ltb_ge|rewrite Z.gtb_ltb; apply Z.ltb_ge]; lia).
    cbv zeta.
    replace ((i0 * 25 + i1) / 25) with i0 by (Z.div_mod_to_equations; lia).
    replace ((i0 * 25 + i1) mod 25) with i1 by (Z.div_mod_to_equations; lia).
    change (len ThousandCounter.FIRST_CHAR) with 40.
    change (len ThousandCounter.SECOND_CHAR) with 25.
    replace ((i0 <? 0) || (i0 >=? 40) || (i1 <? 0) || (i1 >=? 25)) with false.
    2:{ symmetry. repeat (apply orb_false_iff; split);
          try (apply Z.ltb_ge; lia); rewrite Z.geb_leb; apply Z.leb_gt; lia. }
    now rewrite I0, I1.
  - cbn [truthy negb orb].
    replace (len (c0 :: c1 :: c2 :: rest) =? 2) with false
      by (symmetry; apply Z.eqb_neq; unfold len; simpl List.length; lia).
    cbn. congruence.
Qed.

Lemma decode_milliseconds_canonical_witness :
  0 <= 999 <= 999 /\ List.length (lit "zZ") = 2%nat
  /\ ThousandCounter.encode_milliseconds 999 = Ok (lit "zZ").
Proof.
  apply (decode_milliseconds_canonical (lit "zZ") 999); [reflexivity|discriminate].
Defined.

End CodecFacts.

(** ** Accessors and order of values built from components *)

Module ComponentFacts.
Import Checks PackedDefs ComponentDefs.
Import BitDT.

Lemma packed_weighted_fits (x : components) (timezone : option str) :
  fits x ->
  _packed_value (of_components x timezone) = weighted x (tag_of x).
Proof.
  destruct x as [[[[[[y mo] d] h] mi] s] ms].
  unfold fits, of_components, tag_of, weighted, from_primitives.
  intros (Hy & Hmo & Hd & Hh & Hmi & Hs & Hms).
  pose proof (PackedFacts.determine_date_type_range y mo d h mi s ms) as Ht.
  cbn [_packed_value].
  generalize dependent (_determine_date_type y mo d h mi s ms). intros tag Ht.
  rewrite !Z.shiftl_mul_pow2 by lia.
  rewrite (PackedFacts.lor_disjoint _ (mo * 2 ^ 40) 44)
    by (try apply Z_mod_mult; lia).
  rewrite (PackedFacts.lor_disjoint _ (d * 2 ^ 35) 40);
    [|lia|apply Z.mod_divide; [lia|]; exists (y * 2 ^ 4 + mo); lia|lia].
  rewrite (PackedFacts.lor_disjoint _ (h * 2 ^ 30) 35);
    [|lia|apply Z.mod_divide; [lia|];
          exists (y * 2 ^ 9 + mo * 2 ^ 5 + d); lia|lia].
  rewrite (PackedFacts.lor_disjoint _ (mi * 2 ^ 24) 30);
    [|lia|apply Z.mod_divide; [lia|];
          exists (y * 2 ^ 14 + mo * 2 ^ 10 + d * 2 ^ 5 + h); lia|lia].
  rewrite (PackedFacts.lor_disjoint _ (s * 2 ^ 18) 24);
    [|lia|apply Z.mod_divide; [lia|];
          exists (y * 2 ^ 20 + mo * 2 ^ 16 + d * 2 ^ 11 + h * 2 ^ 6 + mi); lia|lia].
  rewrite (PackedFacts.lor_disjoint _ (ms * 2 ^ 8) 18);
    [|lia|apply Z.mod_divide; [lia|];
          exists (y * 2 ^ 26 + mo * 2 ^ 22 + d * 2 ^ 17 + h * 2 ^ 12 + mi * 2 ^ 6 + s);
          lia|lia].
  rewrite (PackedFacts.lor_disjoint _ tag 8);
    [|lia|apply Z.mod_divide; [lia|];
          exists (y * 2 ^ 36 + mo * 2 ^ 32 + d * 2 ^ 27 + h * 2 ^ 22 + mi * 2 ^ 16
                  + s * 2 ^ 10 + ms); lia|lia].
  reflexivity.
Qed.

Lemma fields_of_weighted (x : components) (tag : Z) :
  fits x -> 0 <= tag < 256 ->
  let '(y, mo, d, h, mi, s, ms) := x in
  let p := weighted x tag in
  Z.shiftr (Z.land p YEAR_MASK) 44 = y
  /\ Z.shiftr (Z.land p MONTH_MASK) 40 = mo
  /\ Z.shiftr (Z.land p DAY_MASK) 35 = d
  /\ Z.shiftr (Z.land p HOUR_MASK) 30 = h
  /\ Z.shiftr (Z.land p MINUTE_MASK) 24 = mi
  /\ Z.shiftr (Z.land p SECOND_MASK) 18 = s
  /\ Z.shiftr (Z.land p MILLIS_MASK) 8 = ms.
Proof.
  destruct x as [[[[[[y mo] d] h] mi] s] ms].
  unfold fits, weighted.
  intros (Hy & Hmo & Hd & Hh & Hmi & Hs & Hms) Htag.
  change YEAR_MASK with (Z.shiftl (Z.ones 20) 44).
  change MONTH_MASK with (Z.shiftl (Z.ones 4) 40).
  change DAY_MASK with (Z.shiftl (Z.ones 5) 35).
  change HOUR_MASK with (Z.shiftl (Z.ones 5) 30).
  change MINUTE_MASK with (Z.shiftl (Z.ones 6) 24).
  change SECOND_MASK with (Z.shiftl (Z.ones 6) 18).
  change MILLIS_MASK with (Z.shiftl (Z.ones 10) 8).
  rewrite !RoundTripFacts.field_extract by lia.
  repeat split.
  all: Z.div_mod_to_equations; lia.
Qed.

Lemma tag_bounds (x : components) : 0 <= tag_of x < 256.
Proof.
  destruct x as [[[[[[y mo] d] h] mi] s] ms].
  pose proof (PackedFacts.determine_date_type_range y mo d h mi s ms).
  unfold tag_of. lia.
Qed.

Lemma date_type_of_components (x : components) (tz : option str) :
  _date_type (of_components x tz) = tag_of x.
Proof. destruct x as [[[[[[y mo] d] h] mi] s] ms]. reflexivity. Qed.

Lemma accessors_of_components (x : components) (tz : option str) :
  fits x ->
  let '(year, month, day, hour, minute, second, millis) := x in
  let v := of_components x tz in
  let tag := tag_of x in
  get_year v = (if no_date tag then -1 else year)
  /\ get_month v = (if no_date tag then -1 else month)
  /\ get_day v = (if no_date tag then -1 else day)
  /\ get_hour v = (if no_time tag then -1 else hour)
  /\ get_minute v = (if no_time tag then -1 else minute)
  /\ get_second v = (if no_time tag then -1 else second)
  /\ get_millis v = (if no_time tag then -1 else millis)
  /\ (tag = TYPE_EMPTY <->
      year = 0 /\ month = 0 /\ day = 0 /\ hour = 0 /\ minute = 0 /\ second = 0
      /\ millis = 0).
Proof.
  intros Hx.
  pose proof (packed_weighted_fits x tz Hx) as Hp.
  pose proof (fields_of_weighted x (tag_of x) Hx (tag_bounds x)) as Hg.
  pose proof (date_type_of_components x tz) as Hd.
  destruct x as [[[[[[year month] day] hour] minute] second] millis].
  set (x := (year, month, day, hour, minute, second, millis)) in *.
  cbv zeta in Hg |- *.
  destruct Hg as (G1 & G2 & G3 & G4 & G5 & G6 & G7).
  unfold get_year, get_month, get_day, get_hour, get_minute, get_second,
    get_millis, no_date, no_time.
  rewrite Hd, Hp, G1, G2, G3, G4, G5, G6, G7.
  destruct Hx as (Hy & Hmo & Hday & Hh & Hmi & Hs & Hms).
  unfold x, tag_of, _determine_date_type, TYPE_EMPTY, TYPE_DATE_ONLY,
    TYPE_TIME_ONLY, TYPE_DATE_HOUR, TYPE_FULL.
  destruct (Z.eqb_spec year 0), (Z.eqb_spec month 0), (Z.eqb_spec day 0),
    (Z.eqb_spec hour 0), (Z.eqb_spec minute 0), (Z.eqb_spec second 0),
    (Z.eqb_spec millis 0); cbn; repeat split; intros; (lia || congruence || tauto).
Qed.

(** X4: the accessors of a value built by [from_primitives] from components
    that fit their fields: the date accessors give the year, month and day,
    or -1 when the tag is Empty or TimeOnly; the time accessors give the
    hour, minute, second and millisecond, or -1 when the tag is Empty or
    DateOnly; the tag is Empty exactly when all seven components are 0. *)
Theorem accessors_of_from_primitives
        (year month day hour minute second millis : Z) (tz : option str) :
  fits (year, month, day, hour, minute, second, millis) ->
  let v := from_primitives year month day hour minute second millis tz in
  let tag := get_date_type v in
  get_year v = (if no_date tag then -1 else year)
  /\ get_month v = (if no_date tag then -1 else month)
  /\ get_day v = (if no_date tag then -1 else day)
  /\ get_hour v = (if no_time tag then -1 else hour)
  /\ get_minute v = (if no_time tag then -1 else minute)
  /\ get_second v = (if no_time tag then -1 else second)
  /\ get_millis v = (if no_time tag then -1 else millis)
  /\ (is_empty v = true <->
      year = 0 /\ month = 0 /\ day = 0 /\ hour = 0 /\ minute = 0 /\ second = 0
      /\ millis = 0).
Proof.
  intros Hx. cbv zeta.
  pose proof (accessors_of_components _ tz Hx) as A. cbv zeta in A.
  destruct A as (A1 & A2 & A3 & A4 & A5 & A6 & A7 & A8).
  repeat (split; [assumption|]).
  unfold is_empty. rewrite <- A8. apply Z.eqb_eq.
Qed.

Lemma accessors_of_from_primitives_witness :
  let v := from_primitives 0 0 0 12 30 0 0 (Some (lit "-08")) in
  get_year v = -1 /\ get_month v = -1 /\ get_day v = -1
  /\ get_hour v = 12 /\ get_minute v = 30 /\ get_second v = 0 /\ get_millis v = 0.
Proof.
  assert (F : fits (0, 0, 0, 12, 30, 0, 0)) by (unfold fits; lia).
  destruct (accessors_of_from_primitives 0 0 0 12 30 0 0 (Some (lit "-08")) F)
    as (H1 & H2 & H3 & H4 & H5 & H6 & H7 & _).
  cbv zeta. rewrite H1, H2, H3, H4, H5, H6, H7. repeat split.
Defined.

Lemma compare_weighted_tags (x1 x2 : components) (t1 t2 : Z) :
  fits x1 -> fits x2 -> 0 <= t1 <= 4 -> 0 <= t2 <= 4 ->
  (x1 = x2 -> t1 = t2) ->
  (if weighted x1 t1 <? weighted x2 t2 then -1
   else if weighted x1 t1 >? weighted x2 t2 then 1 else 0)
  = lex_compare (to_list x1) (to_list x2).
Proof.
  destruct x1 as [[[[[[y1 mo1] d1] h1] mi1] s1] ms1].
  destruct x2 as [[[[[[y2 mo2] d2] h2] mi2] s2] ms2].
  unfold fits, weighted, to_list, lex_compare.
  intros (Hy1 & Hmo1 & Hd1 & Hh1 & Hmi1 & Hs1 & Hms1)
         (Hy2 & Hmo2 & Hd2 & Hh2 & Hmi2 & Hs2 & Hms2) Ht1 Ht2 Htag.
  assert (E : y1 = y2 -> mo1 = mo2 -> d1 = d2 -> h1 = h2 -> mi1 = mi2 ->
              s1 = s2 -> ms1 = ms2 -> t1 = t2)
    by (intros; apply Htag; congruence).
  clear Htag.
  repeat match goal with
         | |- context [?a <? ?b] => destruct (Z.ltb_spec a b)
         | |- context [?a >? ?b] => destruct (Z.gtb_spec a b)
         end; try reflexivity; exfalso;
    first [lia | assert (t1 = t2) by (apply E; lia); lia].
Qed.

(** X5: for two values built by [from_primitives] from components that fit
    their fields, whatever their tags and time zones, [compare_to] is the
    comparison of the two 7-tuples from the left; [before] and [after] say
    the same, and [compare_to] is 0 exactly when the tuples are equal. *)
Theorem compare_to_mixed_precision (x1 x2 : components) (tz1 tz2 : option str) :
  fits x1 -> fits x2 ->
  let a := of_components x1 tz1 in
  let b := of_components x2 tz2 in
  compare_to a b = lex_compare (to_list x1) (to_list x2)
  /\ before a b = (lex_compare (to_list x1) (to_list x2) =? -1)
  /\ after a b = (lex_compare (to_list x1) (to_list x2) =? 1)
  /\ (compare_to a b = 0 <-> x1 = x2).
Proof.
  intros H1 H2. cbv zeta.
  assert (C : compare_to (of_components x1 tz1) (of_components x2 tz2)
              = lex_compare (to_list x1) (to_list x2)).
  { unfold compare_to. rewrite !packed_weighted_fits by assumption.
    apply compare_weighted_tags; try assumption.
    - pose proof (tag_bounds x1). destruct x1 as [[[[[[y mo] d] h] mi] s] ms].
      apply PackedFacts.determine_date_type_range.
    - destruct x2 as [[[[[[y mo] d] h] mi] s] ms].
      apply PackedFacts.determine_date_type_range.
    - now intros ->. }
  split; [exact C|].
  pose proof C as C'. unfold compare_to in C'.
  unfold before, after. rewrite <- C'.
  repeat split.
  - destruct (_packed_value (of_components x1 tz1) <? _packed_value (of_components x2 tz2));
      [reflexivity|].
    now destruct (_packed_value (of_components x1 tz1) >? _packed_value (of_components x2 tz2)).
  - destruct (Z.ltb_spec (_packed_value (of_components x1 tz1))
                         (_packed_value (of_components x2 tz2))) as [L|L];
      destruct (Z.gtb_spec (_packed_value (of_components x1 tz1))
                           (_packed_value (of_components x2 tz2))) as [G|G];
      try reflexivity; lia.
  - rewrite C. intros Z0. apply PackedFacts.lex_compare_eq in Z0.
    + destruct x1 as [[[[[[y1 mo1] d1] h1] mi1] s1] ms1].
      destruct x2 as [[[[[[y2 mo2] d2] h2] mi2] s2] ms2].
      simpl in Z0. congruence.
    + destruct x1 as [[[[[[y1 mo1] d1] h1] mi1] s1] ms1].
      destruct x2 as [[[[[[y2 mo2] d2] h2] mi2] s2] ms2]. reflexivity.
  - intros ->. rewrite C. clear.
    destruct x2 as [[[[[[y mo] d] h] mi] s] ms]. unfold to_list, lex_compare.
    rewrite !Z.ltb_irrefl.
    repeat match goal with
           | |- context [?a >? ?a] =>
               replace (a >? a) with false by (symmetry; rewrite Z.gtb_ltb; apply Z.ltb_irrefl)
           end.
    reflexivity.
Qed.

Lemma compare_to_mixed_precision_witness :
  compare_to (of_components (50000, 5, 15, 0, 0, 0, 0) None)
             (of_components (50000, 5, 15, 0, 0, 0, 1) (Some (lit "+12")))
  = -1.
Proof.
  assert (F1 : fits (50000, 5, 15, 0, 0, 0, 0)) by (unfold fits; lia).
  assert (F2 : fits (50000, 5, 15, 0, 0, 0, 1)) by (unfold fits; lia).
  destruct (compare_to_mixed_precision _ _ None (Some (lit "+12")) F1 F2) as [C _].
  rewrite C. reflexivity.
Defined.

End ComponentFacts.

(** ** The time-zone affix and the offset *)

Module TimezoneFacts.
Import Checks RoundTripDefs TimezoneDefs.
Import BitDT.

Lemma written_ok_all : range_forallb 799 written_ok_at = true.
Proof. vm_compute. reflexivity. Qed.

Lemma written_ok_spec (offset : Z) :
  -400 < offset < 400 -> written_ok offset = true.
Proof.
  intros H. pose proof (range_forallb_spec 799 written_ok_at written_ok_all
                          (offset + 399) ltac:(lia)) as E.
  unfold written_ok_at in E. now replace (offset + 399 - 399) with offset in E by lia.
Qed.

Lemma written_affix_ok (offset : Z) :
  -400 < offset < 400 ->
  affix_ok (_format_timezone_offset offset)
  /\ _parse_timezone_offset (_format_timezone_offset offset) = offset.
Proof.
  intros H. pose proof (written_ok_spec offset H) as W. unfold written_ok in W.
  destruct (_format_timezone_offset offset) as [tz|].
  - apply andb_true_iff in W. destruct W as [W Hshape].
    apply andb_true_iff in W. destruct W as [W Hvalid].
    apply andb_true_iff in W. destruct W as [_ Hparse].
    apply Z.eqb_eq in Hparse. split; [|exact Hparse].
    destruct tz as [|sign [|digit digits]]; try discriminate.
    apply andb_true_iff in Hshape. destruct Hshape as [Hsign Hdigits].
    exists sign, (digit :: digits). repeat split; try assumption; try discriminate.
    destruct (_is_valid_timezone (sign :: digit :: digits)) as [[|]|];
      (reflexivity || discriminate).
  - apply Z.eqb_eq in W. subst offset. now split.
Qed.

(** X6: for an offset of fewer than 400 quarters of an hour either way,
    the text [_format_timezone_offset] writes is absent exactly for offset 0,
    is otherwise accepted by [_is_valid_timezone], and is read back by
    [_parse_timezone_offset] as the same offset. *)
Theorem parse_format_timezone_offset (offset : Z) :
  -400 < offset < 400 ->
  _parse_timezone_offset (_format_timezone_offset offset) = offset
  /\ (_format_timezone_offset offset = None <-> offset = 0)
  /\ (forall tz, _format_timezone_offset offset = Some tz ->
                 _is_valid_timezone tz = Ok true).
Proof.
  intros H. destruct (written_affix_ok offset H) as [Hok Hparse].
  split; [exact Hparse|]. split.
  - split.
    + intros E. rewrite E in Hparse. now cbn in Hparse.
    + intros ->. reflexivity.
  - intros tz E. rewrite E in Hok.
    destruct Hok as (sign & digits & -> & _ & _ & _ & Hvalid). exact Hvalid.
Qed.

Lemma parse_format_timezone_offset_witness :
  _format_timezone_offset (-22) = Some (lit "-0530")
  /\ _parse_timezone_offset (Some (lit "-0530")) = -22
  /\ _is_valid_timezone (lit "-0530") = Ok true.
Proof.
  destruct (parse_format_timezone_offset (-22) ltac:(lia)) as (P & _ & V).
  assert (F : _format_timezone_offset (-22) = Some (lit "-0530")) by reflexivity.
  split; [exact F|]. split.
  - rewrite F in P. exact P.
  - apply V. exact F.
Defined.

Lemma two_char_ints : all_ascii two_char_int_row = true.
Proof. vm_compute. reflexivity. Qed.

Lemma two_char_int (s : str) (v : Z) :
  List.length s = 2%nat -> py_int s 10 = Ok v -> -9 <= v <= 99.
Proof.
  intros L E. destruct s as [|a [|b [|? ?]]]; try discriminate.
  pose proof (CompressFacts.all_ascii_spec _ two_char_ints a) as R.
  unfold two_char_int_row in R.
  pose proof (CompressFacts.all_ascii_spec _ R b) as C.
  unfold two_char_int_ok in C. rewrite E in C. lia.
Qed.

Lemma slice_length (s : str) (a b : nat) :
  (b <= List.length s)%nat -> (a <= b)%nat ->
  List.length (str_slice s a b) = (b - a)%nat.
Proof.
  intros Hb Ha. unfold str_slice. rewrite length_firstn, length_skipn. lia.
Qed.

Lemma parse_timezone_offset_range (timezone : option str) :
  -402 <= _parse_timezone_offset timezone <= 402.
Proof.
  destruct timezone as [tz|]; [|cbn; lia].
  unfold _parse_timezone_offset.
  destruct (negb (truthy tz)); [lia|].
  destruct (str_eqb tz (lit "+") || str_eqb tz (lit "-")); [lia|].
  assert (Q : forall h m : Z,
             -9 <= h <= 99 -> -9 <= m <= 99 ->
             -402 <= Z.quot (h * 60 + m) 15 <= 402
             /\ -402 <= Z.quot (- (h * 60 + m)) 15 <= 402).
  { intros h m Hh Hm. split; Z.to_euclidean_division_equations; lia. }
  assert (S : forall total : Z,
             (-402 <= Z.quot total 15 <= 402
              /\ -402 <= Z.quot (- total) 15 <= 402) ->
             -402 <= Z.quot match tz with
                            | c :: _ => if Ascii.eqb c "-" then - total else total
                            | [] => total
                            end 15 <= 402).
  { intros total [T1 T2]. destruct tz as [|c ?]; [exact T1|].
    destruct (Ascii.eqb c "-"); assumption. }
  destruct (len tz =? 3) eqn:L3.
  - apply Z.eqb_eq in L3. unfold len in L3.
    destruct (py_int (str_slice tz 1 3) 10) as [h|] eqn:Eh; cbn [rbind]; [|lia].
    apply two_char_int in Eh; [|apply slice_length; lia].
    apply S. apply Q; lia.
  - destruct (len tz =? 5) eqn:L5.
    + apply Z.eqb_eq in L5. unfold len in L5.
      destruct (py_int (str_slice tz 1 3) 10) as [h|] eqn:Eh; cbn [rbind]; [|lia].
      destruct (py_int (str_slice tz 3 5) 10) as [m|] eqn:Em; cbn [rbind]; [|lia].
      apply two_char_int in Eh; [|apply slice_length; lia].
      apply two_char_int in Em; [|apply slice_length; lia].
      apply S. apply Q; lia.
    + destruct ((len tz =? 6)
                && match nth_error tz 3 with
                   | Some c => Ascii.eqb c ":"
                   | None => false
                   end) eqn:L6.
      * apply andb_true_iff in L6. destruct L6 as [L6 _].
        apply Z.eqb_eq in L6. unfold len in L6.
        destruct (py_int (str_slice tz 1 3) 10) as [h|] eqn:Eh; cbn [rbind]; [|lia].
        destruct (py_int (str_slice tz 4 6) 10) as [m|] eqn:Em; cbn [rbind]; [|lia].
        apply two_char_int in Eh; [|apply slice_length; lia].
        apply two_char_int in Em; [|apply slice_length; lia].
        apply S. apply Q; lia.
      * cbn [rbind]. apply S. apply Q; lia.
Qed.

(** X7: whatever the text of the time zone, the offset that
    [_parse_timezone_offset] gives, and so the offset of every value built by
    [from_primitives], lies between -402 and 402 quarters of an hour. *)
Theorem parse_timezone_offset_bound (timezone : option str) :
  -402 <= _parse_timezone_offset timezone <= 402
  /\ (forall year month day hour minute second millis,
        -402 <= get_timezone_offset
                  (from_primitives year month day hour minute second millis timezone)
             <= 402).
Proof.
  pose proof (parse_timezone_offset_range timezone) as B.
  split; [exact B|]. intros. exact B.
Qed.

Lemma zone_ok_all : range_forallb 799 zone_ok_at = true.
Proof. vm_compute. reflexivity. Qed.

(** X8: the zone that [_parse_zone_offset_to_tz] reads from the text
    written for an offset is that offset in seconds, 900 for each quarter of
    an hour, when the offset is less than a day either way; for the larger
    offsets, up to 399 quarters, it is UTC. *)
Theorem parse_zone_offset_of_written (offset : Z) (tz : str) :
  -400 < offset < 400 ->
  _format_timezone_offset offset = Some tz ->
  (-96 < offset < 96 -> BitDTEpoch._parse_zone_offset_to_tz tz = offset * 900)
  /\ (offset <= -96 \/ 96 <= offset ->
      BitDTEpoch._parse_zone_offset_to_tz tz = BitDTEpoch.utc).
Proof.
  intros H E.
  pose proof (range_forallb_spec 799 zone_ok_at zone_ok_all (offset + 399)
                ltac:(lia)) as Z0.
  unfold zone_ok_at in Z0. cbv zeta in Z0.
  replace (offset + 399 - 399) with offset in Z0 by lia.
  rewrite E in Z0. apply Z.eqb_eq in Z0. split.
  - intros R. rewrite Z0.
    replace (-96 <? offset) with true by (symmetry; apply Z.ltb_lt; lia).
    now replace (offset <? 96) with true by (symmetry; apply Z.ltb_lt; lia).
  - intros R. rewrite Z0. destruct R as [R|R].
    + now replace (-96 <? offset) with false by (symmetry; apply Z.ltb_ge; lia).
    + replace (offset <? 96) with false by (symmetry; apply Z.ltb_ge; lia).
      now rewrite andb_false_r.
Qed.

Lemma parse_zone_offset_of_written_witness :
  BitDTEpoch._parse_zone_offset_to_tz (lit "+0530") = 19800
  /\ _format_timezone_offset 100 = Some (lit "+25")
  /\ BitDTEpoch._parse_zone_offset_to_tz (lit "+25") = 0.
Proof.
  destruct (parse_zone_offset_of_written 22 (lit "+0530") ltac:(lia) eq_refl)
    as [A _].
  destruct (parse_zone_offset_of_written 100 (lit "+25") ltac:(lia) eq_refl)
    as [_ B].
  split; [exact (A ltac:(lia))|]. split; [reflexivity|]. apply B. lia.
Defined.

End TimezoneFacts.

(** ** The round trip for every tag and every offset that can be written *)

Module TextFacts.
Import Checks PackedDefs RoundTripDefs ComponentDefs TextDefs.
Import BitDT.
Import RoundTripFacts.

(** *** The text of any choice of fields *)

Lemma encode_date_time_try_fields (oy omo od oh omi os oms : option Z)
      (timezone : option str) :
  optional_below 226981 oy -> optional_below 12 omo -> optional_below 32 od ->
  optional_below 24 oh -> optional_below 60 omi -> optional_below 60 os ->
  optional_below 1000 oms ->
  encode_date_time_try oy omo od oh omi os oms timezone
  = Ok (_compress_zeros (fields_text oy omo od oh omi os oms) ++ affix timezone).
Proof.
  intros Hy Hmo Hd Hh Hmi Hs Hms.
  destruct alphabets_ok as (_ & Hmonths & Hdays & Hhours & Hminutes & _).
  unfold encode_date_time_try.
  change (len MONTHS) with 12. change (len DAYS) with 31.
  change (len HOURS) with 24. change (len MINUTES) with 60.
  assert (Ey : match oy with
               | Some year => if year >=? 0 then encode_year year else Ok (lit "0")
               | None => Ok (lit "0")
               end = Ok (optional_year oy)).
  { destruct oy as [y|]; [|reflexivity]. cbn [optional_below optional_year] in *.
    replace (y >=? 0) with true by (symmetry; rewrite Z.geb_leb; apply Z.leb_le; lia).
    apply encode_year_text. lia. }
  rewrite Ey. cbn [rbind].
  assert (Emo : match omo with
                | Some month =>
                    if month >=? 0
                    then if (month <? 0) || (month >=? 12) then Raise ValueError
                         else str_index MONTHS month
                    else Ok "0"%char
                | None => Ok "0"%char
                end = Ok (optional_char MONTHS omo)).
  { destruct omo as [mo|]; [|reflexivity]. cbn [optional_below] in Hmo.
    destruct (index_guard mo 12 Hmo) as [-> ->].
    now destruct (alphabet_char MONTHS mo Hmonths Hmo) as (-> & _). }
  rewrite Emo. cbn [rbind].
  assert (Ed : match od with
               | Some day =>
                   if day >=? 1
                   then if (day <? 1) || (day >? 31) then Raise ValueError
                        else str_index DAYS (day - 1)
                   else Ok "0"%char
               | None => Ok "0"%char
               end = Ok (optional_day od)).
  { destruct od as [d|]; [|reflexivity]. cbn [optional_below optional_day] in *.
    destruct (d >=? 1) eqn:D1; [|reflexivity].
    rewrite Z.geb_leb in D1. apply Z.leb_le in D1.
    replace ((d <? 1) || (d >? 31)) with false
      by (symmetry; apply orb_false_iff; split;
          [apply Z.ltb_ge|rewrite Z.gtb_ltb; apply Z.ltb_ge]; lia).
    now destruct (alphabet_char DAYS (d - 1) Hdays
                    ltac:(change (len DAYS) with 31; lia)) as (-> & _). }
  rewrite Ed. cbn [rbind].
  assert (Eh : match oh with
               | Some hour =>
                   if hour >=? 0
                   then if (hour <? 0) || (hour >=? 24) then Raise ValueError
                        else str_index HOURS hour
                   else Ok "0"%char
               | None => Ok "0"%char
               end = Ok (optional_char HOURS oh)).
  { destruct oh as [h|]; [|reflexivity]. cbn [optional_below] in Hh.
    destruct (index_guard h 24 Hh) as [-> ->].
    now destruct (alphabet_char HOURS h Hhours Hh) as (-> & _). }
  rewrite Eh. cbn [rbind].
  assert (Em : forall o, optional_below 60 o ->
               match o with
               | Some minute =>
                   if minute >=? 0
                   then if (minute <? 0) || (minute >=? 60) then Raise ValueError
                        else str_index MINUTES minute
                   else Ok "0"%char
               | None => Ok "0"%char
               end = Ok (optional_char MINUTES o)).
  { intros [m|] Hm; [|reflexivity]. cbn [optional_below] in Hm.
    destruct (index_guard m 60 Hm) as [-> ->].
    now destruct (alphabet_char MINUTES m Hminutes Hm) as (-> & _). }
  rewrite (Em omi Hmi). cbn [rbind]. rewrite (Em os Hs). cbn [rbind].
  assert (Ems : match oms with
                | Some millis =>
                    if millis >=? 0
                    then if millis =? 0 then Ok (lit "0")
                         else ThousandCounter.encode_milliseconds millis
                    else Ok (lit "0")
                | None => Ok (lit "0")
                end = Ok (optional_millis oms)).
  { destruct oms as [ms|]; [|reflexivity]. cbn [optional_below optional_millis] in *.
    replace (ms >=? 0) with true by (symmetry; rewrite Z.geb_leb; apply Z.leb_le; lia).
    destruct (ms =? 0); [reflexivity|].
    apply encode_milliseconds_text. lia. }
  rewrite Ems. cbn [rbind].
  unfold fields_text, affix.
  destruct timezone as [[|c tz]|]; cbn [truthy];
    rewrite ?app_nil_r; reflexivity.
Qed.

(** *** The blocks of [decode] on such a text *)

Lemma decode_year_block_opt (oy : option Z) (rest : str) :
  optional_below 226981 oy ->
  decode_year_block (optional_year oy ++ rest) 0
  = Next (absent_or oy, List.length (optional_year oy)).
Proof.
  intros Hy. destruct oy as [y|]; [|reflexivity].
  cbn [optional_below optional_year absent_or] in *.
  now rewrite decode_year_block_text by lia.
Qed.

Lemma decode_month_block_opt (e : str) (pos : nat) (omo : option Z) :
  nth_error e pos = Some (optional_char MONTHS omo) -> optional_below 12 omo ->
  decode_month_block e pos = Next (absent_or omo, (pos + 1)%nat).
Proof.
  intros Hn Hmo. destruct (str_at_nth e pos _ Hn) as [Hlt Hat].
  destruct alphabets_ok as (_ & Hok & _).
  unfold decode_month_block. rewrite Hlt, Hat. cbn [lift fbind].
  destruct (optional_char_cases MONTHS omo Hok Hmo)
    as [(-> & E) | (mo & -> & Hpos & H0 & Hfind)].
  - rewrite E. reflexivity.
  - rewrite H0, Hfind.
    replace (mo =? -1) with false by (symmetry; apply Z.eqb_neq; lia).
    reflexivity.
Qed.

Lemma decode_day_block_opt (e : str) (pos : nat) (od : option Z) :
  nth_error e pos = Some (optional_day od) -> optional_below 32 od ->
  decode_day_block e pos = Next (day_or_absent od, (pos + 1)%nat).
Proof.
  intros Hn Hd.
  assert (Z0 : nth_error e pos = Some "0"%char ->
               decode_day_block e pos = Next (-1, (pos + 1)%nat)).
  { intros H0. destruct (str_at_nth e pos _ H0) as [Hlt Hat].
    unfold decode_day_block. now rewrite Hlt, Hat. }
  destruct od as [d|]; cbn [optional_day day_or_absent optional_below] in *;
    [|now apply Z0].
  destruct (d >=? 1) eqn:D1; [|now apply Z0].
  rewrite Z.geb_leb in D1. apply Z.leb_le in D1.
  apply decode_day_block_at; [assumption|lia].
Qed.

Lemma decode_millis_block_after (pre : str) (oms : option Z) :
  optional_below 1000 oms ->
  exists pos,
    decode_millis_block (pre ++ optional_millis oms) (List.length pre)
    = Next (millis_or_zero oms, pos).
Proof.
  intros Hms.
  assert (At : forall c m, nth_error (pre ++ c :: m) (List.length pre) = Some c).
  { intros c m. rewrite nth_error_app2 by lia. now rewrite Nat.sub_diag. }
  assert (Z0 : decode_millis_block (pre ++ lit "0") (List.length pre)
               = Next (0, (List.length pre + 1)%nat)).
  { destruct (str_at_nth _ _ _ (At "0"%char [])) as [Hlt Hat].
    unfold decode_millis_block. change (lit "0") with ["0"%char].
    now rewrite Hlt, Hat. }
  unfold optional_millis.
  destruct oms as [ms|]; [|eexists; exact Z0].
  cbn [optional_below millis_or_zero] in *.
  destruct (Z.eqb_spec ms 0) as [->|Hne]; [eexists; exact Z0|].
  destruct (millis_digits ms ltac:(lia)) as (H1 & _).
  destruct alphabets_ok as (_ & _ & _ & _ & _ & Hf & _).
  destruct (alphabet_char _ _ Hf H1) as (_ & _ & Hplain).
  apply plain_facts in Hplain. destruct Hplain as (H0 & _).
  pose proof (decode_milliseconds_text ms ltac:(lia)) as Hdec.
  exists (List.length pre + 2)%nat. unfold millis_text in *.
  destruct (str_at_nth _ _ _ (At (char_at ThousandCounter.FIRST_CHAR (ms / 25))
                                 [char_at ThousandCounter.SECOND_CHAR (ms mod 25)]))
    as [Hlt Hat].
  unfold decode_millis_block. rewrite Hlt, Hat. cbn [lift fbind]. rewrite H0.
  replace (List.length pre + 1 <? List.length (pre ++ _))%nat with true
    by (symmetry; apply Nat.ltb_lt; rewrite length_app; simpl; lia).
  unfold str_slice.
  replace (List.length pre + 2 - List.length pre)%nat with 2%nat by lia.
  rewrite skipn_app, skipn_all, Nat.sub_diag. cbn [app skipn firstn].
  rewrite Hdec. cbn [lift fbind].
  replace (ms =? -1) with false by (symmetry; apply Z.eqb_neq; lia).
  reflexivity.
Qed.

Lemma zero_if_day_or_absent (od : option Z) :
  optional_below 32 od -> zero_if_absent (day_or_absent od) = millis_or_zero od.
Proof.
  destruct od as [d|]; [|reflexivity]. cbn [optional_below day_or_absent millis_or_zero].
  intros Hd. destruct (d >=? 1) eqn:D1.
  - apply zero_if_absent_nonneg. lia.
  - rewrite Z.geb_leb in D1. apply Z.leb_gt in D1. cbn. lia.
Qed.

Lemma decode_fields_text (oy omo od oh omi os oms : option Z)
      (timezone_str : option str) :
  optional_below 226981 oy -> optional_below 12 omo -> optional_below 32 od ->
  optional_below 24 oh -> optional_below 60 omi -> optional_below 60 os ->
  optional_below 1000 oms ->
  decode_fields (fields_text oy omo od oh omi os oms) timezone_str
  = Return (from_primitives
              (millis_or_zero oy) (millis_or_zero omo) (millis_or_zero od)
              (millis_or_zero oh) (millis_or_zero omi) (millis_or_zero os)
              (millis_or_zero oms) timezone_str).
Proof.
  intros Hy Hmo Hd Hh Hmi Hs Hms.
  assert (Last : forall a b c d e f g : bool, a && (b && (c && (d && (e && (f && (false && g)))))) = false).
  { intros. now rewrite !andb_false_r. }
  assert (Hm1 : (millis_or_zero oms =? -1) = false).
  { apply Z.eqb_neq. destruct oms; cbn in *; lia. }
  unfold decode_fields, fields_text.
  rewrite (decode_year_block_opt oy _ Hy). cbn [fbind].
  destruct oy as [y|]; cbn [optional_year year_text app List.length].
  - rewrite (decode_month_block_opt _ 3 omo) by (reflexivity || assumption).
    cbn [fbind Nat.add].
    rewrite (decode_day_block_opt _ 4 od) by (reflexivity || assumption).
    cbn [fbind Nat.add].
    rewrite (decode_hour_block_at _ 5 oh) by (reflexivity || assumption).
    cbn [fbind Nat.add].
    rewrite (decode_minute_block_at _ 6 omi) by (reflexivity || assumption).
    cbn [fbind Nat.add].
    rewrite (decode_minute_block_at _ 7 os) by (reflexivity || assumption).
    cbn [fbind Nat.add].
    destruct (decode_millis_block_after
                [char_at YEAR_CHARS (y / (61 * 61));
                 char_at YEAR_CHARS ((y / 61) mod 61);
                 char_at YEAR_CHARS (y mod 61);
                 optional_char MONTHS omo; optional_day od;
                 optional_char HOURS oh; optional_char MINUTES omi;
                 optional_char MINUTES os] oms Hms) as [pos Hblock].
    cbn [app List.length] in Hblock. rewrite Hblock. cbn [fbind forallb].
    rewrite Hm1, Last.
    rewrite (zero_if_absent_or (Some y) _ Hy), (zero_if_absent_or omo 12 Hmo),
      (zero_if_day_or_absent od Hd), (zero_if_absent_or oh 24 Hh),
      (zero_if_absent_or omi 60 Hmi), (zero_if_absent_or os 60 Hs).
    rewrite zero_if_absent_nonneg by (destruct oms; cbn in *; lia).
    reflexivity.
  - change (lit "0") with ["0"%char]. cbn [app List.length].
    rewrite (decode_month_block_opt _ 1 omo) by (reflexivity || assumption).
    cbn [fbind Nat.add].
    rewrite (decode_day_block_opt _ 2 od) by (reflexivity || assumption).
    cbn [fbind Nat.add].
    rewrite (decode_hour_block_at _ 3 oh) by (reflexivity || assumption).
    cbn [fbind Nat.add].
    rewrite (decode_minute_block_at _ 4 omi) by (reflexivity || assumption).
    cbn [fbind Nat.add].
    rewrite (decode_minute_block_at _ 5 os) by (reflexivity || assumption).
    cbn [fbind Nat.add].
    destruct (decode_millis_block_after
                ["0"%char; optional_char MONTHS omo; optional_day od;
                 optional_char HOURS oh; optional_char MINUTES omi;
                 optional_char MINUTES os] oms Hms) as [pos Hblock].
    cbn [app List.length] in Hblock. rewrite Hblock. cbn [fbind forallb].
    rewrite Hm1, Last. cbn [absent_or millis_or_zero].
    change (zero_if_absent (-1)) with 0.
    rewrite (zero_if_absent_or omo 12 Hmo),
      (zero_if_day_or_absent od Hd), (zero_if_absent_or oh 24 Hh),
      (zero_if_absent_or omi 60 Hmi), (zero_if_absent_or os 60 Hs).
    rewrite zero_if_absent_nonneg by (destruct oms; cbn in *; lia).
    reflexivity.
Qed.

Lemma fields_text_chars (oy omo od oh omi os oms : option Z) :
  optional_below 226981 oy -> optional_below 12 omo -> optional_below 32 od ->
  optional_below 24 oh -> optional_below 60 omi -> optional_below 60 os ->
  optional_below 1000 oms ->
  forallb plain_or_zero (fields_text oy omo od oh omi os oms) = true
  /\ (7 <= List.length (fields_text oy omo od oh omi os oms))%nat.
Proof.
  intros Hy Hmo Hd Hh Hmi Hs Hms.
  destruct alphabets_ok as (Hyears & Hmonths & Hdays & Hhours & Hminutes & Hf & Hsnd).
  assert (P : forall a i, alphabet_ok a = true -> 0 <= i < len a ->
                          plain_or_zero (char_at a i) = true).
  { intros a i Hok Hi. apply (optional_char_plain a (Some i) Hok Hi). }
  assert (Y : forallb plain_or_zero (optional_year oy) = true
              /\ (1 <= List.length (optional_year oy))%nat).
  { destruct oy as [y|]; [|split; [reflexivity|simpl; lia]].
    cbn [optional_below optional_year] in *.
    destruct (year_digits y ltac:(lia)) as (H1 & H2 & H3 & _).
    unfold year_text. cbn [forallb List.length].
    rewrite (P _ _ Hyears H1), (P _ _ Hyears H2), (P _ _ Hyears H3).
    split; [reflexivity|lia]. }
  assert (D : plain_or_zero (optional_day od) = true).
  { destruct od as [d|]; [|reflexivity]. cbn [optional_below optional_day] in *.
    destruct (d >=? 1) eqn:D1; [|reflexivity].
    rewrite Z.geb_leb in D1. apply Z.leb_le in D1.
    apply (P DAYS (d - 1) Hdays). change (len DAYS) with 31. lia. }
  assert (M : forallb plain_or_zero (optional_millis oms) = true
              /\ (1 <= List.length (optional_millis oms))%nat).
  { unfold optional_millis. destruct oms as [ms|]; [|split; [reflexivity|simpl; lia]].
    destruct (ms =? 0); [split; [reflexivity|simpl; lia]|].
    cbn [optional_below] in Hms.
    destruct (millis_digits ms ltac:(lia)) as (M1 & M2 & _).
    unfold millis_text. cbn [forallb List.length].
    rewrite (P _ _ Hf M1), (P _ _ Hsnd M2). split; [reflexivity|lia]. }
  destruct Y as [Y Ly]. destruct M as [M Lm].
  unfold fields_text. rewrite !forallb_app, !length_app.
  cbn [forallb List.length]. rewrite Y, M, D.
  rewrite (optional_char_plain MONTHS omo Hmonths Hmo).
  rewrite (optional_char_plain HOURS oh Hhours Hh).
  rewrite (optional_char_plain MINUTES omi Hminutes Hmi).
  rewrite (optional_char_plain MINUTES os Hminutes Hs).
  split; [reflexivity|lia].
Qed.

End TextFacts.
(** *** The text [encode] writes, and the round trip *)

Module GeneralRoundTripFacts.
Import Checks PackedDefs RoundTripDefs ComponentDefs TextDefs.
Import BitDT.
Import RoundTripFacts TextFacts.

Lemma tag_cases (x : components) :
  let '(y, mo, d, h, mi, s, ms) := x in
  (tag_of x = TYPE_EMPTY)
  \/ (tag_of x = TYPE_DATE_ONLY /\ h = 0 /\ mi = 0 /\ s = 0 /\ ms = 0)
  \/ (tag_of x = TYPE_TIME_ONLY /\ y = 0 /\ mo = 0 /\ d = 0)
  \/ (tag_of x = TYPE_DATE_HOUR /\ mi = 0 /\ s = 0 /\ ms = 0)
  \/ tag_of x = TYPE_FULL.
Proof.
  destruct x as [[[[[[y mo] d] h] mi] s] ms].
  unfold tag_of, _determine_date_type.
  destruct (Z.eqb_spec y 0), (Z.eqb_spec mo 0), (Z.eqb_spec d 0),
    (Z.eqb_spec h 0), (Z.eqb_spec mi 0), (Z.eqb_spec s 0), (Z.eqb_spec ms 0);
    cbn; tauto.
Qed.

Lemma encode_written (x : components) (tz : option str) :
  fits x -> tag_of x <> TYPE_EMPTY ->
  encode (of_components x tz)
  = _compress_zeros (written_text x)
    ++ affix (_format_timezone_offset (_parse_timezone_offset tz)).
Proof.
  intros Hx Hne.
  pose proof (ComponentFacts.accessors_of_components x tz Hx) as G.
  pose proof (ComponentFacts.date_type_of_components x tz) as Gt.
  pose proof (tag_cases x) as T.
  assert (Gtz : get_timezone (of_components x tz)
                = _format_timezone_offset (_parse_timezone_offset tz))
    by (destruct x as [[[[[[y mo] d] h] mi] s] ms]; reflexivity).
  destruct x as [[[[[[y mo] d] h] mi] s] ms].
  cbv zeta in G. destruct G as (Gy & Gmo & Gd & Gh & Gmi & Gs & Gms & _).
  pose proof Hx as (Hy & Hmo & Hd & Hh & Hmi & Hs & Hms).
  unfold encode, is_empty, written_text, written_fields.
  rewrite Gt, Gy, Gmo, Gd, Gh, Gmi, Gs, Gms, Gtz.
  unfold encode_date_time.
  destruct T as [E | [(E & -> & -> & -> & ->) | [(E & -> & -> & ->)
                 | [(E & -> & -> & ->) | E]]]]; [contradiction| | | |];
    rewrite E.
  - change (TYPE_DATE_ONLY =? TYPE_EMPTY) with false.
    change (TYPE_DATE_ONLY =? TYPE_DATE_ONLY) with true.
    change (no_date TYPE_DATE_ONLY) with false. cbv iota beta.
    change (none_if_absent (-1)) with (@None Z).
    rewrite (none_if_absent_nonneg y), (none_if_absent_nonneg mo),
      (none_if_absent_nonneg d) by lia.
    now rewrite encode_date_time_try_fields by (cbn; lia).
  - change (TYPE_TIME_ONLY =? TYPE_EMPTY) with false.
    change (TYPE_TIME_ONLY =? TYPE_DATE_ONLY) with false.
    change (TYPE_TIME_ONLY =? TYPE_TIME_ONLY) with true.
    change (no_time TYPE_TIME_ONLY) with false. cbv iota beta.
    change (none_if_absent (-1)) with (@None Z).
    rewrite (none_if_absent_nonneg h), (none_if_absent_nonneg mi),
      (none_if_absent_nonneg s), (none_if_absent_nonneg ms) by lia.
    now rewrite encode_date_time_try_fields by (cbn; lia).
  - change (TYPE_DATE_HOUR =? TYPE_EMPTY) with false.
    change (TYPE_DATE_HOUR =? TYPE_DATE_ONLY) with false.
    change (TYPE_DATE_HOUR =? TYPE_TIME_ONLY) with false.
    change (TYPE_DATE_HOUR =? TYPE_DATE_HOUR) with true.
    change (no_date TYPE_DATE_HOUR) with false.
    change (no_time TYPE_DATE_HOUR) with false. cbv iota beta.
    change (none_if_absent (-1)) with (@None Z).
    rewrite (none_if_absent_nonneg y), (none_if_absent_nonneg mo),
      (none_if_absent_nonneg d), (none_if_absent_nonneg h) by lia.
    now rewrite encode_date_time_try_fields by (cbn; lia).
  - change (TYPE_FULL =? TYPE_EMPTY) with false.
    change (TYPE_FULL =? TYPE_DATE_ONLY) with false.
    change (TYPE_FULL =? TYPE_TIME_ONLY) with false.
    change (TYPE_FULL =? TYPE_DATE_HOUR) with false.
    change (no_date TYPE_FULL) with false.
    change (no_time TYPE_FULL) with false. cbv iota beta.
    rewrite (none_if_absent_nonneg y), (none_if_absent_nonneg mo),
      (none_if_absent_nonneg d), (none_if_absent_nonneg h),
      (none_if_absent_nonneg mi), (none_if_absent_nonneg s),
      (none_if_absent_nonneg ms) by lia.
    now rewrite encode_date_time_try_fields by (cbn; lia).
Qed.

Lemma decode_fields_body (oy omo od oh omi os oms : option Z)
      (c1 c2 c3 : ascii) (tail : str) (written : option str) :
  optional_below 226981 oy -> optional_below 12 omo -> optional_below 32 od ->
  optional_below 24 oh -> optional_below 60 omi -> optional_below 60 os ->
  optional_below 1000 oms ->
  _compress_zeros (fields_text oy omo od oh omi os oms) = c1 :: c2 :: c3 :: tail ->
  Ascii.eqb c1 "0" = false ->
  affix_ok written ->
  decode (Some (_compress_zeros (fields_text oy omo od oh omi os oms) ++ affix written))
  = Ok (from_primitives
          (millis_or_zero oy) (millis_or_zero omo) (millis_or_zero od)
          (millis_or_zero oh) (millis_or_zero omi) (millis_or_zero os)
          (millis_or_zero oms) written).
Proof.
  intros Hy Hmo Hd Hh Hmi Hs Hms Hhead H0 Hok.
  destruct (fields_text_chars oy omo od oh omi os oms Hy Hmo Hd Hh Hmi Hs Hms)
    as [Hchars Hlen].
  pose proof (decode_fields_text oy omo od oh omi os oms written
                Hy Hmo Hd Hh Hmi Hs Hms) as Hfields.
  set (u := fields_text oy omo od oh omi os oms) in *.
  assert (Hrun : forallb (fun c => negb (CompressDefs.is_run_symbol c)) u = true).
  { rewrite forallb_forall in *. intros c Hc.
    apply (plain_or_zero_facts c (Hchars c Hc)). }
  assert (Hvalid : forallb _is_valid_encoded_char u = true).
  { rewrite forallb_forall in *. intros c Hc.
    apply (plain_or_zero_facts c (Hchars c Hc)). }
  assert (Hsign : forallb no_sign u = true).
  { rewrite forallb_forall in *. intros c Hc.
    apply (plain_or_zero_facts c (Hchars c Hc)). }
  pose proof (CompressFacts.expand_compress u Hrun) as Hexp.
  rewrite Hhead in *.
  rewrite (decode_composed _ _ _ tail u written).
  - now rewrite Hfields.
  - exact H0.
  - apply no_sign_expand. now rewrite Hexp.
  - exact Hexp.
  - unfold too_short_expanded. apply Z.ltb_ge. unfold len. lia.
  - exact Hvalid.
  - exact Hok.
Qed.

Lemma char_not_zero (alphabet : str) (i : Z) :
  alphabet_ok alphabet = true -> 0 <= i < len alphabet ->
  Ascii.eqb (char_at alphabet i) "0" = false.
Proof.
  intros Hok Hi. destruct (alphabet_char alphabet i Hok Hi) as (_ & _ & Hp).
  now apply plain_facts in Hp.
Qed.

Lemma year_head (y : Z) (rest : str) :
  0 <= y <= 226980 ->
  exists c1 c2 c3 tail,
    _compress_zeros (year_text y ++ rest) = c1 :: c2 :: c3 :: tail
    /\ Ascii.eqb c1 "0" = false.
Proof.
  intros Hy. destruct (year_digits y Hy) as (H1 & H2 & H3 & _).
  destruct alphabets_ok as (Hyears & _).
  unfold year_text. cbn [app].
  rewrite !CompressFacts.compress_cons_plain
    by (apply char_not_zero; assumption).
  do 4 eexists. split; [reflexivity|]. now apply char_not_zero.
Qed.

Lemma time_head (h mi : Z) (rest : str) :
  0 <= h <= 23 -> 0 <= mi <= 59 ->
  exists c1 c2 c3 tail,
    _compress_zeros (lit "0" ++ ["0"%char; "0"%char; char_at HOURS h;
                                 char_at MINUTES mi] ++ rest)
    = c1 :: c2 :: c3 :: tail
    /\ Ascii.eqb c1 "0" = false.
Proof.
  intros Hh Hmi.
  destruct alphabets_ok as (_ & _ & _ & Hhours & Hminutes & _).
  assert (Zh : Ascii.eqb (char_at HOURS h) "0" = false)
    by (apply char_not_zero; [assumption|change (len HOURS) with 24; lia]).
  assert (Zm : Ascii.eqb (char_at MINUTES mi) "0" = false)
    by (apply char_not_zero; [assumption|change (len MINUTES) with 60; lia]).
  change (lit "0" ++ ["0"%char; "0"%char; char_at HOURS h; char_at MINUTES mi] ++ rest)
    with ([] ++ repeat "0"%char 3 ++ (char_at HOURS h :: char_at MINUTES mi :: rest)).
  rewrite CompressFacts.compress_run;
    [|lia|reflexivity|cbn [CompressDefs.starts_with_zero]; exact Zh].
  rewrite !CompressFacts.compress_cons_plain by assumption.
  exists ":"%char, (char_at HOURS h), (char_at MINUTES mi), (_compress_zeros rest).
  split; reflexivity.
Qed.

Lemma decode_encode_fits (x : components) (tz : option str) :
  fits x -> tag_of x <> TYPE_EMPTY ->
  -400 < _parse_timezone_offset tz < 400 ->
  decode (Some (encode (of_components x tz))) = Ok (of_components x tz).
Proof.
  intros Hx Hne Hoff. rewrite (encode_written x tz Hx Hne).
  destruct (TimezoneFacts.written_affix_ok _ Hoff) as [Hok Hparse].
  set (written := _format_timezone_offset (_parse_timezone_offset tz)) in *.
  pose proof (tag_cases x) as T.
  destruct x as [[[[[[y mo] d] h] mi] s] ms].
  pose proof Hx as (Hy & Hmo & Hd & Hh & Hmi & Hs & Hms).
  unfold written_text, written_fields.
  destruct T as [E | [(E & -> & -> & -> & ->) | [(E & -> & -> & ->)
                 | [(E & -> & -> & ->) | E]]]]; [contradiction| | | |];
    rewrite E.
  - change (TYPE_DATE_ONLY =? TYPE_DATE_ONLY) with true. cbv iota beta.
    destruct (year_head y ([optional_char MONTHS (Some mo); optional_day (Some d);
                            optional_char HOURS None; optional_char MINUTES None;
                            optional_char MINUTES None] ++ optional_millis None) Hy)
      as (c1 & c2 & c3 & tail & Hhead & H0).
    rewrite (decode_fields_body _ _ _ _ _ _ _ c1 c2 c3 tail written)
      by (assumption || (cbn; lia)).
    cbn [millis_or_zero]. f_equal. now apply from_primitives_timezone.
  - change (TYPE_TIME_ONLY =? TYPE_DATE_ONLY) with false.
    change (TYPE_TIME_ONLY =? TYPE_TIME_ONLY) with true. cbv iota beta.
    destruct (time_head h mi ([optional_char MINUTES (Some s)]
                              ++ optional_millis (Some ms)) Hh Hmi)
      as (c1 & c2 & c3 & tail & Hhead & H0).
    rewrite (decode_fields_body _ _ _ _ _ _ _ c1 c2 c3 tail written)
      by (assumption || (cbn; lia)).
    cbn [millis_or_zero]. f_equal. now apply from_primitives_timezone.
  - change (TYPE_DATE_HOUR =? TYPE_DATE_ONLY) with false.
    change (TYPE_DATE_HOUR =? TYPE_TIME_ONLY) with false.
    change (TYPE_DATE_HOUR =? TYPE_DATE_HOUR) with true. cbv iota beta.
    destruct (year_head y ([optional_char MONTHS (Some mo); optional_day (Some d);
                            optional_char HOURS (Some h); optional_char MINUTES None;
                            optional_char MINUTES None] ++ optional_millis None) Hy)
      as (c1 & c2 & c3 & tail & Hhead & H0).
    rewrite (decode_fields_body _ _ _ _ _ _ _ c1 c2 c3 tail written)
      by (assumption || (cbn; lia)).
    cbn [millis_or_zero]. f_equal. now apply from_primitives_timezone.
  - change (TYPE_FULL =? TYPE_DATE_ONLY) with false.
    change (TYPE_FULL =? TYPE_TIME_ONLY) with false.
    change (TYPE_FULL =? TYPE_DATE_HOUR) with false. cbv iota beta.
    destruct (year_head y ([optional_char MONTHS (Some mo); optional_day (Some d);
                            optional_char HOURS (Some h);
                            optional_char MINUTES (Some mi);
                            optional_char MINUTES (Some s)]
                           ++ optional_millis (Some ms)) Hy)
      as (c1 & c2 & c3 & tail & Hhead & H0).
    rewrite (decode_fields_body _ _ _ _ _ _ _ c1 c2 c3 tail written)
      by (assumption || (cbn; lia)).
    cbn [millis_or_zero]. f_equal. now apply from_primitives_timezone.
Qed.

(** X9: for components that fit their fields (the day may be 0) and a time
    zone whose offset is less than 400 quarters of an hour either way,
    decoding the encoding of the value built by [from_primitives] gives
    the value back, for every tag but Empty; for the Empty tag the encoding
    is ["&"] and decoding it gives the empty value, whose offset is 0. *)
Theorem decode_encode_every_tag (x : components) (tz : option str) :
  fits x -> -400 < _parse_timezone_offset tz < 400 ->
  decode (Some (encode (of_components x tz)))
  = Ok (if is_empty (of_components x tz) then create_empty else of_components x tz)
  /\ (is_empty (of_components x tz) = true -> encode (of_components x tz) = lit "&").
Proof.
  intros Hx Hoff.
  pose proof (ComponentFacts.date_type_of_components x tz) as Gt.
  unfold is_empty. rewrite Gt. split.
  - destruct (Z.eqb_spec (tag_of x) TYPE_EMPTY) as [E|E].
    + unfold encode, is_empty. rewrite Gt, E. reflexivity.
    + now apply decode_encode_fits.
  - intros E. unfold encode, is_empty. now rewrite Gt, E.
Qed.

Lemma decode_encode_every_tag_witness :
  decode (Some (encode (of_components (0, 0, 0, 12, 30, 0, 0) (Some (lit "-05:30")))))
  = Ok (of_components (0, 0, 0, 12, 30, 0, 0) (Some (lit "-05:30")))
  /\ decode (Some (encode (of_components (50000, 1, 0, 0, 0, 0, 0) None)))
     = Ok (of_components (50000, 1, 0, 0, 0, 0, 0) None).
Proof.
  split.
  - apply (decode_encode_every_tag (0, 0, 0, 12, 30, 0, 0) (Some (lit "-05:30")));
      [unfold fits; lia|vm_compute; split; reflexivity].
  - apply (decode_encode_every_tag (50000, 1, 0, 0, 0, 0, 0) None);
      [unfold fits; lia|vm_compute; split; reflexivity].
Defined.

End GeneralRoundTripFacts.

(** ** What [decode] gives, for any text *)

Module DecodeShapeFacts.
Import Checks PackedDefs RoundTripDefs ComponentDefs DecodeDefs DecodeShapeDefs.
Import BitDT.

(** *** The affix is a suffix of the text *)

Lemma is_valid_timezone_digits (sign : ascii) (digits : str) :
  _is_valid_timezone (sign :: digits) = Ok true ->
  is_sign sign = true
  /\ forallb (str_contains TIMEZONE_DIGITS) digits = true
  /\ (List.length digits = 2%nat \/ List.length digits = 4%nat).
Proof.
  unfold _is_valid_timezone.
  destruct (negb (truthy (sign :: digits)) || (len (sign :: digits) <? 2)) eqn:L;
    [discriminate|].
  cbn [str_at nth_error rbind str_from skipn].
  destruct (is_sign sign); cbn [negb]; [|discriminate].
  destruct digits as [|d digits].
  - exfalso. cbn in L. discriminate.
  - change (truthy (d :: digits)) with true. cbn [negb].
    set (ds := d :: digits).
    destruct (forallb (str_contains TIMEZONE_DIGITS) ds);
      cbn [negb]; [|discriminate].
    intros E.
    assert (E' : (len ds =? 2) || (len ds =? 4) = true) by congruence.
    clear E. apply orb_true_iff in E'. unfold len in E'.
    repeat split. destruct E' as [E|E]; apply Z.eqb_eq in E; lia.
Qed.

Lemma parse_timezone_loop_suffix (s : str) (n : nat) (tz : str) :
  _parse_timezone_loop s n = Ok (Some tz) ->
  exists i, (i < n)%nat /\ (i < List.length s)%nat /\ tz = skipn i s
            /\ _is_valid_timezone tz = Ok true.
Proof.
  induction n as [|n IH]; [discriminate|].
  cbn [_parse_timezone_loop].
  destruct (str_at s n) as [c|] eqn:At; cbn [rbind]; [|discriminate].
  assert (Hn : (n < List.length s)%nat).
  { unfold str_at in At. destruct (nth_error s n) eqn:N; [|discriminate].
    apply nth_error_Some. congruence. }
  assert (Rec : _parse_timezone_loop s n = Ok (Some tz) ->
                exists i, (i < S n)%nat /\ (i < List.length s)%nat
                          /\ tz = skipn i s /\ _is_valid_timezone tz = Ok true).
  { intros H. destruct (IH H) as (i & Hi & Hl & E & V). exists i. auto with arith. }
  destruct (is_sign c); [|exact Rec].
  destruct (_is_valid_timezone (str_from s n)) as [[|]|] eqn:V; cbn [rbind];
    [|exact Rec|discriminate].
  intros E. injection E as <-. exists n. auto.
Qed.

Lemma skipn_last {A} (l : list A) (d : A) :
  l <> [] -> skipn (List.length l - 1) l = [last l d].
Proof.
  induction l as [|a l IH]; [congruence|]. intros _.
  destruct l as [|b l]; [reflexivity|].
  specialize (IH ltac:(discriminate)).
  replace (List.length (a :: b :: l) - 1)%nat with (S (List.length (b :: l) - 1))
    by (cbn [List.length]; lia).
  cbn [skipn]. rewrite IH. reflexivity.
Qed.

Lemma parse_timezone_suffix (s tz : str) :
  _parse_timezone s = Ok (Some tz) ->
  exists i, (i < List.length s)%nat /\ tz = skipn i s
            /\ ((exists sign, tz = [sign] /\ is_sign sign = true)
                \/ _is_valid_timezone tz = Ok true).
Proof.
  unfold _parse_timezone.
  destruct (negb (truthy s) || (len s <? 2)); [discriminate|].
  destruct s as [|c0 s0]; [discriminate|]. set (s := c0 :: s0).
  rewrite (DecodeFacts.str_index_last s) by discriminate. cbn [rbind].
  destruct (is_sign (last s "000"%char)) eqn:Hs.
  - intros E. injection E as <-. exists (List.length s - 1)%nat.
    split; [cbn; lia|]. split.
    + symmetry. exact (skipn_last (c0 :: s0) "000"%char ltac:(discriminate)).
    + left. eexists. split; [reflexivity|exact Hs].
  - intros E. destruct (parse_timezone_loop_suffix _ _ _ E) as (i & _ & Hl & Ei & V).
    exists i. auto.
Qed.

Lemma extract_datetime_part_prefix (s : str) :
  exists timezone body,
    _parse_timezone s = Ok timezone
    /\ _extract_datetime_part (@Some str s) = Ok (Some body)
    /\ body ++ affix timezone = s.
Proof.
  destruct (DecodeFacts.parse_timezone_ok s) as [timezone P].
  exists timezone. unfold _extract_datetime_part. rewrite P. cbn [rbind].
  destruct timezone as [tz|].
  - destruct (parse_timezone_suffix s tz P) as (i & Hi & -> & _).
    assert (T : truthy (skipn i s) = true).
    { destruct (skipn i s) eqn:E; [|reflexivity].
      apply (f_equal (@List.length ascii)) in E. rewrite length_skipn in E.
      cbn in E. lia. }
    rewrite T. eexists. split; [reflexivity|]. split; [reflexivity|].
    rewrite length_skipn.
    replace (List.length s - (List.length s - i))%nat with i by lia.
    cbn [affix]. apply firstn_skipn.
  - exists s. cbn [affix]. rewrite app_nil_r. auto.
Qed.

(** X10: [_parse_timezone] and [_extract_datetime_part] split a text without
    loss: the body followed by the affix is the text.  An affix starts with
    a sign and is either the sign alone or a sign followed by two or four
    decimal digits. *)
Theorem body_and_affix (bit_dt : str) :
  exists timezone body,
    _parse_timezone bit_dt = Ok timezone
    /\ _extract_datetime_part (Some bit_dt) = Ok (Some body)
    /\ body ++ affix timezone = bit_dt
    /\ (forall tz, timezone = Some tz ->
          exists sign digits,
            tz = sign :: digits /\ is_sign sign = true
            /\ forallb (str_contains TIMEZONE_DIGITS) digits = true
            /\ (List.length digits = 0%nat \/ List.length digits = 2%nat
                \/ List.length digits = 4%nat)).
Proof.
  destruct (extract_datetime_part_prefix bit_dt) as (timezone & body & P & E & A).
  exists timezone, body. repeat (split; [assumption|]).
  intros tz ->. destruct (parse_timezone_suffix bit_dt tz P) as (i & _ & _ & Hshape).
  destruct Hshape as [(sign & -> & Hs) | V].
  - exists sign, []. repeat split; auto.
  - destruct tz as [|sign digits]; [discriminate|].
    destruct (is_valid_timezone_digits sign digits V) as (Hs & Hd & Hl).
    exists sign, digits. repeat split; auto.
Qed.

(** *** The fields are in range *)

Lemma decode_year_range (year_code : str) :
  exists v, decode_year year_code = Ok v /\ (v = -1 \/ 0 <= v <= 226980).
Proof.
  unfold decode_year.
  destruct (negb (truthy year_code) || negb (len year_code =? 3)) eqn:L;
    [exists (-1); auto|].
  apply orb_false_iff in L. destruct L as [_ L]. apply negb_false_iff in L.
  apply Z.eqb_eq in L. unfold len in L.
  destruct year_code as [|c0 [|c1 [|c2 rest]]]; try (cbn in L; lia).
  cbn [str_at nth_error rbind].
  pose proof (str_find_range YEAR_CHARS c0) as R0.
  pose proof (str_find_range YEAR_CHARS c1) as R1.
  pose proof (str_find_range YEAR_CHARS c2) as R2.
  change (len YEAR_CHARS) with 61 in *.
  destruct (Z.eqb_spec (str_find YEAR_CHARS c0) (-1)); [exists (-1); auto|].
  destruct (Z.eqb_spec (str_find YEAR_CHARS c1) (-1)); [exists (-1); auto|].
  destruct (Z.eqb_spec (str_find YEAR_CHARS c2) (-1)); [exists (-1); auto|].
  cbn [orb]. eexists. split; [reflexivity|]. right. lia.
Qed.

Ltac at_pos e pos :=
  let c := fresh "c" in
  let E := fresh "E" in
  let L := fresh "L" in
  destruct (pos <? List.length e)%nat eqn:L; [|cbn; auto];
  destruct (str_at_lt e pos (proj1 (Nat.ltb_lt _ _) L)) as [c E];
  rewrite E; cbn [lift fbind].

Lemma year_block_range (e : str) (pos : nat) :
  block_in_range 226980 (decode_year_block e pos).
Proof.
  unfold decode_year_block. at_pos e pos.
  destruct (Ascii.eqb c "0"); [cbn; auto|].
  destruct (pos + 2 <? List.length e)%nat; [|reflexivity].
  destruct (decode_year_range (str_slice e pos (pos + 3))) as (v & -> & R).
  cbn [lift fbind]. destruct (Z.eqb_spec v (-1)); [reflexivity|]. cbn. tauto.
Qed.

Lemma find_block_range (alphabet : str) (c : ascii) (pos : nat) :
  block_in_range (len alphabet - 1)
    (month <- (if Ascii.eqb c "0" then Next (-1)
               else let month := str_find alphabet c in
                    if month =? -1 then Return create_empty else Next month) ;;
     Next (month, pos))%flow.
Proof.
  destruct (Ascii.eqb c "0"); [cbn; auto|]. cbv zeta.
  pose proof (str_find_range alphabet c) as R.
  destruct (Z.eqb_spec (str_find alphabet c) (-1)); [reflexivity|]. cbn. lia.
Qed.

Lemma month_block_range (e : str) (pos : nat) :
  block_in_range 11 (decode_month_block e pos).
Proof.
  unfold decode_month_block. at_pos e pos. apply (find_block_range MONTHS).
Qed.

Lemma day_block_range (e : str) (pos : nat) :
  block_in_range 31 (decode_day_block e pos).
Proof.
  unfold decode_day_block. at_pos e pos.
  destruct (Ascii.eqb c "0"); [cbn; auto|]. cbv zeta.
  pose proof (str_find_range DAYS c) as R. change (len DAYS) with 31 in R.
  destruct (Z.eqb_spec (str_find DAYS c + 1) 0); [reflexivity|].
  cbn [fbind block_in_range]. lia.
Qed.

Lemma hour_block_range (e : str) (pos : nat) :
  block_in_range 23 (decode_hour_block e pos).
Proof.
  unfold decode_hour_block. at_pos e pos. apply (find_block_range HOURS).
Qed.

Lemma minute_block_range (e : str) (pos : nat) :
  block_in_range 59 (decode_minute_block e pos).
Proof.
  unfold decode_minute_block. at_pos e pos. apply (find_block_range MINUTES).
Qed.

Lemma millis_block_range (e : str) (pos : nat) :
  block_in_range 999 (decode_millis_block e pos).
Proof.
  unfold decode_millis_block. at_pos e pos.
  destruct (Ascii.eqb c "0"); [cbn; lia|].
  destruct (pos + 1 <? List.length e)%nat; [|reflexivity].
  destruct (ThousandCounterFacts.decode_milliseconds_range
              (str_slice e pos (pos + 2))) as (v & -> & R).
  cbn [lift fbind]. destruct (Z.eqb_spec v (-1)); [reflexivity|]. cbn. tauto.
Qed.

Lemma zero_if_absent_range (v hi : Z) :
  0 <= hi -> v = -1 \/ 0 <= v <= hi -> 0 <= zero_if_absent v <= hi.
Proof.
  intros Hhi [->|R]; [cbn; lia|].
  unfold zero_if_absent. destruct (Z.eqb_spec v (-1)); cbn; lia.
Qed.

Lemma create_empty_components :
  create_empty = of_components (0, 0, 0, 0, 0, 0, 0) None.
Proof. reflexivity. Qed.

Lemma decode_fields_shape (e : str) (timezone_str : option str) :
  exists x tz,
    decode_fields e timezone_str = Return (of_components x tz) /\ fits x
    /\ (tz = timezone_str \/ of_components x tz = create_empty).
Proof.
  assert (Empty : exists x tz,
             @Return t t create_empty = Return (of_components x tz) /\ fits x
             /\ (tz = timezone_str \/ of_components x tz = create_empty)).
  { exists (0, 0, 0, 0, 0, 0, 0), None. split; [reflexivity|].
    split; [unfold fits; lia|]. right. reflexivity. }
  unfold decode_fields.
  pose proof (year_block_range e 0) as By.
  destruct (decode_year_block e 0) as [[year p1]|r|?]; cbn [fbind block_in_range] in *;
    [|subst r; exact Empty|contradiction].
  pose proof (month_block_range e p1) as Bmo.
  destruct (decode_month_block e p1) as [[month p2]|r|?];
    cbn [fbind block_in_range] in *; [|subst r; exact Empty|contradiction].
  pose proof (day_block_range e p2) as Bd.
  destruct (decode_day_block e p2) as [[day p3]|r|?];
    cbn [fbind block_in_range] in *; [|subst r; exact Empty|contradiction].
  pose proof (hour_block_range e p3) as Bh.
  destruct (decode_hour_block e p3) as [[hour p4]|r|?];
    cbn [fbind block_in_range] in *; [|subst r; exact Empty|contradiction].
  pose proof (minute_block_range e p4) as Bmi.
  destruct (decode_minute_block e p4) as [[minute p5]|r|?];
    cbn [fbind block_in_range] in *; [|subst r; exact Empty|contradiction].
  pose proof (minute_block_range e p5) as Bs.
  destruct (decode_minute_block e p5) as [[second p6]|r|?];
    cbn [fbind block_in_range] in *; [|subst r; exact Empty|contradiction].
  pose proof (millis_block_range e p6) as Bms.
  destruct (decode_millis_block e p6) as [[millis p7]|r|?];
    cbn [fbind block_in_range] in *; [|subst r; exact Empty|contradiction].
  destruct (forallb (fun x => x =? -1) [year; month; day; hour; minute; second; millis]);
    [exact Empty|].
  exists (zero_if_absent year, zero_if_absent month, zero_if_absent day,
          zero_if_absent hour, zero_if_absent minute, zero_if_absent second,
          zero_if_absent millis), timezone_str.
  split; [reflexivity|]. split; [|now left].
  pose proof (zero_if_absent_range year 226980 ltac:(lia) By).
  pose proof (zero_if_absent_range month 11 ltac:(lia) Bmo).
  pose proof (zero_if_absent_range day 31 ltac:(lia) Bd).
  pose proof (zero_if_absent_range hour 23 ltac:(lia) Bh).
  pose proof (zero_if_absent_range minute 59 ltac:(lia) Bmi).
  pose proof (zero_if_absent_range second 59 ltac:(lia) Bs).
  pose proof (zero_if_absent_range millis 999 ltac:(lia) Bms).
  unfold fits. tauto.
Qed.

Lemma too_short_body_ok (date_time_part : str) :
  exists short, too_short_body date_time_part = Ok short.
Proof.
  unfold too_short_body. destruct date_time_part as [|c rest]; cbn; eauto.
Qed.

Lemma decode_shape (bit_dt : option str) :
  exists x tz, decode bit_dt = Ok (of_components x tz) /\ fits x.
Proof.
  assert (Empty : exists x tz,
             run (@Return t t create_empty) = Ok (of_components x tz) /\ fits x).
  { exists (0, 0, 0, 0, 0, 0, 0), None. split; [reflexivity|unfold fits; lia]. }
  unfold decode. destruct bit_dt as [s|]; [|exact Empty].
  destruct (extract_datetime_part_prefix s) as (timezone & body & -> & -> & _).
  cbn [lift fbind].
  destruct (negb (truthy body)); [exact Empty|].
  destruct (too_short_body_ok body) as [short ->]. cbn [lift fbind].
  destruct short; [exact Empty|].
  destruct (too_short_expanded (_expand_zeros body)); [exact Empty|].
  destruct (negb (forallb _is_valid_encoded_char (_expand_zeros body)));
    [exact Empty|].
  destruct (decode_fields_shape (_expand_zeros body) timezone)
    as (x & tz & -> & Hx & _).
  exists x, tz. now split.
Qed.

(** X11: [decode] of any text gives a value built from components that fit
    their fields: each accessor gives -1 or a number within the range of its
    field, the tag is one of the five, and the offset is at most 402
    quarters of an hour either way. *)
Theorem decode_in_range (bit_dt : option str) :
  exists v x tz,
    decode bit_dt = Ok v /\ v = of_components x tz /\ fits x
    /\ -1 <= get_year v <= 226980 /\ -1 <= get_month v <= 11
    /\ -1 <= get_day v <= 31 /\ -1 <= get_hour v <= 23
    /\ -1 <= get_minute v <= 59 /\ -1 <= get_second v <= 59
    /\ -1 <= get_millis v <= 999
    /\ 0 <= get_date_type v <= 4
    /\ -402 <= get_timezone_offset v <= 402.
Proof.
  destruct (decode_shape bit_dt) as (x & tz & D & Hx).
  exists (of_components x tz), x, tz.
  repeat (split; [assumption || reflexivity|]).
  pose proof (ComponentFacts.accessors_of_components x tz Hx) as A.
  pose proof (ComponentFacts.date_type_of_components x tz) as Gt.
  pose proof (TimezoneFacts.parse_timezone_offset_range tz) as Gz.
  destruct x as [[[[[[y mo] d] h] mi] s] ms].
  cbv zeta in A. destruct A as (A1 & A2 & A3 & A4 & A5 & A6 & A7 & _).
  destruct Hx as (Hy & Hmo & Hd & Hh & Hmi & Hs & Hms).
  rewrite A1, A2, A3, A4, A5, A6, A7. unfold get_date_type. rewrite Gt.
  pose proof (PackedFacts.determine_date_type_range y mo d h mi s ms) as Tr.
  change (_determine_date_type y mo d h mi s ms) with (tag_of (y, mo, d, h, mi, s, ms)) in Tr.
  destruct (no_date _), (no_time _); repeat split; (lia || exact (proj1 Gz)
    || exact (proj2 Gz)).
Qed.

(** X12: a decoded value whose offset is less than 400 quarters of an hour
    either way survives another trip: decoding its encoding gives the value
    again, or the empty value when its tag is Empty. *)
Theorem decode_encode_decode (bit_dt : option str) (v : t) :
  decode bit_dt = Ok v -> -400 < get_timezone_offset v < 400 ->
  decode (Some (encode v)) = Ok (if is_empty v then create_empty else v).
Proof.
  intros D Hoff. destruct (decode_shape bit_dt) as (x & tz & D' & Hx).
  rewrite D in D'. injection D' as ->.
  pose proof (ComponentFacts.date_type_of_components x tz) as Gt.
  assert (Ho : get_timezone_offset (of_components x tz) = _parse_timezone_offset tz)
    by (destruct x as [[[[[[y mo] d] h] mi] s] ms]; reflexivity).
  rewrite Ho in Hoff. unfold is_empty. rewrite Gt.
  destruct (Z.eqb_spec (tag_of x) TYPE_EMPTY) as [E|E].
  - unfold encode, is_empty. rewrite Gt, E. reflexivity.
  - now apply GeneralRoundTripFacts.decode_encode_fits.
Qed.

Lemma decode_encode_decode_witness :
  decode (Some (encode (of_components (0, 0, 0, 12, 0, 0, 0) (Some (lit "-08")))))
  = Ok (of_components (0, 0, 0, 12, 0, 0, 0) (Some (lit "-08"))).
Proof.
  apply (decode_encode_decode (Some (lit ":OAA0-08"))
           (of_components (0, 0, 0, 12, 0, 0, 0) (Some (lit "-08"))));
    [vm_compute; reflexivity|vm_compute; split; reflexivity].
Defined.

(** *** Offsets that cannot be written *)

Lemma sign_not_valid (c : ascii) :
  is_sign c = true -> _is_valid_encoded_char c = false /\ _expand_char c = [c].
Proof.
  unfold is_sign, UTC_PLUS, UTC_MINUS. intros H. apply orb_true_iff in H.
  destruct H as [H|H]; apply Ascii.eqb_eq in H; subst c; split; reflexivity.
Qed.

Lemma parse_timezone_loop_invalid (body : str) (sign : ascii) (digits : str) (n : nat) :
  forallb no_sign body = true -> forallb no_sign digits = true ->
  _is_valid_timezone (sign :: digits) = Ok false ->
  (n <= List.length (body ++ sign :: digits))%nat ->
  _parse_timezone_loop (body ++ sign :: digits) n = Ok None.
Proof.
  intros Hbody Hdigits Hinvalid. induction n as [|n IH]; [reflexivity|].
  intros Hn. cbn [_parse_timezone_loop].
  destruct (str_at_lt (body ++ sign :: digits) n ltac:(lia)) as [c At].
  rewrite At. cbn [rbind]. specialize (IH ltac:(lia)).
  destruct (is_sign c) eqn:Hs; [|exact IH].
  assert (n = List.length body).
  { unfold str_at in At. destruct (nth_error (body ++ sign :: digits) n) eqn:N;
      [|discriminate]. injection At as ->.
    destruct (Nat.lt_trichotomy n (List.length body)) as [Lt|[Eq|Gt]]; [|exact Eq|].
    - rewrite nth_error_app1 in N by assumption.
      apply nth_error_In in N. rewrite forallb_forall in Hbody.
      apply Hbody in N. unfold no_sign in N. rewrite Hs in N. discriminate.
    - rewrite nth_error_app2 in N by lia.
      destruct (n - List.length body)%nat as [|k] eqn:K; [lia|].
      cbn [nth_error] in N. apply nth_error_In in N.
      rewrite forallb_forall in Hdigits.
      apply Hdigits in N. unfold no_sign in N. rewrite Hs in N. discriminate. }
  subst n. unfold str_from. rewrite skipn_app, skipn_all, Nat.sub_diag.
  cbn [app skipn]. rewrite Hinvalid. cbn [rbind]. exact IH.
Qed.

Lemma decode_invalid_affix (body : str) (sign digit : ascii) (digits : str) :
  forallb no_sign body = true ->
  is_sign sign = true -> forallb no_sign (digit :: digits) = true ->
  _is_valid_timezone (sign :: digit :: digits) = Ok false ->
  decode (Some (body ++ sign :: digit :: digits)) = Ok create_empty.
Proof.
  intros Hbody Hsign Hdigits Hinvalid.
  set (s := body ++ sign :: digit :: digits).
  assert (P : _parse_timezone s = Ok None).
  { unfold _parse_timezone.
    destruct (negb (truthy s) || (len s <? 2)); [reflexivity|].
    assert (Hnil : s <> [])
      by (intros E; apply app_eq_nil in E; destruct E; discriminate).
    rewrite (DecodeFacts.str_index_last _ Hnil). cbn [rbind].
    unfold s. rewrite RoundTripFacts.last_app_nonempty by discriminate.
    replace (last (sign :: digit :: digits) "000"%char)
      with (last (digit :: digits) "000"%char) by reflexivity.
    pose proof (RoundTripFacts.last_forallb no_sign (digit :: digits) "000"%char
                  ltac:(discriminate) Hdigits) as Hl.
    unfold no_sign in Hl. apply negb_true_iff in Hl. rewrite Hl.
    now apply parse_timezone_loop_invalid. }
  assert (V : forallb _is_valid_encoded_char (_expand_zeros s) = false).
  { unfold s. rewrite CompressFacts.expand_app, forallb_app.
    change (_expand_zeros (sign :: digit :: digits))
      with (_expand_char sign ++ _expand_zeros (digit :: digits)).
    destruct (sign_not_valid sign Hsign) as [Hv ->].
    cbn [app forallb]. rewrite Hv. cbn [andb]. apply andb_false_r. }
  unfold decode, _extract_datetime_part. rewrite P. cbn [lift fbind rbind].
  destruct (negb (truthy s)); [reflexivity|].
  destruct (too_short_body_ok s) as [short ->]. cbn [lift fbind].
  destruct short; [reflexivity|].
  destruct (too_short_expanded (_expand_zeros s)); [reflexivity|].
  rewrite V. reflexivity.
Qed.

Lemma unwritable_all : unwritable_offsets = true.
Proof. vm_compute. reflexivity. Qed.

(** X13: a value with a tag other than Empty whose offset is 400 quarters
    of an hour or more either way, as [from_primitives] gives it for the time
    zone ["+9960"], does not survive the trip: the text written for its
    offset is not an affix, and decoding the encoding gives the empty
    value. *)
Theorem decode_encode_unwritable_offset (x : components) (tz : option str) :
  fits x -> is_empty (of_components x tz) = false ->
  _parse_timezone_offset tz <= -400 \/ 400 <= _parse_timezone_offset tz ->
  decode (Some (encode (of_components x tz))) = Ok create_empty.
Proof.
  intros Hx Hne Hoff.
  pose proof (ComponentFacts.date_type_of_components x tz) as Gt.
  unfold is_empty in Hne. rewrite Gt in Hne. apply Z.eqb_neq in Hne.
  rewrite (GeneralRoundTripFacts.encode_written x tz Hx Hne).
  pose proof (TimezoneFacts.parse_timezone_offset_range tz) as R.
  assert (U : unwritable (_parse_timezone_offset tz) = true).
  { pose proof unwritable_all as A. unfold unwritable_offsets in A.
    rewrite forallb_forall in A. apply A. cbn [In]. lia. }
  unfold unwritable in U.
  destruct (_format_timezone_offset (_parse_timezone_offset tz))
    as [[|sign [|digit digits]]|]; try discriminate.
  apply andb_true_iff in U. destruct U as [U Hinvalid].
  apply andb_true_iff in U. destruct U as [Hsign Hdigits].
  destruct (_is_valid_timezone (sign :: digit :: digits)) as [[|]|] eqn:V;
    try discriminate.
  cbn [affix]. apply decode_invalid_affix; try assumption.
  (* the body has no sign *)
  assert (Hchars : forallb plain_or_zero (TextDefs.written_text x) = true).
  { pose proof (GeneralRoundTripFacts.tag_cases x) as T.
    destruct x as [[[[[[y mo] d] h] mi] s] ms].
    pose proof Hx as (Hy & Hmo & Hd & Hh & Hmi & Hs & Hms).
    unfold TextDefs.written_text, TextDefs.written_fields.
    destruct (tag_of (y, mo, d, h, mi, s, ms) =? TYPE_DATE_ONLY);
      [apply TextFacts.fields_text_chars; cbn; lia|].
    destruct (tag_of (y, mo, d, h, mi, s, ms) =? TYPE_TIME_ONLY);
      [apply TextFacts.fields_text_chars; cbn; lia|].
    destruct (tag_of (y, mo, d, h, mi, s, ms) =? TYPE_DATE_HOUR);
      apply TextFacts.fields_text_chars; cbn; lia. }
  set (u := TextDefs.written_text x) in *.
  assert (Hrun : forallb (fun c => negb (CompressDefs.is_run_symbol c)) u = true).
  { rewrite forallb_forall in *. intros c Hc.
    apply (RoundTripFacts.plain_or_zero_facts c (Hchars c Hc)). }
  apply RoundTripFacts.no_sign_expand.
  rewrite (CompressFacts.expand_compress u Hrun).
  rewrite forallb_forall in *. intros c Hc.
  apply (RoundTripFacts.plain_or_zero_facts c (Hchars c Hc)).
Qed.

Lemma decode_encode_unwritable_offset_witness :
  _parse_timezone_offset (Some (lit "+9960")) = 400
  /\ decode (Some (encode (of_components (50000, 5, 15, 12, 30, 45, 123)
                                         (Some (lit "+9960")))))
     = Ok create_empty.
Proof.
  split; [reflexivity|].
  apply (decode_encode_unwritable_offset (50000, 5, 15, 12, 30, 45, 123)
           (Some (lit "+9960")));
    [unfold fits; lia|reflexivity|right; vm_compute; discriminate].
Defined.

End DecodeShapeFacts.

(** ** What [decode] rejects, and what it lets pass *)

Module MalformedFacts.
Import Checks RoundTripDefs DecodeDefs MalformedDefs.
Import BitDT.

(** *** The blocks of [decode], by the characters they read *)

Lemma str_find_from_contains (s : str) (c : ascii) :
  forall i, 0 <= i -> (str_find_from s c i =? -1) = negb (str_contains s c).
Proof.
  induction s as [|d s IH]; intros i Hi; [reflexivity|].
  cbn [str_find_from str_contains existsb]. rewrite (Ascii.eqb_sym c d).
  destruct (Ascii.eqb d c).
  - apply Z.eqb_neq. lia.
  - now apply IH; lia.
Qed.

Lemma str_find_contains (s : str) (c : ascii) :
  (str_find s c =? -1) = negb (str_contains s c).
Proof. apply str_find_from_contains. lia. Qed.

Lemma nth_error_ltb {A} (l : list A) (i : nat) :
  (i <? List.length l)%nat
  = match nth_error l i with Some _ => true | None => false end.
Proof.
  destruct (nth_error l i) eqn:E.
  - apply Nat.ltb_lt, nth_error_Some. congruence.
  - apply Nat.ltb_ge, nth_error_None. exact E.
Qed.

Lemma str_slice_two (e : str) (pos : nat) (c c' : ascii) :
  nth_error e pos = Some c -> nth_error e (pos + 1) = Some c' ->
  str_slice e pos (pos + 2) = [c; c'].
Proof.
  unfold str_slice. replace (pos + 2 - pos)%nat with 2%nat by lia.
  revert e. induction pos as [|pos IH]; intros e H0 H1.
  - destruct e as [|x [|y e]]; try discriminate.
    cbn in H0, H1. now injection H0 as ->; injection H1 as ->.
  - destruct e as [|x e]; [discriminate|]. apply (IH e H0 H1).
Qed.

Lemma decode_month_block_char (e : str) (pos : nat) :
  decode_month_block e pos
  = match nth_error e pos with
    | Some c =>
        if Ascii.eqb c "0" then Next (-1, (pos + 1)%nat)
        else if str_contains MONTHS c
             then Next (str_find MONTHS c, (pos + 1)%nat)
             else Return create_empty
    | None => Next (-1, pos)
    end.
Proof.
  unfold decode_month_block, str_at. rewrite nth_error_ltb.
  destruct (nth_error e pos) as [c|]; [|reflexivity]. cbn [lift fbind].
  destruct (Ascii.eqb c "0"); [reflexivity|]. cbv zeta.
  rewrite str_find_contains. now destruct (str_contains MONTHS c).
Qed.

Lemma decode_day_block_char (e : str) (pos : nat) :
  decode_day_block e pos
  = match nth_error e pos with
    | Some c =>
        if Ascii.eqb c "0" then Next (-1, (pos + 1)%nat)
        else if str_contains DAYS c
             then Next (str_find DAYS c + 1, (pos + 1)%nat)
             else Return create_empty
    | None => Next (-1, pos)
    end.
Proof.
  unfold decode_day_block, str_at. rewrite nth_error_ltb.
  destruct (nth_error e pos) as [c|]; [|reflexivity]. cbn [lift fbind].
  destruct (Ascii.eqb c "0"); [reflexivity|]. cbv zeta.
  replace (str_find DAYS c + 1 =? 0) with (str_find DAYS c =? -1)
    by (destruct (Z.eqb_spec (str_find DAYS c) (-1)),
          (Z.eqb_spec (str_find DAYS c + 1) 0); lia || reflexivity).
  rewrite str_find_contains. now destruct (str_contains DAYS c).
Qed.

Lemma decode_hour_block_char (e : str) (pos : nat) :
  decode_hour_block e pos
  = match nth_error e pos with
    | Some c =>
        if Ascii.eqb c "0" then Next (-1, (pos + 1)%nat)
        else if str_contains HOURS c
             then Next (str_find HOURS c, (pos + 1)%nat)
             else Return create_empty
    | None => Next (-1, pos)
    end.
Proof.
  unfold decode_hour_block, str_at. rewrite nth_error_ltb.
  destruct (nth_error e pos) as [c|]; [|reflexivity]. cbn [lift fbind].
  destruct (Ascii.eqb c "0"); [reflexivity|]. cbv zeta.
  rewrite str_find_contains. now destruct (str_contains HOURS c).
Qed.

Lemma decode_minute_block_char (e : str) (pos : nat) :
  decode_minute_block e pos
  = match nth_error e pos with
    | Some c =>
        if Ascii.eqb c "0" then Next (-1, (pos + 1)%nat)
        else if str_contains MINUTES c
             then Next (str_find MINUTES c, (pos + 1)%nat)
             else Return create_empty
    | None => Next (-1, pos)
    end.
Proof.
  unfold decode_minute_block, str_at. rewrite nth_error_ltb.
  destruct (nth_error e pos) as [c|]; [|reflexivity]. cbn [lift fbind].
  destruct (Ascii.eqb c "0"); [reflexivity|]. cbv zeta.
  rewrite str_find_contains. now destruct (str_contains MINUTES c).
Qed.

Lemma found_nonneg (s : str) (c : ascii) :
  str_contains s c = true -> 0 <= str_find s c.
Proof.
  intros H. destruct (str_find_range s c) as [E|E]; [|lia].
  apply Z.eqb_eq in E. rewrite str_find_contains, H in E. discriminate.
Qed.

Lemma decode_milliseconds_chars (c c' : ascii) :
  ThousandCounter.decode_milliseconds [c; c']
  = Ok (if str_contains ThousandCounter.FIRST_CHAR c
           && str_contains ThousandCounter.SECOND_CHAR c'
        then str_find ThousandCounter.FIRST_CHAR c * 25
             + str_find ThousandCounter.SECOND_CHAR c'
        else -1).
Proof.
  unfold ThousandCounter.decode_milliseconds.
  cbn [truthy negb orb str_at nth_error rbind]. change (len [c; c'] =? 2) with true.
  cbn [negb]. cbv zeta. rewrite !str_find_contains.
  now destruct (str_contains ThousandCounter.FIRST_CHAR c),
    (str_contains ThousandCounter.SECOND_CHAR c').
Qed.

Lemma decode_millis_block_char (e : str) (pos : nat) :
  decode_millis_block e pos
  = match nth_error e pos with
    | Some c =>
        if Ascii.eqb c "0" then Next (0, (pos + 1)%nat)
        else match nth_error e (pos + 1) with
             | Some c' =>
                 if str_contains ThousandCounter.FIRST_CHAR c
                    && str_contains ThousandCounter.SECOND_CHAR c'
                 then Next (str_find ThousandCounter.FIRST_CHAR c * 25
                            + str_find ThousandCounter.SECOND_CHAR c',
                            (pos + 2)%nat)
                 else Return create_empty
             | None => Return create_empty
             end
    | None => Next (-1, pos)
    end.
Proof.
  unfold decode_millis_block, str_at. rewrite !nth_error_ltb.
  destruct (nth_error e pos) as [c|] eqn:E0; [|reflexivity]. cbn [lift fbind].
  destruct (Ascii.eqb c "0"); [reflexivity|].
  destruct (nth_error e (pos + 1)) as [c'|] eqn:E1; [|reflexivity]. cbv zeta.
  rewrite (str_slice_two e pos c c' E0 E1), decode_milliseconds_chars.
  cbn [lift fbind].
  destruct (str_contains ThousandCounter.FIRST_CHAR c) eqn:F; [|reflexivity].
  destruct (str_contains ThousandCounter.SECOND_CHAR c') eqn:S; [|reflexivity].
  cbn [andb].
  pose proof (found_nonneg _ _ F). pose proof (found_nonneg _ _ S).
  now replace (_ =? -1) with false by (symmetry; apply Z.eqb_neq; lia).
Qed.

Lemma decode_year_chars (c0 c1 c2 : ascii) :
  decode_year [c0; c1; c2]
  = Ok (if forallb (str_contains YEAR_CHARS) [c0; c1; c2]
        then str_find YEAR_CHARS c0 * 61 * 61 + str_find YEAR_CHARS c1 * 61
             + str_find YEAR_CHARS c2
        else -1).
Proof.
  unfold decode_year.
  cbn [truthy negb orb str_at nth_error rbind forallb].
  change (len [c0; c1; c2] =? 3) with true. cbn [negb]. cbv zeta.
  rewrite !str_find_contains.
  now destruct (str_contains YEAR_CHARS c0), (str_contains YEAR_CHARS c1),
    (str_contains YEAR_CHARS c2).
Qed.

(** The year block reads the first three characters only. *)
Lemma decode_year_block_head (e : str) :
  decode_year_block e 0 = decode_year_block (firstn 3 e) 0.
Proof. destruct e as [|c0 [|c1 [|c2 r]]]; reflexivity. Qed.

Lemma decode_year_block_cases (e : str) :
  decode_year_block e 0 = Return create_empty
  \/ exists year, decode_year_block e 0 = Next (year, month_position e)
                  /\ year_outside e = false.
Proof.
  destruct e as [|c0 e']; [right; exists (-1); split; reflexivity|].
  unfold decode_year_block, month_position, year_outside.
  cbn [List.length Nat.ltb Nat.leb str_at nth_error lift fbind].
  destruct (Ascii.eqb c0 "0"); [right; exists (-1); split; reflexivity|].
  destruct e' as [|c1 [|c2 r]]; [now left|now left|].
  cbn [List.length Nat.add Nat.ltb Nat.leb str_slice Nat.sub skipn firstn].
  rewrite decode_year_chars. cbn [lift fbind negb andb].
  destruct (forallb (str_contains YEAR_CHARS) [c0; c1; c2]) eqn:F; [|now left].
  right. eexists. split; [|reflexivity].
  cbn [forallb] in F. rewrite andb_true_r in F.
  apply andb_true_iff in F. destruct F as [F0 F].
  apply andb_true_iff in F. destruct F as [F1 F2].
  pose proof (found_nonneg _ _ F0). pose proof (found_nonneg _ _ F1).
  pose proof (found_nonneg _ _ F2).
  now replace (_ =? -1) with false by (symmetry; apply Z.eqb_neq; lia).
Qed.

Lemma month_position_le (e : str) : (month_position e <= 3)%nat.
Proof.
  unfold month_position. destruct e as [|c e]; [lia|].
  destruct (Ascii.eqb c "0"); lia.
Qed.

(** *** A symbol outside the alphabet of its field *)

Lemma outside_beyond (alphabet e : str) (pos q : nat) :
  nth_error e pos = None -> (pos <= q)%nat -> outside alphabet e q = false.
Proof.
  intros H Hq. unfold outside.
  replace (nth_error e q) with (@None ascii); [reflexivity|].
  symmetry. apply nth_error_None. apply nth_error_None in H. lia.
Qed.

Lemma millis_outside_beyond (e : str) (pos q : nat) :
  nth_error e pos = None -> (pos <= q)%nat -> millis_outside e q = false.
Proof.
  intros H Hq. unfold millis_outside.
  replace (nth_error e q) with (@None ascii); [reflexivity|].
  symmetry. apply nth_error_None. apply nth_error_None in H. lia.
Qed.

(** What a block of one character does at a position: it returns the empty
    value, or it takes the character, which is not outside the alphabet, or
    there is no character. *)
Lemma character_block_cases (alphabet e : str) (pos : nat) (value : ascii -> Z) :
  let block :=
    match nth_error e pos with
    | Some c =>
        if Ascii.eqb c "0" then Next (-1, (pos + 1)%nat)
        else if str_contains alphabet c
             then Next (value c, (pos + 1)%nat)
             else Return create_empty
    | None => Next (-1, pos)
    end in
  block = Return create_empty
  \/ (exists v, block = Next (v, (pos + 1)%nat) /\ outside alphabet e pos = false)
  \/ (block = Next (-1, pos) /\ nth_error e pos = None).
Proof.
  cbv zeta. unfold outside. destruct (nth_error e pos) as [c|].
  - destruct (Ascii.eqb c "0"); [right; left; now eexists|].
    destruct (str_contains alphabet c); [right; left; now eexists|now left].
  - right. right. now split.
Qed.

Lemma decode_millis_block_cases (e : str) (pos : nat) :
  decode_millis_block e pos = Return create_empty
  \/ exists v q, decode_millis_block e pos = Next (v, q)
                 /\ (q <= pos + 2)%nat /\ millis_outside e pos = false.
Proof.
  rewrite decode_millis_block_char. unfold millis_outside.
  destruct (nth_error e pos) as [c|].
  - destruct (Ascii.eqb c "0").
    + right. do 2 eexists. split; [reflexivity|]. split; [lia|reflexivity].
    + destruct (nth_error e (pos + 1)) as [c'|]; [|now left].
      destruct (str_contains ThousandCounter.FIRST_CHAR c
                && str_contains ThousandCounter.SECOND_CHAR c'); [|now left].
      right. do 2 eexists. split; [reflexivity|]. split; [lia|reflexivity].
  - right. do 2 eexists. split; [reflexivity|]. split; [lia|reflexivity].
Qed.

(** [decode] from the expansion on gives the empty value when a field holds
    a symbol outside its alphabet. *)
Lemma decode_fields_outside (e : str) (timezone_str : option str) :
  field_outside e = true -> decode_fields e timezone_str = Return create_empty.
Proof.
  intros Hout.
  assert (G : decode_fields e timezone_str = Return create_empty
              \/ field_outside e = false); [|destruct G; congruence].
  clear Hout. unfold decode_fields, field_outside. cbv zeta.
  set (p := month_position e).
  destruct (decode_year_block_cases e) as [Y | (year & Y & Hy)];
    rewrite Y; cbn [fbind]; [now left|]. cbv beta iota. fold p. rewrite Hy.
  rewrite decode_month_block_char.
  destruct (character_block_cases MONTHS e p (str_find MONTHS))
    as [B | [(month & B & H1) | (B & N)]];
    cbv zeta in B; rewrite B; cbn [fbind]; [now left| |]; cbv beta iota.
  2:{ right. rewrite (outside_beyond MONTHS e p p N) by lia.
      rewrite !(outside_beyond _ e p _ N) by lia.
      now rewrite (millis_outside_beyond e p _ N) by lia. }
  rewrite H1, decode_day_block_char.
  destruct (character_block_cases DAYS e (p + 1)
              (fun c => str_find DAYS c + 1))
    as [B' | [(day & B' & H2) | (B' & N)]];
    cbv zeta beta in B'; rewrite B'; cbn [fbind]; [now left| |]; cbv beta iota.
  2:{ right. rewrite !(outside_beyond _ e (p + 1) _ N) by lia.
      now rewrite (millis_outside_beyond e (p + 1) _ N) by lia. }
  rewrite H2, decode_hour_block_char.
  replace (p + 1 + 1)%nat with (p + 2)%nat by lia.
  destruct (character_block_cases HOURS e (p + 2) (str_find HOURS))
    as [B3 | [(hour & B3 & H3) | (B3 & N)]];
    cbv zeta in B3; rewrite B3; cbn [fbind]; [now left| |]; cbv beta iota.
  2:{ right. rewrite !(outside_beyond _ e (p + 2) _ N) by lia.
      now rewrite (millis_outside_beyond e (p + 2) _ N) by lia. }
  rewrite H3, decode_minute_block_char.
  replace (p + 2 + 1)%nat with (p + 3)%nat by lia.
  destruct (character_block_cases MINUTES e (p + 3) (str_find MINUTES))
    as [B4 | [(minute & B4 & H4) | (B4 & N)]];
    cbv zeta in B4; rewrite B4; cbn [fbind]; [now left| |]; cbv beta iota.
  2:{ right. rewrite !(outside_beyond _ e (p + 3) _ N) by lia.
      now rewrite (millis_outside_beyond e (p + 3) _ N) by lia. }
  rewrite H4, decode_minute_block_char.
  replace (p + 3 + 1)%nat with (p + 4)%nat by lia.
  destruct (character_block_cases MINUTES e (p + 4) (str_find MINUTES))
    as [B5 | [(second & B5 & H5) | (B5 & N)]];
    cbv zeta in B5; rewrite B5; cbn [fbind]; [now left| |]; cbv beta iota.
  2:{ right. rewrite !(outside_beyond _ e (p + 4) _ N) by lia.
      now rewrite (millis_outside_beyond e (p + 4) _ N) by lia. }
  rewrite H5. replace (p + 4 + 1)%nat with (p + 5)%nat by lia.
  destruct (decode_millis_block_cases e (p + 5)) as [B6 | (millis & q & B6 & _ & H6)];
    rewrite B6; cbn [fbind]; [now left|]. cbv beta iota.
  now right.
Qed.


Lemma character_block_position (alphabet e : str) (pos : nat) (value : ascii -> Z)
      (v : Z) (q : nat) :
  match nth_error e pos with
  | Some c =>
      if Ascii.eqb c "0" then Next (-1, (pos + 1)%nat)
      else if str_contains alphabet c
           then Next (value c, (pos + 1)%nat)
           else Return create_empty
  | None => Next (-1, pos)
  end = Next (v, q) ->
  (q <= pos + 1)%nat.
Proof.
  destruct (nth_error e pos) as [c|];
    [destruct (Ascii.eqb c "0"); [|destruct (str_contains alphabet c)]|];
    intros H; inversion H; lia.
Qed.

(** *** Characters that are not read *)

(** [decode] reads the first ten characters of the expansion at most. *)
Lemma decode_fields_prefix (e e' : str) (timezone_str : option str) :
  firstn 10 e = firstn 10 e' ->
  decode_fields e timezone_str = decode_fields e' timezone_str.
Proof.
  intros F.
  assert (A : forall i, (i < 10)%nat -> nth_error e i = nth_error e' i).
  { intros i Hi.
    pose proof (nth_error_firstn 10 e i) as N.
    pose proof (nth_error_firstn 10 e' i) as N'.
    replace (i <? 10)%nat with true in N, N' by (symmetry; now apply Nat.ltb_lt).
    now rewrite <- N, <- N', F. }
  assert (F3 : firstn 3 e = firstn 3 e').
  { change 3%nat with (Nat.min 3 10). rewrite <- !firstn_firstn. now rewrite F. }
  unfold decode_fields.
  rewrite (decode_year_block_head e), (decode_year_block_head e'), F3.
  destruct (decode_year_block_cases (firstn 3 e')) as [Y | (year & Y & _)];
    rewrite Y; cbn [fbind]; [reflexivity|]. cbv beta iota.
  pose proof (month_position_le (firstn 3 e')) as Hp.
  set (p := month_position (firstn 3 e')) in *.
  rewrite (decode_month_block_char e), (decode_month_block_char e'), (A p) by lia.
  match goal with
  | |- fbind ?m _ = _ => destruct m as [[month q1]|r|x] eqn:E1
  end; cbn [fbind]; try reflexivity. cbv beta iota.
  apply character_block_position in E1.
  rewrite (decode_day_block_char e), (decode_day_block_char e'), (A q1) by lia.
  match goal with
  | |- fbind ?m _ = _ => destruct m as [[day q2]|r|x] eqn:E2
  end; cbn [fbind]; try reflexivity. cbv beta iota.
  apply (character_block_position DAYS e' q1 (fun c => str_find DAYS c + 1)) in E2.
  rewrite (decode_hour_block_char e), (decode_hour_block_char e'), (A q2) by lia.
  match goal with
  | |- fbind ?m _ = _ => destruct m as [[hour q3]|r|x] eqn:E3
  end; cbn [fbind]; try reflexivity. cbv beta iota.
  apply character_block_position in E3.
  rewrite (decode_minute_block_char e), (decode_minute_block_char e'), (A q3) by lia.
  match goal with
  | |- fbind ?m _ = _ => destruct m as [[minute q4]|r|x] eqn:E4
  end; cbn [fbind]; try reflexivity. cbv beta iota.
  apply character_block_position in E4.
  rewrite (decode_minute_block_char e), (decode_minute_block_char e'), (A q4) by lia.
  match goal with
  | |- fbind ?m _ = _ => destruct m as [[second q5]|r|x] eqn:E5
  end; cbn [fbind]; try reflexivity. cbv beta iota.
  apply character_block_position in E5.
  rewrite (decode_millis_block_char e), (decode_millis_block_char e'),
    (A q5), (A (q5 + 1)%nat) by lia.
  reflexivity.
Qed.

(** The value [decode] gives depends on the time zone through its offset
    only. *)
Lemma decode_fields_offset (e : str) (tz tz' : option str) :
  _parse_timezone_offset tz = _parse_timezone_offset tz' ->
  decode_fields e tz = decode_fields e tz'.
Proof.
  intros H. unfold decode_fields.
  destruct (decode_year_block e 0) as [[year p0]|r|x]; cbn [fbind];
    try reflexivity; cbv beta iota.
  destruct (decode_month_block e p0) as [[month p1]|r|x]; cbn [fbind];
    try reflexivity; cbv beta iota.
  destruct (decode_day_block e p1) as [[day p2]|r|x]; cbn [fbind];
    try reflexivity; cbv beta iota.
  destruct (decode_hour_block e p2) as [[hour p3]|r|x]; cbn [fbind];
    try reflexivity; cbv beta iota.
  destruct (decode_minute_block e p3) as [[minute p4]|r|x]; cbn [fbind];
    try reflexivity; cbv beta iota.
  destruct (decode_minute_block e p4) as [[second p5]|r|x]; cbn [fbind];
    try reflexivity; cbv beta iota.
  destruct (decode_millis_block e p5) as [[millis p6]|r|x]; cbn [fbind];
    try reflexivity; cbv beta iota.
  destruct (forallb _ _); [reflexivity|].
  unfold from_primitives. now rewrite H.
Qed.

(** *** [decode] on a whole text *)

Lemma too_short_body_cons (c : ascii) (rest : str) :
  too_short_body (c :: rest)
  = Ok (negb (Ascii.eqb c "0") && (len (c :: rest) <? 3)).
Proof. reflexivity. Qed.

Lemma decode_rejected (s body : str) :
  _extract_datetime_part (Some s) = Ok (Some body) ->
  body = []
  \/ too_short_body body = Ok true
  \/ too_short_expanded (_expand_zeros body) = true
  \/ forallb _is_valid_encoded_char (_expand_zeros body) = false
  \/ field_outside (_expand_zeros body) = true ->
  decode (Some s) = Ok create_empty.
Proof.
  intros Hext H. unfold decode.
  destruct (DecodeFacts.parse_timezone_ok s) as [tz P].
  rewrite P. cbn [lift fbind]. rewrite Hext. cbn [lift fbind].
  destruct body as [|c rest]; [reflexivity|]. cbn [truthy negb].
  destruct H as [H|[H|[H|[H|H]]]]; [discriminate|now rewrite H| | |];
    rewrite too_short_body_cons; cbn [lift fbind];
    destruct (negb (Ascii.eqb c "0") && (len (c :: rest) <? 3));
    try reflexivity.
  - now rewrite H.
  - rewrite H. now destruct (too_short_expanded _).
  - destruct (too_short_expanded _); [reflexivity|].
    destruct (negb (forallb _ _)); [reflexivity|].
    now rewrite (decode_fields_outside _ tz H).
Qed.

Lemma decode_trailing (s junk : str) :
  forallb no_sign (s ++ junk) = true ->
  too_short_body s = Ok false ->
  10 <= len (_expand_zeros s) ->
  forallb _is_valid_encoded_char (_expand_zeros junk) = true ->
  decode (Some (s ++ junk)) = decode (Some s).
Proof.
  intros Hsign Hshort Hlen Hvalid.
  pose proof (RoundTripFacts.parse_timezone_no_sign _ Hsign) as P2.
  rewrite forallb_app in Hsign. apply andb_true_iff in Hsign.
  destruct Hsign as [Hs _].
  pose proof (RoundTripFacts.parse_timezone_no_sign _ Hs) as P1.
  destruct s as [|c rest]; [unfold len in Hlen; cbn in Hlen; lia|].
  unfold decode, _extract_datetime_part. rewrite P1, P2.
  cbn [lift fbind rbind]. cbn [app truthy negb].
  rewrite too_short_body_cons in Hshort. injection Hshort as Hshort.
  change (c :: rest ++ junk) with ((c :: rest) ++ junk).
  replace (too_short_body ((c :: rest) ++ junk)) with (@Ok bool false).
  2:{ symmetry. cbn [app]. rewrite too_short_body_cons. f_equal.
      destruct (negb (Ascii.eqb c "0")); [|reflexivity]. cbn [andb] in *.
      apply Z.ltb_ge in Hshort. apply Z.ltb_ge.
      unfold len in *. cbn [List.length] in *. rewrite length_app. lia. }
  rewrite too_short_body_cons, Hshort. cbn [lift fbind]. cbv zeta.
  rewrite CompressFacts.expand_app.
  set (e := _expand_zeros (c :: rest)) in *.
  unfold too_short_expanded.
  replace (len (e ++ _expand_zeros junk) <? 7) with false
    by (symmetry; apply Z.ltb_ge; unfold len in *; rewrite length_app; lia).
  replace (len e <? 7) with false by (symmetry; apply Z.ltb_ge; lia).
  rewrite forallb_app, Hvalid, andb_true_r.
  destruct (negb (forallb _is_valid_encoded_char e)); [reflexivity|].
  f_equal. apply decode_fields_prefix.
  rewrite firstn_app.
  replace (10 - List.length e)%nat with 0%nat by (unfold len in Hlen; lia).
  cbn [firstn]. now rewrite app_nil_r.
Qed.

Lemma decode_lone_sign (s : str) (sign : ascii) :
  s <> [] -> forallb no_sign s = true -> is_sign sign = true ->
  decode (Some (s ++ [sign])) = decode (Some s).
Proof.
  intros Hne Hs Hsign.
  pose proof (RoundTripFacts.parse_timezone_no_sign _ Hs) as P1.
  assert (Hnil : s ++ [sign] <> [])
    by (intros E; apply app_eq_nil in E; destruct E; discriminate).
  assert (P2 : _parse_timezone (s ++ [sign]) = Ok (Some [sign])).
  { unfold _parse_timezone.
    replace (negb (truthy (s ++ [sign])) || (len (s ++ [sign]) <? 2)) with false.
    2:{ symmetry. apply orb_false_iff. split.
        - destruct (s ++ [sign]); [congruence|reflexivity].
        - apply Z.ltb_ge. unfold len. rewrite length_app.
          destruct s; [congruence|]. cbn [List.length]. lia. }
    rewrite (DecodeFacts.str_index_last _ Hnil). cbn [rbind].
    now rewrite last_last, Hsign. }
  assert (Z0 : _parse_timezone_offset (Some [sign]) = _parse_timezone_offset None).
  { unfold is_sign, UTC_PLUS, UTC_MINUS in Hsign. apply orb_true_iff in Hsign.
    destruct Hsign as [E|E]; apply Ascii.eqb_eq in E; subst sign; reflexivity. }
  unfold decode, _extract_datetime_part. rewrite P1, P2.
  cbn [lift fbind rbind truthy].
  rewrite length_app. cbn [List.length]. rewrite Nat.add_sub.
  rewrite firstn_app, Nat.sub_diag, firstn_all. cbn [firstn]. rewrite app_nil_r.
  destruct s as [|c rest]; [congruence|]. cbn [truthy negb].
  destruct (too_short_body (c :: rest)) as [[|]|x]; cbn [lift fbind];
    try reflexivity.
  destruct (too_short_expanded _); [reflexivity|].
  destruct (negb (forallb _ _)); [reflexivity|].
  f_equal. now apply decode_fields_offset.
Qed.

(** C3: [decode] returns a value for every input, [None] or a string, and
    raises nothing.  It gives the empty value for [None], for the empty
    string, and for a text whose body, the text without its time-zone
    affix, is empty, or has fewer than three characters and does not start
    with ['0'], or expands to fewer than seven characters, or holds after
    expansion a character outside the alphabets or, in a field, a symbol
    outside the alphabet of the field.  It does not reject every malformed
    text.  What follows the tenth character of the expansion is not read:
    after a text without a sign that is not too short and expands to ten
    characters or more, further characters of the alphabets change nothing.
    A sign at the end stands for no offset: after a text without a sign it
    changes nothing. *)
Theorem decode_never_raises (bit_dt : option str) :
  (exists d, decode bit_dt = Ok d)
  /\ decode None = Ok create_empty
  /\ decode (Some []) = Ok create_empty
  /\ (forall s body : str,
        _extract_datetime_part (Some s) = Ok (Some body) ->
        body = []
        \/ too_short_body body = Ok true
        \/ too_short_expanded (_expand_zeros body) = true
        \/ forallb _is_valid_encoded_char (_expand_zeros body) = false
        \/ field_outside (_expand_zeros body) = true ->
        decode (Some s) = Ok create_empty)
  /\ (forall s junk : str,
        forallb no_sign (s ++ junk) = true ->
        too_short_body s = Ok false ->
        10 <= len (_expand_zeros s) ->
        forallb _is_valid_encoded_char (_expand_zeros junk) = true ->
        decode (Some (s ++ junk)) = decode (Some s))
  /\ (forall (s : str) (sign : ascii),
        s <> [] -> forallb no_sign s = true -> is_sign sign = true ->
        decode (Some (s ++ [sign])) = decode (Some s)).
Proof.
  split; [apply DecodeFacts.decode_ok|]. split; [reflexivity|].
  split; [reflexivity|]. split; [exact decode_rejected|].
  split; [exact decode_trailing|exact decode_lone_sign].
Qed.

Lemma decode_never_raises_witness :
  decode (Some (lit "A&")) = Ok create_empty
  /\ decode (Some (lit "A#B+05")) = Ok create_empty
  /\ decode (Some (lit "NapZOOetGY")) = Ok create_empty
  /\ decode (Some (lit "NapFOOetGYJUNKJUNKJUNK")) = decode (Some (lit "NapFOOetGY"))
  /\ decode (Some (lit "NapFOOetGY+")) = decode (Some (lit "NapFOOetGY")).
Proof.
  destruct (decode_never_raises None) as (_ & _ & _ & Hrej & Htrail & Hsign).
  split; [|split; [|split; [|split]]].
  - apply (Hrej (lit "A&") (lit "A&")); [reflexivity|].
    right. left. reflexivity.
  - apply (Hrej (lit "A#B+05") (lit "A#B")); [reflexivity|].
    right. right. left. reflexivity.
  - apply (Hrej (lit "NapZOOetGY") (lit "NapZOOetGY")); [reflexivity|].
    right. right. right. right. reflexivity.
  - apply (Htrail (lit "NapFOOetGY") (lit "JUNKJUNKJUNK")); reflexivity.
  - apply (Hsign (lit "NapFOOetGY") "+"%char); try reflexivity. discriminate.
Defined.

(** C3, malformed texts that are not rejected: ["NapFOOetGY"] is the text
    of the value with the components 50000, 5, 15, 12, 30, 45 and 123;
    followed by twelve more letters, or by a sign, it decodes to that
    value, which is not empty. *)
Lemma decode_malformed_not_empty :
  decode (Some (lit "NapFOOetGYJUNKJUNKJUNK"))
  = Ok (from_primitives 50000 5 15 12 30 45 123 None)
  /\ decode (Some (lit "NapFOOetGY+"))
     = Ok (from_primitives 50000 5 15 12 30 45 123 None)
  /\ is_empty (from_primitives 50000 5 15 12 30 45 123 None) = false
  /\ encode (from_primitives 50000 5 15 12 30 45 123 None) = lit "NapFOOetGY".
Proof. repeat split. Qed.

End MalformedFacts.

(** ** Sorting by the packed value *)

Module SortFacts.
Import SortDefs.
Import BitDT.

Section Sorting.
Context {A : Type} (key : A -> Z).

Lemma insert_by_perm (x : A) (l : list A) : Permutation (insert_by key x l) (x :: l).
Proof.
  induction l as [|y l IH]; [reflexivity|]. cbn [insert_by].
  destruct (key x <=? key y); [reflexivity|].
  rewrite IH. apply perm_swap.
Qed.

Lemma sorted_by_perm (l : list A) : Permutation (sorted_by key l) l.
Proof.
  induction l as [|x l IH]; [reflexivity|].
  unfold sorted_by in *. cbn [fold_right]. rewrite insert_by_perm. now constructor.
Qed.

Lemma insert_by_ascending (x : A) (l : list A) :
  ascending key l -> ascending key (insert_by key x l).
Proof.
  unfold ascending. induction 1 as [|y l Hl IH Hy].
  - repeat constructor.
  - cbn [insert_by]. destruct (Z.leb_spec (key x) (key y)) as [Le|Gt].
    + constructor; [now constructor|]. constructor; [exact Le|].
      rewrite Forall_forall in *. intros z Hz. specialize (Hy z Hz). lia.
    + constructor; [exact IH|].
      rewrite Forall_forall in *. intros z Hz.
      apply (Permutation_in _ (insert_by_perm x l)) in Hz.
      destruct Hz as [<-|Hz]; [lia|now apply Hy].
Qed.

Lemma sorted_by_ascending (l : list A) : ascending key (sorted_by key l).
Proof.
  induction l as [|x l IH]; [constructor|].
  unfold sorted_by in *. cbn [fold_right]. now apply insert_by_ascending.
Qed.

Lemma insert_by_with_key (k : Z) (x : A) (l : list A) :
  with_key key k (insert_by key x l) = with_key key k (x :: l).
Proof.
  unfold with_key. induction l as [|y l IH]; [reflexivity|]. cbn [insert_by].
  destruct (Z.leb_spec (key x) (key y)) as [Le|Gt]; [reflexivity|].
  cbn [filter] in *. rewrite IH.
  destruct (Z.eqb_spec (key x) k), (Z.eqb_spec (key y) k); (reflexivity || lia).
Qed.

Lemma sorted_by_with_key (k : Z) (l : list A) :
  with_key key k (sorted_by key l) = with_key key k l.
Proof.
  induction l as [|x l IH]; [reflexivity|].
  unfold sorted_by in *. cbn [fold_right]. rewrite insert_by_with_key.
  unfold with_key in *. cbn [filter]. now rewrite IH.
Qed.

Lemma with_key_in (k : Z) (x : A) (l : list A) :
  In x (with_key key k l) <-> In x l /\ key x = k.
Proof.
  unfold with_key. rewrite filter_In. now rewrite Z.eqb_eq.
Qed.

Lemma ascending_unique (l1 l2 : list A) :
  ascending key l1 -> ascending key l2 ->
  (forall k, with_key key k l1 = with_key key k l2) -> l1 = l2.
Proof.
  unfold ascending. intros S1. revert l2.
  induction S1 as [|x l1 S1 IH H1]; intros l2 S2 Hk.
  - destruct l2 as [|y l2]; [reflexivity|].
    specialize (Hk (key y)). unfold with_key in Hk. cbn [filter] in Hk.
    rewrite Z.eqb_refl in Hk. discriminate.
  - destruct S2 as [|y l2 S2 H2].
    + specialize (Hk (key x)). unfold with_key in Hk. cbn [filter] in Hk.
      rewrite Z.eqb_refl in Hk. discriminate.
    + assert (Kxy : key x = key y).
      { assert (Ix : In x (y :: l2)).
        { apply (with_key_in (key x)). rewrite <- Hk. apply with_key_in.
          split; [now left|reflexivity]. }
        assert (Iy : In y (x :: l1)).
        { apply (with_key_in (key y)). rewrite Hk. apply with_key_in.
          split; [now left|reflexivity]. }
        rewrite Forall_forall in H1, H2.
        destruct Ix as [->|Ix]; [reflexivity|].
        destruct Iy as [->|Iy]; [reflexivity|].
        specialize (H1 y Iy). specialize (H2 x Ix). lia. }
      pose proof (Hk (key x)) as Hx. unfold with_key in Hx. cbn [filter] in Hx.
      rewrite <- Kxy, Z.eqb_refl in Hx. injection Hx as <- Htl.
      f_equal. apply IH; [exact S2|]. intros k.
      destruct (Z.eq_dec k (key x)) as [->|Ne]; [exact Htl|].
      specialize (Hk k). unfold with_key in *. cbn [filter] in Hk.
      now replace (key x =? k) with false in Hk by (symmetry; apply Z.eqb_neq; lia).
Qed.

Lemma stable_sort_unique (l l' : list A) :
  stable_sort_of key l l' <-> l' = sorted_by key l.
Proof.
  split.
  - intros [S K]. apply ascending_unique; [exact S|apply sorted_by_ascending|].
    intros k. now rewrite K, sorted_by_with_key.
  - intros ->. split; [apply sorted_by_ascending|].
    intros k. apply sorted_by_with_key.
Qed.

Lemma sorted_by_map {B} (f : B -> A) (l : list B) :
  sorted_by key (map f l) = map f (sorted_by (fun b => key (f b)) l).
Proof.
  assert (I : forall x m, insert_by key (f x) (map f m)
                          = map f (insert_by (fun b => key (f b)) x m)).
  { intros x m. induction m as [|y m IH]; [reflexivity|].
    cbn [map insert_by]. destruct (key (f x) <=? key (f y)); [reflexivity|].
    cbn [map]. now rewrite IH. }
  induction l as [|x l IH]; [reflexivity|].
  unfold sorted_by in *. cbn [map fold_right]. now rewrite IH, I.
Qed.

End Sorting.

(** X14: [sort_by_numerical_value] gives the one list that is in ascending
    order of the packed value and has, for every packed value, the dates of
    that value in the order of the argument; it is a rearrangement of the
    argument, no date in it is [after] a later one, and sorting it again
    changes nothing. *)
Theorem sort_by_numerical_value_stable (dates : list t) :
  (forall sorted,
     stable_sort_of get_numerical_value dates sorted
     <-> sorted = sort_by_numerical_value dates)
  /\ Permutation (sort_by_numerical_value dates) dates
  /\ StronglySorted (fun a b => after a b = false) (sort_by_numerical_value dates)
  /\ sort_by_numerical_value (sort_by_numerical_value dates)
     = sort_by_numerical_value dates.
Proof.
  unfold sort_by_numerical_value. split; [|split; [|split]].
  - intros sorted. apply stable_sort_unique.
  - apply sorted_by_perm.
  - pose proof (sorted_by_ascending get_numerical_value dates) as S.
    unfold ascending in S.
    induction S as [|x l S IH H]; constructor; [exact IH|].
    rewrite Forall_forall in *. intros y Hy. specialize (H y Hy).
    unfold after, get_numerical_value in *. rewrite Z.gtb_ltb. apply Z.ltb_ge. lia.
  - symmetry. apply stable_sort_unique. split; [apply sorted_by_ascending|].
    intros k. reflexivity.
Qed.

End SortFacts.

(** ** A value rebuilt from its packed value *)

Module NumericalFacts.
Import PackedDefs ComponentDefs.
Import BitDT.

(** X15: [from_numerical_value] of the packed value of a value built by
    [from_primitives] from components that fit their fields has the Full tag
    and no time zone; its accessors give the seven components themselves,
    also those for which the accessors of the original value give -1; it
    compares equal to the original value, and is [__eq__] to it exactly when
    the offset of the original value is 0. *)
Theorem from_numerical_value_accessors (x : components) (tz : option str) :
  fits x ->
  let v := of_components x tz in
  let w := from_numerical_value (get_numerical_value v) in
  [get_year w; get_month w; get_day w; get_hour w; get_minute w; get_second w;
   get_millis w] = to_list x
  /\ get_date_type w = TYPE_FULL /\ get_timezone w = None
  /\ compare_to w v = 0
  /\ __eq__ w v = (get_timezone_offset v =? 0).
Proof.
  intros Hx. cbv zeta.
  pose proof (ComponentFacts.packed_weighted_fits x tz Hx) as Hp.
  pose proof (ComponentFacts.fields_of_weighted x (tag_of x) Hx
                (ComponentFacts.tag_bounds x)) as Hg.
  unfold from_numerical_value, from_packed_value, get_numerical_value.
  unfold get_year, get_month, get_day, get_hour, get_minute, get_second,
    get_millis, get_date_type, get_timezone, compare_to, __eq__,
    get_timezone_offset.
  cbn [_packed_value _date_type _timezone_offset].
  change (TYPE_FULL =? TYPE_EMPTY) with false.
  change (TYPE_FULL =? TYPE_TIME_ONLY) with false.
  change (TYPE_FULL =? TYPE_DATE_ONLY) with false.
  change (TYPE_FULL =? TYPE_DATE_HOUR) with false.
  cbn [orb]. rewrite Hp.
  destruct x as [[[[[[y mo] d] h] mi] s] ms]. cbv zeta in Hg.
  destruct Hg as (G1 & G2 & G3 & G4 & G5 & G6 & G7).
  rewrite G1, G2, G3, G4, G5, G6, G7.
  rewrite Z.ltb_irrefl, Z.eqb_refl.
  replace (weighted (y, mo, d, h, mi, s, ms) (tag_of (y, mo, d, h, mi, s, ms))
           >? weighted (y, mo, d, h, mi, s, ms) (tag_of (y, mo, d, h, mi, s, ms)))
    with false by (symmetry; rewrite Z.gtb_ltb; apply Z.ltb_irrefl).
  cbn [andb]. repeat split.
Qed.

Lemma from_numerical_value_accessors_witness :
  let v := of_components (50000, 5, 15, 0, 0, 0, 0) (Some (lit "+0530")) in
  let w := from_numerical_value (get_numerical_value v) in
  get_hour v = -1
  /\ [get_year w; get_month w; get_day w; get_hour w; get_minute w; get_second w;
      get_millis w] = [50000; 5; 15; 0; 0; 0; 0]
  /\ get_timezone w = None /\ __eq__ w v = false.
Proof.
  assert (F : fits (50000, 5, 15, 0, 0, 0, 0)) by (unfold fits; lia).
  destruct (from_numerical_value_accessors (50000, 5, 15, 0, 0, 0, 0)
              (Some (lit "+0530")) F) as (A & _ & Z0 & _ & E).
  cbv zeta. split; [reflexivity|]. split; [exact A|]. split; [exact Z0|].
  rewrite E. reflexivity.
Defined.

End NumericalFacts.

(** ** BitDTArray *)

Module ArrayFacts.
Import SortDefs ArrayDefs.
Import BitDTArray.

(** *** Lists *)

Lemma list_at_nth {A} (l : list A) (i : nat) (x : A) :
  nth_error l i = Some x -> list_at l (Z.of_nat i) = Ok x.
Proof.
  intros H. assert (Hi : (i < List.length l)%nat) by (apply nth_error_Some; congruence).
  unfold list_at. cbv zeta.
  replace (Z.of_nat i <? 0) with false by (symmetry; apply Z.ltb_ge; lia).
  cbv iota.
  replace (Z.of_nat i <? 0) with false by (symmetry; apply Z.ltb_ge; lia).
  replace (Z.of_nat i >=? Z.of_nat (List.length l)) with false
    by (symmetry; rewrite Z.geb_leb; apply Z.leb_gt; lia).
  cbn [orb]. now rewrite Nat2Z.id, H.
Qed.

Lemma list_assign_nth {A} (l : list A) (i : nat) (v : A) :
  (i < List.length l)%nat -> list_assign l (Z.of_nat i) v = Ok (replace_nth l i v).
Proof.
  intros Hi. unfold list_assign. cbv zeta.
  replace (Z.of_nat i <? 0) with false by (symmetry; apply Z.ltb_ge; lia).
  cbv iota.
  replace (Z.of_nat i <? 0) with false by (symmetry; apply Z.ltb_ge; lia).
  replace (Z.of_nat i >=? Z.of_nat (List.length l)) with false
    by (symmetry; rewrite Z.geb_leb; apply Z.leb_gt; lia).
  cbn [orb]. now rewrite Nat2Z.id.
Qed.



Lemma replace_nth_app {A} (a b : list A) (x v : A) (n : nat) :
  n = List.length a -> replace_nth (a ++ x :: b) n v = a ++ v :: b.
Proof.
  intros ->. induction a as [|y a IH]; [reflexivity|].
  cbn [app List.length replace_nth]. now rewrite IH.
Qed.


Lemma skipn_cons_nth {A} (l : list A) (d : A) :
  forall s, nth_error l s = Some d -> skipn s l = d :: skipn (S s) l.
Proof.
  induction l as [|x l IH]; intros [|s] H; try discriminate.
  - injection H as ->. reflexivity.
  - cbn [nth_error] in H. cbn [skipn]. now apply IH.
Qed.

Lemma nth_seq_app {A} (d : A) (l : list A) :
  forall pre, map (fun k => nth k (pre ++ l) d) (seq (List.length pre) (List.length l)) = l.
Proof.
  induction l as [|x l IH]; intros pre; [reflexivity|].
  cbn [List.length seq map]. rewrite app_nth2, Nat.sub_diag by lia. cbn [nth].
  f_equal. specialize (IH (pre ++ [x])).
  rewrite <- app_assoc, length_app in IH. cbn [app List.length] in IH.
  now rewrite Nat.add_1_r in IH.
Qed.

Lemma nth_range {A} (d : A) (l : list A) :
  map (fun i => nth (Z.to_nat i) l d) (range (Z.of_nat (List.length l))) = l.
Proof.
  unfold range. rewrite Nat2Z.id, map_map.
  rewrite (map_ext _ (fun k => nth k ([] ++ l) d))
    by (intros k; now rewrite Nat2Z.id).
  apply (nth_seq_app d l []).
Qed.

Lemma range_in (n : nat) (i : Z) :
  In i (range (Z.of_nat n)) -> 0 <= i < Z.of_nat n.
Proof.
  unfold range. rewrite Nat2Z.id. intros H. apply in_map_iff in H.
  destruct H as (k & <- & Hk). apply in_seq in Hk. lia.
Qed.

Lemma map_result_list_at {A} (col : list A) (d : A) (indices : list Z) :
  (forall i, In i indices -> 0 <= i < Z.of_nat (List.length col)) ->
  map_result (list_at col) indices
  = Ok (map (fun i => nth (Z.to_nat i) col d) indices).
Proof.
  induction indices as [|i indices IH]; intros H; [reflexivity|].
  cbn [map_result map].
  assert (Hi : 0 <= i < Z.of_nat (List.length col)) by (apply H; now left).
  rewrite <- (Z2Nat.id i) at 1 by lia.
  rewrite (list_at_nth col (Z.to_nat i) (nth (Z.to_nat i) col d))
    by (apply nth_error_nth'; lia).
  cbn [rbind]. rewrite IH by (intros j Hj; apply H; now right). reflexivity.
Qed.

Lemma sorted_by_ext {A} (key1 key2 : A -> Z) (l : list A) :
  (forall x, key1 x = key2 x) -> sorted_by key1 l = sorted_by key2 l.
Proof.
  intros E.
  assert (I : forall x m, insert_by key1 x m = insert_by key2 x m).
  { intros x m. induction m as [|y m IH]; [reflexivity|].
    cbn [insert_by]. now rewrite !E, IH. }
  induction l as [|x l IH]; [reflexivity|].
  unfold sorted_by in *. cbn [fold_right]. now rewrite IH, I.
Qed.

(** *** Instances and their rows *)

Lemma rows_of_rows (dates : list BitDT.t) : rows (of_rows dates) = dates.
Proof.
  unfold rows, of_rows. cbn [packed_values timezone_offsets date_types].
  induction dates as [|[p z ty] dates IH]; [reflexivity|].
  cbn [map rows_of]. now rewrite IH.
Qed.

Lemma of_rows_rows (a : t) : well_formed a -> of_rows (rows a) = a.
Proof.
  destruct a as [packed tz types]. unfold well_formed, rows, of_rows.
  cbn [packed_values timezone_offsets date_types].
  revert tz types. induction packed as [|p packed IH]; intros [|z tz] [|ty types];
    cbn [List.length]; intros [H1 H2]; try discriminate; [reflexivity|].
  cbn [rows_of map].
  specialize (IH tz types (conj (eq_add_S _ _ H1) (eq_add_S _ _ H2))).
  injection IH as -> -> ->. reflexivity.
Qed.

Lemma well_formed_of_rows (dates : list BitDT.t) : well_formed (of_rows dates).
Proof. unfold well_formed, of_rows. cbn. now rewrite !length_map. Qed.

Lemma well_formed_rows (a : t) : well_formed a -> exists dates, a = of_rows dates.
Proof. intros H. exists (rows a). symmetry. now apply of_rows_rows. Qed.

Lemma size_of_rows (dates : list BitDT.t) :
  size (of_rows dates) = Z.of_nat (List.length dates).
Proof. unfold size, of_rows. cbn. now rewrite length_map. Qed.

Lemma new_columns_of_rows (dates : list BitDT.t) :
  new_columns (map BitDT.get_packed_value dates)
              (Some (map BitDT.get_timezone_offset dates))
              (Some (map BitDT.get_date_type dates))
  = Ok (of_rows dates).
Proof. unfold new_columns. now rewrite !length_map, Nat.eqb_refl. Qed.

Lemma new_columns_well_formed (packed : list Z) (tz types : option (list Z)) (a : t) :
  new_columns packed tz types = Ok a -> well_formed a.
Proof.
  unfold new_columns, well_formed. destruct tz as [tz|], types as [types|];
    try discriminate.
  destruct (Nat.eqb_spec (List.length packed) (List.length tz)),
    (Nat.eqb_spec (List.length packed) (List.length types)); try discriminate.
  intros E. injection E as <-. now split.
Qed.

(** *** The methods on the instance of given rows *)

Lemma get_of_rows (dates : list BitDT.t) (i : nat) (dt : BitDT.t) :
  nth_error dates i = Some dt -> get (of_rows dates) (Z.of_nat i) = Ok dt.
Proof.
  intros H. assert (Hi : (i < List.length dates)%nat)
    by (apply nth_error_Some; congruence).
  unfold get, of_rows. cbn [packed_values timezone_offsets date_types].
  rewrite length_map.
  replace (Z.of_nat i <? 0) with false by (symmetry; apply Z.ltb_ge; lia).
  replace (Z.of_nat i >=? Z.of_nat (List.length dates)) with false
    by (symmetry; rewrite Z.geb_leb; apply Z.leb_gt; lia).
  cbn [orb].
  rewrite (list_at_nth _ i (BitDT.get_packed_value dt))
    by (now rewrite nth_error_map, H).
  rewrite (list_at_nth _ i (BitDT.get_timezone_offset dt))
    by (now rewrite nth_error_map, H).
  rewrite (list_at_nth _ i (BitDT.get_date_type dt))
    by (now rewrite nth_error_map, H).
  cbn [rbind]. now destruct dt.
Qed.



Lemma map_result_get (dates : list BitDT.t) :
  forall k s, (s + k <= List.length dates)%nat ->
              map_result (get (of_rows dates)) (map Z.of_nat (seq s k))
              = Ok (firstn k (skipn s dates)).
Proof.
  induction k as [|k IH]; intros s H; [reflexivity|].
  cbn [seq map map_result].
  destruct (nth_error dates s) as [dt|] eqn:N;
    [|apply nth_error_None in N; lia].
  rewrite (get_of_rows dates s dt N). cbn [rbind].
  rewrite IH by lia. cbn [rbind].
  now rewrite (skipn_cons_nth dates dt s N).
Qed.

Lemma to_list_of_rows (dates : list BitDT.t) : to_list (of_rows dates) = Ok dates.
Proof.
  unfold to_list, range. rewrite size_of_rows, Nat2Z.id.
  rewrite map_result_get by lia. cbn [skipn]. now rewrite firstn_all.
Qed.

Lemma from_list_loop_spec (todo : list BitDT.t) :
  forall done,
    from_list_loop
      (mk (map BitDT.get_packed_value done ++ repeat 0 (List.length todo))
          (map BitDT.get_timezone_offset done ++ repeat 0 (List.length todo))
          (map BitDT.get_date_type done ++ repeat 0 (List.length todo)))
      (Z.of_nat (List.length done)) todo
    = Ok (of_rows (done ++ todo)).
Proof.
  induction todo as [|dt todo IH]; intros done.
  - cbn [from_list_loop List.length repeat]. now rewrite !app_nil_r.
  - cbn [from_list_loop List.length repeat packed_values timezone_offsets date_types].
    rewrite !list_assign_nth
      by (rewrite length_app, length_map; cbn [List.length]; lia).
    cbn [rbind]. rewrite !replace_nth_app by (now rewrite length_map).
    specialize (IH (done ++ [dt])).
    rewrite !map_app, length_app, <- !app_assoc in IH.
    cbn [map app List.length] in IH.
    replace (Z.of_nat (List.length done + 1)) with (Z.of_nat (List.length done) + 1)
      in IH by lia.
    exact IH.
Qed.

Lemma from_list_of_rows (dates : list BitDT.t) : from_list dates = Ok (of_rows dates).
Proof.
  unfold from_list, new_sized. rewrite Nat2Z.id.
  apply (from_list_loop_spec dates []).
Qed.

Lemma sorted_of_rows (dates : list BitDT.t) :
  sorted (of_rows dates) = Ok (of_rows (BitDT.sort_by_numerical_value dates)).
Proof.
  unfold sorted, of_rows. cbn [packed_values timezone_offsets date_types].
  rewrite length_map.
  set (d0 := BitDT.mk 0 0 0).
  set (g := fun i : Z => nth (Z.to_nat i) dates d0).
  set (key := fun i : Z => nth (Z.to_nat i) (map BitDT.get_packed_value dates) 0).
  set (indices := sorted_by key (range (Z.of_nat (List.length dates)))).
  assert (Hin : forall i, In i indices -> 0 <= i < Z.of_nat (List.length dates)).
  { intros i Hi. apply range_in.
    apply (Permutation_in _ (SortFacts.sorted_by_perm key _) Hi). }
  rewrite (map_result_list_at _ (BitDT.get_packed_value d0) indices)
    by (now rewrite length_map).
  cbn [rbind].
  rewrite (map_result_list_at _ (BitDT.get_timezone_offset d0) indices)
    by (now rewrite length_map).
  cbn [rbind].
  rewrite (map_result_list_at _ (BitDT.get_date_type d0) indices)
    by (now rewrite length_map).
  cbn [rbind].
  assert (M : forall (f : BitDT.t -> Z),
             map (fun i => nth (Z.to_nat i) (map f dates) (f d0)) indices
             = map f (map g indices)).
  { intros f. rewrite map_map. apply map_ext. intros i. apply map_nth. }
  rewrite !M.
  assert (S : map g indices = BitDT.sort_by_numerical_value dates).
  { unfold indices, BitDT.sort_by_numerical_value.
    rewrite (sorted_by_ext key (fun i => BitDT.get_numerical_value (g i)))
      by (intros i; apply (map_nth BitDT.get_packed_value dates d0)).
    rewrite <- (SortFacts.sorted_by_map BitDT.get_numerical_value g).
    unfold g. now rewrite nth_range. }
  rewrite S. apply new_columns_of_rows.
Qed.

Lemma filter_loop_of_rows (dates : list BitDT.t) (date_type : Z) :
  forall k s packed tz types,
    (s + k <= List.length dates)%nat ->
    filter_by_type_loop (of_rows dates) date_type (map Z.of_nat (seq s k))
                        packed tz types
    = Ok (packed ++ map BitDT.get_packed_value
                      (filter (has_type date_type) (firstn k (skipn s dates))),
          tz ++ map BitDT.get_timezone_offset
                  (filter (has_type date_type) (firstn k (skipn s dates))),
          types ++ map BitDT.get_date_type
                     (filter (has_type date_type) (firstn k (skipn s dates)))).
Proof.
  induction k as [|k IH]; intros s packed tz types H.
  - cbn [seq map filter_by_type_loop firstn filter]. now rewrite !app_nil_r.
  - cbn [seq map filter_by_type_loop].
    destruct (nth_error dates s) as [dt|] eqn:N;
      [|apply nth_error_None in N; lia].
    change (date_types (of_rows dates)) with (map BitDT.get_date_type dates).
    change (packed_values (of_rows dates)) with (map BitDT.get_packed_value dates).
    change (timezone_offsets (of_rows dates))
      with (map BitDT.get_timezone_offset dates).
    rewrite (list_at_nth _ s (BitDT.get_date_type dt))
      by (now rewrite nth_error_map, N).
    cbn [rbind].
    rewrite (skipn_cons_nth dates dt s N). cbn [firstn filter].
    assert (E : (BitDT.get_date_type dt =? date_type) = has_type date_type dt)
      by reflexivity.
    rewrite E. destruct (has_type date_type dt).
    + rewrite (list_at_nth _ s (BitDT.get_packed_value dt))
        by (now rewrite nth_error_map, N).
      cbn [rbind].
      rewrite (list_at_nth _ s (BitDT.get_timezone_offset dt))
        by (now rewrite nth_error_map, N).
      cbn [rbind]. rewrite IH by lia. cbn [map]. now rewrite <- !app_assoc.
    + now rewrite IH by lia.
Qed.

Lemma filter_of_rows (dates : list BitDT.t) (date_type : Z) :
  filter_by_type (of_rows dates) date_type
  = Ok (of_rows (filter (has_type date_type) dates)).
Proof.
  unfold filter_by_type, range. rewrite size_of_rows, Nat2Z.id.
  rewrite filter_loop_of_rows by lia. cbn [rbind app skipn].
  rewrite firstn_all. apply new_columns_of_rows.
Qed.

Lemma count_of_rows (dates : list BitDT.t) (date_type : Z) :
  count_by_type (of_rows dates) date_type
  = Z.of_nat (List.length (filter (has_type date_type) dates)).
Proof.
  unfold count_by_type, of_rows. cbn [date_types]. f_equal.
  induction dates as [|dt dates IH]; [reflexivity|].
  cbn [map count_occ filter]. unfold has_type at 1.
  destruct (Z.eq_dec (BitDT.get_date_type dt) date_type) as [E|E].
  - rewrite (proj2 (Z.eqb_eq _ _) E). cbn [List.length]. now rewrite IH.
  - now rewrite (proj2 (Z.eqb_neq _ _) E).
Qed.

Lemma list_slice_map {A B} (f : A -> B) (l : list A) (a b : Z) :
  list_slice (map f l) a b = map f (list_slice l a b).
Proof. unfold list_slice. now rewrite skipn_map, firstn_map. Qed.

Lemma slice_of_rows (dates : list BitDT.t) (start stop : Z) :
  0 <= start <= stop -> stop <= Z.of_nat (List.length dates) ->
  slice (of_rows dates) start stop = Ok (of_rows (list_slice dates start stop)).
Proof.
  intros H1 H2. unfold slice. rewrite size_of_rows.
  replace (start <? 0) with false by (symmetry; apply Z.ltb_ge; lia).
  replace (stop >? Z.of_nat (List.length dates)) with false
    by (symmetry; rewrite Z.gtb_ltb; apply Z.ltb_ge; lia).
  replace (start >? stop) with false
    by (symmetry; rewrite Z.gtb_ltb; apply Z.ltb_ge; lia).
  cbn [orb]. unfold of_rows at 1 2 3.
  cbn [packed_values timezone_offsets date_types].
  rewrite !list_slice_map. apply new_columns_of_rows.
Qed.

Lemma concat_of_rows (dates1 dates2 : list BitDT.t) :
  concat (of_rows dates1) (of_rows dates2) = Ok (of_rows (dates1 ++ dates2)).
Proof.
  unfold concat, of_rows. cbn [packed_values timezone_offsets date_types].
  rewrite <- !map_app. apply new_columns_of_rows.
Qed.

Lemma get_spec (dates : list BitDT.t) (index : Z) :
  get (of_rows dates) index
  = if (index <? 0) || (index >=? Z.of_nat (List.length dates))
    then Raise IndexError
    else match nth_error dates (Z.to_nat index) with
         | Some dt => Ok dt
         | None => Raise IndexError
         end.
Proof.
  destruct ((index <? 0) || (index >=? Z.of_nat (List.length dates))) eqn:G.
  - unfold get, of_rows. cbn [packed_values]. now rewrite length_map, G.
  - apply orb_false_iff in G. destruct G as [G1 G2].
    apply Z.ltb_ge in G1. rewrite Z.geb_leb in G2. apply Z.leb_gt in G2.
    destruct (nth_error dates (Z.to_nat index)) as [dt|] eqn:N;
      [|apply nth_error_None in N; lia].
    rewrite <- (Z2Nat.id index) at 1 by lia. now apply get_of_rows.
Qed.

(** *** The properties *)

(** X16: [from_list] never raises; the instance it gives has three lists of
    the length of the argument, [to_list] of it is the argument, and [get]
    gives each date at its index. *)
Theorem from_list_to_list (dates : list BitDT.t) :
  exists a,
    from_list dates = Ok a /\ well_formed a
    /\ size a = Z.of_nat (List.length dates)
    /\ to_list a = Ok dates
    /\ (forall i dt, nth_error dates i = Some dt -> get a (Z.of_nat i) = Ok dt).
Proof.
  exists (of_rows dates). split; [apply from_list_of_rows|].
  split; [apply well_formed_of_rows|]. split; [apply size_of_rows|].
  split; [apply to_list_of_rows|]. intros i dt. apply get_of_rows.
Qed.

(** X17: on an instance whose three lists have one length, [to_list] never
    raises, gives as many dates as [size] says, and [from_list] of these
    dates is the instance. *)
Theorem to_list_from_list (a : t) :
  well_formed a ->
  exists dates,
    to_list a = Ok dates /\ Z.of_nat (List.length dates) = size a
    /\ from_list dates = Ok a.
Proof.
  intros H. destruct (well_formed_rows a H) as [dates ->]. exists dates.
  split; [apply to_list_of_rows|]. split; [now rewrite size_of_rows|].
  apply from_list_of_rows.
Qed.

Lemma to_list_from_list_witness :
  exists dates,
    to_list (mk [7; 5] [0; 22] [1; 2]) = Ok dates
    /\ Z.of_nat (List.length dates) = size (mk [7; 5] [0; 22] [1; 2])
    /\ from_list dates = Ok (mk [7; 5] [0; 22] [1; 2]).
Proof.
  apply (to_list_from_list (mk [7; 5] [0; 22] [1; 2])). split; reflexivity.
Defined.



(** X19: on an instance whose three lists have one length, [sorted] never
    raises and gives an instance of the same size whose dates are those of
    the instance as [BitDT.sort_by_numerical_value] arranges them: in
    ascending order of the packed value, dates of one packed value in their
    order, each with its own offset and tag. *)
Theorem sorted_rows (a : t) :
  well_formed a ->
  exists dates a',
    to_list a = Ok dates /\ sorted a = Ok a' /\ sorted_copy a = Ok a'
    /\ well_formed a' /\ size a' = size a
    /\ to_list a' = Ok (BitDT.sort_by_numerical_value dates).
Proof.
  intros H. destruct (well_formed_rows a H) as [dates ->].
  exists dates, (of_rows (BitDT.sort_by_numerical_value dates)).
  split; [apply to_list_of_rows|]. split; [apply sorted_of_rows|].
  split; [apply sorted_of_rows|]. split; [apply well_formed_of_rows|].
  split; [|apply to_list_of_rows].
  rewrite !size_of_rows. f_equal. apply Permutation_length.
  apply SortFacts.sorted_by_perm.
Qed.

Lemma sorted_rows_witness :
  exists dates a',
    to_list (of_rows sample) = Ok dates /\ sorted (of_rows sample) = Ok a'
    /\ sorted_copy (of_rows sample) = Ok a'
    /\ well_formed a' /\ size a' = size (of_rows sample)
    /\ to_list a' = Ok (BitDT.sort_by_numerical_value dates).
Proof.
  apply (sorted_rows (of_rows sample)). split; reflexivity.
Defined.

(** X20: on an instance whose three lists have one length, [filter_by_type]
    never raises and gives the instance of the dates of the given tag, in
    their order; its size is what [count_by_type] counts. *)
Theorem filter_by_type_rows (a : t) (date_type : Z) :
  well_formed a ->
  exists dates a',
    to_list a = Ok dates /\ filter_by_type a date_type = Ok a'
    /\ well_formed a'
    /\ to_list a' = Ok (filter (has_type date_type) dates)
    /\ size a' = count_by_type a date_type.
Proof.
  intros H. destruct (well_formed_rows a H) as [dates ->].
  exists dates, (of_rows (filter (has_type date_type) dates)).
  split; [apply to_list_of_rows|]. split; [apply filter_of_rows|].
  split; [apply well_formed_of_rows|]. split; [apply to_list_of_rows|].
  now rewrite size_of_rows, count_of_rows.
Qed.

Lemma filter_by_type_rows_witness :
  exists dates a',
    to_list (of_rows sample) = Ok dates
    /\ filter_by_type (of_rows sample) BitDT.TYPE_DATE_ONLY = Ok a'
    /\ well_formed a'
    /\ to_list a' = Ok (filter (has_type BitDT.TYPE_DATE_ONLY) dates)
    /\ size a' = count_by_type (of_rows sample) BitDT.TYPE_DATE_ONLY.
Proof.
  apply (filter_by_type_rows (of_rows sample) BitDT.TYPE_DATE_ONLY).
  split; reflexivity.
Defined.

Lemma list_slice_app_left {A} (l1 l2 : list A) :
  list_slice (l1 ++ l2) 0 (Z.of_nat (List.length l1)) = l1.
Proof.
  unfold list_slice. rewrite Nat2Z.id. cbn [Z.to_nat skipn].
  rewrite Nat.sub_0_r, firstn_app, Nat.sub_diag, firstn_all. cbn [firstn].
  apply app_nil_r.
Qed.

Lemma list_slice_app_right {A} (l1 l2 : list A) :
  list_slice (l1 ++ l2) (Z.of_nat (List.length l1))
             (Z.of_nat (List.length (l1 ++ l2)))
  = l2.
Proof.
  unfold list_slice. rewrite !Nat2Z.id, length_app.
  rewrite skipn_app, skipn_all, Nat.sub_diag. cbn [app skipn].
  replace (List.length l1 + List.length l2 - List.length l1)%nat
    with (List.length l2) by lia.
  apply firstn_all.
Qed.

(** X21: for two instances whose three lists have one length each, [concat]
    never raises and gives an instance whose dates are those of the first
    followed by those of the second; [slice] from 0 to the size of the first
    gives the first instance back, and [slice] from there to the end gives
    the second. *)
Theorem concat_slice (a b : t) :
  well_formed a -> well_formed b ->
  exists c dates_a dates_b,
    concat a b = Ok c /\ well_formed c /\ size c = size a + size b
    /\ to_list a = Ok dates_a /\ to_list b = Ok dates_b
    /\ to_list c = Ok (dates_a ++ dates_b)
    /\ slice c 0 (size a) = Ok a
    /\ slice c (size a) (size c) = Ok b.
Proof.
  intros Ha Hb. destruct (well_formed_rows a Ha) as [la ->].
  destruct (well_formed_rows b Hb) as [lb ->].
  exists (of_rows (la ++ lb)), la, lb.
  split; [apply concat_of_rows|]. split; [apply well_formed_of_rows|].
  split; [rewrite !size_of_rows, length_app; lia|].
  split; [apply to_list_of_rows|]. split; [apply to_list_of_rows|].
  split; [apply to_list_of_rows|].
  rewrite !size_of_rows. split.
  - rewrite slice_of_rows by (rewrite ?length_app; lia).
    now rewrite list_slice_app_left.
  - rewrite slice_of_rows by (rewrite ?length_app; lia).
    now rewrite list_slice_app_right.
Qed.

Lemma concat_slice_witness :
  exists c dates_a dates_b,
    concat (of_rows sample) (mk [7; 5] [0; 22] [1; 2]) = Ok c
    /\ well_formed c
    /\ size c = size (of_rows sample) + size (mk [7; 5] [0; 22] [1; 2])
    /\ to_list (of_rows sample) = Ok dates_a
    /\ to_list (mk [7; 5] [0; 22] [1; 2]) = Ok dates_b
    /\ to_list c = Ok (dates_a ++ dates_b)
    /\ slice c 0 (size (of_rows sample)) = Ok (of_rows sample)
    /\ slice c (size (of_rows sample)) (size c) = Ok (mk [7; 5] [0; 22] [1; 2]).
Proof.
  apply (concat_slice (of_rows sample) (mk [7; 5] [0; 22] [1; 2]));
    split; reflexivity.
Defined.

Lemma nth_error_list_slice {A} (l : list A) (start stop : Z) (k : nat) :
  0 <= start -> (Z.to_nat start + k < Z.to_nat stop)%nat ->
  nth_error (list_slice l start stop) k = nth_error l (Z.to_nat start + k).
Proof.
  intros H0 Hk. unfold list_slice.
  rewrite nth_error_firstn.
  replace (k <? Z.to_nat stop - Z.to_nat start)%nat with true
    by (symmetry; apply Nat.ltb_lt; lia).
  apply nth_error_skipn.
Qed.

(** X22: on an instance whose three lists have one length, [slice] from
    [start] to [stop] with 0 <= start <= stop <= size gives an instance of
    stop - start dates where [get] at an index gives what [get] gave at that
    index after [start]; with a start below 0, a stop above the size or a
    start above the stop it raises ValueError. *)
Theorem slice_get (a : t) (start stop : Z) :
  well_formed a ->
  (0 <= start <= stop /\ stop <= size a ->
   exists a',
     slice a start stop = Ok a' /\ well_formed a' /\ size a' = stop - start
     /\ forall k, 0 <= k < stop - start -> get a' k = get a (start + k))
  /\ (start < 0 \/ size a < stop \/ stop < start ->
      slice a start stop = Raise ValueError).
Proof.
  intros H. destruct (well_formed_rows a H) as [dates ->]. rewrite size_of_rows.
  split.
  - intros [H1 H2]. exists (of_rows (list_slice dates start stop)).
    split; [now apply slice_of_rows|]. split; [apply well_formed_of_rows|].
    assert (L : Z.of_nat (List.length (list_slice dates start stop)) = stop - start).
    { unfold list_slice. rewrite length_firstn, length_skipn. lia. }
    split; [now rewrite size_of_rows|].
    intros k Hk. rewrite !get_spec, L.
    replace ((k <? 0) || (k >=? stop - start)) with false
      by (symmetry; apply orb_false_iff; split;
          [apply Z.ltb_ge|rewrite Z.geb_leb; apply Z.leb_gt]; lia).
    replace ((start + k <? 0) || (start + k >=? Z.of_nat (List.length dates)))
      with false
      by (symmetry; apply orb_false_iff; split;
          [apply Z.ltb_ge|rewrite Z.geb_leb; apply Z.leb_gt]; lia).
    rewrite nth_error_list_slice by lia.
    now replace (Z.to_nat start + Z.to_nat k)%nat with (Z.to_nat (start + k)) by lia.
  - intros Hbad. unfold slice. rewrite size_of_rows.
    replace ((start <? 0) || (stop >? Z.of_nat (List.length dates)) || (start >? stop))
      with true; [reflexivity|].
    symmetry. rewrite !orb_true_iff, !Z.gtb_ltb, !Z.ltb_lt. tauto.
Qed.

Lemma slice_get_witness :
  exists a',
    slice (of_rows sample) 1 3 = Ok a' /\ size a' = 2
    /\ get a' 0 = get (of_rows sample) 1
    /\ slice (of_rows sample) 2 4 = Raise ValueError.
Proof.
  assert (W : well_formed (of_rows sample)) by (split; reflexivity).
  destruct (slice_get (of_rows sample) 1 3 W) as [A _].
  destruct (A ltac:(vm_compute; intuition discriminate)) as (a' & E & _ & S & G).
  destruct (slice_get (of_rows sample) 2 4 W) as [_ B].
  exists a'. split; [exact E|]. split; [exact S|].
  split; [apply (G 0); vm_compute; intuition discriminate|].
  apply B. right. left. reflexivity.
Defined.

End ArrayFacts.

(** ** Numerals decoded without a base *)

Module EpochFacts.
Import Checks NumeralDefs AutoDefs EpochDefs RoundTripDefs.
Import BitDTEpoch AutoSpec.

Lemma numeral_chars : all_ascii numeral_char_check = true.
Proof. vm_compute. reflexivity. Qed.

Lemma numeral_char_facts (c : ascii) :
  (digit_value c < 36 -> Ascii.eqb c "_" = false -> is_symbol c = true)
  /\ (is_symbol c = true -> is_W_to_Z c = false -> digit_value c < 32)
  /\ (is_symbol c = true -> is_hex c = true -> digit_value c < 16)
  /\ (is_W_to_Z c = true -> is_hex c = false)
  /\ 0 <= digit_value c
  /\ (is_symbol c = true -> is_hex c || is_G_to_V c || is_W_to_Z c = true)
  /\ (Ascii.eqb c "0" = false -> digit_value c <> 0).
Proof.
  pose proof (CompressFacts.all_ascii_spec _ numeral_chars c) as H.
  unfold numeral_char_check in H.
  apply andb_true_iff in H. destruct H as [H K7].
  apply andb_true_iff in H. destruct H as [H K6].
  apply andb_true_iff in H. destruct H as [H K5].
  apply andb_true_iff in H. destruct H as [H K4].
  apply andb_true_iff in H. destruct H as [H K3].
  apply andb_true_iff in H. destruct H as [K1 K2].
  repeat split.
  - intros L U. apply Z.ltb_lt in L. rewrite L, U in K1. cbn in K1.
    now rewrite orb_false_r in K1.
  - intros S W. rewrite S, W in K2. cbn in K2. now apply Z.ltb_lt.
  - intros S X. rewrite S, X in K3. cbn in K3. now apply Z.ltb_lt.
  - intros W. rewrite W in K4. cbn in K4. now apply negb_true_iff.
  - now apply Z.leb_le.
  - intros S. rewrite S in K6. exact K6.
  - intros E Z0. apply Z.eqb_eq in Z0. rewrite Z0 in K7. cbn in K7. congruence.
Qed.

(** *** The numeral that [_encode_base] writes *)

Lemma encode_base_numeral (num base : Z) :
  2 <= base <= 36 -> num <> 0 ->
  exists ds,
    (forall fuel, (Z.to_nat (Z.log2 (Z.abs num)) + 2 <= fuel)%nat ->
                  _encode_base fuel num base
                  = Some (Ok ((if num <? 0 then lit "-" else lit "") ++ rev ds)))
    /\ numeral_of base (Z.abs num) ds.
Proof.
  intros Hb Hne. set (m := Z.abs num).
  assert (Hm : 0 < m) by (unfold m; lia).
  set (f0 := (Z.to_nat (Z.log2 m) + 2)%nat).
  assert (Bound : 0 <= m < 2 ^ (Z.of_nat f0 - 1)).
  { split; [lia|].
    apply Z.lt_le_trans with (2 ^ Z.succ (Z.log2 m)).
    - apply Z.log2_spec. lia.
    - apply Z.pow_le_mono_r; [lia|].
      pose proof (Z.log2_nonneg m). unfold f0. lia. }
  destruct (NumeralFacts.encode_base_loop_spec base Hb f0 m [] Bound)
    as (ds & Hloop & Hnum).
  exists ds. split; [|exact Hnum].
  intros fuel Hf. unfold _encode_base.
  replace (num =? 0) with false by (symmetry; now apply Z.eqb_neq).
  replace (if num <? 0 then - num else num) with m
    by (unfold m; destruct (Z.ltb_spec num 0); lia).
  now rewrite (NumeralFacts.encode_base_loop_more_fuel base f0 m [] _ Hloop fuel Hf).
Qed.

Lemma numeral_no_sign (base num : Z) (ds : str) :
  numeral_of base num ds -> forallb no_sign (rev ds) = true.
Proof.
  intros (_ & Hok & _). rewrite forallb_forall in *. intros c Hc.
  specialize (Hok c Hc).
  apply andb_true_iff in Hok. destruct Hok as [Hok Hminus].
  apply andb_true_iff in Hok. destruct Hok as [_ Hplus].
  apply negb_true_iff in Hminus, Hplus.
  unfold no_sign, BitDT.is_sign, BitDT.UTC_PLUS, BitDT.UTC_MINUS.
  now rewrite Hplus, Hminus.
Qed.

Lemma numeral_nonempty (base num : Z) (ds : str) :
  0 < num -> numeral_of base num ds ->
  exists c tl, rev ds = c :: tl /\ Ascii.eqb c "0" = false.
Proof. intros Hpos (_ & _ & _ & _ & Hhd). now apply Hhd. Qed.

(** *** A numeral with a minus sign is no date *)

Lemma decode_minus_numeral (digits : str) :
  digits <> [] -> forallb no_sign digits = true ->
  BitDT.decode (@Some str ("-"%char :: digits)) = Ok BitDT.create_empty.
Proof.
  intros Hne Hdigits. destruct digits as [|digit digits]; [congruence|].
  destruct (DecodeFacts.is_valid_timezone_ok ("-"%char :: digit :: digits))
    as [[|] V].
  - assert (P : BitDT._parse_timezone ("-"%char :: digit :: digits)
                = Ok (Some ("-"%char :: digit :: digits))).
    { unfold BitDT._parse_timezone.
      replace (negb (truthy ("-"%char :: digit :: digits))
               || (len ("-"%char :: digit :: digits) <? 2)) with false
        by (symmetry; apply orb_false_iff; split;
            [reflexivity|apply Z.ltb_ge; unfold len; cbn [List.length]; lia]).
      rewrite (DecodeFacts.str_index_last ("-"%char :: digit :: digits)
                 ltac:(discriminate)).
      cbn [rbind].
      replace (last ("-"%char :: digit :: digits) "000"%char)
        with (last (digit :: digits) "000"%char) by reflexivity.
      pose proof (RoundTripFacts.last_forallb no_sign (digit :: digits) "000"%char
                    ltac:(discriminate) Hdigits) as Hl.
      unfold no_sign in Hl. apply negb_true_iff in Hl. rewrite Hl.
      apply (RoundTripFacts.parse_timezone_loop_affix
               [] "-"%char (digit :: digits) (List.length (digit :: digits)));
        (reflexivity || assumption || lia). }
    unfold BitDT.decode, BitDT._extract_datetime_part.
    rewrite P. cbn [lift fbind rbind truthy].
    rewrite Nat.sub_diag. reflexivity.
  - apply (DecodeShapeFacts.decode_invalid_affix [] "-"%char digit digits);
      (reflexivity || assumption).
Qed.

Lemma is_base_encoded_minus (digits : str) :
  _is_base_encoded ("-"%char :: digits) = false.
Proof.
  unfold _is_base_encoded.
  destruct ((len ("-"%char :: digits) <? 6) || (len ("-"%char :: digits) >? 12));
    reflexivity.
Qed.

(** *** The value of a numeral in two bases *)

Lemma eval_cons (base : Z) (c : ascii) (s : str) (acc : Z) :
  eval base (c :: s) acc = eval base s (acc * base + digit_value c).
Proof. reflexivity. Qed.

Lemma eval_lt (b b' : Z) (s : str) :
  0 < b <= b' ->
  forall a a', 0 <= a < a' -> 0 <= eval b s a < eval b' s a'.
Proof.
  intros Hb. induction s as [|c s IH]; intros a a' Ha; [exact Ha|].
  rewrite !eval_cons. apply IH.
  destruct (numeral_char_facts c) as (_ & _ & _ & _ & Hc & _). nia.
Qed.

Lemma eval_pos (b : Z) (s : str) (a : Z) : 0 < b -> 0 < a -> 0 < eval b s a.
Proof.
  intros Hb. revert a. induction s as [|c s IH]; intros a Ha; [exact Ha|].
  rewrite eval_cons. apply IH.
  destruct (numeral_char_facts c) as (_ & _ & _ & _ & Hc & _). nia.
Qed.

Lemma eval_smaller_base (b b' : Z) (c c2 : ascii) (tl : str) :
  0 < b < b' -> Ascii.eqb c "0" = false ->
  0 < eval b (c :: c2 :: tl) 0 < eval b' (c :: c2 :: tl) 0.
Proof.
  intros Hb Hc.
  destruct (numeral_char_facts c) as (_ & _ & _ & _ & Hc0 & _ & Hnz).
  destruct (numeral_char_facts c2) as (_ & _ & _ & _ & Hc2 & _).
  specialize (Hnz Hc). split.
  - rewrite (eval_cons _ c). apply eval_pos; lia.
  - rewrite !(eval_cons _ c), !(eval_cons _ c2).
    apply eval_lt; [lia|]. nia.
Qed.

(** A numeral of base 36 whose digits are below a smaller base is a numeral
    of that base, of its value there. *)
Lemma numeral_in_base (b n : Z) (ds : str) :
  2 <= b <= 36 -> 0 < n -> numeral_of 36 n ds ->
  forallb (fun c => digit_value c <? b) (rev ds) = true ->
  len ds <= max_str_digits ->
  py_int (rev ds) b = Ok (eval b (rev ds) 0) /\ 0 < eval b (rev ds) 0.
Proof.
  intros Hb Hn Hnum Hlow Hlen.
  destruct (numeral_nonempty 36 n ds Hn Hnum) as (c & tl & E & Hc).
  assert (Hpos : 0 < eval b (rev ds) 0).
  { rewrite E, eval_cons. apply eval_pos; [lia|].
    destruct (numeral_char_facts c) as (_ & _ & _ & _ & Hc0 & _ & Hnz).
    specialize (Hnz Hc). lia. }
  split; [|exact Hpos].
  pose proof (NumeralFacts.py_int_numeral b (eval b (rev ds) 0) ds false Hb Hpos)
    as P.
  cbv iota in P. change (lit "" ++ rev ds) with (rev ds) in P.
  rewrite P.
  { replace (len ds >? max_str_digits) with false
      by (symmetry; rewrite Z.gtb_ltb; apply Z.ltb_ge; lia).
    now rewrite andb_false_r. }
  destruct Hnum as (Hall & Hok & _ & _ & _).
  split; [|split; [exact Hok|split; [reflexivity|split]]].
  - rewrite forallb_forall in *. intros x Hx.
    specialize (Hall x Hx). specialize (Hlow x Hx).
    unfold is_digit_of in *. apply andb_true_iff in Hall.
    destruct Hall as [_ Hu]. now rewrite Hlow, Hu.
  - intros Z0. lia.
  - intros _. exists c, tl. now split.
Qed.

Lemma numeral_symbols (n : Z) (ds : str) :
  numeral_of 36 n ds ->
  forallb is_symbol (rev ds) = true /\ forallb wordish (rev ds) = true.
Proof.
  intros (Hall & _). split; rewrite forallb_forall in *; intros c Hc;
    specialize (Hall c Hc); unfold is_digit_of in Hall;
    apply andb_true_iff in Hall; destruct Hall as [Hd Hu];
    apply Z.ltb_lt in Hd; apply negb_true_iff in Hu;
    destruct (numeral_char_facts c) as (Hsym & _).
  - now apply Hsym.
  - now apply AutoFacts.symbol_facts, Hsym.
Qed.

Lemma no_W_to_Z_guess (text : str) :
  forallb is_symbol text = true -> existsb is_W_to_Z text = false ->
  guess_base text = base_read text
  /\ forallb (fun c => digit_value c <? base_read text) text = true.
Proof.
  intros Hsym HW. unfold guess_base, base_read.
  rewrite HW.
  assert (NW : forall c, In c text -> is_W_to_Z c = false).
  { intros c Hc. destruct (is_W_to_Z c) eqn:W; [|reflexivity].
    assert (existsb is_W_to_Z text = true) by (apply existsb_exists; eauto).
    congruence. }
  rewrite forallb_forall in Hsym.
  destruct (forallb is_hex text) eqn:Hhex.
  - split; [reflexivity|]. rewrite forallb_forall in *. intros c Hc.
    destruct (numeral_char_facts c) as (_ & _ & H16 & _).
    apply Z.ltb_lt. apply H16; auto.
  - assert (G : existsb is_G_to_V text = true).
    { destruct (forallb_forall is_hex text) as [_ F].
      destruct (existsb is_G_to_V text) eqn:EG; [reflexivity|exfalso].
      assert (forallb is_hex text = true); [|congruence].
      apply F. intros c Hc.
      destruct (numeral_char_facts c) as (_ & _ & _ & _ & _ & Hcover & _).
      specialize (Hcover (Hsym c Hc)). rewrite (NW c Hc), orb_false_r in Hcover.
      apply orb_true_iff in Hcover. destruct Hcover as [X|X]; [exact X|].
      assert (existsb is_G_to_V text = true) by (apply existsb_exists; eauto).
      congruence. }
    rewrite G. split; [reflexivity|]. rewrite forallb_forall. intros c Hc.
    destruct (numeral_char_facts c) as (_ & H32 & _).
    apply Z.ltb_lt. apply H32; auto.
Qed.

Lemma W_to_Z_not_hex (text : str) :
  existsb is_W_to_Z text = true -> forallb is_hex text = false.
Proof.
  intros H. apply existsb_exists in H. destruct H as (c & Hc & W).
  destruct (forallb is_hex text) eqn:F; [|reflexivity].
  rewrite forallb_forall in F. specialize (F c Hc).
  destruct (numeral_char_facts c) as (_ & _ & _ & Hnot & _).
  rewrite (Hnot W) in F. discriminate.
Qed.

Section WithCalendar.
Context {calendar : Calendar}.

Lemma from_bit_dt_minus (digits : str) (base : option Z) :
  digits <> [] -> forallb no_sign digits = true -> explicit_base base = None ->
  from_bit_dt ("-"%char :: digits) base = -1.
Proof.
  intros Hne Hdigits Hbase. unfold from_bit_dt. cbn [truthy negb].
  rewrite Hbase. unfold _from_full_bit_dt.
  rewrite (decode_minus_numeral digits Hne Hdigits). cbn [rbind].
  change (BitDT.is_empty BitDT.create_empty) with true. cbv iota.
  change (negb (-1 =? -1)) with false. cbv iota.
  now rewrite is_base_encoded_minus.
Qed.

(** X23: for a negative integer and a base from 2 to 36, [from_bit_dt]
    without a base, or with the base 0 of the automatic mode, gives -1 for
    the numeral that [to_bit_dt] writes: the minus sign is taken for the
    sign of a time zone, and it is no symbol of a numeral.  So it is for
    the numeral of the automatic mode of [to_bit_dt], which is that of base
    36.  With the base, [from_bit_dt] reads the numeral back when the base
    is a power of two or the integer is below the 4300th power of the base
    in absolute value. *)
Theorem from_bit_dt_negative (n base : Z) (timezone : option str) :
  n < 0 -> 2 <= base <= 36 ->
  exists text,
    (forall fuel, (Z.to_nat (Z.log2 (Z.abs n)) + 2 <= fuel)%nat ->
                  to_bit_dt fuel n timezone base = Some text
                  /\ (base = 36 -> to_bit_dt fuel n None MODE_AUTO = Some text))
    /\ (within_digit_limit base n -> from_bit_dt text (Some base) = n)
    /\ from_bit_dt text None = -1
    /\ from_bit_dt text (Some MODE_AUTO) = -1.
Proof.
  intros Hneg Hb.
  destruct (encode_base_numeral n base Hb ltac:(lia)) as (ds & Henc & Hnum).
  replace (n <? 0) with true in Henc by (symmetry; apply Z.ltb_lt; lia).
  change (lit "-" ++ rev ds) with ("-"%char :: rev ds) in Henc.
  destruct (numeral_nonempty base (Z.abs n) ds ltac:(lia) Hnum) as (c & tl & E & _).
  pose proof (numeral_no_sign base (Z.abs n) ds Hnum) as Hsign.
  exists ("-"%char :: rev ds). split; [|split; [|split]].
  - intros fuel Hf. split.
    + unfold to_bit_dt, MODE_FULL_BITDT, MODE_AUTO.
      replace (base =? -1) with false by (symmetry; apply Z.eqb_neq; lia).
      replace (base =? 0) with false by (symmetry; apply Z.eqb_neq; lia).
      replace ((2 <=? base) && (base <=? 36)) with true
        by (symmetry; apply andb_true_iff; split; apply Z.leb_le; lia).
      now rewrite (Henc fuel Hf).
    + intros ->. unfold to_bit_dt, _to_smart_bit_dt, MODE_BASE36.
      change (MODE_AUTO =? MODE_FULL_BITDT) with false.
      change (MODE_AUTO =? MODE_AUTO) with true. cbv iota.
      now rewrite (Henc fuel Hf).
  - pose proof (NumeralFacts.py_int_numeral base (Z.abs n) ds true Hb
                  ltac:(lia) Hnum) as P.
    cbv iota in P. change (lit "-" ++ rev ds) with ("-"%char :: rev ds) in P.
    rewrite (NumeralFacts.numeral_over_limit base (Z.abs n) ds
               ltac:(lia) ltac:(lia) Hnum) in P.
    replace (- Z.abs n) with n in P by lia.
    apply (NumeralFacts.from_bit_dt_encode_base n base ("-"%char :: rev ds) Hb
             ltac:(discriminate) P).
  - apply from_bit_dt_minus; [rewrite E; discriminate|exact Hsign|reflexivity].
  - apply from_bit_dt_minus; [rewrite E; discriminate|exact Hsign|reflexivity].
Qed.

(** The numeral of the automatic mode and what [from_bit_dt] makes of it
    without a base. *)
Lemma auto_numeral (n : Z) :
  0 < n ->
  exists text,
    (forall fuel, (Z.to_nat (Z.log2 (Z.abs n)) + 2 <= fuel)%nat ->
                  to_bit_dt fuel n None MODE_AUTO = Some text)
    /\ (n < 36 ^ max_str_digits -> from_bit_dt text (Some 36) = n)
    /\ (_from_full_bit_dt text = -1 ->
        (len text < 6 \/ 12 < len text -> from_bit_dt text None = -1)
        /\ (6 <= len text <= 12 ->
            (existsb is_W_to_Z text = true -> from_bit_dt text None = n)
            /\ (existsb is_W_to_Z text = false ->
                py_int text (base_read text) = Ok (from_bit_dt text None)
                /\ 0 < from_bit_dt text None < n))).
Proof.
  intros Hn.
  destruct (encode_base_numeral n 36 ltac:(lia) ltac:(lia)) as (ds & Henc & Hnum).
  replace (n <? 0) with false in Henc by (symmetry; apply Z.ltb_ge; lia).
  change (lit "" ++ rev ds) with (rev ds) in Henc.
  replace (Z.abs n) with n in Hnum by lia.
  pose proof (NumeralFacts.py_int_numeral 36 n ds false ltac:(lia) Hn Hnum) as P.
  cbv iota in P. change (lit "" ++ rev ds) with (rev ds) in P.
  assert (Len : len (rev ds) = len ds) by (unfold len; now rewrite length_rev).
  assert (P36 : len ds <= max_str_digits -> py_int (rev ds) 36 = Ok n).
  { intros Hlen. rewrite P.
    replace (len ds >? max_str_digits) with false
      by (symmetry; rewrite Z.gtb_ltb; apply Z.ltb_ge; lia).
    now rewrite andb_false_r. }
  destruct (numeral_symbols n ds Hnum) as [Hsym Hword].
  destruct (numeral_nonempty 36 n ds Hn Hnum) as (c & tl & E & Hc).
  exists (rev ds). split; [|split].
  - intros fuel Hf. unfold to_bit_dt, _to_smart_bit_dt, MODE_BASE36.
    change (MODE_AUTO =? MODE_FULL_BITDT) with false.
    change (MODE_AUTO =? MODE_AUTO) with true. cbv iota.
    now rewrite (Henc fuel Hf).
  - intros Hlim.
    rewrite (NumeralFacts.numeral_over_limit 36 n ds ltac:(lia) Hn Hnum) in P.
    replace n with (Z.abs n) in P at 1 by lia.
    assert (Hne : rev ds <> []) by (rewrite E; discriminate).
    apply (NumeralFacts.from_bit_dt_encode_base n 36 (rev ds) ltac:(lia) Hne P).
    right. now rewrite Z.abs_eq by lia.
  - intros Hfull. split.
    + intros Hlen. unfold from_bit_dt. rewrite E. cbn [truthy negb explicit_base].
      rewrite <- E, Hfull. change (negb (-1 =? -1)) with false. cbv iota.
      unfold _is_base_encoded.
      replace ((len (rev ds) <? 6) || (len (rev ds) >? 12)) with true;
        [reflexivity|].
      symmetry. rewrite orb_true_iff, Z.gtb_ltb, !Z.ltb_lt. exact Hlen.
    + intros Hlen. rewrite AutoFacts.from_bit_dt_none. unfold decode_auto.
      rewrite Hfull. change (negb (-1 =? -1)) with false. cbv iota.
      assert (Hlim : len ds <= max_str_digits)
        by (rewrite <- Len; unfold max_str_digits; lia).
      specialize (P36 Hlim).
      assert (Hshape : numeral_shape (rev ds) = true).
      { unfold numeral_shape. rewrite Hsym.
        replace (6 <=? len (rev ds)) with true by (symmetry; apply Z.leb_le; lia).
        now replace (len (rev ds) <=? 12) with true
          by (symmetry; apply Z.leb_le; lia). }
      rewrite Hshape. split.
      * intros HW. unfold guess_base.
        rewrite (W_to_Z_not_hex _ HW), HW.
        destruct (existsb is_G_to_V (rev ds)).
        -- rewrite (AutoFacts.first_success_fail _ 32 ValueError)
             by (now apply AutoFacts.py_int_32_W_to_Z).
           now rewrite (AutoFacts.first_success_ok _ 36 n).
        -- now rewrite (AutoFacts.first_success_ok _ 36 n).
      * intros HW. destruct (no_W_to_Z_guess (rev ds) Hsym HW) as [-> Hlow].
        assert (Hb : 2 <= base_read (rev ds) < 36)
          by (unfold base_read; destruct (forallb is_hex (rev ds)); lia).
        destruct (numeral_in_base (base_read (rev ds)) n ds ltac:(lia) Hn Hnum
                    Hlow Hlim) as [Pb Hpos].
        rewrite (AutoFacts.first_success_ok _ _ _ _ Pb). split; [exact Pb|].
        assert (L2 : exists c2 tl2, tl = c2 :: tl2).
        { destruct tl as [|c2 tl2]; [|eauto]. exfalso.
          rewrite E in Hlen. unfold len in Hlen. cbn in Hlen. lia. }
        destruct L2 as (c2 & tl2 & ->).
        destruct Hnum as (_ & _ & Hval & _).
        rewrite <- Hval. set (b := base_read (rev ds)) in *. rewrite E.
        apply eval_smaller_base; [lia|exact Hc].
Qed.

(** X24: for a positive integer, the numeral that the automatic mode of
    [to_bit_dt] writes is the numeral of base 36: [from_bit_dt] with the
    base 36 reads it back as the integer when the integer is below the
    4300th power of 36.  When the numeral has from 6 to 12 symbols, one of
    them of W-Z, and is not decoded as a full text, then [from_bit_dt]
    without a base reads it back as the integer. *)
Theorem from_bit_dt_auto_round_trip (n : Z) :
  0 < n ->
  exists text,
    (forall fuel, (Z.to_nat (Z.log2 (Z.abs n)) + 2 <= fuel)%nat ->
                  to_bit_dt fuel n None MODE_AUTO = Some text)
    /\ (n < 36 ^ max_str_digits -> from_bit_dt text (Some 36) = n)
    /\ (6 <= len text <= 12 -> existsb is_W_to_Z text = true ->
        _from_full_bit_dt text = -1 -> from_bit_dt text None = n).
Proof.
  intros Hn. destruct (auto_numeral n Hn) as (text & Henc & P36 & Hauto).
  exists text. split; [exact Henc|]. split; [exact P36|].
  intros Hlen HW Hfull. now apply Hauto.
Qed.

(** X25: for a positive integer whose numeral of base 36, as the automatic
    mode of [to_bit_dt] writes it, is not decoded as a full text:
    [from_bit_dt] without a base gives -1 when the numeral has fewer than 6
    or more than 12 symbols; when it has from 6 to 12 symbols and none of
    W-Z, it reads the numeral in base 16 or 32 and gives a positive number
    below the integer. *)
Theorem from_bit_dt_auto_misread (n : Z) :
  0 < n ->
  exists text,
    (forall fuel, (Z.to_nat (Z.log2 (Z.abs n)) + 2 <= fuel)%nat ->
                  to_bit_dt fuel n None MODE_AUTO = Some text)
    /\ (_from_full_bit_dt text = -1 ->
        (len text < 6 \/ 12 < len text -> from_bit_dt text None = -1)
        /\ (6 <= len text <= 12 -> existsb is_W_to_Z text = false ->
            py_int text (base_read text) = Ok (from_bit_dt text None)
            /\ 0 < from_bit_dt text None < n)).
Proof.
  intros Hn. destruct (auto_numeral n Hn) as (text & Henc & P36 & Hauto).
  exists text. split; [exact Henc|]. intros Hfull.
  destruct (Hauto Hfull) as [Hshort Hlong]. split; [exact Hshort|].
  intros Hlen HW. now apply Hlong.
Qed.

End WithCalendar.

Lemma from_bit_dt_negative_witness :
  exists text,
    @to_bit_dt no_calendar 64 (-1000000000000) None MODE_AUTO = Some text
    /\ @from_bit_dt no_calendar text (Some 36) = -1000000000000
    /\ @from_bit_dt no_calendar text None = -1.
Proof.
  destruct (@from_bit_dt_negative no_calendar (-1000000000000) 36 None
              ltac:(lia) ltac:(lia)) as (text & Henc & Hdec & Hauto & _).
  exists text. split; [|split].
  - apply Henc; [vm_compute; lia|reflexivity].
  - apply Hdec. right. apply Z.lt_le_trans with (36 ^ 8); [reflexivity|].
    apply Z.pow_le_mono_r; [lia|unfold max_str_digits; lia].
  - exact Hauto.
Defined.

Lemma from_bit_dt_auto_round_trip_witness :
  exists text,
    @to_bit_dt no_calendar 64 78011855 None MODE_AUTO = Some text
    /\ @from_bit_dt no_calendar text None = 78011855.
Proof.
  destruct (@from_bit_dt_auto_round_trip no_calendar 78011855 ltac:(lia))
    as (text & Henc & _ & Hauto).
  pose proof (Henc 64%nat ltac:(vm_compute; lia)) as E.
  exists text. split; [exact E|].
  assert (T : text = lit "1AG2BZ")
    by (vm_compute in E; injection E as <-; reflexivity).
  subst text. apply Hauto; vm_compute; (reflexivity || intuition discriminate).
Defined.

Lemma from_bit_dt_auto_misread_witness :
  exists text,
    @to_bit_dt no_calendar 64 60466176 None MODE_AUTO = Some text
    /\ 0 < @from_bit_dt no_calendar text None < 60466176
    /\ @to_bit_dt no_calendar 64 1000 None MODE_AUTO = Some (lit "RS")
    /\ @from_bit_dt no_calendar (lit "RS") None = -1.
Proof.
  destruct (@from_bit_dt_auto_misread no_calendar 60466176 ltac:(lia))
    as (text & Henc & Hauto).
  pose proof (Henc 64%nat ltac:(vm_compute; lia)) as E.
  destruct (@from_bit_dt_auto_misread no_calendar 1000 ltac:(lia))
    as (text' & Henc' & Hauto').
  pose proof (Henc' 64%nat ltac:(vm_compute; lia)) as E'.
  exists text. split; [exact E|].
  assert (T : text = lit "100000")
    by (vm_compute in E; injection E as <-; reflexivity).
  assert (T' : text' = lit "RS")
    by (vm_compute in E'; injection E' as <-; reflexivity).
  subst text text'. split; [|split; [exact E'|]].
  - apply Hauto; vm_compute; (reflexivity || intuition discriminate).
  - apply Hauto'; [reflexivity|left; reflexivity].
Defined.

End EpochFacts.

(** ** The components [encode_date_time] rejects, and those it ignores *)

Module ValidationFacts.
Import ValidationDefs.
Import BitDT.

Lemma handled_bind {A} (m : result A) (f : A -> result str) :
  (forall a, match f a with Ok text => text | Raise _ => lit "&" end = lit "&") ->
  match rbind m f with Ok text => text | Raise _ => lit "&" end = lit "&".
Proof. intros H. destruct m as [a|e]; [apply H|reflexivity]. Qed.

Lemma handled_raise {A} (m : result A) (f : A -> result str) (e : exn) :
  m = Raise e ->
  match rbind m f with Ok text => text | Raise _ => lit "&" end = lit "&".
Proof. now intros ->. Qed.

Lemma index_above (alphabet : str) (hi : Z) (o : option Z) :
  len alphabet = hi + 1 -> 0 <= hi -> above hi o ->
  match o with
  | Some v =>
      if v >=? 0
      then if (v <? 0) || (v >=? len alphabet) then Raise ValueError
           else str_index alphabet v
      else Ok "0"%char
  | None => Ok "0"%char
  end = Raise ValueError.
Proof.
  intros L Hhi H. destruct o as [v|]; [|contradiction]. cbn [above] in H.
  replace (v >=? 0) with true by (symmetry; rewrite Z.geb_leb; apply Z.leb_le; lia).
  replace (v >=? len alphabet) with true
    by (symmetry; rewrite Z.geb_leb; apply Z.leb_le; lia).
  now rewrite orb_true_r.
Qed.

(** X26: [encode_date_time] gives ["&"], the text of the empty value, as
    soon as one component is above the range of its field: a year above
    226980, a month above 11, a day above 31, an hour above 23, a minute or
    a second above 59, or a millisecond above 999, whatever the other
    components and the time zone are. *)
Theorem encode_date_time_above_range
        (year month day hour minute second millis : option Z)
        (timezone : option str) :
  above 226980 year \/ above 11 month \/ above 31 day \/ above 23 hour
  \/ above 59 minute \/ above 59 second \/ above 999 millis ->
  encode_date_time year month day hour minute second millis timezone = lit "&".
Proof.
  intros H. unfold encode_date_time, encode_date_time_try.
  destruct H as [H|[H|[H|[H|[H|[H|H]]]]]].
  - apply (handled_raise _ _ ValueError).
    destruct year as [y|]; [|contradiction]. cbn [above] in H.
    replace (y >=? 0) with true by (symmetry; rewrite Z.geb_leb; apply Z.leb_le; lia).
    unfold encode_year.
    replace (y >=? 226981) with true
      by (symmetry; rewrite Z.geb_leb; apply Z.leb_le; lia).
    now rewrite orb_true_r.
  - apply handled_bind; intros ?.
    apply (handled_raise _ _ ValueError).
    now apply (index_above MONTHS 11).
  - do 2 (apply handled_bind; intros ?).
    apply (handled_raise _ _ ValueError).
    destruct day as [d|]; [|contradiction]. cbn [above] in H.
    replace (d >=? 1) with true by (symmetry; rewrite Z.geb_leb; apply Z.leb_le; lia).
    change (len DAYS) with 31.
    replace (d >? 31) with true by (symmetry; rewrite Z.gtb_ltb; apply Z.ltb_lt; lia).
    now rewrite orb_true_r.
  - do 3 (apply handled_bind; intros ?).
    apply (handled_raise _ _ ValueError).
    now apply (index_above HOURS 23).
  - do 4 (apply handled_bind; intros ?).
    apply (handled_raise _ _ ValueError).
    now apply (index_above MINUTES 59).
  - do 5 (apply handled_bind; intros ?).
    apply (handled_raise _ _ ValueError).
    now apply (index_above MINUTES 59).
  - do 6 (apply handled_bind; intros ?).
    apply (handled_raise _ _ ValueError).
    destruct millis as [ms|]; [|contradiction]. cbn [above] in H.
    replace (ms >=? 0) with true by (symmetry; rewrite Z.geb_leb; apply Z.leb_le; lia).
    replace (ms =? 0) with false by (symmetry; apply Z.eqb_neq; lia).
    unfold ThousandCounter.encode_milliseconds.
    replace (ms >? 999) with true by (symmetry; rewrite Z.gtb_ltb; apply Z.ltb_lt; lia).
    now rewrite orb_true_r.
Qed.

Lemma encode_date_time_above_range_witness :
  encode_date_time (Some 50000) (Some 12) (Some 15) None None None None
                   (Some (lit "+0530"))
  = lit "&".
Proof.
  apply encode_date_time_above_range. right. left. cbn. lia.
Defined.

(** X27: [encode_date_time] does not reject a component below its range:
    it writes a negative year, month, hour, minute, second or millisecond
    and a day below 1 as if the component were absent, and so too a
    millisecond of 0. *)
Theorem encode_date_time_below_range
        (year month day hour minute second millis : option Z)
        (timezone : option str) :
  encode_date_time year month day hour minute second millis timezone
  = encode_date_time (taken_from 0 year) (taken_from 0 month) (taken_from 1 day)
                     (taken_from 0 hour) (taken_from 0 minute)
                     (taken_from 0 second) (taken_from 1 millis) timezone.
Proof.
  unfold encode_date_time, encode_date_time_try.
  assert (Y : match taken_from 0 year with
              | Some year => if year >=? 0 then encode_year year else Ok (lit "0")
              | None => Ok (lit "0")
              end
              = match year with
                | Some year => if year >=? 0 then encode_year year else Ok (lit "0")
                | None => Ok (lit "0")
                end).
  { destruct year as [y|]; [|reflexivity]. cbn [taken_from].
    destruct (y >=? 0) eqn:E; [now rewrite E|reflexivity]. }
  assert (I : forall (alphabet : str) (o : option Z),
             match taken_from 0 o with
             | Some v =>
                 if v >=? 0
                 then if (v <? 0) || (v >=? len alphabet) then Raise ValueError
                      else str_index alphabet v
                 else Ok "0"%char
             | None => Ok "0"%char
             end
             = match o with
               | Some v =>
                   if v >=? 0
                   then if (v <? 0) || (v >=? len alphabet) then Raise ValueError
                        else str_index alphabet v
                   else Ok "0"%char
               | None => Ok "0"%char
               end).
  { intros alphabet [v|]; [|reflexivity]. cbn [taken_from].
    destruct (v >=? 0) eqn:E; [now rewrite E|reflexivity]. }
  assert (D : match taken_from 1 day with
              | Some day =>
                  if day >=? 1
                  then if (day <? 1) || (day >? len DAYS) then Raise ValueError
                       else str_index DAYS (day - 1)
                  else Ok "0"%char
              | None => Ok "0"%char
              end
              = match day with
                | Some day =>
                    if day >=? 1
                    then if (day <? 1) || (day >? len DAYS) then Raise ValueError
                         else str_index DAYS (day - 1)
                    else Ok "0"%char
                | None => Ok "0"%char
                end).
  { destruct day as [d|]; [|reflexivity]. cbn [taken_from].
    destruct (d >=? 1) eqn:E; [now rewrite E|reflexivity]. }
  assert (M : match taken_from 1 millis with
              | Some millis =>
                  if millis >=? 0
                  then if millis =? 0 then Ok (lit "0")
                       else ThousandCounter.encode_milliseconds millis
                  else Ok (lit "0")
              | None => Ok (lit "0")
              end
              = match millis with
                | Some millis =>
                    if millis >=? 0
                    then if millis =? 0 then Ok (lit "0")
                         else ThousandCounter.encode_milliseconds millis
                    else Ok (lit "0")
                | None => Ok (lit "0")
                end).
  { destruct millis as [ms|]; [|reflexivity]. cbn [taken_from].
    destruct (Z.geb_spec ms 1) as [G|G].
    - now replace (ms >=? 0) with true
        by (symmetry; rewrite Z.geb_leb; apply Z.leb_le; lia).
    - destruct (Z.geb_spec ms 0) as [G0|G0]; [|reflexivity].
      now replace (ms =? 0) with true by (symmetry; apply Z.eqb_eq; lia). }
  now rewrite Y, !I, D, M.
Qed.

End ValidationFacts.

(** ** Equality of values built from components *)

Module EqualityFacts.
Import PackedDefs ComponentDefs.
Import BitDT.

Lemma weighted_injective (x1 x2 : components) :
  fits x1 -> fits x2 ->
  weighted x1 (tag_of x1) = weighted x2 (tag_of x2) -> x1 = x2.
Proof.
  intros H1 H2 E.
  pose proof (ComponentFacts.compare_weighted_tags x1 x2 (tag_of x1) (tag_of x2)
                H1 H2) as C.
  assert (T : forall x, 0 <= tag_of x <= 4).
  { intros [[[[[[y mo] d] h] mi] s] ms].
    apply PackedFacts.determine_date_type_range. }
  specialize (C (T x1) (T x2) ltac:(now intros ->)).
  rewrite E, Z.ltb_irrefl in C.
  replace (weighted x2 (tag_of x2) >? weighted x2 (tag_of x2)) with false in C
    by (symmetry; rewrite Z.gtb_ltb; apply Z.ltb_irrefl).
  symmetry in C. apply PackedFacts.lex_compare_eq in C.
  - destruct x1 as [[[[[[y1 mo1] d1] h1] mi1] s1] ms1].
    destruct x2 as [[[[[[y2 mo2] d2] h2] mi2] s2] ms2].
    cbn [to_list] in C. congruence.
  - destruct x1 as [[[[[[y1 mo1] d1] h1] mi1] s1] ms1].
    destruct x2 as [[[[[[y2 mo2] d2] h2] mi2] s2] ms2]. reflexivity.
Qed.

(** X28: for two values built by [from_primitives] from components that
    fit their fields, [__eq__], which compares the packed value and the
    offset and not the tag, holds exactly when the components are the same
    and the time zones have the same offset; the two values then have all
    three attributes equal, and [compare_to] gives 0. *)
Theorem eq_of_components (x1 x2 : components) (tz1 tz2 : option str) :
  fits x1 -> fits x2 ->
  let a := of_components x1 tz1 in
  let b := of_components x2 tz2 in
  (__eq__ a b = true
   <-> x1 = x2 /\ _parse_timezone_offset tz1 = _parse_timezone_offset tz2)
  /\ (__eq__ a b = true <-> a = b)
  /\ (__eq__ a b = true -> compare_to a b = 0).
Proof.
  intros H1 H2. cbv zeta.
  pose proof (ComponentFacts.packed_weighted_fits x1 tz1 H1) as P1.
  pose proof (ComponentFacts.packed_weighted_fits x2 tz2 H2) as P2.
  assert (O : forall x tz, _timezone_offset (of_components x tz)
                           = _parse_timezone_offset tz).
  { intros [[[[[[y mo] d] h] mi] s] ms] tz. reflexivity. }
  assert (A : __eq__ (of_components x1 tz1) (of_components x2 tz2) = true
              <-> x1 = x2 /\ _parse_timezone_offset tz1 = _parse_timezone_offset tz2).
  { unfold __eq__. rewrite P1, P2, !O, andb_true_iff, !Z.eqb_eq. split.
    - intros [E Eo]. split; [now apply weighted_injective|exact Eo].
    - intros [-> Eo]. now split. }
  split; [exact A|]. split; [split|].
  - intros E. apply A in E. destruct E as [-> Eo].
    destruct x2 as [[[[[[y mo] d] h] mi] s] ms].
    now apply RoundTripFacts.from_primitives_timezone.
  - intros ->. unfold __eq__. now rewrite !Z.eqb_refl.
  - intros E. apply A in E. destruct E as [-> _].
    unfold compare_to. rewrite P1, P2, Z.ltb_irrefl.
    now replace (weighted x2 (tag_of x2) >? weighted x2 (tag_of x2)) with false
      by (symmetry; rewrite Z.gtb_ltb; apply Z.ltb_irrefl).
Qed.

Lemma eq_of_components_witness :
  __eq__ (of_components (50000, 0, 1, 12, 0, 0, 0) (Some (lit "+0530")))
         (of_components (50000, 0, 1, 12, 0, 0, 0) (Some (lit "+05:30")))
  = true.
Proof.
  assert (F : fits (50000, 0, 1, 12, 0, 0, 0)) by (unfold fits; lia).
  destruct (eq_of_components (50000, 0, 1, 12, 0, 0, 0) (50000, 0, 1, 12, 0, 0, 0)
              (Some (lit "+0530")) (Some (lit "+05:30")) F F) as [A _].
  apply A. split; reflexivity.
Defined.

End EqualityFacts.
